(** * Iron Fog: the simulation core of [server/server.py]

    A shallow embedding of the game server's hex geometry, entity records,
    command handlers and fixed-timestep tick, followed by the properties
    that the specification states about them.

    Numbers.  Python [int] is [Z].  Python [float] is idealised as an exact
    rational ([Q]): every comparison, clamp and update of the source is kept,
    rounding error of binary64 arithmetic is not modelled.  Equality of
    rationals is [Qeq] ([==]).

    External calls.  [math.sqrt] and [math.atan2] are parameters of the
    simulation section; [time.time()], [random.random()] and
    [random.choice] are read from an oracle that is indexed by the number of
    external calls made so far in the current tick; [uuid.uuid4()] is an
    argument of the command that needs it. *)

From Stdlib Require Import ZArith QArith Qround Qabs List Sorted String Bool.
From Stdlib Require Import Lia Lqa.
Import ListNotations.

Local Open Scope Z_scope.

(* ------------------------------------------------------------------ *)
(** ** Python built-ins used by the source *)

Module Py.

Definition Qltb (x y : Q) : bool :=
  match Qcompare x y with Lt => true | _ => false end.
Definition Qleb (x y : Q) : bool :=
  match Qcompare x y with Gt => false | _ => true end.
Definition Qeqb (x y : Q) : bool :=
  match Qcompare x y with Eq => true | _ => false end.

(** [min(a, b)] keeps [a] unless [b < a]; [max(a, b)] keeps [a] unless
    [b > a]. *)
Definition min (a b : Q) : Q := if Qltb b a then b else a.
Definition max (a b : Q) : Q := if Qltb a b then b else a.
Definition minZ (a b : Z) : Z := if b <? a then b else a.
Definition maxZ (a b : Z) : Z := if a <? b then b else a.

(** [round(x)] on a float: nearest integer, ties to the even one. *)
Definition round (x : Q) : Z :=
  let f := Qfloor x in
  match Qcompare (x - inject_Z f) (1 # 2) with
  | Lt => f
  | Gt => f + 1
  | Eq => if Z.even f then f else f + 1
  end.

(** [range(a, b)] *)
Definition range (a b : Z) : list Z :=
  map (fun i => a + Z.of_nat i) (seq 0 (Z.to_nat (b - a))).

(** [l[i]] with Python's negative indices; [None] is [IndexError]. *)
Definition index {A} (l : list A) (i : Z) : option A :=
  let n := Z.of_nat (List.length l) in
  if (0 <=? i) && (i <? n) then nth_error l (Z.to_nat i)
  else if (- n <=? i) && (i <? 0) then nth_error l (Z.to_nat (n + i))
  else None.

(** [list.sort(key=..., reverse=True)]: stable, descending by key; elements
    with equal keys keep their original relative order. *)
Fixpoint insert_desc {A} (key : A -> Q) (x : A) (l : list A) : list A :=
  match l with
  | [] => [x]
  | y :: l' => if Qleb (key y) (key x) then x :: y :: l'
               else y :: insert_desc key x l'
  end.
Definition sort_desc {A} (key : A -> Q) (l : list A) : list A :=
  fold_right (insert_desc key) [] l.

(** [l[k:]] for [k >= 0] *)
Definition drop {A} (k : nat) (l : list A) : list A := skipn k l.

(** Insertion-ordered [dict] with string keys. *)
Section Dict.
Context {V : Type}.
Definition dict := list (string * V).

Fixpoint get (k : string) (d : dict) : option V :=
  match d with
  | [] => None
  | (k', v) :: d' => if String.eqb k k' then Some v else get k d'
  end.

(** [d[k] = v]: overwrite in place, or append a new key at the end. *)
Fixpoint set (k : string) (v : V) (d : dict) : dict :=
  match d with
  | [] => [(k, v)]
  | (k', v') :: d' =>
      if String.eqb k k' then (k', v) :: d' else (k', v') :: set k v d'
  end.

Fixpoint del (k : string) (d : dict) : dict :=
  match d with
  | [] => []
  | (k', v') :: d' =>
      if String.eqb k k' then d' else (k', v') :: del k d'
  end.

Definition keys (d : dict) : list string := map fst d.
Definition values (d : dict) : list V := map snd d.
End Dict.
Arguments dict : clear implicits.

End Py.

(* ------------------------------------------------------------------ *)
(** ** Hex math *)

Definition Hex : Type := (Z * Z)%type.

Definition hex_distance (a b : Hex) : Z :=
  (Z.abs (fst a - fst b) + Z.abs (fst a + snd a - fst b - snd b)
   + Z.abs (snd a - snd b)) / 2.

Definition hex_neighbors (q r : Z) : list Hex :=
  map (fun d : Hex => (q + fst d, r + snd d))
      [(1,0); (1,-1); (0,-1); (-1,0); (-1,1); (0,1)].

Definition hex_range (center : Hex) (radius : Z) : list Hex :=
  flat_map
    (fun dq =>
       map (fun dr => (fst center + dq, snd center + dr))
           (Py.range (Z.max (- radius) (- dq - radius))
                     (Z.min radius (- dq + radius) + 1)))
    (Py.range (- radius) (radius + 1)).

Definition all_hexes_in_radius (radius : Z) : list Hex :=
  hex_range (0, 0) radius.

(** The rounding step inside [hex_line]: cube coordinates [x = fq],
    [z = fr], [y = -x-z]; the result is [(rx, rz)]. *)
Definition cube_round (fq fr : Q) : Hex :=
  let x := fq in
  let z := fr in
  let y := (- x - z)%Q in
  let rx := Py.round x in
  let ry := Py.round y in
  let rz := Py.round z in
  let dx := Qabs (inject_Z rx - x) in
  let dy := Qabs (inject_Z ry - y) in
  let dz := Qabs (inject_Z rz - z) in
  if Py.Qltb dy dx && Py.Qltb dz dx then (- ry - rz, rz)
  else if Py.Qltb dz dy then (rx, rz)
  else (rx, - rx - ry).

Definition line_eps : Q := 1 # 1000000.

Definition hex_line_point (a b : Hex) (n i : Z) : Hex :=
  let t := (inject_Z i / inject_Z n)%Q in
  let fq := (inject_Z (fst a) + inject_Z (fst b - fst a) * t + line_eps)%Q in
  let fr := (inject_Z (snd a) + inject_Z (snd b - snd a) * t + line_eps)%Q in
  cube_round fq fr.

Definition hex_line (a b : Hex) : list Hex :=
  let n := hex_distance a b in
  if n =? 0 then [a]
  else map (hex_line_point a b n) (Py.range 0 (n + 1)).

(* ------------------------------------------------------------------ *)
(** ** Constants *)

Definition MAP_RADIUS : Z := 8.
Definition FOG_RANGE : Z := 3.
Definition CAPTURE_TIME : Q := 5.
Definition MAX_PLAYERS : nat := 4.
Definition FUEL_PER_HEX : Q := 4.
Definition AMMO_SHOOT : Q := 8.
Definition SHELL_SPEED : Q := 5 # 2.
Definition SHELL_DAMAGE : Z := 40.
Definition FORT_FUEL_GEN : Q := 12 # 10.
Definition FORT_AMMO_GEN : Q := 9 # 10.
Definition FORT_GEAR_GEN : Q := 1 # 10.
Definition MOVE_SPEED_BASE : Q := 5 # 2.
Definition LOOT_FUEL_FLOOR : Q := 15.
Definition LOOT_AMMO_FLOOR : Q := 10.
Definition LOOT_GEAR_FLOOR : Q := 0.
Definition FORT_RELEASE_KEEP : nat := 2.
Definition TANK_MAX_HP : Z := 100.
Definition RESPAWN_TIME : Q := 8.
Definition FIRE_COOLDOWN : Q := 8 # 10.
Definition MATCH_TIME : Q := 600.
Definition POST_MATCH_TIME : Q := 10.
Definition PLAYER_COLORS : list string :=
  ["#e74c3c"; "#3498db"; "#2ecc71"; "#f39c12"]%string.
Definition UPGRADE_MAX_LVL : Z := 3.
(** The keys of [UPGRADE_COSTS]. *)
Definition UPGRADE_COSTS : list string :=
  ["engine"; "armor"; "cannon"; "sensor"; "loader"]%string.
Definition lvl_costs : list Q := [5; 10; 18]%Q.
Definition FUEL_CAP : Q := 120.
Definition AMMO_CAP : Q := 100.
Definition GEAR_CAP : Q := 99.
Definition starts : list Hex := [(0,4); (-4,0); (0,-4); (4,-4); (4,0); (-4,4)].

(* ------------------------------------------------------------------ *)
(** ** Game objects *)

Inductive FortType := FUEL | AMMO | GEAR | MIXED.

Record Fort := mkFort {
  f_id : string;
  f_q : Z;
  f_r : Z;
  f_ftype : FortType;
  f_owner : option string;
  f_capture_progress : Q;
  f_capturing_player : option string;
  f_was_owned : bool
}.

Record Shell := mkShell {
  s_id : string;
  s_owner_id : string;
  s_q : Q;
  s_r : Q;
  s_target_q : Z;
  s_target_r : Z;
  s_speed : Q;
  s_damage : Z;
  s_created : Q
}.

Record Tank := mkTank {
  t_id : string;
  t_player_id : string;
  t_q : Q;
  t_r : Q;
  t_target_q : option Z;
  t_target_r : option Z;
  t_path : list Hex;
  t_hp : Z;
  t_max_hp : Z;
  t_fuel : Q;
  t_ammo : Q;
  t_gears : Q;
  t_move_speed : Q;
  t_vision : Z;
  t_shell_damage : Z;
  t_ammo_cost : Q;
  t_alive : bool;
  t_respawn_timer : Q;
  t_color : string;
  t_facing : Q;
  t_upgrades : Py.dict Z;
  t_last_shot : Q;
  t_score : Z;
  t_kills : Z;
  t_deaths : Z;
  t_fort_captures : Z
}.

Record Player := mkPlayer {
  p_id : string;
  p_name : string;
  p_color : string;
  p_ws_id : string
}.

Inductive Event :=
| KillFeed (killer killer_color victim victim_color : string) (ts : Q)
| CaptureFeed (player color : string) (fort_type : FortType) (ts : Q).

(** The fields of [GameState] that the simulation reads and writes.
    [map_hexes], [started] and [last_tick_time] are bookkeeping of start-up
    and of the game loop and are left out. *)
Record GameState := mkGame {
  players : Py.dict Player;
  tanks : Py.dict Tank;
  forts : Py.dict Fort;
  shells : Py.dict Shell;
  tick : Z;
  match_timer : Q;
  match_over : bool;
  post_match_timer : Q;
  pending_events : list Event;
  rematch_votes : list string
}.

(** *** Field updates *)

Module Fort_.
Definition with_owner v (f : Fort) :=
  mkFort (f_id f) (f_q f) (f_r f) (f_ftype f) v (f_capture_progress f)
         (f_capturing_player f) (f_was_owned f).
Definition with_capture_progress v (f : Fort) :=
  mkFort (f_id f) (f_q f) (f_r f) (f_ftype f) (f_owner f) v
         (f_capturing_player f) (f_was_owned f).
Definition with_capturing_player v (f : Fort) :=
  mkFort (f_id f) (f_q f) (f_r f) (f_ftype f) (f_owner f)
         (f_capture_progress f) v (f_was_owned f).
Definition with_was_owned v (f : Fort) :=
  mkFort (f_id f) (f_q f) (f_r f) (f_ftype f) (f_owner f)
         (f_capture_progress f) (f_capturing_player f) v.
End Fort_.

Module Shell_.
Definition with_pos q r (s : Shell) :=
  mkShell (s_id s) (s_owner_id s) q r (s_target_q s) (s_target_r s)
          (s_speed s) (s_damage s) (s_created s).
End Shell_.

Module Tank_.
Definition with_pos q r (t : Tank) :=
  mkTank (t_id t) (t_player_id t) q r (t_target_q t) (t_target_r t)
    (t_path t) (t_hp t) (t_max_hp t) (t_fuel t) (t_ammo t) (t_gears t)
    (t_move_speed t) (t_vision t) (t_shell_damage t) (t_ammo_cost t)
    (t_alive t) (t_respawn_timer t) (t_color t) (t_facing t) (t_upgrades t)
    (t_last_shot t) (t_score t) (t_kills t) (t_deaths t) (t_fort_captures t).
Definition with_target tq tr (t : Tank) :=
  mkTank (t_id t) (t_player_id t) (t_q t) (t_r t) tq tr
    (t_path t) (t_hp t) (t_max_hp t) (t_fuel t) (t_ammo t) (t_gears t)
    (t_move_speed t) (t_vision t) (t_shell_damage t) (t_ammo_cost t)
    (t_alive t) (t_respawn_timer t) (t_color t) (t_facing t) (t_upgrades t)
    (t_last_shot t) (t_score t) (t_kills t) (t_deaths t) (t_fort_captures t).
Definition with_path v (t : Tank) :=
  mkTank (t_id t) (t_player_id t) (t_q t) (t_r t) (t_target_q t)
    (t_target_r t) v (t_hp t) (t_max_hp t) (t_fuel t) (t_ammo t) (t_gears t)
    (t_move_speed t) (t_vision t) (t_shell_damage t) (t_ammo_cost t)
    (t_alive t) (t_respawn_timer t) (t_color t) (t_facing t) (t_upgrades t)
    (t_last_shot t) (t_score t) (t_kills t) (t_deaths t) (t_fort_captures t).
Definition with_hp v (t : Tank) :=
  mkTank (t_id t) (t_player_id t) (t_q t) (t_r t) (t_target_q t)
    (t_target_r t) (t_path t) v (t_max_hp t) (t_fuel t) (t_ammo t)
    (t_gears t)
    (t_move_speed t) (t_vision t) (t_shell_damage t) (t_ammo_cost t)
    (t_alive t) (t_respawn_timer t) (t_color t) (t_facing t) (t_upgrades t)
    (t_last_shot t) (t_score t) (t_kills t) (t_deaths t) (t_fort_captures t).
Definition with_max_hp v (t : Tank) :=
  mkTank (t_id t) (t_player_id t) (t_q t) (t_r t) (t_target_q t)
    (t_target_r t) (t_path t) (t_hp t) v (t_fuel t) (t_ammo t) (t_gears t)
    (t_move_speed t) (t_vision t) (t_shell_damage t) (t_ammo_cost t)
    (t_alive t) (t_respawn_timer t) (t_color t) (t_facing t) (t_upgrades t)
    (t_last_shot t) (t_score t) (t_kills t) (t_deaths t) (t_fort_captures t).
Definition with_fuel v (t : Tank) :=
  mkTank (t_id t) (t_player_id t) (t_q t) (t_r t) (t_target_q t)
    (t_target_r t) (t_path t) (t_hp t) (t_max_hp t) v (t_ammo t) (t_gears t)
    (t_move_speed t) (t_vision t) (t_shell_damage t) (t_ammo_cost t)
    (t_alive t) (t_respawn_timer t) (t_color t) (t_facing t) (t_upgrades t)
    (t_last_shot t) (t_score t) (t_kills t) (t_deaths t) (t_fort_captures t).
Definition with_ammo v (t : Tank) :=
  mkTank (t_id t) (t_player_id t) (t_q t) (t_r t) (t_target_q t)
    (t_target_r t) (t_path t) (t_hp t) (t_max_hp t) (t_fuel t) v (t_gears t)
    (t_move_speed t) (t_vision t) (t_shell_damage t) (t_ammo_cost t)
    (t_alive t) (t_respawn_timer t) (t_color t) (t_facing t) (t_upgrades t)
    (t_last_shot t) (t_score t) (t_kills t) (t_deaths t) (t_fort_captures t).
Definition with_gears v (t : Tank) :=
  mkTank (t_id t) (t_player_id t) (t_q t) (t_r t) (t_target_q t)
    (t_target_r t) (t_path t) (t_hp t) (t_max_hp t) (t_fuel t) (t_ammo t) v
    (t_move_speed t) (t_vision t) (t_shell_damage t) (t_ammo_cost t)
    (t_alive t) (t_respawn_timer t) (t_color t) (t_facing t) (t_upgrades t)
    (t_last_shot t) (t_score t) (t_kills t) (t_deaths t) (t_fort_captures t).
Definition with_move_speed v (t : Tank) :=
  mkTank (t_id t) (t_player_id t) (t_q t) (t_r t) (t_target_q t)
    (t_target_r t) (t_path t) (t_hp t) (t_max_hp t) (t_fuel t) (t_ammo t)
    (t_gears t) v (t_vision t) (t_shell_damage t) (t_ammo_cost t)
    (t_alive t) (t_respawn_timer t) (t_color t) (t_facing t) (t_upgrades t)
    (t_last_shot t) (t_score t) (t_kills t) (t_deaths t) (t_fort_captures t).
Definition with_vision v (t : Tank) :=
  mkTank (t_id t) (t_player_id t) (t_q t) (t_r t) (t_target_q t)
    (t_target_r t) (t_path t) (t_hp t) (t_max_hp t) (t_fuel t) (t_ammo t)
    (t_gears t) (t_move_speed t) v (t_shell_damage t) (t_ammo_cost t)
    (t_alive t) (t_respawn_timer t) (t_color t) (t_facing t) (t_upgrades t)
    (t_last_shot t) (t_score t) (t_kills t) (t_deaths t) (t_fort_captures t).
Definition with_shell_damage v (t : Tank) :=
  mkTank (t_id t) (t_player_id t) (t_q t) (t_r t) (t_target_q t)
    (t_target_r t) (t_path t) (t_hp t) (t_max_hp t) (t_fuel t) (t_ammo t)
    (t_gears t) (t_move_speed t) (t_vision t) v (t_ammo_cost t)
    (t_alive t) (t_respawn_timer t) (t_color t) (t_facing t) (t_upgrades t)
    (t_last_shot t) (t_score t) (t_kills t) (t_deaths t) (t_fort_captures t).
Definition with_ammo_cost v (t : Tank) :=
  mkTank (t_id t) (t_player_id t) (t_q t) (t_r t) (t_target_q t)
    (t_target_r t) (t_path t) (t_hp t) (t_max_hp t) (t_fuel t) (t_ammo t)
    (t_gears t) (t_move_speed t) (t_vision t) (t_shell_damage t) v
    (t_alive t) (t_respawn_timer t) (t_color t) (t_facing t) (t_upgrades t)
    (t_last_shot t) (t_score t) (t_kills t) (t_deaths t) (t_fort_captures t).
Definition with_alive v (t : Tank) :=
  mkTank (t_id t) (t_player_id t) (t_q t) (t_r t) (t_target_q t)
    (t_target_r t) (t_path t) (t_hp t) (t_max_hp t) (t_fuel t) (t_ammo t)
    (t_gears t) (t_move_speed t) (t_vision t) (t_shell_damage t)
    (t_ammo_cost t) v (t_respawn_timer t) (t_color t) (t_facing t)
    (t_upgrades t)
    (t_last_shot t) (t_score t) (t_kills t) (t_deaths t) (t_fort_captures t).
Definition with_respawn_timer v (t : Tank) :=
  mkTank (t_id t) (t_player_id t) (t_q t) (t_r t) (t_target_q t)
    (t_target_r t) (t_path t) (t_hp t) (t_max_hp t) (t_fuel t) (t_ammo t)
    (t_gears t) (t_move_speed t) (t_vision t) (t_shell_damage t)
    (t_ammo_cost t) (t_alive t) v (t_color t) (t_facing t) (t_upgrades t)
    (t_last_shot t) (t_score t) (t_kills t) (t_deaths t) (t_fort_captures t).
Definition with_facing v (t : Tank) :=
  mkTank (t_id t) (t_player_id t) (t_q t) (t_r t) (t_target_q t)
    (t_target_r t) (t_path t) (t_hp t) (t_max_hp t) (t_fuel t) (t_ammo t)
    (t_gears t) (t_move_speed t) (t_vision t) (t_shell_damage t)
    (t_ammo_cost t) (t_alive t) (t_respawn_timer t) (t_color t) v
    (t_upgrades t)
    (t_last_shot t) (t_score t) (t_kills t) (t_deaths t) (t_fort_captures t).
Definition with_upgrades v (t : Tank) :=
  mkTank (t_id t) (t_player_id t) (t_q t) (t_r t) (t_target_q t)
    (t_target_r t) (t_path t) (t_hp t) (t_max_hp t) (t_fuel t) (t_ammo t)
    (t_gears t) (t_move_speed t) (t_vision t) (t_shell_damage t)
    (t_ammo_cost t) (t_alive t) (t_respawn_timer t) (t_color t) (t_facing t)
    v (t_last_shot t) (t_score t) (t_kills t) (t_deaths t)
    (t_fort_captures t).
Definition with_last_shot v (t : Tank) :=
  mkTank (t_id t) (t_player_id t) (t_q t) (t_r t) (t_target_q t)
    (t_target_r t) (t_path t) (t_hp t) (t_max_hp t) (t_fuel t) (t_ammo t)
    (t_gears t) (t_move_speed t) (t_vision t) (t_shell_damage t)
    (t_ammo_cost t) (t_alive t) (t_respawn_timer t) (t_color t) (t_facing t)
    (t_upgrades t) v (t_score t) (t_kills t) (t_deaths t)
    (t_fort_captures t).
Definition with_score v (t : Tank) :=
  mkTank (t_id t) (t_player_id t) (t_q t) (t_r t) (t_target_q t)
    (t_target_r t) (t_path t) (t_hp t) (t_max_hp t) (t_fuel t) (t_ammo t)
    (t_gears t) (t_move_speed t) (t_vision t) (t_shell_damage t)
    (t_ammo_cost t) (t_alive t) (t_respawn_timer t) (t_color t) (t_facing t)
    (t_upgrades t) (t_last_shot t) v (t_kills t) (t_deaths t)
    (t_fort_captures t).
Definition with_kills v (t : Tank) :=
  mkTank (t_id t) (t_player_id t) (t_q t) (t_r t) (t_target_q t)
    (t_target_r t) (t_path t) (t_hp t) (t_max_hp t) (t_fuel t) (t_ammo t)
    (t_gears t) (t_move_speed t) (t_vision t) (t_shell_damage t)
    (t_ammo_cost t) (t_alive t) (t_respawn_timer t) (t_color t) (t_facing t)
    (t_upgrades t) (t_last_shot t) (t_score t) v (t_deaths t)
    (t_fort_captures t).
Definition with_deaths v (t : Tank) :=
  mkTank (t_id t) (t_player_id t) (t_q t) (t_r t) (t_target_q t)
    (t_target_r t) (t_path t) (t_hp t) (t_max_hp t) (t_fuel t) (t_ammo t)
    (t_gears t) (t_move_speed t) (t_vision t) (t_shell_damage t)
    (t_ammo_cost t) (t_alive t) (t_respawn_timer t) (t_color t) (t_facing t)
    (t_upgrades t) (t_last_shot t) (t_score t) (t_kills t) v
    (t_fort_captures t).
Definition with_fort_captures v (t : Tank) :=
  mkTank (t_id t) (t_player_id t) (t_q t) (t_r t) (t_target_q t)
    (t_target_r t) (t_path t) (t_hp t) (t_max_hp t) (t_fuel t) (t_ammo t)
    (t_gears t) (t_move_speed t) (t_vision t) (t_shell_damage t)
    (t_ammo_cost t) (t_alive t) (t_respawn_timer t) (t_color t) (t_facing t)
    (t_upgrades t) (t_last_shot t) (t_score t) (t_kills t) (t_deaths t) v.

(** [Tank(id=..., player_id=..., q=..., r=..., color=...)] with the
    dataclass defaults. *)
Definition new (id pid : string) (q r : Q) (color : string) : Tank :=
  mkTank id pid q r None None [] TANK_MAX_HP TANK_MAX_HP 80 50 0
    MOVE_SPEED_BASE FOG_RANGE SHELL_DAMAGE AMMO_SHOOT true 0 color 0 []
    0 0 0 0 0.
End Tank_.

Module Game_.
Definition with_players v (g : GameState) :=
  mkGame v (tanks g) (forts g) (shells g) (tick g) (match_timer g)
    (match_over g) (post_match_timer g) (pending_events g) (rematch_votes g).
Definition with_tanks v (g : GameState) :=
  mkGame (players g) v (forts g) (shells g) (tick g) (match_timer g)
    (match_over g) (post_match_timer g) (pending_events g) (rematch_votes g).
Definition with_forts v (g : GameState) :=
  mkGame (players g) (tanks g) v (shells g) (tick g) (match_timer g)
    (match_over g) (post_match_timer g) (pending_events g) (rematch_votes g).
Definition with_shells v (g : GameState) :=
  mkGame (players g) (tanks g) (forts g) v (tick g) (match_timer g)
    (match_over g) (post_match_timer g) (pending_events g) (rematch_votes g).
Definition with_tick v (g : GameState) :=
  mkGame (players g) (tanks g) (forts g) (shells g) v (match_timer g)
    (match_over g) (post_match_timer g) (pending_events g) (rematch_votes g).
Definition with_match_timer v (g : GameState) :=
  mkGame (players g) (tanks g) (forts g) (shells g) (tick g) v
    (match_over g) (post_match_timer g) (pending_events g) (rematch_votes g).
Definition with_match_over v (g : GameState) :=
  mkGame (players g) (tanks g) (forts g) (shells g) (tick g) (match_timer g)
    v (post_match_timer g) (pending_events g) (rematch_votes g).
Definition with_post_match_timer v (g : GameState) :=
  mkGame (players g) (tanks g) (forts g) (shells g) (tick g) (match_timer g)
    (match_over g) v (pending_events g) (rematch_votes g).
Definition with_pending_events v (g : GameState) :=
  mkGame (players g) (tanks g) (forts g) (shells g) (tick g) (match_timer g)
    (match_over g) (post_match_timer g) v (rematch_votes g).
Definition with_rematch_votes v (g : GameState) :=
  mkGame (players g) (tanks g) (forts g) (shells g) (tick g) (match_timer g)
    (match_over g) (post_match_timer g) (pending_events g) v.

(** In-place mutation of the object stored under a key. *)
Definition put_tank (pid : string) (t : Tank) (g : GameState) :=
  with_tanks (Py.set pid t (tanks g)) g.
Definition put_fort (fid : string) (f : Fort) (g : GameState) :=
  with_forts (Py.set fid f (forts g)) g.
Definition put_shell (sid : string) (s : Shell) (g : GameState) :=
  with_shells (Py.set sid s (shells g)) g.
Definition push_event (e : Event) (g : GameState) :=
  with_pending_events (pending_events g ++ [e]) g.
End Game_.

(* ------------------------------------------------------------------ *)
(** ** Command handlers of [GameState] *)

Local Open Scope Q_scope.

(** Truth value of an [Optional[str]]: [None] and the empty string are
    false. *)
Definition truthy (o : option string) : bool :=
  match o with
  | Some s => negb (String.eqb s "")
  | None => false
  end.

(** [o == pid] for an [Optional[str]] and a [str]. *)
Definition is_player (o : option string) (pid : string) : bool :=
  match o with
  | Some s => String.eqb s pid
  | None => false
  end.

Definition mem_string (s : string) (l : list string) : bool :=
  existsb (String.eqb s) l.

(** [upgrades.get(name, 0)] *)
Definition upgrade_level (t : Tank) (name : string) : Z :=
  match Py.get name (t_upgrades t) with
  | Some l => l
  | None => 0%Z
  end.

(** The dictionaries returned to the caller. *)
Inductive Reply :=
| Error (msg : string)
| Ok
| OkPath (path : list Hex)
| OkShell (shell_id : string)
| OkUpgrade (upgrade : string) (level max_level : Z)
| OkVote (voted total : Z).

Inductive Outcome :=
| Returns (reply : Reply) (g : GameState)
| Raises (exn : string).

Definition is_error (r : Reply) : bool :=
  match r with Error _ => true | _ => false end.

Definition _end_match (g : GameState) : GameState :=
  Game_.with_post_match_timer POST_MATCH_TIME (Game_.with_match_over true g).

Definition reset_tank (t : Tank) : Tank :=
  mkTank (t_id t) (t_player_id t) (t_q t) (t_r t) (t_target_q t)
    (t_target_r t) [] TANK_MAX_HP TANK_MAX_HP 80 50 0 MOVE_SPEED_BASE
    FOG_RANGE SHELL_DAMAGE AMMO_SHOOT true 0 (t_color t) (t_facing t) []
    (t_last_shot t) 0 0 0 0.

Definition reset_fort (f : Fort) : Fort :=
  mkFort (f_id f) (f_q f) (f_r f) (f_ftype f) None 0 None false.

Definition map_values {V} (f : V -> V) (d : Py.dict V) : Py.dict V :=
  map (fun kv => (fst kv, f (snd kv))) d.

Definition _reset_match (g : GameState) : GameState :=
  mkGame (players g)
         (map_values reset_tank (tanks g))
         (map_values reset_fort (forts g))
         []
         (tick g)
         MATCH_TIME
         false
         (post_match_timer g)
         []
         [].

(** [add_player]; [pid] is the identifier drawn from [uuid4]. *)
Definition add_player (ws_id name pid : string) (g : GameState)
  : option string * GameState :=
  if (MAX_PLAYERS <=? List.length (players g))%nat then (None, g)
  else
    let k := List.length (players g) in
    let color := nth (k mod List.length PLAYER_COLORS) PLAYER_COLORS
                     ""%string in
    let s := nth (k mod List.length starts) starts (0, 0)%Z in
    let g1 := Game_.with_players
                (Py.set ws_id (mkPlayer pid name color ws_id) (players g)) g in
    let tank := Tank_.new ("tank_" ++ pid) pid
                  (inject_Z (fst s)) (inject_Z (snd s)) color in
    (Some pid, Game_.put_tank pid tank g1).

Definition release_on_disconnect (pid : string) (f : Fort) : Fort :=
  let f1 := if is_player (f_owner f) pid
            then Fort_.with_capture_progress 0 (Fort_.with_owner None f)
            else f in
  if is_player (f_capturing_player f1) pid
  then Fort_.with_capture_progress 0 (Fort_.with_capturing_player None f1)
  else f1.

Definition remove_player (ws_id : string) (g : GameState) : GameState :=
  match Py.get ws_id (players g) with
  | None => g
  | Some p =>
      let pid := p_id p in
      mkGame (Py.del ws_id (players g))
             (Py.del pid (tanks g))
             (map_values (release_on_disconnect pid) (forts g))
             (shells g) (tick g) (match_timer g) (match_over g)
             (post_match_timer g) (pending_events g) (rematch_votes g)
  end.

Definition set_tank_path (player_id : string) (path : list Hex)
           (g : GameState) : Reply * GameState :=
  match Py.get player_id (tanks g) with
  | None => (Error "tank not available", g)
  | Some tank =>
      if negb (t_alive tank) then (Error "tank not available", g)
      else
        match path with
        | [] =>
            (Ok, Game_.put_tank player_id
                   (Tank_.with_target None None (Tank_.with_path [] tank)) g)
        | _ :: _ =>
            let last_ := List.last path (0, 0)%Z in
            (OkPath path,
             Game_.put_tank player_id
               (Tank_.with_target (Some (fst last_)) (Some (snd last_))
                  (Tank_.with_path path tank)) g)
        end
  end.

(** [shoot]; [now] and [created] are the two readings of [time.time()],
    [sid] the identifier drawn from [uuid4]. *)
Definition shoot (player_id : string) (target_q target_r : Z)
           (now created : Q) (sid : string) (g : GameState)
  : Reply * GameState :=
  match Py.get player_id (tanks g) with
  | None => (Error "tank not available", g)
  | Some tank =>
      if negb (t_alive tank) then (Error "tank not available", g)
      else if Py.Qltb (now - t_last_shot tank) FIRE_COOLDOWN
      then (Error "cooldown", g)
      else
        let tank := Tank_.with_last_shot now tank in
        let g := Game_.put_tank player_id tank g in
        if Py.Qltb (t_ammo tank) (t_ammo_cost tank)
        then (Error "not enough ammo", g)
        else
          let dist := hex_distance (Py.round (t_q tank), Py.round (t_r tank))
                                   (target_q, target_r) in
          let max_range := (5 + upgrade_level tank "cannon")%Z in
          if (max_range <? dist)%Z then (Error "out of range", g)
          else
            let tank := Tank_.with_ammo (t_ammo tank - t_ammo_cost tank) tank in
            let shell :=
              mkShell sid player_id (t_q tank) (t_r tank) target_q target_r
                SHELL_SPEED
                (t_shell_damage tank + upgrade_level tank "cannon" * 5)%Z
                created in
            (OkShell sid,
             Game_.put_shell sid shell (Game_.put_tank player_id tank g))
  end.

Definition apply_upgrade (upgrade_type : string) (tank : Tank) : Tank :=
  if String.eqb upgrade_type "engine"
  then Tank_.with_move_speed (t_move_speed tank + (4 # 10)) tank
  else if String.eqb upgrade_type "armor"
  then let tank := Tank_.with_max_hp (t_max_hp tank + 20)%Z tank in
       Tank_.with_hp (Py.minZ (t_hp tank + 20)%Z (t_max_hp tank)) tank
  else if String.eqb upgrade_type "cannon"
  then Tank_.with_shell_damage (t_shell_damage tank + 10)%Z tank
  else if String.eqb upgrade_type "sensor"
  then Tank_.with_vision (t_vision tank + 1)%Z tank
  else if String.eqb upgrade_type "loader"
  then Tank_.with_ammo_cost (Py.max 2 (t_ammo_cost tank - 2)) tank
  else tank.

Definition upgrade (player_id upgrade_type : string) (g : GameState)
  : Outcome :=
  match Py.get player_id (tanks g) with
  | None => Returns (Error "no tank") g
  | Some tank =>
      if negb (mem_string upgrade_type UPGRADE_COSTS)
      then Returns (Error "unknown upgrade") g
      else
        let current_lvl := upgrade_level tank upgrade_type in
        if (UPGRADE_MAX_LVL <=? current_lvl)%Z
        then Returns (Error "max level reached") g
        else
          match Py.index lvl_costs current_lvl with
          | None => Raises "IndexError"
          | Some gear_cost =>
              if Py.Qltb (t_gears tank) gear_cost
              then Returns (Error "not enough gears") g
              else
                let tank := Tank_.with_gears (t_gears tank - gear_cost) tank in
                let lvl := (current_lvl + 1)%Z in
                let tank :=
                  Tank_.with_upgrades
                    (Py.set upgrade_type lvl (t_upgrades tank)) tank in
                let tank := apply_upgrade upgrade_type tank in
                Returns (OkUpgrade upgrade_type lvl UPGRADE_MAX_LVL)
                        (Game_.put_tank player_id tank g)
          end
  end.

(** [set.add] *)
Definition set_add (x : string) (s : list string) : list string :=
  if mem_string x s then s else s ++ [x].

Definition cast_vote (player_id : string) (g : GameState)
  : Reply * GameState :=
  if negb (match_over g) then (Error "match not over", g)
  else
    let g := Game_.with_rematch_votes (set_add player_id (rematch_votes g)) g in
    let total := List.length (tanks g) in
    let cast := List.length (rematch_votes g) in
    let g := if (total <=? cast)%nat && (0 <? total)%nat
             then _reset_match g else g in
    (OkVote (Z.of_nat cast) (Z.of_nat total), g).

(* ------------------------------------------------------------------ *)
(** ** The tick *)

(** Outcomes of the external calls of one tick, indexed by the number of
    external calls made before. *)
Record Oracle := mkOracle {
  time_time : nat -> Q;          (* time.time() *)
  random_random : nat -> Q;      (* random.random() *)
  random_index : nat -> nat      (* the index drawn by random.choice *)
}.

(** [random.uniform(a, b)] is [a + (b-a) * random()]. *)
Definition uniform (a b u : Q) : Q := a + (b - a) * u.

(** The simulation state together with the count of external calls. *)
Definition Sim : Type := (GameState * nat)%type.

(** [for pid, tank in self.tanks.items()] where the body mutates objects of
    the state: the keys are fixed when the loop starts and each object is
    read when its turn comes. *)
Definition for_tanks (body : string -> Tank -> Sim -> Sim) (s : Sim) : Sim :=
  fold_left
    (fun s pid =>
       match Py.get pid (tanks (fst s)) with
       | Some t => body pid t s
       | None => s
       end)
    (Py.keys (tanks (fst s))) s.

Definition for_forts (body : string -> Fort -> Sim -> Sim) (s : Sim) : Sim :=
  fold_left
    (fun s fid =>
       match Py.get fid (forts (fst s)) with
       | Some f => body fid f s
       | None => s
       end)
    (Py.keys (forts (fst s))) s.

Definition player_by_id (pid : string) (g : GameState) : option Player :=
  find (fun p => String.eqb (p_id p) pid) (Py.values (players g)).

(** *** Death loot and fort release (inside [_shell_impact]) *)

Definition loss (amount ratio floor : Q) : Q :=
  Py.max 0 (Py.min (amount * ratio) (amount - floor)).

Definition loot_victim (fuel_ratio ammo_ratio gear_ratio : Q) (tank : Tank)
  : Tank :=
  let fuel_lost := loss (t_fuel tank) fuel_ratio LOOT_FUEL_FLOOR in
  let ammo_lost := loss (t_ammo tank) ammo_ratio LOOT_AMMO_FLOOR in
  let gear_lost := loss (t_gears tank) gear_ratio LOOT_GEAR_FLOOR in
  let tank := Tank_.with_fuel
                (Py.max LOOT_FUEL_FLOOR (t_fuel tank - fuel_lost)) tank in
  let tank := Tank_.with_ammo
                (Py.max LOOT_AMMO_FLOOR (t_ammo tank - ammo_lost)) tank in
  Tank_.with_gears (Py.max LOOT_GEAR_FLOOR (t_gears tank - gear_lost)) tank.

Definition gear_gained (gear_lost u : Q) : Q :=
  uniform 5 (Py.max 5 gear_lost) u.

Definition loot_shooter (gear_lost u : Q) (shooter : Tank) : Tank :=
  Tank_.with_gears (Py.min 99 (t_gears shooter + gear_gained gear_lost u))
                   shooter.

Definition release_fort (f : Fort) : Fort :=
  Fort_.with_capturing_player None
    (Fort_.with_capture_progress 0 (Fort_.with_owner None f)).

(** The sort key: coordinate offsets to the victim's position. *)
Definition release_key (tank : Tank) (kf : string * Fort) : Q :=
  Qabs (inject_Z (f_q (snd kf)) - t_q tank)
  + Qabs (inject_Z (f_r (snd kf)) - t_r tank).

Definition victim_forts (pid : string) (g : GameState)
  : list (string * Fort) :=
  filter (fun kf => is_player (f_owner (snd kf)) pid) (forts g).

Definition forts_to_release (pid : string) (tank : Tank) (g : GameState)
  : list (string * Fort) :=
  let vf := victim_forts pid g in
  if (FORT_RELEASE_KEEP <? List.length vf)%nat
  then Py.drop FORT_RELEASE_KEEP (Py.sort_desc (release_key tank) vf)
  else [].

Definition release_forts (pid : string) (tank : Tank) (g : GameState)
  : GameState :=
  fold_left (fun g kf => Game_.put_fort (fst kf) (release_fort (snd kf)) g)
            (forts_to_release pid tank g) g.

Definition kill_event (owner_id pid : string) (ts : Q) (g : GameState)
  : Event :=
  let shooter_info := player_by_id owner_id g in
  let victim_info := player_by_id pid g in
  KillFeed
    (match shooter_info with Some p => p_name p | None => "?"%string end)
    (match shooter_info with Some p => p_color p | None => "#fff"%string end)
    (match victim_info with Some p => p_name p | None => "?"%string end)
    (match victim_info with Some p => p_color p | None => "#888"%string end)
    ts.

Section Tick.

Variable sqrt : Q -> Q.           (* math.sqrt *)
Variable atan2 : Q -> Q -> Q.     (* math.atan2 *)
Variable ext : Oracle.

(** *** [_move_tanks]

    The interpolation divides by [dist]; it is reached only when
    [step < dist], so the divisor is positive whenever [step >= 0]. *)

Definition move_tank (dt : Q) (tank : Tank) : Tank :=
  if negb (t_alive tank) then tank
  else
    match t_path tank with
    | [] => tank
    | (next_q, next_r) :: rest =>
        let dq := inject_Z next_q - t_q tank in
        let dr := inject_Z next_r - t_r tank in
        let dist := sqrt (dq * dq + dr * dr) in
        let step := t_move_speed tank * dt in
        if Py.Qleb dist step then
          if Py.Qltb (t_fuel tank) FUEL_PER_HEX
          then Tank_.with_target None None (Tank_.with_path [] tank)
          else
            let tank := Tank_.with_fuel (t_fuel tank - FUEL_PER_HEX) tank in
            let tank := Tank_.with_pos (inject_Z next_q) (inject_Z next_r)
                                       tank in
            let tank := Tank_.with_path rest tank in
            match rest with
            | [] => Tank_.with_target None None tank
            | _ :: _ => tank
            end
        else
          let tank := Tank_.with_facing (atan2 dr dq) tank in
          Tank_.with_pos (t_q tank + (dq / dist) * step)
                         (t_r tank + (dr / dist) * step) tank
    end.

Definition _move_tanks (dt : Q) (s : Sim) : Sim :=
  for_tanks (fun pid tank s =>
               (Game_.put_tank pid (move_tank dt tank) (fst s), snd s)) s.

(** *** [_shell_impact] *)

Definition kill (shell : Shell) (pid : string) (tank : Tank) (s : Sim)
  : Sim :=
  let '(g, n) := s in
  let tank := Tank_.with_hp 0 tank in
  let tank := Tank_.with_alive false tank in
  let tank := Tank_.with_respawn_timer RESPAWN_TIME tank in
  let tank := Tank_.with_path [] tank in
  let g := Game_.put_tank pid tank g in
  let '(g, n) :=
    match Py.get (s_owner_id shell) (tanks g) with
    | Some shooter =>
        let shooter := Tank_.with_score (t_score shooter + 10)%Z shooter in
        let shooter := Tank_.with_kills (t_kills shooter + 1)%Z shooter in
        let tank := Tank_.with_deaths (t_deaths tank + 1)%Z tank in
        let fuel_ratio := uniform (20 # 100) (60 # 100) (random_random ext n) in
        let ammo_ratio :=
          uniform (20 # 100) (60 # 100) (random_random ext (n + 1)) in
        let gear_ratio :=
          uniform (20 # 100) (60 # 100) (random_random ext (n + 2)) in
        let gear_lost := loss (t_gears tank) gear_ratio LOOT_GEAR_FLOOR in
        let tank := loot_victim fuel_ratio ammo_ratio gear_ratio tank in
        let shooter :=
          loot_shooter gear_lost (random_random ext (n + 3)) shooter in
        let g := Game_.put_tank pid tank g in
        let g := Game_.put_tank (s_owner_id shell) shooter g in
        (release_forts pid tank g, (n + 4)%nat)
    | None => (g, n)
    end in
  (Game_.push_event (kill_event (s_owner_id shell) pid (time_time ext n) g) g,
   S n).

Definition impact_tank (shell : Shell) (pid : string) (tank : Tank)
           (s : Sim) : Sim :=
  if String.eqb pid (s_owner_id shell) || negb (t_alive tank) then s
  else if (hex_distance (Py.round (t_q tank), Py.round (t_r tank))
                        (s_target_q shell, s_target_r shell) <=? 1)%Z
  then
    let tank := Tank_.with_hp (t_hp tank - s_damage shell)%Z tank in
    if (t_hp tank <=? 0)%Z then kill shell pid tank s
    else (Game_.put_tank pid tank (fst s), snd s)
  else s.

Definition _shell_impact (shell : Shell) (s : Sim) : Sim :=
  for_tanks (impact_tank shell) s.

(** *** [_move_shells] *)

Definition move_shell (dt : Q) (sid : string) (acc : Sim * list string)
  : Sim * list string :=
  let '((g, n), dead) := acc in
  match Py.get sid (shells g) with
  | None => acc
  | Some shell =>
      let dq := inject_Z (s_target_q shell) - s_q shell in
      let dr := inject_Z (s_target_r shell) - s_r shell in
      let dist := sqrt (dq * dq + dr * dr) in
      let step := s_speed shell * dt in
      if Py.Qleb dist step
      then (_shell_impact shell (g, n), dead ++ [sid])
      else if Py.Qltb 3 (time_time ext n - s_created shell)
      then (_shell_impact shell (g, S n), dead ++ [sid])
      else
        let shell := Shell_.with_pos (s_q shell + (dq / dist) * step)
                                     (s_r shell + (dr / dist) * step)
                                     shell in
        ((Game_.put_shell sid shell g, S n), dead)
  end.

Definition _move_shells (dt : Q) (s : Sim) : Sim :=
  let '((g, n), dead) :=
    fold_left (fun acc sid => move_shell dt sid acc)
              (Py.keys (shells (fst s))) (s, []) in
  (fold_left (fun g sid => Game_.with_shells (Py.del sid (shells g)) g)
             dead g, n).

(** *** [_update_captures] *)

Definition RECAPTURE_MULTIPLIER : Q := 15 # 10.

Definition effective_capture_time (fort : Fort) : Q :=
  CAPTURE_TIME * (if f_was_owned fort then RECAPTURE_MULTIPLIER else 1).

Definition on_fort (fort : Fort) (g : GameState) : list string :=
  Py.keys
    (filter (fun kt => t_alive (snd kt)
                       && (Py.round (t_q (snd kt)) =? f_q fort)%Z
                       && (Py.round (t_r (snd kt)) =? f_r fort)%Z)
            (tanks g)).

Definition capture_event (capturer : string) (fort : Fort) (ts : Q)
           (g : GameState) : Event :=
  let cap_info := player_by_id capturer g in
  CaptureFeed
    (match cap_info with Some p => p_name p | None => "?"%string end)
    (match cap_info with Some p => p_color p | None => "#fff"%string end)
    (f_ftype fort) ts.

Definition capture_fort (dt : Q) (fid : string) (fort : Fort) (s : Sim)
  : Sim :=
  let '(g, n) := s in
  let ect := effective_capture_time fort in
  match on_fort fort g with
  | [] =>
      if truthy (f_capturing_player fort)
         && Py.Qltb 0 (f_capture_progress fort)
      then
        let fort := Fort_.with_capture_progress
                      (Py.max 0 (f_capture_progress fort - dt * (5 # 10)))
                      fort in
        let fort := if Py.Qeqb (f_capture_progress fort) 0
                    then Fort_.with_capturing_player None fort
                    else fort in
        (Game_.put_fort fid fort g, n)
      else s
  | [capturer] =>
      if is_player (f_owner fort) capturer then s
      else if is_player (f_capturing_player fort) capturer then
        let fort := Fort_.with_capture_progress
                      (f_capture_progress fort + dt) fort in
        if Py.Qleb ect (f_capture_progress fort) then
          let fort := Fort_.with_capture_progress ect fort in
          let fort := Fort_.with_owner (Some capturer) fort in
          let fort := Fort_.with_was_owned true fort in
          let fort := Fort_.with_capturing_player None fort in
          let g := Game_.put_fort fid fort g in
          (* self.tanks[capturer]: the key was just read from the dict *)
          let g := match Py.get capturer (tanks g) with
                   | Some t =>
                       let t := Tank_.with_score (t_score t + 5)%Z t in
                       let t := Tank_.with_fort_captures
                                  (t_fort_captures t + 1)%Z t in
                       Game_.put_tank capturer t g
                   | None => g
                   end in
          (Game_.push_event
             (capture_event capturer fort (time_time ext n) g) g, S n)
        else (Game_.put_fort fid fort g, n)
      else
        let fort := Fort_.with_capturing_player (Some capturer) fort in
        let fort := Fort_.with_capture_progress
                      (Py.max 0 (f_capture_progress fort - dt * (15 # 10)))
                      fort in
        (Game_.put_fort fid fort g, n)
  | _ :: _ :: _ =>
      let fort := Fort_.with_capture_progress
                    (Py.max 0 (f_capture_progress fort - dt * 2)) fort in
      (Game_.put_fort fid fort g, n)
  end.

Definition _update_captures (dt : Q) (s : Sim) : Sim :=
  for_forts (capture_fort dt) s.

(** *** [_generate_resources] *)

Definition owned_by (g : GameState) : Py.dict (list FortType) :=
  fold_left
    (fun acc fort =>
       match f_owner fort with
       | Some owner =>
           if truthy (f_owner fort) then
             let old := match Py.get owner acc with
                        | Some l => l
                        | None => []
                        end in
             Py.set owner (old ++ [f_ftype fort]) acc
           else acc
       | None => acc
       end)
    (Py.values (forts g)) [].

Definition credit (dt : Q) (tank : Tank) (ftype : FortType) : Tank :=
  let tank :=
    match ftype with
    | FUEL | MIXED =>
        Tank_.with_fuel (Py.min 120 (t_fuel tank + FORT_FUEL_GEN * dt)) tank
    | _ => tank
    end in
  let tank :=
    match ftype with
    | AMMO | MIXED =>
        Tank_.with_ammo (Py.min 100 (t_ammo tank + FORT_AMMO_GEN * dt)) tank
    | _ => tank
    end in
  match ftype with
  | GEAR | MIXED =>
      Tank_.with_gears (Py.min 99 (t_gears tank + FORT_GEAR_GEN * dt)) tank
  | _ => tank
  end.

Definition _generate_resources (dt : Q) (s : Sim) : Sim :=
  (fold_left
     (fun g entry =>
        let '(pid, ftypes) := entry in
        match Py.get pid (tanks g) with
        | None => g
        | Some tank =>
            if negb (t_alive tank) then g
            else Game_.put_tank pid (fold_left (credit dt) ftypes tank) g
        end)
     (owned_by (fst s)) (fst s), snd s).

(** *** [_check_respawns] *)

Definition respawn_tank (dt : Q) (pid : string) (tank : Tank) (s : Sim)
  : Sim :=
  let '(g, n) := s in
  if negb (t_alive tank) then
    let tank := Tank_.with_respawn_timer (t_respawn_timer tank - dt) tank in
    if Py.Qleb (t_respawn_timer tank) 0 then
      let tank := Tank_.with_alive true tank in
      let tank := Tank_.with_hp (t_max_hp tank) tank in
      let tank := Tank_.with_respawn_timer 0 tank in
      let sp := nth (random_index ext n mod List.length starts) starts
                    (0, 0)%Z in
      let tank := Tank_.with_pos (inject_Z (fst sp)) (inject_Z (snd sp))
                                 tank in
      let tank := Tank_.with_path [] tank in
      (Game_.put_tank pid tank g, S n)
    else (Game_.put_tank pid tank g, n)
  else s.

Definition _check_respawns (dt : Q) (s : Sim) : Sim :=
  for_tanks (respawn_tank dt) s.

(** *** [tick_update] *)

Definition tick_update (dt : Q) (g : GameState) : GameState :=
  let g :=
    if negb (match_over g) then
      let g := Game_.with_match_timer (match_timer g - dt) g in
      if Py.Qleb (match_timer g) 0
      then _end_match (Game_.with_match_timer 0 g)
      else g
    else g in
  if match_over g then
    let g := Game_.with_post_match_timer (post_match_timer g - dt) g in
    if Py.Qleb (post_match_timer g) 0 then _reset_match g else g
  else
    let s := _move_tanks dt (g, 0%nat) in
    let s := _move_shells dt s in
    let s := _update_captures dt s in
    let s := _generate_resources dt s in
    let s := _check_respawns dt s in
    Game_.with_tick (tick (fst s) + 1)%Z (fst s).

(** The call made by [game_loop]: [game.tick_update(min(dt, 0.1))]. *)
Definition advance (dt : Q) (g : GameState) : GameState :=
  tick_update (Py.min dt (1 # 10)) g.

End Tick.


(* ------------------------------------------------------------------ *)
(** ** Hex-line rounding as the specification words it

    The specification describes the rounding of [hex_line] as: correct the
    cube axis with the largest rounding error, with a preference order
    among axes for ties.  [hex_line_by] is the rasterisation with the
    choice of the axis left open; the two choice functions below are
    "largest error, preferring x, then y, then z" and "largest error,
    preferring z, then y, then x". *)








(* ------------------------------------------------------------------ *)
(** ** Scenarios *)

(** The state built by [__init__] for a given fort layout. *)
Definition new_game (fs : Py.dict Fort) : GameState :=
  mkGame [] [] fs [] 0 MATCH_TIME false 0 [] [].

(** A shoot command together with the outcomes of its external calls. *)
Record Shot := mkShot {
  shot_q : Z;
  shot_r : Z;
  shot_now : Q;
  shot_created : Q;
  shot_sid : string
}.

(** A sequence of shoot commands of one player, with no tick in between. *)
Fixpoint volley (player_id : string) (shots : list Shot) (g : GameState)
  : list Reply * GameState :=
  match shots with
  | [] => ([], g)
  | s :: rest =>
      let '(r, g1) := shoot player_id (shot_q s) (shot_r s) (shot_now s)
                            (shot_created s) (shot_sid s) g in
      let '(rs, g2) := volley player_id rest g1 in
      (r :: rs, g2)
  end.

(** Each shot is issued at least [FIRE_COOLDOWN] after the previous one. *)
Fixpoint cooldown_respected (last : Q) (shots : list Shot) : Prop :=
  match shots with
  | [] => True
  | s :: rest =>
      FIRE_COOLDOWN <= shot_now s - last
      /\ cooldown_respected (shot_now s) rest
  end.

Definition in_range (tank : Tank) (s : Shot) : Prop :=
  (hex_distance (Py.round (t_q tank), Py.round (t_r tank))
                (shot_q s, shot_r s)
   <= 5 + upgrade_level tank "cannon")%Z.

(** One player, just joined: tank ["p1"] at [(0,4)] with the default
    resources (fuel 80, ammo 50, per-shot cost 8). *)
Definition one_player_game : GameState :=
  snd (add_player "ws1" "Ann" "p1" (new_game [])).

Definition one_player_tank : Tank :=
  Tank_.new "tank_p1" "p1" 0 4 "#e74c3c".

(** Seven shots at the neighbouring cell [(0,5)], one second apart. *)
Definition seven_shots : list Shot :=
  [mkShot 0 5 1 1 "s1"; mkShot 0 5 2 2 "s2"; mkShot 0 5 3 3 "s3";
   mkShot 0 5 4 4 "s4"; mkShot 0 5 5 5 "s5"; mkShot 0 5 6 6 "s6";
   mkShot 0 5 7 7 "s7"].

(** The same tank, dead, with 7 gears. *)
Definition dead_rich_tank : Tank :=
  Tank_.with_alive false (Tank_.with_gears 7 one_player_tank).

(** A rational stand-in for [math.sqrt], exact to six decimals, to run
    examples; the theorems hold for every function in its place. *)
Definition sqrt6 (x : Q) : Q :=
  Z.sqrt (Qfloor (x * 1000000000000)) # 1000000.

(** [math.atan2] restricted to the four axis directions that the examples
    use, in units of a quarter turn. *)
Definition atan2_axis (dr dq : Q) : Q :=
  if Py.Qltb 0 dq then 0
  else if Py.Qltb dq 0 then 2
  else if Py.Qltb 0 dr then 1
  else if Py.Qltb dr 0 then -1
  else 0.


(** An oracle for examples: the clock reads [now], every random draw is
    one half, [random.choice] takes the first element. *)
Definition steady_oracle (now : Q) : Oracle :=
  mkOracle (fun _ => now) (fun _ => 1 # 2) (fun _ => 0%nat).

(** Two players.  Bob has driven to [(0,2)]; Ann, at [(0,4)], is down to
    40 health and 3 fuel.  Bob fires at Ann's cell at time 1 and
    disconnects while the shell is in flight. *)
Definition two_player_game_on (fs : Py.dict Fort) : GameState :=
  let g := snd (add_player "ws1" "Ann" "p1" (new_game fs)) in
  let g := snd (add_player "ws2" "Bob" "p2" g) in
  let g := Game_.put_tank "p1"
             (Tank_.with_fuel 3 (Tank_.with_hp 40 one_player_tank)) g in
  Game_.put_tank "p2" (Tank_.new "tank_p2" "p2" 0 2 "#3498db") g.

Definition two_player_game : GameState := two_player_game_on [].

Definition shell_in_flight_game : GameState :=
  snd (shoot "p2" 0 4 1 1 "s1" two_player_game).

Definition absent_shooter_game : GameState :=
  remove_player "ws2" shell_in_flight_game.

Definition ann_tank : Tank :=
  Tank_.with_fuel 3 (Tank_.with_hp 40 one_player_tank).

Definition bob_shell : Shell :=
  mkShell "s1" "p2" 0 2 0 4 SHELL_SPEED 40 1.

(** Ann owns three forts in a row behind her, at 1, 2 and 3 cells from her
    position [(0,4)]. *)
Definition ann_forts : Py.dict Fort :=
  [("fort_0", mkFort "fort_0" 0 5 FUEL (Some "p1") 5 None true);
   ("fort_1", mkFort "fort_1" 0 6 AMMO (Some "p1") 5 None true);
   ("fort_2", mkFort "fort_2" 0 7 GEAR (Some "p1") 5 None true)]%string.

(** Bob's shell is in flight towards Ann, who owns the three forts. *)
Definition fort_owner_game : GameState :=
  snd (shoot "p2" 0 4 1 1 "s1" (two_player_game_on ann_forts)).

(** A list in descending order of a key. *)
Definition descending {A} (key : A -> Q) (l : list A) : Prop :=
  StronglySorted (fun a b => key b <= key a) l.

(* ------------------------------------------------------------------ *)
(** ** Invariants *)

(** Health within [0, max_hp]; fuel, ammo and gears within [0, cap]. *)
Definition tank_ok (t : Tank) : Prop :=
  (0 <= t_hp t <= t_max_hp t)%Z
  /\ (0 <= t_fuel t /\ t_fuel t <= FUEL_CAP)
  /\ (0 <= t_ammo t /\ t_ammo t <= AMMO_CAP)
  /\ (0 <= t_gears t /\ t_gears t <= GEAR_CAP).

(** Shells carry a non-negative damage: [shoot] builds it from the tank's
    shell damage (40 plus upgrades) and cannon level. *)
Definition shell_ok (s : Shell) : Prop := (0 <= s_damage s)%Z.

(** Capture progress within [0, effective capture time]. *)
Definition fort_ok (f : Fort) : Prop :=
  0 <= f_capture_progress f
  /\ f_capture_progress f <= effective_capture_time f.

Definition tanks_ok (g : GameState) : Prop :=
  Forall tank_ok (Py.values (tanks g))
  /\ Forall shell_ok (Py.values (shells g)).

Definition forts_ok (g : GameState) : Prop :=
  Forall fort_ok (Py.values (forts g)).

Definition all_tanks (P : Tank -> Prop) (g : GameState) : Prop :=
  Forall P (Py.values (tanks g)).

(** The contract of [random.random()]: draws in [[0, 1)]. *)
Definition fair (ext : Oracle) : Prop :=
  forall k, 0 <= random_random ext k /\ random_random ext k < 1.

(** The part of a tank that only upgrades and a match reset change. *)
Definition build_ok (t : Tank) : Prop :=
  (0 <= t_shell_damage t)%Z
  /\ (0 <= upgrade_level t "cannon")%Z
  /\ 0 <= t_ammo_cost t.

Definition well_formed (g : GameState) : Prop :=
  tanks_ok g /\ all_tanks build_ok g /\ forts_ok g.

(** A fort as [_generate_forts] creates it. *)
Definition fresh_fort (f : Fort) : Prop :=
  f_owner f = None /\ f_capture_progress f = 0
  /\ f_capturing_player f = None /\ f_was_owned f = false.

(** The states a server can be in: a new game, then any sequence of
    commands and game-loop iterations. *)
Inductive reachable : GameState -> Prop :=
| reach_new fs :
    Forall fresh_fort (Py.values fs) -> reachable (new_game fs)
| reach_join ws_id name pid g :
    reachable g -> reachable (snd (add_player ws_id name pid g))
| reach_leave ws_id g :
    reachable g -> reachable (remove_player ws_id g)
| reach_move pid path g :
    reachable g -> reachable (snd (set_tank_path pid path g))
| reach_shoot pid tq tr now created sid g :
    reachable g -> reachable (snd (shoot pid tq tr now created sid g))
| reach_upgrade pid ty g reply g' :
    reachable g -> upgrade pid ty g = Returns reply g' -> reachable g'
| reach_vote pid g :
    reachable g -> reachable (snd (cast_vote pid g))
| reach_tick sqrt atan2 ext dt g :
    reachable g -> 0 < dt -> fair ext ->
    reachable (advance sqrt atan2 ext dt g)
| reach_drain g :
    (* game_loop broadcasts the pending events and clears the queue *)
    reachable g -> reachable (Game_.with_pending_events [] g).

(** Ann stands on a never-owned fort at [(0,4)] that she has been
    capturing for 4.95 seconds. *)
Definition capture_game : GameState :=
  let fs := [("fort_0", mkFort "fort_0" 0 4 FUEL None (495 # 100)
                               (Some "p1") false)]%string in
  snd (add_player "ws1" "Ann" "p1" (new_game fs)).

(* ------------------------------------------------------------------ *)
(** * The rest of the server: helpers, start-up and snapshots *)

From Stdlib Require Import DecimalString Permutation.

(* ------------------------------------------------------------------ *)
(** ** Hex ring *)

(** One turn of the inner loop of [hex_ring]: append the current cell, then
    step in direction [d]. *)
Definition ring_step (d : Hex) (st : list Hex * Z * Z) : list Hex * Z * Z :=
  let '(results, q, r) := st in
  (results ++ [(q, r)], (q + fst d)%Z, (r + snd d)%Z).

Definition ring_dirs : list Hex :=
  [(1, 0); (0, 1); (-1, 1); (-1, 0); (0, -1); (1, -1)]%Z.

Definition hex_ring (center : Hex) (radius : Z) : list Hex :=
  if (radius =? 0)%Z then [center]
  else
    let st :=
      fold_left
        (fun st d => fold_left (fun st _ => ring_step d st)
                               (Py.range 0 radius) st)
        ring_dirs
        ([], fst center, (snd center - radius)%Z) in
    fst (fst st).

(** The [k] cells of one side of a ring, from [start] in direction [d]. *)
Definition ring_side (start d : Hex) (k : Z) : list Hex :=
  map (fun j => (fst start + j * fst d, snd start + j * snd d)%Z)
      (Py.range 0 k).

(* ------------------------------------------------------------------ *)
(** ** Snapshots: [to_dict] and [get_state_for] *)

(** The fields that [Tank.to_dict] adds for the tank's own player. *)
Record TankPrivate := mkTankPrivate {
  tp_fuel : Q;
  tp_ammo : Q;
  tp_gears : Q;
  tp_move_speed : Q;
  tp_vision : Z;
  tp_ammo_cost : Q;
  tp_upgrades : Py.dict Z;
  tp_respawn_timer : Q
}.

Record TankView := mkTankView {
  tv_id : string;
  tv_player_id : string;
  tv_q : Q;
  tv_r : Q;
  tv_target_q : option Z;
  tv_target_r : option Z;
  tv_hp : Z;
  tv_max_hp : Z;
  tv_alive : bool;
  tv_color : string;
  tv_facing : Q;
  tv_score : Z;
  tv_path : list Hex;
  tv_private : option TankPrivate
}.

(** [Tank.to_dict(for_player)] *)
Definition Tank_to_dict (for_player : option string) (t : Tank) : TankView :=
  mkTankView (t_id t) (t_player_id t) (t_q t) (t_r t) (t_target_q t)
    (t_target_r t) (t_hp t) (t_max_hp t) (t_alive t) (t_color t) (t_facing t)
    (t_score t) (t_path t)
    (if is_player for_player (t_player_id t)
     then Some (mkTankPrivate (t_fuel t) (t_ammo t) (t_gears t)
                  (t_move_speed t) (t_vision t) (t_ammo_cost t)
                  (t_upgrades t) (t_respawn_timer t))
     else None).

(** [Fort.to_dict] copies the eight fields of the fort. *)
Definition Fort_to_dict (f : Fort) : Fort := f.

Record ShellView := mkShellView {
  sv_id : string;
  sv_owner_id : string;
  sv_q : Q;
  sv_r : Q;
  sv_target_q : Z;
  sv_target_r : Z
}.

(** [Shell.to_dict] *)
Definition Shell_to_dict (s : Shell) : ShellView :=
  mkShellView (s_id s) (s_owner_id s) (s_q s) (s_r s)
              (s_target_q s) (s_target_r s).

Record Score := mkScore {
  sc_pid : string;
  sc_name : string;
  sc_score : Z;
  sc_color : string;
  sc_forts : Z;
  sc_kills : Z;
  sc_deaths : Z;
  sc_captures : Z
}.

Record Votes := mkVotes {
  votes_cast : Z;
  votes_total : Z;
  votes_voted_pids : list string;
  votes_my_voted : bool
}.

Record Snapshot := mkSnapshot {
  snap_tick : Z;
  snap_player_id : string;
  snap_tanks : Py.dict TankView;
  snap_forts : Py.dict Fort;
  snap_shells : Py.dict ShellView;
  snap_visible_hexes : list Hex;
  snap_leaderboard : list Score;
  snap_map_radius : Z;
  snap_match_timer : Q;
  snap_match_over : bool;
  snap_post_match_timer : Q;
  snap_votes : Votes;
  snap_winner_name : option string;
  snap_winner_color : option string
}.

(** [h in visible] for a set of cells. *)
Definition mem_hex (h : Hex) (cells : list Hex) : bool :=
  existsb (fun c => (fst c =? fst h)%Z && (snd c =? snd h)%Z) cells.

(** [out = {}; for k, v in d.items(): if sel(k, v): out[k] = f(v)] *)
Definition dict_collect {V W} (sel : string -> V -> bool) (f : V -> W)
           (d : Py.dict V) : Py.dict W :=
  fold_left (fun out kv =>
               if sel (fst kv) (snd kv)
               then Py.set (fst kv) (f (snd kv)) out
               else out)
            d [].

(** [next((p["name"] for p in players.values() if p["id"] == pid), pid)] *)
Definition player_name (pid : string) (g : GameState) : string :=
  match player_by_id pid g with
  | Some p => p_name p
  | None => pid
  end.

(** [sum(1 for f in forts.values() if f.owner == pid)] *)
Definition forts_owned (pid : string) (g : GameState) : Z :=
  Z.of_nat (List.length
              (filter (fun f => is_player (f_owner f) pid)
                      (Py.values (forts g)))).

Definition score_entry (g : GameState) (kt : string * Tank) : Score :=
  let '(pid, t) := kt in
  mkScore pid (player_name pid g) (t_score t) (t_color t) (forts_owned pid g)
          (t_kills t) (t_deaths t) (t_fort_captures t).

(** The list [scores] after [scores.sort(key=score, reverse=True)]. *)
Definition leaderboard (g : GameState) : list Score :=
  Py.sort_desc (fun s => inject_Z (sc_score s)) (map (score_entry g) (tanks g)).

(** [get_state_for]; [None] is the empty dictionary returned when the
    player has no tank.  [visible] is a set in the source: the order of
    [snap_visible_hexes] and of [votes_voted_pids] carries no meaning. *)
Definition get_state_for (player_id : string) (g : GameState)
  : option Snapshot :=
  match Py.get player_id (tanks g) with
  | None => None
  | Some tank =>
      let visible :=
        hex_range (Py.round (t_q tank), Py.round (t_r tank)) (t_vision tank) in
      let tanks_data :=
        dict_collect
          (fun pid t =>
             String.eqb pid player_id
             || mem_hex (Py.round (t_q t), Py.round (t_r t)) visible)
          (Tank_to_dict (Some player_id)) (tanks g) in
      let forts_data :=
        dict_collect
          (fun _ f => mem_hex (f_q f, f_r f) visible
                      || is_player (f_owner f) player_id)
          Fort_to_dict (forts g) in
      let shells_data :=
        dict_collect
          (fun _ s => mem_hex (Py.round (s_q s), Py.round (s_r s)) visible
                      || String.eqb (s_owner_id s) player_id)
          Shell_to_dict (shells g) in
      let scores := leaderboard g in
      let votes_data :=
        mkVotes (Z.of_nat (List.length (rematch_votes g)))
                (Z.of_nat (List.length (tanks g)))
                (rematch_votes g)
                (mem_string player_id (rematch_votes g)) in
      let winner := hd_error scores in
      Some (mkSnapshot (tick g) player_id tanks_data forts_data shells_data
              visible scores MAP_RADIUS (match_timer g) (match_over g)
              (post_match_timer g) votes_data
              (match winner with
               | Some w => if match_over g then Some (sc_name w) else None
               | None => None
               end)
              (match winner with
               | Some w => if match_over g then Some (sc_color w) else None
               | None => None
               end))
  end.

(** The rounded cell of a tank. *)
Definition tank_cell (t : Tank) : Hex := (Py.round (t_q t), Py.round (t_r t)).

(** Two joined players, Bob two cells from Ann, a fort next to Ann and one
    out of her sight that she owns. *)
Definition fog_game : GameState :=
  two_player_game_on
    [("fort_0", mkFort "fort_0" 0 5 FUEL None 0 None false);
     ("fort_1", mkFort "fort_1" 0 (-8) AMMO (Some "p1") 5 None true);
     ("fort_2", mkFort "fort_2" 5 (-8) GEAR None 0 None false)]%string.


(* ------------------------------------------------------------------ *)
(** ** Start-up: [_generate_forts] and [__init__] *)

(** [str(i)] for a non-negative index. *)
Definition str_of_nat (i : nat) : string :=
  NilEmpty.string_of_uint (Nat.to_uint i).

(** [[FUEL]*4 + [AMMO]*4 + [GEAR]*2 + [MIXED]*2] *)
Definition fort_types : list FortType :=
  repeat FUEL 4 ++ repeat AMMO 4 ++ repeat GEAR 2 ++ repeat MIXED 2.

(** The cells that [_generate_forts] shuffles: the map without the centre
    and the two rings around it.  The source lists them in the iteration
    order of a set, which the shuffle makes irrelevant. *)
Definition fort_candidates : list Hex :=
  filter (fun h => (3 <=? hex_distance h (0, 0))%Z)
         (all_hexes_in_radius MAP_RADIUS).

(** The loop [for i, ftype in enumerate(types)] from index [i] on, with its
    [break] when the cells run out. *)
Fixpoint place_forts (i : nat) (types : list FortType) (hexes : list Hex)
         (fs : Py.dict Fort) : Py.dict Fort :=
  match types with
  | [] => fs
  | ftype :: rest =>
      match nth_error hexes i with
      | None => fs
      | Some (q, r) =>
          let fid := ("fort_" ++ str_of_nat i)%string in
          place_forts (S i) rest hexes
            (Py.set fid (mkFort fid q r ftype None 0 None false) fs)
      end
  end.

(** [_generate_forts]; [shuffled] is the list of candidate cells as
    [random.shuffle] leaves it. *)
Definition _generate_forts (shuffled : list Hex) : Py.dict Fort :=
  place_forts 0 fort_types shuffled [].

(** [GameState()] *)
Definition init_game (shuffled : list Hex) : GameState :=
  new_game (_generate_forts shuffled).

Definition fort_cell (f : Fort) : Hex := (f_q f, f_r f).


(* ------------------------------------------------------------------ *)
(** ** The updates a tick applies to a tank

    Every assignment to a tank inside [tick_update] is one of the
    following; [slain], [looted], [rewarded], [credited_capture] and
    [respawned] name the values that [_shell_impact], [_update_captures]
    and [_check_respawns] store. *)

(** A lethal hit of damage [dmg]: the victim as [_shell_impact] stores it
    before any loot. *)
Definition slain (dmg : Z) (t : Tank) : Tank :=
  Tank_.with_path []
    (Tank_.with_respawn_timer RESPAWN_TIME
       (Tank_.with_alive false
          (Tank_.with_hp 0 (Tank_.with_hp (t_hp t - dmg)%Z t)))).

(** The victim after the death count and the loot. *)
Definition looted (fuel_ratio ammo_ratio gear_ratio : Q) (t : Tank) : Tank :=
  loot_victim fuel_ratio ammo_ratio gear_ratio
    (Tank_.with_deaths (t_deaths t + 1)%Z t).

(** The shooter after score, kill count and gear reward. *)
Definition rewarded (gear_lost u : Q) (t : Tank) : Tank :=
  loot_shooter gear_lost u
    (Tank_.with_kills (t_kills t + 1)%Z
       (Tank_.with_score (t_score t + 10)%Z t)).

(** The capturer after a completed capture. *)
Definition credited_capture (t : Tank) : Tank :=
  Tank_.with_fort_captures (t_fort_captures t + 1)%Z
    (Tank_.with_score (t_score t + 5)%Z t).

(** A dead tank one tick later, still waiting. *)
Definition waiting (dt : Q) (t : Tank) : Tank :=
  Tank_.with_respawn_timer (t_respawn_timer t - dt) t.

(** A dead tank brought back at the start cell [sp]. *)
Definition respawned (dt : Q) (sp : Hex) (t : Tank) : Tank :=
  Tank_.with_path []
    (Tank_.with_pos (inject_Z (fst sp)) (inject_Z (snd sp))
       (Tank_.with_respawn_timer 0
          (Tank_.with_hp (t_max_hp t)
             (Tank_.with_alive true (waiting dt t))))).

Inductive tick_touch (sqrt : Q -> Q) (atan2 : Q -> Q -> Q) (dt : Q)
  : Tank -> Tank -> Prop :=
| touch_move t :
    tick_touch sqrt atan2 dt t (move_tank sqrt atan2 dt t)
| touch_damage t dmg :
    t_alive t = true -> (0 < t_hp t - dmg)%Z ->
    tick_touch sqrt atan2 dt t (Tank_.with_hp (t_hp t - dmg)%Z t)
| touch_die t dmg :
    t_alive t = true -> (t_hp t - dmg <= 0)%Z ->
    tick_touch sqrt atan2 dt t (slain dmg t)
| touch_loot t fuel_ratio ammo_ratio gear_ratio :
    tick_touch sqrt atan2 dt t (looted fuel_ratio ammo_ratio gear_ratio t)
| touch_reward t gear_lost u :
    tick_touch sqrt atan2 dt t (rewarded gear_lost u t)
| touch_capture t :
    tick_touch sqrt atan2 dt t (credited_capture t)
| touch_credit t ftypes :
    t_alive t = true ->
    tick_touch sqrt atan2 dt t (fold_left (credit dt) ftypes t)
| touch_wait t :
    t_alive t = false -> 0 < t_respawn_timer t - dt ->
    tick_touch sqrt atan2 dt t (waiting dt t)
| touch_respawn t sp :
    t_alive t = false -> t_respawn_timer t - dt <= 0 -> In sp starts ->
    tick_touch sqrt atan2 dt t (respawned dt sp t).

(** A property of every stored tank, which may mention the key the tank
    is stored under. *)
Definition each_tank (P : string -> Tank -> Prop) (g : GameState) : Prop :=
  Forall (fun kt => P (fst kt) (snd kt)) (tanks g).


(* ------------------------------------------------------------------ *)
(** ** Invariants of the tanks of a running server *)

(** A tank is stored under its player's identifier. *)
Definition stored_under (pid : string) (t : Tank) : Prop :=
  t_player_id t = pid /\ t_id t = ("tank_" ++ pid)%string.

(** The derived statistics are determined by the upgrade levels. *)
Definition stats_ok (t : Tank) : Prop :=
  (forall ty, (0 <= upgrade_level t ty <= UPGRADE_MAX_LVL)%Z)
  /\ t_max_hp t = (TANK_MAX_HP + 20 * upgrade_level t "armor")%Z
  /\ t_shell_damage t = (SHELL_DAMAGE + 10 * upgrade_level t "cannon")%Z
  /\ t_vision t = (FOG_RANGE + upgrade_level t "sensor")%Z
  /\ t_move_speed t
     == MOVE_SPEED_BASE + (4 # 10) * inject_Z (upgrade_level t "engine")
  /\ t_ammo_cost t
     == AMMO_SHOOT - 2 * inject_Z (upgrade_level t "loader").

(** Living tanks have health and no respawn timer; dead tanks have no
    path and a running respawn timer. *)
Definition life_ok (t : Tank) : Prop :=
  (TANK_MAX_HP <= t_max_hp t)%Z
  /\ (t_alive t = true -> (0 < t_hp t)%Z /\ t_respawn_timer t == 0)
  /\ (t_alive t = false ->
      t_path t = []
      /\ 0 < t_respawn_timer t /\ t_respawn_timer t <= RESPAWN_TIME).

(** The fields that no phase of a tick assigns. *)
Definition build_kept (t t' : Tank) : Prop :=
  t_id t' = t_id t /\ t_player_id t' = t_player_id t
  /\ t_color t' = t_color t /\ t_max_hp t' = t_max_hp t
  /\ t_move_speed t' = t_move_speed t /\ t_vision t' = t_vision t
  /\ t_shell_damage t' = t_shell_damage t
  /\ t_ammo_cost t' = t_ammo_cost t /\ t_upgrades t' = t_upgrades t
  /\ t_last_shot t' = t_last_shot t.

(** The fields that decide whether a tank is in play. *)
Definition life_kept (t t' : Tank) : Prop :=
  t_hp t' = t_hp t /\ t_alive t' = t_alive t
  /\ t_respawn_timer t' = t_respawn_timer t.


(** ** Invariants of the game state *)

(** While the match runs the match timer is positive and nobody has voted;
    once it is over the match timer is zero and the post-match countdown
    is running. *)
Definition clock_ok (g : GameState) : Prop :=
  if match_over g
  then match_timer g == 0
       /\ 0 < post_match_timer g /\ post_match_timer g < POST_MATCH_TIME
  else 0 < match_timer g /\ match_timer g <= MATCH_TIME
       /\ rematch_votes g = [].

(** The dictionaries have no repeated key and the vote set no repeated
    element. *)
Definition distinct_keys (g : GameState) : Prop :=
  NoDup (Py.keys (players g)) /\ NoDup (Py.keys (tanks g))
  /\ NoDup (Py.keys (shells g)) /\ NoDup (rematch_votes g).

Definition tidy (g : GameState) : Prop :=
  (List.length (players g) <= MAX_PLAYERS)%nat
  /\ distinct_keys g /\ clock_ok g.

(** What the five phases of a tick leave as it was: the players, the keys
    of the tanks and of the forts, the clock, the votes and the tick
    counter; shells are only ever removed. *)
Definition tick_frame (g0 g : GameState) : Prop :=
  players g = players g0
  /\ Py.keys (tanks g) = Py.keys (tanks g0)
  /\ Py.keys (forts g) = Py.keys (forts g0)
  /\ incl (Py.keys (shells g)) (Py.keys (shells g0))
  /\ (NoDup (Py.keys (shells g0)) -> NoDup (Py.keys (shells g)))
  /\ tick g = tick g0
  /\ match_timer g = match_timer g0
  /\ match_over g = match_over g0
  /\ post_match_timer g = post_match_timer g0
  /\ rematch_votes g = rematch_votes g0.

(** What a shooter keeps and gains while the shell's victims are
    processed. *)
Definition shooter_kept (t t' : Tank) : Prop :=
  t_hp t' = t_hp t /\ t_alive t' = t_alive t
  /\ (t_q t', t_r t') = (t_q t, t_r t) /\ t_path t' = t_path t
  /\ (t_fuel t', t_ammo t') = (t_fuel t, t_ammo t)
  /\ (t_score t <= t_score t')%Z /\ (t_kills t <= t_kills t')%Z
  /\ t_deaths t' = t_deaths t.


(** The types of the forts that [pid] owns, in the order of the fort
    dictionary. *)
Definition fort_types_of (pid : string) (g : GameState) : list FortType :=
  map f_ftype
      (filter (fun f => is_player (f_owner f) pid) (Py.values (forts g))).

Definition gives_fuel (ft : FortType) : bool :=
  match ft with FUEL | MIXED => true | _ => false end.
Definition gives_ammo (ft : FortType) : bool :=
  match ft with AMMO | MIXED => true | _ => false end.
Definition gives_gears (ft : FortType) : bool :=
  match ft with GEAR | MIXED => true | _ => false end.

(** The number of forts in [types] that produce a resource, as a
    rational. *)
Definition count_of (gives : FortType -> bool) (types : list FortType) : Q :=
  inject_Z (Z.of_nat (List.length (filter gives types))).

(** The loop bodies of [_generate_resources]. *)
Definition owned_step (acc : Py.dict (list FortType)) (fort : Fort)
  : Py.dict (list FortType) :=
  match f_owner fort with
  | Some owner =>
      if truthy (f_owner fort)
      then Py.set owner
             (match Py.get owner acc with Some l => l | None => [] end
              ++ [f_ftype fort]) acc
      else acc
  | None => acc
  end.

Definition resources_step (dt : Q) (g : GameState)
           (entry : string * list FortType) : GameState :=
  let '(pid, ftypes) := entry in
  match Py.get pid (tanks g) with
  | None => g
  | Some tank =>
      if negb (t_alive tank) then g
      else Game_.put_tank pid (fold_left (credit dt) ftypes tank) g
  end.


(** A shell one step closer to its target. *)
Definition flown (sqrt : Q -> Q) (dt : Q) (s : Shell) : Shell :=
  let dq := inject_Z (s_target_q s) - s_q s in
  let dr := inject_Z (s_target_r s) - s_r s in
  let dist := sqrt (dq * dq + dr * dr) in
  let step := s_speed s * dt in
  Shell_.with_pos (s_q s + (dq / dist) * step) (s_r s + (dr / dist) * step) s.

(** The shell reaches its target within this step. *)
Definition lands (sqrt : Q -> Q) (dt : Q) (s : Shell) : bool :=
  let dq := inject_Z (s_target_q s) - s_q s in
  let dr := inject_Z (s_target_r s) - s_r s in
  Py.Qleb (sqrt (dq * dq + dr * dr)) (s_speed s * dt).

(** What the loop of [_move_shells] knows about one shell: its entry and
    whether it has been marked for removal. *)
Definition shell_at (sid : string) (acc : Sim * list string)
  : option (option Shell * bool) :=
  Some (Py.get sid (shells (fst (fst acc))), mem_string sid (snd acc)).


(** A tank that has a path is heading for the last cell of it. *)
Definition route_ok (t : Tank) : Prop :=
  t_path t <> [] ->
  t_target_q t = Some (fst (List.last (t_path t) (0, 0)%Z))
  /\ t_target_r t = Some (snd (List.last (t_path t) (0, 0)%Z)).

(** ** Invariant of the forts *)

(** With [K] the player identifiers that have a tank: an owner has a
    tank, an owned fort has its ever-owned flag set and is not being
    captured by its owner, and a capturing player has a tank. *)
Definition fort_sound (K : list string) (f : Fort) : Prop :=
  (forall p, f_owner f = Some p ->
             In p K /\ f_was_owned f = true
             /\ f_capturing_player f <> Some p)
  /\ (forall p, f_capturing_player f = Some p -> In p K).

Definition forts_sound (g : GameState) : Prop :=
  Forall (fort_sound (Py.keys (tanks g))) (Py.values (forts g)).

(** The score is ten points per kill and five per captured fort. *)
Definition score_ok (t : Tank) : Prop :=
  t_score t = (10 * t_kills t + 5 * t_fort_captures t)%Z
  /\ (0 <= t_kills t)%Z /\ (0 <= t_fort_captures t)%Z
  /\ (0 <= t_deaths t)%Z.

(** The four counters of a tank. *)
Definition counters (t : Tank) : Z * Z * Z * Z :=
  (t_score t, t_kills t, t_fort_captures t, t_deaths t).

(* ================================================================== *)
(** * Properties *)

(** ** The embedding on small inputs *)

Example round_ties_to_even :
  map Py.round [1 # 2; 3 # 2; 5 # 2; - (1 # 2); - (3 # 2); 7 # 10; - (7 # 10)]
  = [0; 2; 2; 0; -2; 1; -1]%Z.
Proof. reflexivity. Qed.

Example hex_distance_examples :
  hex_distance (0, 0)%Z (2, 2)%Z = 4%Z
  /\ hex_distance (0, 4)%Z (0, -4)%Z = 8%Z
  /\ hex_distance (-4, 0)%Z (0, 4)%Z = 8%Z
  /\ hex_distance (1, -1)%Z (0, 0)%Z = 1%Z.
Proof. repeat split. Qed.

Example hex_range_radius_1 :
  hex_range (0, 0)%Z 1
  = [(-1, 0); (-1, 1); (0, -1); (0, 0); (0, 1); (1, -1); (1, 0)]%Z.
Proof. reflexivity. Qed.

Example hex_range_negative_radius : hex_range (0, 0)%Z (-1) = [].
Proof. reflexivity. Qed.

Example hex_line_along_an_axis :
  hex_line (0, 0)%Z (3, 0)%Z = [(0, 0); (1, 0); (2, 0); (3, 0)]%Z.
Proof. vm_compute. reflexivity. Qed.

Example sort_desc_is_stable :
  Py.sort_desc (fun p : Q * string => fst p)
               [(1, "a"); (2, "b"); (1, "c"); (2, "d")]%string
  = [(2, "b"); (2, "d"); (1, "a"); (1, "c")]%string.
Proof. reflexivity. Qed.

Example index_like_python :
  Py.index lvl_costs 0 = Some 5 /\ Py.index lvl_costs 2 = Some 18
  /\ Py.index lvl_costs (-1) = Some 18 /\ Py.index lvl_costs 3 = None
  /\ Py.index lvl_costs (-4) = None.
Proof. repeat split. Qed.

(** ** Comparisons on rationals *)

Lemma Qltb_lt x y : Py.Qltb x y = true <-> x < y.
Proof.
  unfold Py.Qltb. rewrite Qlt_alt. destruct (x ?= y); split; congruence.
Qed.

Lemma Qltb_ge x y : Py.Qltb x y = false <-> y <= x.
Proof.
  unfold Py.Qltb. rewrite Qle_alt, <- (Qcompare_antisym x y).
  destruct (x ?= y); simpl; split; intros; try discriminate; try congruence.
Qed.

Lemma Qleb_le x y : Py.Qleb x y = true <-> x <= y.
Proof.
  unfold Py.Qleb. rewrite Qle_alt. destruct (x ?= y); split; congruence.
Qed.

Lemma Qleb_gt x y : Py.Qleb x y = false <-> y < x.
Proof.
  unfold Py.Qleb. rewrite Qlt_alt, <- (Qcompare_antisym x y).
  destruct (x ?= y); simpl; split; intros; try discriminate; try congruence.
Qed.

Lemma Qeqb_eq x y : Py.Qeqb x y = true <-> x == y.
Proof.
  unfold Py.Qeqb. rewrite Qeq_alt. destruct (x ?= y); split; congruence.
Qed.

Lemma py_min_spec a b :
  (b < a /\ Py.min a b = b) \/ (a <= b /\ Py.min a b = a).
Proof.
  unfold Py.min. destruct (Py.Qltb b a) eqn:E.
  - left. split; [now apply Qltb_lt | reflexivity].
  - right. split; [now apply Qltb_ge | reflexivity].
Qed.

Lemma py_max_spec a b :
  (a < b /\ Py.max a b = b) \/ (b <= a /\ Py.max a b = a).
Proof.
  unfold Py.max. destruct (Py.Qltb a b) eqn:E.
  - left. split; [now apply Qltb_lt | reflexivity].
  - right. split; [now apply Qltb_ge | reflexivity].
Qed.

(** ** Hex geometry *)

Section HexDistance.
Local Open Scope Z_scope.

Lemma abs_sum_even x y :
  exists k, Z.abs x + Z.abs (x + y) + Z.abs y = 2 * k /\ 0 <= k.
Proof.
  destruct (Z.abs_spec x) as [[? ->]|[? ->]],
           (Z.abs_spec y) as [[? ->]|[? ->]],
           (Z.abs_spec (x + y)) as [[? ->]|[? ->]]; try lia.
  all: first [ exists (x + y); lia | exists x; lia | exists y; lia
             | exists (- x); lia | exists (- y); lia
             | exists (- x - y); lia ].
Qed.

Lemma hex_distance_double a b :
  2 * hex_distance a b =
  Z.abs (fst a - fst b) + Z.abs (fst a + snd a - fst b - snd b)
  + Z.abs (snd a - snd b).
Proof.
  unfold hex_distance.
  destruct (abs_sum_even (fst a - fst b) (snd a - snd b)) as (k & E & _).
  replace (fst a + snd a - fst b - snd b)
    with (fst a - fst b + (snd a - snd b)) by ring.
  rewrite E, (Z.mul_comm 2 k), Z.div_mul by lia. ring.
Qed.

Lemma hex_distance_nonneg a b : 0 <= hex_distance a b.
Proof. pose proof (hex_distance_double a b). lia. Qed.

Lemma hex_distance_sym a b : hex_distance a b = hex_distance b a.
Proof.
  pose proof (hex_distance_double a b). pose proof (hex_distance_double b a).
  lia.
Qed.

Lemma hex_distance_zero a b : hex_distance a b = 0 <-> a = b.
Proof.
  pose proof (hex_distance_double a b) as D.
  destruct a as [aq ar], b as [bq br]; cbn [fst snd] in D. split; intro H.
  - rewrite H in D. f_equal; lia.
  - inversion H; subst. lia.
Qed.

Lemma hex_distance_triangle a b c :
  hex_distance a c <= hex_distance a b + hex_distance b c.
Proof.
  pose proof (hex_distance_double a b). pose proof (hex_distance_double b c).
  pose proof (hex_distance_double a c). lia.
Qed.
End HexDistance.

Section HexRange.
Local Open Scope Z_scope.

Lemma range_length a b : List.length (Py.range a b) = Z.to_nat (b - a).
Proof. unfold Py.range. now rewrite length_map, length_seq. Qed.

Lemma range_In a b x : In x (Py.range a b) <-> a <= x < b.
Proof.
  unfold Py.range. rewrite in_map_iff. split.
  - intros (i & <- & Hi). apply in_seq in Hi. lia.
  - intros H. exists (Z.to_nat (x - a)). split; [lia |].
    apply in_seq. lia.
Qed.

Lemma range_NoDup a b : NoDup (Py.range a b).
Proof.
  unfold Py.range. apply NoDup_map_NoDup_ForallPairs; [| apply seq_NoDup].
  intros x y _ _ E. lia.
Qed.

Lemma NoDup_flat_map_disjoint {A B} (f : A -> list B) (l : list A) :
  NoDup l ->
  (forall x, In x l -> NoDup (f x)) ->
  (forall x y b, In x l -> In y l -> In b (f x) -> In b (f y) -> x = y) ->
  NoDup (flat_map f l).
Proof.
  induction 1 as [| x l Hx Hl IH]; intros Hf Hd; simpl.
  - constructor.
  - apply NoDup_app.
    + apply Hf. now left.
    + apply IH.
      * intros y Hy. apply Hf. now right.
      * intros y z b Hy Hz. apply Hd; now right.
    + intros b Hb Hb'. apply in_flat_map in Hb' as (y & Hy & Hby).
      assert (x = y) by (apply (Hd x y b); simpl; auto).
      subst. contradiction.
Qed.

Lemma hex_range_NoDup c k : NoDup (hex_range c k).
Proof.
  unfold hex_range. apply NoDup_flat_map_disjoint.
  - apply range_NoDup.
  - intros dq _. apply NoDup_map_NoDup_ForallPairs; [| apply range_NoDup].
    intros x y _ _ E. inversion E. lia.
  - intros x y b _ _ Hx Hy.
    apply in_map_iff in Hx as (dx & <- & _).
    apply in_map_iff in Hy as (dy & E & _). inversion E. lia.
Qed.

(** Cells in the column at offset [i - K] from the centre. *)
Lemma column_sum_lower (h : nat -> nat) (K : nat) :
  (forall i, (i <= K)%nat -> h i = (K + 1 + i)%nat) ->
  forall n, (n <= K + 1)%nat ->
    2 * Z.of_nat (list_sum (map h (seq 0 n)))
    = Z.of_nat n * (2 * Z.of_nat K + 2) + Z.of_nat n * (Z.of_nat n - 1).
Proof.
  intros Hh. induction n as [| n IH]; intros Hn.
  - reflexivity.
  - rewrite seq_S, map_app, list_sum_app. cbn [map list_sum].
    rewrite Hh by lia. specialize (IH ltac:(lia)).
    unfold list_sum at 2. cbn [fold_right]. nia.
Qed.

Lemma column_sum_upper (h : nat -> nat) (K : nat) :
  (forall i, (K < i <= 2 * K)%nat -> h i = (3 * K + 1 - i)%nat) ->
  forall n, (n <= K)%nat ->
    2 * Z.of_nat (list_sum (map h (seq (K + 1) n)))
    = 4 * Z.of_nat K * Z.of_nat n - Z.of_nat n * (Z.of_nat n - 1).
Proof.
  intros Hh. induction n as [| n IH]; intros Hn.
  - simpl. lia.
  - rewrite seq_S, map_app, list_sum_app. cbn [map list_sum].
    rewrite Hh by lia. specialize (IH ltac:(lia)).
    unfold list_sum at 2. cbn [fold_right]. nia.
Qed.

Lemma hex_range_length c k :
  0 <= k -> Z.of_nat (List.length (hex_range c k)) = 1 + 3 * k * (k + 1).
Proof.
  intros Hk. unfold hex_range. rewrite length_flat_map.
  unfold Py.range at 2. rewrite map_map.
  set (K := Z.to_nat k).
  replace (Z.to_nat (k + 1 - - k)) with (K + 1 + K)%nat by lia.
  set (h := fun i : nat => List.length _).
  assert (Hlow : forall i, (i <= K)%nat -> h i = (K + 1 + i)%nat).
  { intros i Hi. unfold h. rewrite length_map, range_length. lia. }
  assert (Hup : forall i, (K < i <= 2 * K)%nat -> h i = (3 * K + 1 - i)%nat).
  { intros i Hi. unfold h. rewrite length_map, range_length. lia. }
  rewrite seq_app, map_app, list_sum_app. simpl (0 + _)%nat.
  pose proof (column_sum_lower h K Hlow (K + 1)%nat ltac:(lia)) as L.
  pose proof (column_sum_upper h K Hup K ltac:(lia)) as U.
  nia.
Qed.
End HexRange.

(** C9. [hex_distance] is a metric on cells with non-negative integer
    values (non-negative, symmetric, zero exactly on equal cells, triangle
    inequality), and for every centre [c] and every [k >= 0],
    [hex_range c k] lists exactly [1 + 3k(k+1)] cells without repetition. *)
Theorem hex_distance_metric_and_range_count :
  (forall a b c : Hex,
      (0 <= hex_distance a b)%Z
      /\ hex_distance a b = hex_distance b a
      /\ (hex_distance a b = 0%Z <-> a = b)
      /\ (hex_distance a c <= hex_distance a b + hex_distance b c)%Z)
  /\ (forall (c : Hex) (k : Z),
         (0 <= k)%Z ->
         Z.of_nat (List.length (hex_range c k)) = (1 + 3 * k * (k + 1))%Z
         /\ NoDup (hex_range c k)).
Proof.
  split.
  - intros a b c. repeat split.
    + apply hex_distance_nonneg.
    + apply hex_distance_sym.
    + apply hex_distance_zero.
    + apply hex_distance_zero.
    + apply hex_distance_triangle.
  - intros c k Hk. split.
    + now apply hex_range_length.
    + apply hex_range_NoDup.
Qed.

Lemma hex_distance_metric_and_range_count_witness :
  (0 <= 2)%Z
  /\ Z.of_nat (List.length (hex_range (0, 0)%Z 2)) = 19%Z
  /\ NoDup (hex_range (0, 0)%Z 2).
Proof.
  split; [lia |].
  exact (proj2 hex_distance_metric_and_range_count (0, 0)%Z 2%Z ltac:(lia)).
Defined.

(** ** Hex line *)







(** ** Dictionaries *)

Section DictFacts.
Context {V : Type}.
Implicit Types (d : Py.dict V) (k : string) (v : V).

Lemma get_set_same k v d : Py.get k (Py.set k v d) = Some v.
Proof.
  induction d as [| [k' v'] d IH]; simpl.
  - now rewrite String.eqb_refl.
  - destruct (String.eqb k k') eqn:E; simpl; rewrite E; auto.
Qed.

Lemma get_set_other k k' v d :
  k <> k' -> Py.get k (Py.set k' v d) = Py.get k d.
Proof.
  intros N. induction d as [| [k0 v0] d IH]; simpl.
  - apply String.eqb_neq in N. now rewrite N.
  - destruct (String.eqb k' k0) eqn:E; simpl.
    + apply String.eqb_eq in E. subst k0.
      apply String.eqb_neq in N. now rewrite N.
    + destruct (String.eqb k k0); auto.
Qed.

Lemma keys_set_present k v v0 d :
  Py.get k d = Some v0 -> Py.keys (Py.set k v d) = Py.keys d.
Proof.
  unfold Py.keys. induction d as [| [k' v'] d IH]; simpl; [discriminate |].
  destruct (String.eqb k k') eqn:E; simpl; intros H; auto.
  now rewrite IH.
Qed.

Lemma length_set_fresh k v d :
  Py.get k d = None -> List.length (Py.set k v d) = S (List.length d).
Proof.
  induction d as [| [k' v'] d IH]; simpl; auto.
  destruct (String.eqb k k'); [discriminate |]. simpl. auto.
Qed.

Lemma get_In k v d : Py.get k d = Some v -> In (k, v) d.
Proof.
  induction d as [| [k' v'] d IH]; simpl; [discriminate |].
  destruct (String.eqb k k') eqn:E.
  - apply String.eqb_eq in E. intros [= ->]. subst. now left.
  - intros H. right. auto.
Qed.

Lemma In_keys_get k d : In k (Py.keys d) -> exists v, Py.get k d = Some v.
Proof.
  unfold Py.keys. induction d as [| [k' v'] d IH]; simpl; [tauto |].
  intros [-> | H].
  - rewrite String.eqb_refl. eauto.
  - destruct (String.eqb k k'); eauto.
Qed.

Lemma values_set_Forall (P : V -> Prop) k v d :
  P v -> Forall P (Py.values d) -> Forall P (Py.values (Py.set k v d)).
Proof.
  unfold Py.values. intros Hv. induction d as [| [k' v'] d IH]; simpl.
  - constructor; auto.
  - intros H. inversion H; subst.
    destruct (String.eqb k k'); simpl; constructor; auto.
Qed.

Lemma values_del_Forall (P : V -> Prop) k d :
  Forall P (Py.values d) -> Forall P (Py.values (Py.del k d)).
Proof.
  unfold Py.values. induction d as [| [k' v'] d IH]; simpl; auto.
  intros H. inversion H; subst.
  destruct (String.eqb k k'); simpl; auto.
Qed.

Lemma get_values_Forall (P : V -> Prop) k v d :
  Forall P (Py.values d) -> Py.get k d = Some v -> P v.
Proof.
  intros H G. apply get_In in G. rewrite Forall_forall in H. apply H.
  unfold Py.values. apply in_map_iff. now exists (k, v).
Qed.

End DictFacts.

(** ** Commands: failures and their effect on the state *)

Lemma set_tank_path_error_frame pid path g msg g' :
  set_tank_path pid path g = (Error msg, g') -> g' = g.
Proof.
  unfold set_tank_path. destruct (Py.get pid (tanks g)) as [t |].
  - destruct (t_alive t); simpl; destruct path; intros [=]; auto.
  - intros [=]; auto.
Qed.

Lemma upgrade_error_frame pid ty g msg g' :
  upgrade pid ty g = Returns (Error msg) g' -> g' = g.
Proof.
  unfold upgrade. destruct (Py.get pid (tanks g)) as [t |].
  - destruct (negb (mem_string ty UPGRADE_COSTS)); [intros [=]; auto |].
    destruct (UPGRADE_MAX_LVL <=? upgrade_level t ty)%Z; [intros [=]; auto |].
    destruct (Py.index lvl_costs (upgrade_level t ty)); [| discriminate].
    destruct (Py.Qltb (t_gears t) q); intros [=]; auto.
  - intros [=]; auto.
Qed.

Lemma cast_vote_error_frame pid g msg g' :
  cast_vote pid g = (Error msg, g') -> g' = g.
Proof.
  unfold cast_vote. destruct (negb (match_over g)); intros [=]; auto.
Qed.

(** What [shoot] leaves behind on each of its failures: nothing for a missing
    or dead tank and for an active cooldown, the new [last_shot] for a
    failed ammo or range check. *)
Lemma shoot_error_effect pid tq tr now created sid g msg g' :
  shoot pid tq tr now created sid g = (Error msg, g') ->
  ((msg = "tank not available" \/ msg = "cooldown")%string /\ g' = g)
  \/ ((msg = "not enough ammo" \/ msg = "out of range")%string
      /\ exists tank, Py.get pid (tanks g) = Some tank
                      /\ g' = Game_.put_tank pid
                                (Tank_.with_last_shot now tank) g).
Proof.
  unfold shoot. destruct (Py.get pid (tanks g)) as [t |].
  - destruct (negb (t_alive t)); [intros [= <- <-]; auto |].
    destruct (Py.Qltb (now - t_last_shot t) FIRE_COOLDOWN);
      [intros [= <- <-]; auto |].
    cbv zeta.
    destruct (Py.Qltb _ _); [intros [= <- <-]; right; eauto |].
    destruct (_ <? _)%Z; [intros [= <- <-]; right; eauto | discriminate].
  - intros [= <- <-]; auto.
Qed.

(** ** Shooting *)

Lemma shoot_unfold pid tq tr now created sid g tank :
  Py.get pid (tanks g) = Some tank ->
  t_alive tank = true ->
  shoot pid tq tr now created sid g =
  if Py.Qltb (now - t_last_shot tank) FIRE_COOLDOWN then (Error "cooldown", g)
  else
    let g1 := Game_.put_tank pid (Tank_.with_last_shot now tank) g in
    if Py.Qltb (t_ammo tank) (t_ammo_cost tank)
    then (Error "not enough ammo", g1)
    else if (5 + upgrade_level tank "cannon"
             <? hex_distance (Py.round (t_q tank), Py.round (t_r tank))
                             (tq, tr))%Z
    then (Error "out of range", g1)
    else
      (OkShell sid,
       Game_.put_shell sid
         (mkShell sid pid (t_q tank) (t_r tank) tq tr SHELL_SPEED
            (t_shell_damage tank + upgrade_level tank "cannon" * 5)%Z created)
         (Game_.put_tank pid
            (Tank_.with_ammo (t_ammo tank - t_ammo_cost tank)
               (Tank_.with_last_shot now tank)) g1)).
Proof.
  intros G A. unfold shoot. rewrite G, A. reflexivity.
Qed.

Lemma shoot_ok pid tq tr now created sid g tank :
  Py.get pid (tanks g) = Some tank ->
  t_alive tank = true ->
  FIRE_COOLDOWN <= now - t_last_shot tank ->
  t_ammo_cost tank <= t_ammo tank ->
  (hex_distance (Py.round (t_q tank), Py.round (t_r tank)) (tq, tr)
   <= 5 + upgrade_level tank "cannon")%Z ->
  fst (shoot pid tq tr now created sid g) = OkShell sid
  /\ Py.get pid (tanks (snd (shoot pid tq tr now created sid g)))
     = Some (Tank_.with_ammo (t_ammo tank - t_ammo_cost tank)
               (Tank_.with_last_shot now tank))
  /\ shells (snd (shoot pid tq tr now created sid g))
     = Py.set sid
         (mkShell sid pid (t_q tank) (t_r tank) tq tr SHELL_SPEED
            (t_shell_damage tank + upgrade_level tank "cannon" * 5)%Z created)
         (shells g).
Proof.
  intros G A Hc Ha Hr. rewrite (shoot_unfold _ _ _ _ _ _ _ _ G A).
  apply Qltb_ge in Hc. rewrite Hc. cbv zeta.
  apply Qltb_ge in Ha. rewrite Ha.
  apply Z.ltb_ge in Hr. rewrite Hr. cbn [fst snd].
  split; [reflexivity |]. split; [| reflexivity].
  cbn. apply get_set_same.
Qed.

Lemma shoot_no_ammo pid tq tr now created sid g tank :
  Py.get pid (tanks g) = Some tank ->
  t_alive tank = true ->
  FIRE_COOLDOWN <= now - t_last_shot tank ->
  t_ammo tank < t_ammo_cost tank ->
  fst (shoot pid tq tr now created sid g) = Error "not enough ammo".
Proof.
  intros G A Hc Ha. rewrite (shoot_unfold _ _ _ _ _ _ _ _ G A).
  apply Qltb_ge in Hc. rewrite Hc. cbv zeta.
  apply Qltb_lt in Ha. rewrite Ha. reflexivity.
Qed.

Lemma shoot_decision_chain pid tq tr now created sid g tank :
  Py.get pid (tanks g) = Some tank ->
  t_alive tank = true ->
  let res := shoot pid tq tr now created sid g in
  let elapsed := now - t_last_shot tank in
  let dist := hex_distance (Py.round (t_q tank), Py.round (t_r tank))
                           (tq, tr) in
  let max_range := (5 + upgrade_level tank "cannon")%Z in
  (fst res = Error "cooldown" <-> elapsed < FIRE_COOLDOWN)
  /\ (FIRE_COOLDOWN <= elapsed ->
      (fst res = Error "not enough ammo" <-> t_ammo tank < t_ammo_cost tank))
  /\ (FIRE_COOLDOWN <= elapsed -> t_ammo_cost tank <= t_ammo tank ->
      (fst res = Error "out of range" <-> (max_range < dist)%Z))
  /\ (FIRE_COOLDOWN <= elapsed -> t_ammo_cost tank <= t_ammo tank ->
      (dist <= max_range)%Z ->
      fst res = OkShell sid
      /\ (exists tank',
             Py.get pid (tanks (snd res)) = Some tank'
             /\ t_ammo tank' == t_ammo tank - t_ammo_cost tank)
      /\ (exists shell,
             shells (snd res) = Py.set sid shell (shells g)
             /\ Py.get sid (shells (snd res)) = Some shell
             /\ s_owner_id shell = pid
             /\ (s_target_q shell, s_target_r shell) = (tq, tr)
             /\ (Py.get sid (shells g) = None ->
                 List.length (shells (snd res))
                 = S (List.length (shells g))))).
Proof.
  intros G A res elapsed dist max_range.
  assert (U := shoot_unfold pid tq tr now created sid g tank G A).
  fold res in U. fold elapsed in U. fold dist in U. fold max_range in U.
  repeat split.
  - rewrite U. destruct (Py.Qltb elapsed FIRE_COOLDOWN) eqn:E.
    + intros _. now apply Qltb_lt.
    + cbv zeta.
      destruct (Py.Qltb (t_ammo tank) (t_ammo_cost tank));
        [cbn [fst]; discriminate |].
      destruct (max_range <? dist)%Z; cbn [fst]; discriminate.
  - intros H. apply Qltb_lt in H. rewrite U, H. reflexivity.
  - rewrite U. apply Qltb_ge in H. rewrite H. cbv zeta.
    destruct (Py.Qltb (t_ammo tank) _) eqn:E.
    + intros _. now apply Qltb_lt.
    + destruct (max_range <? dist)%Z; cbn [fst]; discriminate.
  - intros Ha. apply Qltb_ge in H. apply Qltb_lt in Ha.
    rewrite U, H. cbv zeta. rewrite Ha. reflexivity.
  - rewrite U. apply Qltb_ge in H, H0. rewrite H. cbv zeta. rewrite H0.
    destruct (max_range <? dist)%Z eqn:E.
    + intros _. now apply Z.ltb_lt.
    + cbn [fst]; discriminate.
  - intros Hr. apply Qltb_ge in H, H0. apply Z.ltb_lt in Hr.
    rewrite U, H. cbv zeta. rewrite H0, Hr. reflexivity.
  - apply (shoot_ok pid tq tr now created sid g tank); assumption.
  - destruct (shoot_ok pid tq tr now created sid g tank G A H H0 H1)
      as (_ & T & _).
    eexists. split; [exact T |]. cbn. reflexivity.
  - destruct (shoot_ok pid tq tr now created sid g tank G A H H0 H1)
      as (_ & _ & S).
    eexists. split; [exact S |]. subst res. rewrite S.
    split; [apply get_set_same |]. split; [reflexivity |].
    split; [reflexivity |]. apply length_set_fresh.
Qed.

Lemma last_cons_shift {A} (x : A) l : forall d,
  List.last (x :: l) d = List.last l x.
Proof.
  revert x. induction l as [| y l IH]; intros x d; [reflexivity |].
  change (List.last (y :: l) d = List.last (y :: l) x).
  now rewrite !IH.
Qed.

Lemma volley_all_hit pid shots : forall g tank,
  Py.get pid (tanks g) = Some tank ->
  t_alive tank = true ->
  0 <= t_ammo_cost tank ->
  cooldown_respected (t_last_shot tank) shots ->
  Forall (in_range tank) shots ->
  inject_Z (Z.of_nat (List.length shots)) * t_ammo_cost tank <= t_ammo tank ->
  fst (volley pid shots g) = map (fun s => OkShell (shot_sid s)) shots
  /\ exists tank',
      Py.get pid (tanks (snd (volley pid shots g))) = Some tank'
      /\ t_alive tank' = true
      /\ t_ammo tank'
         == t_ammo tank
            - inject_Z (Z.of_nat (List.length shots)) * t_ammo_cost tank
      /\ t_ammo_cost tank' = t_ammo_cost tank
      /\ t_last_shot tank'
         = List.last (map shot_now shots) (t_last_shot tank)
      /\ (forall s, in_range tank s -> in_range tank' s).
Proof.
  induction shots as [| s rest IH]; intros g tank G A Hpos Hc Hr Ha.
  - cbn. split; [reflexivity |]. exists tank. repeat split; auto.
    cbn. ring.
  - cbn [volley]. destruct Hc as [Hc Hrest].
    inversion Hr as [| ? ? Hs Hr']; subst.
    cbn [List.length] in Ha. rewrite Nat2Z.inj_succ, <- Z.add_1_r in Ha.
    rewrite inject_Z_plus in Ha. change (inject_Z 1) with 1 in Ha.
    set (n := inject_Z (Z.of_nat (List.length rest))) in *.
    assert (Hn : 0 <= n).
    { unfold n. change 0 with (inject_Z 0). rewrite <- Zle_Qle. lia. }
    assert (Hprod : 0 <= n * t_ammo_cost tank)
      by (apply Qmult_le_0_compat; auto).
    assert (Hone : t_ammo_cost tank <= t_ammo tank) by lra.
    destruct (shoot_ok pid (shot_q s) (shot_r s) (shot_now s) (shot_created s)
                (shot_sid s) g tank G A Hc Hone Hs) as (R & T & _).
    destruct (shoot pid (shot_q s) (shot_r s) (shot_now s) (shot_created s)
                    (shot_sid s) g) as [r g1] eqn:E.
    cbn [fst snd] in R, T. subst r.
    set (tank1 := Tank_.with_ammo _ _) in T.
    destruct (IH g1 tank1 T) as (R' & tank' & G' & A' & Am & Co & La & Ra);
      auto.
    { cbn. fold n. lra. }
    destruct (volley pid rest g1) as [rs g2] eqn:E2.
    cbn [fst snd] in *. split; [now rewrite R' |].
    exists tank'. repeat split; auto.
    + rewrite Am. cbn [List.length]. rewrite Nat2Z.inj_succ, <- Z.add_1_r.
      rewrite inject_Z_plus. change (inject_Z 1) with 1. fold n. cbn. ring.
    + rewrite La. cbn [map]. cbn [tank1 t_last_shot Tank_.with_ammo
                                   Tank_.with_last_shot].
      symmetry. apply last_cons_shift.
Qed.

Lemma volley_dry pid shots s : forall g tank,
  Py.get pid (tanks g) = Some tank ->
  t_alive tank = true ->
  0 <= t_ammo_cost tank ->
  cooldown_respected (t_last_shot tank) (shots ++ [s]) ->
  Forall (in_range tank) shots ->
  inject_Z (Z.of_nat (List.length shots)) * t_ammo_cost tank <= t_ammo tank ->
  t_ammo tank - inject_Z (Z.of_nat (List.length shots)) * t_ammo_cost tank
  < t_ammo_cost tank ->
  fst (volley pid (shots ++ [s]) g)
  = map (fun s => OkShell (shot_sid s)) shots ++ [Error "not enough ammo"].
Proof.
  induction shots as [| s1 rest IH]; intros g tank G A Hpos Hc Hr Ha Hd.
  - cbn [app volley]. destruct Hc as [Hc _].
    assert (E : fst (shoot pid (shot_q s) (shot_r s) (shot_now s)
                           (shot_created s) (shot_sid s) g)
                = Error "not enough ammo").
    { apply (shoot_no_ammo _ _ _ _ _ _ _ tank); auto.
      cbn [List.length Z.of_nat] in Hd. change (inject_Z 0) with 0 in Hd.
      lra. }
    destruct (shoot _ _ _ _ _ _ g) as [r g1]. cbn in E. subst r. reflexivity.
  - cbn [app volley]. destruct Hc as [Hc Hrest].
    inversion Hr as [| ? ? Hs Hr']; subst.
    cbn [List.length] in Ha, Hd.
    rewrite Nat2Z.inj_succ, <- Z.add_1_r, inject_Z_plus in Ha, Hd.
    change (inject_Z 1) with 1 in Ha, Hd.
    set (n := inject_Z (Z.of_nat (List.length rest))) in *.
    assert (Hn : 0 <= n).
    { unfold n. change 0 with (inject_Z 0). rewrite <- Zle_Qle. lia. }
    assert (Hprod : 0 <= n * t_ammo_cost tank)
      by (apply Qmult_le_0_compat; auto).
    assert (Hone : t_ammo_cost tank <= t_ammo tank) by lra.
    destruct (shoot_ok pid (shot_q s1) (shot_r s1) (shot_now s1)
                (shot_created s1) (shot_sid s1) g tank G A Hc Hone Hs)
      as (R & T & _).
    destruct (shoot pid (shot_q s1) (shot_r s1) (shot_now s1)
                    (shot_created s1) (shot_sid s1) g) as [r g1] eqn:E.
    cbn [fst snd] in R, T. subst r.
    set (tank1 := Tank_.with_ammo _ _) in T.
    assert (R' := IH g1 tank1 T).
    destruct (volley pid (rest ++ [s]) g1) as [rs g2] eqn:E2.
    cbn [fst snd] in R'. cbn [fst map app]. f_equal.
    apply R'; auto; cbn; fold n; lra.
Qed.

Lemma volley_fifty_ammo pid g tank shots :
  Py.get pid (tanks g) = Some tank ->
  t_alive tank = true ->
  t_ammo tank == 50 ->
  t_ammo_cost tank == 8 ->
  List.length shots = 7%nat ->
  cooldown_respected (t_last_shot tank) shots ->
  Forall (in_range tank) shots ->
  fst (volley pid shots g)
  = map (fun s => OkShell (shot_sid s)) (firstn 6 shots)
    ++ [Error "not enough ammo"]
  /\ exists tank6,
      Py.get pid (tanks (snd (volley pid (firstn 6 shots) g))) = Some tank6
      /\ t_ammo tank6 == 2.
Proof.
  intros G A Ha Hcost Hlen Hc Hr.
  destruct shots as [| s1 [| s2 [| s3 [| s4 [| s5 [| s6 [| s7 [| ? ?]]]]]]]];
    try discriminate Hlen.
  change (firstn 6 [s1; s2; s3; s4; s5; s6; s7])
    with [s1; s2; s3; s4; s5; s6].
  change [s1; s2; s3; s4; s5; s6; s7]
    with ([s1; s2; s3; s4; s5; s6] ++ [s7]) in Hc |- *.
  assert (Hr6 : Forall (in_range tank) [s1; s2; s3; s4; s5; s6]).
  { rewrite Forall_forall in *. intros x Hx. apply Hr. cbn in *. tauto. }
  assert (Hc6 : cooldown_respected (t_last_shot tank)
                  [s1; s2; s3; s4; s5; s6]).
  { cbn in *. tauto. }
  assert (L : inject_Z (Z.of_nat (List.length [s1; s2; s3; s4; s5; s6])) == 6)
    by reflexivity.
  split.
  - apply (volley_dry pid _ s7 g tank); auto; rewrite ?L; lra.
  - destruct (volley_all_hit pid [s1; s2; s3; s4; s5; s6] g tank)
      as (_ & tank6 & G6 & _ & Am & _); auto; rewrite ?L; try lra.
    exists tank6. split; [exact G6 |]. rewrite Am, L. lra.
Qed.

(** C6. For a living tank, [shoot] answers "cooldown" exactly when the
    time since the last shot is below [FIRE_COOLDOWN]; otherwise "not enough
    ammo" exactly when ammo is below the per-shot cost; otherwise "out of
    range" exactly when the hex distance from the rounded cell to the target
    exceeds 5 plus the cannon level; otherwise it succeeds, ammo drops by
    exactly the cost and one shell is stored under the new identifier.  A
    tank with ammo 50 and cost 8 that respects the cooldown gets six
    successful shots, is left with ammo 2, and its seventh shot is refused
    for lack of ammo. *)
Theorem shoot_checks_in_order_and_fifty_ammo_scenario :
  (forall pid tq tr now created sid g tank,
      Py.get pid (tanks g) = Some tank ->
      t_alive tank = true ->
      let res := shoot pid tq tr now created sid g in
      let elapsed := now - t_last_shot tank in
      let dist := hex_distance (Py.round (t_q tank), Py.round (t_r tank))
                               (tq, tr) in
      let max_range := (5 + upgrade_level tank "cannon")%Z in
      (fst res = Error "cooldown" <-> elapsed < FIRE_COOLDOWN)
      /\ (FIRE_COOLDOWN <= elapsed ->
          (fst res = Error "not enough ammo"
           <-> t_ammo tank < t_ammo_cost tank))
      /\ (FIRE_COOLDOWN <= elapsed -> t_ammo_cost tank <= t_ammo tank ->
          (fst res = Error "out of range" <-> (max_range < dist)%Z))
      /\ (FIRE_COOLDOWN <= elapsed -> t_ammo_cost tank <= t_ammo tank ->
          (dist <= max_range)%Z ->
          fst res = OkShell sid
          /\ (exists tank',
                 Py.get pid (tanks (snd res)) = Some tank'
                 /\ t_ammo tank' == t_ammo tank - t_ammo_cost tank)
          /\ (exists shell,
                 shells (snd res) = Py.set sid shell (shells g)
                 /\ Py.get sid (shells (snd res)) = Some shell
                 /\ s_owner_id shell = pid
                 /\ (s_target_q shell, s_target_r shell) = (tq, tr)
                 /\ (Py.get sid (shells g) = None ->
                     List.length (shells (snd res))
                     = S (List.length (shells g))))))
  /\ (forall pid g tank shots,
         Py.get pid (tanks g) = Some tank ->
         t_alive tank = true ->
         t_ammo tank == 50 ->
         t_ammo_cost tank == 8 ->
         List.length shots = 7%nat ->
         cooldown_respected (t_last_shot tank) shots ->
         Forall (in_range tank) shots ->
         fst (volley pid shots g)
         = map (fun s => OkShell (shot_sid s)) (firstn 6 shots)
           ++ [Error "not enough ammo"]
         /\ exists tank6,
             Py.get pid (tanks (snd (volley pid (firstn 6 shots) g)))
             = Some tank6
             /\ t_ammo tank6 == 2).
Proof.
  split.
  - intros pid tq tr now created sid g tank G A.
    exact (shoot_decision_chain pid tq tr now created sid g tank G A).
  - intros pid g tank shots. apply volley_fifty_ammo.
Qed.

Lemma shoot_checks_in_order_and_fifty_ammo_scenario_witness :
  (Py.get "p1" (tanks one_player_game) = Some one_player_tank
   /\ t_alive one_player_tank = true
   /\ t_ammo one_player_tank == 50
   /\ t_ammo_cost one_player_tank == 8
   /\ List.length seven_shots = 7%nat
   /\ cooldown_respected (t_last_shot one_player_tank) seven_shots
   /\ Forall (in_range one_player_tank) seven_shots)
  /\ fst (volley "p1" seven_shots one_player_game)
     = map (fun s => OkShell (shot_sid s)) (firstn 6 seven_shots)
       ++ [Error "not enough ammo"]
  /\ exists tank6,
      Py.get "p1" (tanks (snd (volley "p1" (firstn 6 seven_shots)
                                      one_player_game))) = Some tank6
      /\ t_ammo tank6 == 2.
Proof.
  assert (H1 : Py.get "p1" (tanks one_player_game) = Some one_player_tank)
    by reflexivity.
  assert (H2 : t_alive one_player_tank = true) by reflexivity.
  assert (H3 : t_ammo one_player_tank == 50) by reflexivity.
  assert (H4 : t_ammo_cost one_player_tank == 8) by reflexivity.
  assert (H5 : List.length seven_shots = 7%nat) by reflexivity.
  assert (H6 : cooldown_respected (t_last_shot one_player_tank) seven_shots).
  { cbn. repeat split; discriminate. }
  assert (H7 : Forall (in_range one_player_tank) seven_shots).
  { repeat constructor; discriminate. }
  split;
    [exact (conj H1 (conj H2 (conj H3 (conj H4 (conj H5 (conj H6 H7)))))) |].
  exact (proj2 shoot_checks_in_order_and_fifty_ammo_scenario
               "p1"%string one_player_game one_player_tank seven_shots
               H1 H2 H3 H4 H5 H6 H7).
Defined.

(** C1 at a failing input.  A player who has just joined (tank at [(0,4)],
    ammo 50, [last_shot = 0]) shoots at time 100 at the cell [(0,-4)], which
    is 8 cells away.  The command is refused as out of range, but the
    tank's [last_shot] has already been overwritten with 100: the state is
    not the one before the call, and a correct shot at time 100.5 is now
    refused by the cooldown. *)
Theorem refused_shot_overwrites_last_shot :
  let g := one_player_game in
  let res := shoot "p1" 0 (-4) 100 100 "s1" g in
  fst res = Error "out of range"
  /\ option_map t_last_shot (Py.get "p1" (tanks g)) = Some 0
  /\ option_map t_last_shot (Py.get "p1" (tanks (snd res))) = Some 100
  /\ snd res <> g
  /\ fst (shoot "p1" 0 5 (1005 # 10) (1005 # 10) "s2" (snd res))
     = Error "cooldown"
  /\ fst (shoot "p1" 0 5 (1005 # 10) (1005 # 10) "s2" g) = OkShell "s2".
Proof.
  cbv zeta. repeat split; try reflexivity.
  intros H. apply (f_equal (fun g => option_map t_last_shot
                                       (Py.get "p1" (tanks g)))) in H.
  vm_compute in H. discriminate H.
Qed.

(** The other command failures leave the state as it was: a missing or dead
    tank and an active cooldown in [shoot], every failure of
    [set_tank_path], [upgrade] and [cast_vote]; a refused ammo or range
    check changes nothing but the shooter's [last_shot]. *)
Lemma command_failures_frame :
  (forall pid path g msg g',
      set_tank_path pid path g = (Error msg, g') -> g' = g)
  /\ (forall pid ty g msg g',
         upgrade pid ty g = Returns (Error msg) g' -> g' = g)
  /\ (forall pid g msg g', cast_vote pid g = (Error msg, g') -> g' = g)
  /\ (forall pid tq tr now created sid g msg g',
         shoot pid tq tr now created sid g = (Error msg, g') ->
         g' = g
         \/ exists tank,
             Py.get pid (tanks g) = Some tank
             /\ g' = Game_.put_tank pid (Tank_.with_last_shot now tank) g).
Proof.
  split; [exact set_tank_path_error_frame |].
  split; [exact upgrade_error_frame |].
  split; [exact cast_vote_error_frame |].
  intros pid tq tr now created sid g msg g' H.
  destruct (shoot_error_effect _ _ _ _ _ _ _ _ _ H) as [[_ E] | [_ E]]; auto.
Qed.

(** ** Upgrades *)

(** The tank that a successful [upgrade] stores. *)
Lemma upgrade_unfold pid ty g tank lvl cost :
  Py.get pid (tanks g) = Some tank ->
  mem_string ty UPGRADE_COSTS = true ->
  upgrade_level tank ty = lvl ->
  (lvl < UPGRADE_MAX_LVL)%Z ->
  Py.index lvl_costs lvl = Some cost ->
  cost <= t_gears tank ->
  upgrade pid ty g
  = Returns (OkUpgrade ty (lvl + 1) UPGRADE_MAX_LVL)
      (Game_.put_tank pid
         (apply_upgrade ty
            (Tank_.with_upgrades (Py.set ty (lvl + 1)%Z (t_upgrades tank))
               (Tank_.with_gears (t_gears tank - cost) tank))) g).
Proof.
  intros G M L Hl I Hc. unfold upgrade. rewrite G, M, L. cbn [negb].
  apply Z.leb_gt in Hl. rewrite Hl, I.
  apply Qltb_ge in Hc. rewrite Hc. reflexivity.
Qed.

Lemma apply_upgrade_fields ty t :
  t_alive (apply_upgrade ty t) = t_alive t
  /\ t_gears (apply_upgrade ty t) = t_gears t
  /\ t_upgrades (apply_upgrade ty t) = t_upgrades t.
Proof.
  unfold apply_upgrade.
  repeat match goal with |- context [if ?b then _ else _] => destruct b end;
    auto.
Qed.

Lemma apply_upgrade_with_alive ty b t :
  apply_upgrade ty (Tank_.with_alive b t)
  = Tank_.with_alive b (apply_upgrade ty t).
Proof.
  unfold apply_upgrade.
  repeat match goal with |- context [if ?c then _ else _] => destruct c end;
    reflexivity.
Qed.

Lemma lvl_costs_index lvl :
  (0 <= lvl < UPGRADE_MAX_LVL)%Z ->
  exists cost, Py.index lvl_costs lvl = Some cost
               /\ (lvl = 0%Z /\ cost = 5 \/ lvl = 1%Z /\ cost = 10
                   \/ lvl = 2%Z /\ cost = 18).
Proof.
  unfold UPGRADE_MAX_LVL. intros H.
  assert (C : (lvl = 0 \/ lvl = 1 \/ lvl = 2)%Z) by lia.
  destruct C as [-> | [-> | ->]]; eexists; split; try reflexivity; auto.
Qed.

(** C10. [upgrade] never looks at the [alive] flag: for a dead tank with a
    known category, a level in [0..2] and gears covering the cost of the
    next level, it succeeds, debits exactly that cost, raises the level by
    one and applies the stat change of the category: move speed plus 0.4
    for the engine, maximum health plus 20 and health plus 20 up to the new
    maximum for the armor, shell damage plus 10 for the cannon, vision plus
    1 for the sensor, and the per-shot ammo cost less 2 but not below 2 for
    the loader, every other statistic staying as it was; the stored tank is
    the one a living tank would get, with the flag still false. *)
Theorem upgrade_succeeds_for_dead_tank :
  forall pid ty g tank lvl,
    Py.get pid (tanks g) = Some tank ->
    t_alive tank = false ->
    mem_string ty UPGRADE_COSTS = true ->
    upgrade_level tank ty = lvl ->
    (0 <= lvl < UPGRADE_MAX_LVL)%Z ->
    (forall cost, Py.index lvl_costs lvl = Some cost -> cost <= t_gears tank) ->
    exists cost tank',
      Py.index lvl_costs lvl = Some cost
      /\ upgrade pid ty g
         = Returns (OkUpgrade ty (lvl + 1) UPGRADE_MAX_LVL)
                   (Game_.put_tank pid tank' g)
      /\ Py.get pid (tanks (Game_.put_tank pid tank' g)) = Some tank'
      /\ t_gears tank' == t_gears tank - cost
      /\ upgrade_level tank' ty = (lvl + 1)%Z
      /\ t_alive tank' = false
      /\ tank' = apply_upgrade ty
                   (Tank_.with_upgrades
                      (Py.set ty (lvl + 1)%Z (t_upgrades tank))
                      (Tank_.with_gears (t_gears tank - cost) tank))
      /\ (forall g1,
             Py.get pid (tanks g1) = Some (Tank_.with_alive true tank) ->
             upgrade pid ty g1
             = Returns (OkUpgrade ty (lvl + 1) UPGRADE_MAX_LVL)
                       (Game_.put_tank pid (Tank_.with_alive true tank') g1))
      /\ (ty = "engine"%string ->
          (t_move_speed tank', t_max_hp tank', t_hp tank',
           t_shell_damage tank', t_vision tank', t_ammo_cost tank')
          = (t_move_speed tank + (4 # 10), t_max_hp tank, t_hp tank,
             t_shell_damage tank, t_vision tank, t_ammo_cost tank))
      /\ (ty = "armor"%string ->
          (t_move_speed tank', t_max_hp tank', t_hp tank',
           t_shell_damage tank', t_vision tank', t_ammo_cost tank')
          = (t_move_speed tank, (t_max_hp tank + 20)%Z,
             Py.minZ (t_hp tank + 20)%Z (t_max_hp tank + 20)%Z,
             t_shell_damage tank, t_vision tank, t_ammo_cost tank))
      /\ (ty = "cannon"%string ->
          (t_move_speed tank', t_max_hp tank', t_hp tank',
           t_shell_damage tank', t_vision tank', t_ammo_cost tank')
          = (t_move_speed tank, t_max_hp tank, t_hp tank,
             (t_shell_damage tank + 10)%Z, t_vision tank, t_ammo_cost tank))
      /\ (ty = "sensor"%string ->
          (t_move_speed tank', t_max_hp tank', t_hp tank',
           t_shell_damage tank', t_vision tank', t_ammo_cost tank')
          = (t_move_speed tank, t_max_hp tank, t_hp tank,
             t_shell_damage tank, (t_vision tank + 1)%Z, t_ammo_cost tank))
      /\ (ty = "loader"%string ->
          (t_move_speed tank', t_max_hp tank', t_hp tank',
           t_shell_damage tank', t_vision tank', t_ammo_cost tank')
          = (t_move_speed tank, t_max_hp tank, t_hp tank,
             t_shell_damage tank, t_vision tank,
             Py.max 2 (t_ammo_cost tank - 2))).
Proof.
  intros pid ty g tank lvl G A M L Hl Hc.
  destruct (lvl_costs_index lvl Hl) as (cost & I & _).
  specialize (Hc cost I).
  exists cost. eexists. split; [exact I |].
  split; [apply (upgrade_unfold pid ty g tank lvl cost); auto; lia |].
  destruct (apply_upgrade_fields ty
              (Tank_.with_upgrades (Py.set ty (lvl + 1)%Z (t_upgrades tank))
                 (Tank_.with_gears (t_gears tank - cost) tank)))
    as (Ea & Eg & Eu).
  split; [apply get_set_same |].
  split; [rewrite Eg; reflexivity |].
  split; [unfold upgrade_level; rewrite Eu; cbn; now rewrite get_set_same |].
  split; [rewrite Ea; exact A |].
  split; [reflexivity |].
  split.
  { intros g1 G1.
    rewrite (upgrade_unfold pid ty g1 (Tank_.with_alive true tank) lvl cost);
      auto; try lia.
    rewrite <- apply_upgrade_with_alive. reflexivity. }
  repeat split; intros ->; reflexivity.
Qed.

Lemma upgrade_succeeds_for_dead_tank_witness :
  exists cost tank',
    Py.index lvl_costs 0 = Some cost
    /\ upgrade "p1" "armor" (Game_.put_tank "p1" dead_rich_tank one_player_game)
       = Returns (OkUpgrade "armor" (0 + 1) UPGRADE_MAX_LVL)
           (Game_.put_tank "p1" tank'
              (Game_.put_tank "p1" dead_rich_tank one_player_game))
    /\ Py.get "p1"
         (tanks (Game_.put_tank "p1" tank'
                   (Game_.put_tank "p1" dead_rich_tank one_player_game)))
       = Some tank'
    /\ t_gears tank' == t_gears dead_rich_tank - cost
    /\ upgrade_level tank' "armor" = (0 + 1)%Z
    /\ t_alive tank' = false
    /\ tank' = apply_upgrade "armor"
                 (Tank_.with_upgrades
                    (Py.set "armor"%string (0 + 1)%Z
                            (t_upgrades dead_rich_tank))
                    (Tank_.with_gears (t_gears dead_rich_tank - cost)
                       dead_rich_tank))
    /\ (forall g1,
           Py.get "p1" (tanks g1)
           = Some (Tank_.with_alive true dead_rich_tank) ->
           upgrade "p1" "armor" g1
           = Returns (OkUpgrade "armor" (0 + 1) UPGRADE_MAX_LVL)
                     (Game_.put_tank "p1" (Tank_.with_alive true tank') g1))
    /\ t_max_hp tank' = (t_max_hp dead_rich_tank + 20)%Z
    /\ t_hp tank' = Py.minZ (t_hp dead_rich_tank + 20)%Z
                             (t_max_hp dead_rich_tank + 20)%Z.
Proof.
  destruct (upgrade_succeeds_for_dead_tank "p1" "armor"
              (Game_.put_tank "p1" dead_rich_tank one_player_game)
              dead_rich_tank 0%Z)
    as (cost & tank' & H1 & H2 & H3 & H4 & H5 & H6 & H7 & H8 & _ & Ha & _).
  - reflexivity.
  - reflexivity.
  - reflexivity.
  - reflexivity.
  - unfold UPGRADE_MAX_LVL. lia.
  - intros cost [= <-]. discriminate.
  - exists cost, tank'.
    pose proof (Ha eq_refl) as E. injection E as _ Emax Ehp _ _ _.
    exact (conj H1 (conj H2 (conj H3 (conj H4 (conj H5 (conj H6 (conj H7
             (conj H8 (conj Emax Ehp))))))))).
Defined.

(** ** Movement *)

Section Movement.
Variable sqrt : Q -> Q.
Variable atan2 : Q -> Q -> Q.

Lemma move_tank_idle dt tank :
  t_alive tank = false \/ t_path tank = [] ->
  move_tank sqrt atan2 dt tank = tank.
Proof.
  unfold move_tank. intros [-> | H]; [reflexivity |].
  rewrite H. now destruct (t_alive tank).
Qed.




End Movement.


(** Fuel is only asked for when a waypoint is reached: while it
    interpolates, a tank without fuel still moves, and its rounded cell can
    change before the waypoint is reached.  From [(0.4, 4)] towards
    [(1, 4)] with fuel 3, one step of 0.25 leads to [(0.65, 4)], which rounds
    to the cell [(1, 4)]. *)
Example low_fuel_interpolation_changes_rounded_cell :
  let tank := Tank_.with_path [(1, 4)%Z]
                (Tank_.with_pos (4 # 10) 4 (Tank_.with_fuel 3 one_player_tank))
  in
  let tank' := move_tank sqrt6 atan2_axis (1 # 10) tank in
  t_q tank' == 65 # 100
  /\ t_path tank' = [(1, 4)%Z]
  /\ t_fuel tank' = 3
  /\ Py.round (t_q tank) = 0%Z
  /\ Py.round (t_q tank') = 1%Z.
Proof. cbv zeta. repeat split. Qed.

(** ** Death loot *)

Lemma py_max_ge_l a b : a <= Py.max a b.
Proof. destruct (py_max_spec a b) as [[? ->] | [? ->]]; lra. Qed.

Lemma py_max_ge_r a b : b <= Py.max a b.
Proof. destruct (py_max_spec a b) as [[? ->] | [? ->]]; lra. Qed.

Lemma py_min_le_l a b : Py.min a b <= a.
Proof. destruct (py_min_spec a b) as [[? ->] | [? ->]]; lra. Qed.

Lemma py_min_le_r a b : Py.min a b <= b.
Proof. destruct (py_min_spec a b) as [[? ->] | [? ->]]; lra. Qed.

Lemma py_min_glb a b c : c <= a -> c <= b -> c <= Py.min a b.
Proof. destruct (py_min_spec a b) as [[? ->] | [? ->]]; lra. Qed.

Lemma py_max_lub a b c : a <= c -> b <= c -> Py.max a b <= c.
Proof. destruct (py_max_spec a b) as [[? ->] | [? ->]]; lra. Qed.

Lemma loss_nonneg amount ratio floor : 0 <= loss amount ratio floor.
Proof. apply py_max_ge_l. Qed.

Lemma loss_keeps_floor amount ratio floor :
  floor <= amount -> loss amount ratio floor <= amount - floor.
Proof.
  intros H. unfold loss. apply py_max_lub; [lra | apply py_min_le_r].
Qed.

Lemma loss_at_most_share amount ratio floor :
  0 <= amount -> 0 <= ratio -> loss amount ratio floor <= amount * ratio.
Proof.
  intros Ha Hr. unfold loss. apply py_max_lub.
  - apply Qmult_le_0_compat; auto.
  - apply py_min_le_l.
Qed.

Lemma after_loss amount ratio floor :
  floor <= Py.max floor (amount - loss amount ratio floor)
  /\ Py.max floor (amount - loss amount ratio floor) <= Py.max floor amount
  /\ (floor <= amount ->
      Py.max floor (amount - loss amount ratio floor)
      == amount - loss amount ratio floor).
Proof.
  pose proof (loss_nonneg amount ratio floor) as N.
  split; [apply py_max_ge_l |]. split.
  - apply py_max_lub; [apply py_max_ge_l |].
    pose proof (py_max_ge_r floor amount). lra.
  - intros H. pose proof (loss_keeps_floor amount ratio floor H) as K.
    destruct (py_max_spec floor (amount - loss amount ratio floor))
      as [[? ->] | [? ->]]; lra.
Qed.

Lemma uniform_bounds a b u :
  a <= b -> 0 <= u -> u <= 1 -> a <= uniform a b u /\ uniform a b u <= b.
Proof.
  intros Hab H0 H1. unfold uniform.
  assert (0 <= (b - a) * u) by (apply Qmult_le_0_compat; lra).
  assert ((b - a) * u <= (b - a) * 1).
  { rewrite !(Qmult_comm (b - a)). apply Qmult_le_compat_r; lra. }
  lra.
Qed.

Lemma gear_gained_bounds gear_lost u :
  0 <= u -> u <= 1 ->
  5 <= gear_gained gear_lost u /\ gear_gained gear_lost u <= Py.max 5 gear_lost.
Proof.
  intros. unfold gear_gained. apply uniform_bounds; auto. apply py_max_ge_l.
Qed.

Lemma tanks_release_forts pid tank g :
  tanks (release_forts pid tank g) = tanks g.
Proof.
  unfold release_forts. generalize (forts_to_release pid tank g).
  intros l. revert g. induction l as [| kf l IH]; intros g; cbn; auto.
  now rewrite IH.
Qed.

(** The two tanks after a lethal hit whose shooter is still in the game. *)
Lemma kill_tanks ext shell pid tank shooter g n :
  pid <> s_owner_id shell ->
  Py.get (s_owner_id shell) (tanks g) = Some shooter ->
  let fuel_ratio := uniform (20 # 100) (60 # 100) (random_random ext n) in
  let ammo_ratio := uniform (20 # 100) (60 # 100) (random_random ext (n + 1)) in
  let gear_ratio := uniform (20 # 100) (60 # 100) (random_random ext (n + 2)) in
  let dead :=
    Tank_.with_deaths (t_deaths tank + 1)%Z
      (Tank_.with_path []
         (Tank_.with_respawn_timer RESPAWN_TIME
            (Tank_.with_alive false (Tank_.with_hp 0 tank)))) in
  let s' := kill ext shell pid tank (g, n) in
  Py.get pid (tanks (fst s'))
  = Some (loot_victim fuel_ratio ammo_ratio gear_ratio dead)
  /\ Py.get (s_owner_id shell) (tanks (fst s'))
     = Some (loot_shooter (loss (t_gears tank) gear_ratio LOOT_GEAR_FLOOR)
               (random_random ext (n + 3))
               (Tank_.with_kills (t_kills shooter + 1)%Z
                  (Tank_.with_score (t_score shooter + 10)%Z shooter)))
  /\ snd s' = (n + 5)%nat.
Proof.
  intros Hne Hs. cbv zeta. unfold kill.
  cbn [Game_.put_tank Game_.with_tanks tanks].
  rewrite (get_set_other (V := Tank)) by congruence. rewrite Hs.
  cbn [fst snd Game_.push_event Game_.with_pending_events tanks].
  rewrite tanks_release_forts. cbn [Game_.put_tank Game_.with_tanks tanks].
  split; [| split].
  - rewrite (get_set_other (V := Tank)) by exact Hne.
    rewrite get_set_same. reflexivity.
  - rewrite get_set_same. reflexivity.
  - lia.
Qed.

(** C7, as the code has it.  A lethal hit by a shell whose owner still
    has a tank: for random draws in [[0,1)] the three loss ratios lie in
    [[0.20, 0.60]]; the victim ends with fuel at least 15, ammo at least 10
    and gears at least 0, each resource that was above its floor being
    reduced by its own clamped loss; the shooter's gears grow by a draw
    between 5 and [max(5, gears lost)], capped at 99, and the shooter's
    fuel and ammo are untouched.  A lethal hit by a shell whose owner has
    no tank any more: the victim dies with its fuel, ammo, gears and death
    count as they were, no random number is drawn, no fort is released
    and no other tank changes. *)
Theorem lethal_hit_loot :
  (forall ext shell pid tank shooter g n,
       t_alive tank = true ->
       pid <> s_owner_id shell ->
       (hex_distance (Py.round (t_q tank), Py.round (t_r tank))
                     (s_target_q shell, s_target_r shell) <= 1)%Z ->
       (t_hp tank - s_damage shell <= 0)%Z ->
       Py.get (s_owner_id shell) (tanks g) = Some shooter ->
       (forall k, 0 <= random_random ext k /\ random_random ext k < 1) ->
       let s' := impact_tank ext shell pid tank (g, n) in
       exists victim' shooter' fuel_ratio ammo_ratio gear_ratio gained,
         Py.get pid (tanks (fst s')) = Some victim'
         /\ Py.get (s_owner_id shell) (tanks (fst s')) = Some shooter'
         /\ (20 # 100 <= fuel_ratio <= 60 # 100
             /\ 20 # 100 <= ammo_ratio <= 60 # 100
             /\ 20 # 100 <= gear_ratio <= 60 # 100)
         /\ (t_alive victim' = false /\ t_hp victim' = 0%Z)
         /\ (LOOT_FUEL_FLOOR <= t_fuel victim'
             /\ LOOT_AMMO_FLOOR <= t_ammo victim'
             /\ LOOT_GEAR_FLOOR <= t_gears victim')
         /\ (LOOT_FUEL_FLOOR <= t_fuel tank ->
             t_fuel victim'
             == t_fuel tank - loss (t_fuel tank) fuel_ratio LOOT_FUEL_FLOOR)
         /\ (LOOT_AMMO_FLOOR <= t_ammo tank ->
             t_ammo victim'
             == t_ammo tank - loss (t_ammo tank) ammo_ratio LOOT_AMMO_FLOOR)
         /\ (LOOT_GEAR_FLOOR <= t_gears tank ->
             t_gears victim'
             == t_gears tank - loss (t_gears tank) gear_ratio LOOT_GEAR_FLOOR)
         /\ (5 <= gained
             /\ gained
                <= Py.max 5 (loss (t_gears tank) gear_ratio LOOT_GEAR_FLOOR))
         /\ t_gears shooter' = Py.min 99 (t_gears shooter + gained)
         /\ t_fuel shooter' = t_fuel shooter
         /\ t_ammo shooter' = t_ammo shooter)
  /\ (forall ext shell pid tank g n,
         t_alive tank = true ->
         pid <> s_owner_id shell ->
         (hex_distance (Py.round (t_q tank), Py.round (t_r tank))
                       (s_target_q shell, s_target_r shell) <= 1)%Z ->
         (t_hp tank - s_damage shell <= 0)%Z ->
         Py.get (s_owner_id shell) (tanks g) = None ->
         let s' := impact_tank ext shell pid tank (g, n) in
         exists victim',
           Py.get pid (tanks (fst s')) = Some victim'
           /\ (t_alive victim' = false /\ t_hp victim' = 0%Z
               /\ t_respawn_timer victim' = RESPAWN_TIME)
           /\ t_fuel victim' = t_fuel tank
           /\ t_ammo victim' = t_ammo tank
           /\ t_gears victim' = t_gears tank
           /\ t_deaths victim' = t_deaths tank
           /\ (forall k, k <> pid ->
                         Py.get k (tanks (fst s')) = Py.get k (tanks g))
           /\ forts (fst s') = forts g
           /\ snd s' = S n).
Proof.
  split.
  { intros ext shell pid tank shooter g n A Hne Hd Hl Hs Hu s'.
  assert (E : s' = kill ext shell pid
                     (Tank_.with_hp (t_hp tank - s_damage shell)%Z tank)
                     (g, n)).
  { unfold s', impact_tank. apply String.eqb_neq in Hne. rewrite Hne, A.
    cbn [orb negb]. apply Z.leb_le in Hd. rewrite Hd.
    cbn [t_hp Tank_.with_hp]. apply Z.leb_le in Hl. now rewrite Hl. }
  destruct (kill_tanks ext shell pid
              (Tank_.with_hp (t_hp tank - s_damage shell)%Z tank)
              shooter g n Hne Hs) as (Gv & Gs & _).
  rewrite <- E in Gv, Gs. clearbody s'. clear E.
  pose proof (Hu n) as [U0 U0'].
  pose proof (Hu (n + 1)%nat) as [U1 U1'].
  pose proof (Hu (n + 2)%nat) as [U2 U2'].
  pose proof (Hu (n + 3)%nat) as [U3 U3'].
  set (fuel_ratio := uniform (20 # 100) (60 # 100) (random_random ext n))
    in *.
  set (ammo_ratio := uniform (20 # 100) (60 # 100)
                             (random_random ext (n + 1))) in *.
  set (gear_ratio := uniform (20 # 100) (60 # 100)
                             (random_random ext (n + 2))) in *.
  eexists. eexists. exists fuel_ratio, ammo_ratio, gear_ratio.
  exists (gear_gained (loss (t_gears tank) gear_ratio LOOT_GEAR_FLOOR)
                      (random_random ext (n + 3))).
  split; [exact Gv |]. split; [exact Gs |].
  split.
  { repeat split; apply uniform_bounds; lra. }
  split; [split; reflexivity |].
  cbn [loot_victim loot_shooter t_fuel t_ammo t_gears Tank_.with_fuel
       Tank_.with_ammo Tank_.with_gears Tank_.with_deaths Tank_.with_path
       Tank_.with_respawn_timer Tank_.with_alive Tank_.with_hp
       Tank_.with_kills Tank_.with_score].
  split.
  { repeat split; apply after_loss. }
  split; [apply after_loss |]. split; [apply after_loss |].
  split; [apply after_loss |].
  split; [apply gear_gained_bounds; lra |].
  repeat split. }
  intros ext shell pid tank g n A Hne Hd Hl Hs s'.
  assert (E : s' = kill ext shell pid
                     (Tank_.with_hp (t_hp tank - s_damage shell)%Z tank)
                     (g, n)).
  { unfold s', impact_tank. apply String.eqb_neq in Hne. rewrite Hne, A.
    cbn [orb negb]. apply Z.leb_le in Hd. rewrite Hd.
    cbn [t_hp Tank_.with_hp]. apply Z.leb_le in Hl. now rewrite Hl. }
  rewrite E. clear E s'. unfold kill.
  cbn [Game_.put_tank Game_.with_tanks tanks].
  rewrite (get_set_other (V := Tank)) by congruence. rewrite Hs.
  cbn [fst snd Game_.push_event Game_.with_pending_events tanks forts
       Game_.with_tanks].
  eexists. split; [apply get_set_same |].
  split; [repeat split |]. split; [reflexivity |]. split; [reflexivity |].
  split; [reflexivity |]. split; [reflexivity |].
  split; [| split; reflexivity].
  intros k Hk. now apply get_set_other.
Qed.

Lemma lethal_hit_loot_witness :
  (exists victim' shooter',
    Py.get "p1" (tanks (fst (impact_tank (steady_oracle 10) bob_shell "p1"
                                         ann_tank
                                         (shell_in_flight_game, 0%nat))))
    = Some victim'
    /\ Py.get "p2" (tanks (fst (impact_tank (steady_oracle 10) bob_shell "p1"
                                            ann_tank
                                            (shell_in_flight_game, 0%nat))))
       = Some shooter'
    /\ t_alive victim' = false
    /\ LOOT_FUEL_FLOOR <= t_fuel victim'
    /\ 5 <= t_gears shooter')
  /\ (exists victim',
        Py.get "p1" (tanks (fst (impact_tank (steady_oracle 10) bob_shell "p1"
                                             ann_tank
                                             (absent_shooter_game, 0%nat))))
        = Some victim'
        /\ t_alive victim' = false
        /\ t_fuel victim' = t_fuel ann_tank
        /\ t_ammo victim' = t_ammo ann_tank
        /\ t_gears victim' = t_gears ann_tank).
Proof.
  split.
  2: {
    destruct (proj2 lethal_hit_loot
                (steady_oracle 10) bob_shell "p1"%string ann_tank
                absent_shooter_game 0%nat)
      as (v & Gv & (Ha & _) & Hf & Hm & Hg & _).
    - reflexivity.
    - discriminate.
    - vm_compute. discriminate.
    - vm_compute. discriminate.
    - reflexivity.
    - exists v. exact (conj Gv (conj Ha (conj Hf (conj Hm Hg)))). }
  assert (Hs : {shooter | Py.get (s_owner_id bob_shell)
                                 (tanks shell_in_flight_game) = Some shooter
                          /\ t_gears shooter = 0}).
  { eexists. split; reflexivity. }
  destruct Hs as (shooter & Hs & Hg).
  destruct (proj1 lethal_hit_loot
              (steady_oracle 10) bob_shell "p1"%string ann_tank shooter
              shell_in_flight_game 0%nat)
    as (v & s & fr & ar & gr & gained & Gv & Gs & _ & (Ha & _) & (Hf & _)
        & _ & _ & _ & (H5 & _) & Eg & _).
  - reflexivity.
  - discriminate.
  - vm_compute. discriminate.
  - vm_compute. discriminate.
  - exact Hs.
  - intros k. split; vm_compute; congruence.
  - exists v, s. split; [exact Gv |]. split; [exact Gs |].
    split; [exact Ha |]. split; [exact Hf |].
    rewrite Eg, Hg. apply py_min_glb; lra.
Defined.

(** C7, as stated, fails when the shell's owner has left the game: the
    victim dies, no loot is computed, and a victim below a floor stays
    below it.  Ann (health 40, fuel 3) is killed by the shell of the
    disconnected Bob and keeps fuel 3. *)
Lemma lethal_hit_without_shooter_counterexample :
  let g' := tick_update sqrt6 atan2_axis (steady_oracle 10) (1 # 10)
                        absent_shooter_game in
  Py.get "p2" (tanks absent_shooter_game) = None
  /\ option_map t_alive (Py.get "p1" (tanks absent_shooter_game)) = Some true
  /\ exists victim,
      Py.get "p1" (tanks g') = Some victim
      /\ t_alive victim = false
      /\ t_hp victim = 0%Z
      /\ t_fuel victim = 3
      /\ ~ LOOT_FUEL_FLOOR <= t_fuel victim.
Proof.
  cbv zeta. split; [reflexivity |]. split; [reflexivity |].
  eexists. split; [vm_compute; reflexivity |].
  split; [reflexivity |]. split; [reflexivity |]. split; [reflexivity |].
  vm_compute. intros H. apply H. reflexivity.
Qed.

(** ** Fort release on death *)

Lemma shell_in_flight_game_shell :
  Py.get "s1" (shells shell_in_flight_game) = Some bob_shell
  /\ Py.get "s1" (shells fort_owner_game) = Some bob_shell.
Proof. split; reflexivity. Qed.

Lemma release_fort_fields f :
  f_owner (release_fort f) = None
  /\ f_capture_progress (release_fort f) = 0
  /\ f_capturing_player (release_fort f) = None
  /\ f_was_owned (release_fort f) = f_was_owned f
  /\ (f_id (release_fort f), f_q (release_fort f), f_r (release_fort f),
      f_ftype (release_fort f))
     = (f_id f, f_q f, f_r f, f_ftype f).
Proof. repeat split. Qed.

Section SortDesc.
Context {A : Type} (key : A -> Q).

Lemma insert_desc_In x y l :
  In y (Py.insert_desc key x l) <-> y = x \/ In y l.
Proof.
  induction l as [| z l IH]; cbn.
  - intuition auto.
  - destruct (Py.Qleb (key z) (key x)); cbn; rewrite ?IH; intuition auto.
Qed.

Lemma insert_desc_length x l :
  List.length (Py.insert_desc key x l) = S (List.length l).
Proof.
  induction l as [| z l IH]; cbn; auto.
  destruct (Py.Qleb (key z) (key x)); cbn; auto.
Qed.

Lemma sort_desc_length l : List.length (Py.sort_desc key l) = List.length l.
Proof.
  induction l as [| x l IH]; cbn; auto.
  rewrite insert_desc_length. now f_equal.
Qed.

Lemma sort_desc_In y l : In y (Py.sort_desc key l) <-> In y l.
Proof.
  induction l as [| x l IH]; cbn; [tauto |].
  rewrite insert_desc_In, IH. intuition auto.
Qed.

Lemma insert_desc_descending x l :
  descending key l -> descending key (Py.insert_desc key x l).
Proof.
  unfold descending. induction 1 as [| z l Hl IH Hz]; cbn.
  - repeat constructor.
  - destruct (Py.Qleb (key z) (key x)) eqn:E.
    + apply Qleb_le in E. constructor.
      * constructor; auto.
      * constructor; auto. rewrite Forall_forall in *.
        intros y Hy. specialize (Hz y Hy). lra.
    + apply Qleb_gt in E. constructor; auto.
      rewrite Forall_forall in *. intros y Hy.
      apply insert_desc_In in Hy as [-> | Hy]; [lra | auto].
Qed.

Lemma sort_desc_descending l : descending key (Py.sort_desc key l).
Proof.
  induction l as [| x l IH]; cbn.
  - constructor.
  - now apply insert_desc_descending.
Qed.

Lemma In_drop k (l : list A) y : In y (skipn k l) -> In y l.
Proof.
  intros H. rewrite <- (firstn_skipn k l). apply in_or_app. now right.
Qed.

Lemma descending_split k l x y :
  descending key l -> In x (firstn k l) -> In y (skipn k l) -> key y <= key x.
Proof.
  unfold descending. intros H. revert k.
  induction H as [| z l Hl IH Hz]; intros k Hx Hy.
  - destruct k; cbn in Hx; contradiction.
  - destruct k as [| k]; cbn in Hx, Hy; [contradiction |].
    destruct Hx as [<- | Hx].
    + rewrite Forall_forall in Hz. apply Hz.
      eapply In_drop; eauto.
    + eapply IH; eauto.
Qed.
End SortDesc.

(** What the release step does for every input: with more than
    [FORT_RELEASE_KEEP] forts it releases all but two of the victim's forts,
    and the two it keeps are at least as far from the victim as every fort
    it releases. *)
Lemma release_keeps_the_farthest pid tank g :
  (FORT_RELEASE_KEEP < List.length (victim_forts pid g))%nat ->
  let sorted := Py.sort_desc (release_key tank) (victim_forts pid g) in
  forts_to_release pid tank g = skipn FORT_RELEASE_KEEP sorted
  /\ List.length (forts_to_release pid tank g)
     = (List.length (victim_forts pid g) - FORT_RELEASE_KEEP)%nat
  /\ (forall kf, In kf (forts_to_release pid tank g) ->
                 In kf (victim_forts pid g))
  /\ (forall kept released,
         In kept (firstn FORT_RELEASE_KEEP sorted) ->
         In released (forts_to_release pid tank g) ->
         release_key tank released <= release_key tank kept).
Proof.
  intros H sorted.
  assert (E : forts_to_release pid tank g = skipn FORT_RELEASE_KEEP sorted).
  { unfold forts_to_release. apply Nat.ltb_lt in H. now rewrite H. }
  split; [exact E |]. rewrite E. split; [| split].
  - rewrite length_skipn. unfold sorted. now rewrite sort_desc_length.
  - intros kf Hk. apply In_drop in Hk. now apply sort_desc_In in Hk.
  - intros kept released Hk Hr.
    apply (descending_split (release_key tank) FORT_RELEASE_KEEP sorted);
      auto.
    apply sort_desc_descending.
Qed.

Lemma release_nothing_up_to_two pid tank g :
  (List.length (victim_forts pid g) <= FORT_RELEASE_KEEP)%nat ->
  release_forts pid tank g = g.
Proof.
  intros H. unfold release_forts, forts_to_release.
  apply Nat.ltb_ge in H. now rewrite H.
Qed.

(** C2 at a failing input.  Ann, at [(0,4)], owns the forts at [(0,5)],
    [(0,6)] and [(0,7)], at coordinate-offset distances 1, 2 and 3, and is
    killed by Bob's shell.  One fort is released, as the claim says, with
    owner and progress cleared and the ever-owned flag kept; but it is the
    nearest one, [(0,5)], and the farthest, [(0,7)], stays with Ann. *)
Theorem death_releases_nearest_fort :
  let g := fort_owner_game in
  let g' := tick_update sqrt6 atan2_axis (steady_oracle 10) (1 # 10) g in
  map (fun kf => release_key ann_tank kf) (forts g) = [1; 2; 3]
  /\ map (fun kf => f_owner (snd kf)) (forts g)
     = [Some "p1"; Some "p1"; Some "p1"]%string
  /\ option_map t_alive (Py.get "p1" (tanks g)) = Some true
  /\ option_map t_alive (Py.get "p1" (tanks g')) = Some false
  /\ map (fun kf => f_owner (snd kf)) (forts g')
     = [None; Some "p1"; Some "p1"]%string
  /\ map (fun kf => f_capture_progress (snd kf)) (forts g') = [0; 5; 5]
  /\ map (fun kf => f_was_owned (snd kf)) (forts g') = [true; true; true].
Proof.
  cbv zeta. repeat split; vm_compute; reflexivity.
Qed.

(** ** Invariants of the tick *)

Ltac tank_fields :=
  cbn [t_id t_player_id t_q t_r t_target_q t_target_r t_path t_hp t_max_hp
       t_fuel t_ammo t_gears t_move_speed t_vision t_shell_damage t_ammo_cost
       t_alive t_respawn_timer t_color t_facing t_upgrades t_last_shot
       t_score t_kills t_deaths t_fort_captures
       Tank_.with_pos Tank_.with_target Tank_.with_path Tank_.with_hp
       Tank_.with_max_hp Tank_.with_fuel Tank_.with_ammo Tank_.with_gears
       Tank_.with_move_speed Tank_.with_vision Tank_.with_shell_damage
       Tank_.with_ammo_cost Tank_.with_alive Tank_.with_respawn_timer
       Tank_.with_facing Tank_.with_upgrades Tank_.with_last_shot
       Tank_.with_score Tank_.with_kills Tank_.with_deaths
       Tank_.with_fort_captures] in *.

Ltac fort_fields :=
  cbn [f_id f_q f_r f_ftype f_owner f_capture_progress f_capturing_player
       f_was_owned Fort_.with_owner Fort_.with_capture_progress
       Fort_.with_capturing_player Fort_.with_was_owned] in *.

Ltac game_fields :=
  cbn [players tanks forts shells tick match_timer match_over
       post_match_timer pending_events rematch_votes
       Game_.with_players Game_.with_tanks Game_.with_forts Game_.with_shells
       Game_.with_tick Game_.with_match_timer Game_.with_match_over
       Game_.with_post_match_timer Game_.with_pending_events
       Game_.with_rematch_votes Game_.put_tank Game_.put_fort
       Game_.put_shell Game_.push_event fst snd] in *.

Lemma for_tanks_ind (I : Sim -> Prop) body s :
  I s ->
  (forall pid t s,
      I s -> Py.get pid (tanks (fst s)) = Some t -> I (body pid t s)) ->
  I (for_tanks body s).
Proof.
  unfold for_tanks. generalize (Py.keys (tanks (fst s))). intros l.
  revert s. induction l as [| pid l IH]; intros s Hs Hb; cbn; auto.
  apply IH; auto. destruct (Py.get pid (tanks (fst s))) eqn:E; auto.
Qed.

Lemma for_forts_ind (I : Sim -> Prop) body s :
  I s ->
  (forall fid f s,
      I s -> Py.get fid (forts (fst s)) = Some f -> I (body fid f s)) ->
  I (for_forts body s).
Proof.
  unfold for_forts. generalize (Py.keys (forts (fst s))). intros l.
  revert s. induction l as [| fid l IH]; intros s Hs Hb; cbn; auto.
  apply IH; auto. destruct (Py.get fid (forts (fst s))) eqn:E; auto.
Qed.

Lemma fold_left_ind {A B} (I : A -> Prop) (f : A -> B -> A) l : forall a,
  I a -> (forall a b, I a -> I (f a b)) -> I (fold_left f l a).
Proof.
  induction l as [| b l IH]; intros a Ha Hf; cbn; auto.
Qed.

(** *** Elementary updates *)

Lemma tanks_ok_put_tank pid t g :
  tanks_ok g -> tank_ok t -> tanks_ok (Game_.put_tank pid t g).
Proof.
  intros [Ht Hs] Hok. split; game_fields; auto.
  now apply values_set_Forall.
Qed.

Lemma tanks_ok_put_shell sid s g :
  tanks_ok g -> shell_ok s -> tanks_ok (Game_.put_shell sid s g).
Proof.
  intros [Ht Hs] Hok. split; game_fields; auto.
  now apply values_set_Forall.
Qed.

Lemma tanks_ok_same g g' :
  tanks g' = tanks g -> shells g' = shells g -> tanks_ok g -> tanks_ok g'.
Proof. unfold tanks_ok. intros -> ->. auto. Qed.

Lemma tanks_ok_push_event e g : tanks_ok g -> tanks_ok (Game_.push_event e g).
Proof. exact (fun H => H). Qed.

Lemma tanks_ok_put_fort fid f g :
  tanks_ok g -> tanks_ok (Game_.put_fort fid f g).
Proof. exact (fun H => H). Qed.

Lemma tanks_ok_with_tick v g : tanks_ok g -> tanks_ok (Game_.with_tick v g).
Proof. exact (fun H => H). Qed.

Lemma tanks_ok_with_match_timer v g :
  tanks_ok g -> tanks_ok (Game_.with_match_timer v g).
Proof. exact (fun H => H). Qed.

Lemma tanks_ok_with_post_match_timer v g :
  tanks_ok g -> tanks_ok (Game_.with_post_match_timer v g).
Proof. exact (fun H => H). Qed.

Lemma tanks_ok_end_match g : tanks_ok g -> tanks_ok (_end_match g).
Proof. exact (fun H => H). Qed.

Lemma forts_ok_put_tank pid t g :
  forts_ok g -> forts_ok (Game_.put_tank pid t g).
Proof. exact (fun H => H). Qed.

Lemma forts_ok_put_shell sid s g :
  forts_ok g -> forts_ok (Game_.put_shell sid s g).
Proof. exact (fun H => H). Qed.

Lemma forts_ok_push_event e g : forts_ok g -> forts_ok (Game_.push_event e g).
Proof. exact (fun H => H). Qed.

Lemma forts_ok_with_shells v g : forts_ok g -> forts_ok (Game_.with_shells v g).
Proof. exact (fun H => H). Qed.

Lemma forts_ok_with_tick v g : forts_ok g -> forts_ok (Game_.with_tick v g).
Proof. exact (fun H => H). Qed.

Lemma forts_ok_with_match_timer v g :
  forts_ok g -> forts_ok (Game_.with_match_timer v g).
Proof. exact (fun H => H). Qed.

Lemma forts_ok_with_post_match_timer v g :
  forts_ok g -> forts_ok (Game_.with_post_match_timer v g).
Proof. exact (fun H => H). Qed.

Lemma forts_ok_end_match g : forts_ok g -> forts_ok (_end_match g).
Proof. exact (fun H => H). Qed.

Lemma forts_ok_put_fort fid f g :
  forts_ok g -> fort_ok f -> forts_ok (Game_.put_fort fid f g).
Proof.
  unfold forts_ok. intros H Hok. game_fields. now apply values_set_Forall.
Qed.

Lemma forts_ok_same g g' : forts g' = forts g -> forts_ok g -> forts_ok g'.
Proof. unfold forts_ok. intros ->. auto. Qed.

Lemma tanks_ok_get pid t g :
  tanks_ok g -> Py.get pid (tanks g) = Some t -> tank_ok t.
Proof. intros [H _] G. eapply get_values_Forall; eauto. Qed.

Lemma shells_ok_get sid s g :
  tanks_ok g -> Py.get sid (shells g) = Some s -> shell_ok s.
Proof. intros [_ H] G. eapply get_values_Forall; eauto. Qed.

Lemma forts_ok_get fid f g :
  forts_ok g -> Py.get fid (forts g) = Some f -> fort_ok f.
Proof. intros H G. eapply get_values_Forall; eauto. Qed.

Lemma shells_release_forts pid tank g :
  shells (release_forts pid tank g) = shells g.
Proof.
  unfold release_forts. generalize (forts_to_release pid tank g).
  intros l. revert g. induction l as [| kf l IH]; intros g; cbn; auto.
  now rewrite IH.
Qed.

Lemma effective_capture_time_pos f : 0 < effective_capture_time f.
Proof.
  unfold effective_capture_time, CAPTURE_TIME, RECAPTURE_MULTIPLIER.
  destruct (f_was_owned f); reflexivity.
Qed.

Lemma fort_ok_release f : fort_ok (release_fort f).
Proof.
  unfold fort_ok. pose proof (effective_capture_time_pos (release_fort f)).
  change (f_capture_progress (release_fort f)) with 0. split; lra.
Qed.

Lemma forts_ok_release_forts pid tank g :
  forts_ok g -> forts_ok (release_forts pid tank g).
Proof.
  unfold release_forts. intros H. apply (fold_left_ind forts_ok); auto.
  intros a kf Ha. apply forts_ok_put_fort; auto. apply fort_ok_release.
Qed.

(** *** Tanks, step by step *)

Lemma tank_ok_move_tank sqrt atan2 dt t :
  tank_ok t -> tank_ok (move_tank sqrt atan2 dt t).
Proof.
  unfold tank_ok, move_tank, FUEL_CAP, FUEL_PER_HEX.
  intros (Hh & Hf & Ha & Hg).
  destruct (t_alive t); cbn [negb]; auto.
  destruct (t_path t) as [| [nq nr] rest]; auto.
  destruct (Py.Qleb _ _).
  - destruct (Py.Qltb (t_fuel t) 4) eqn:E.
    + tank_fields. auto.
    + apply Qltb_ge in E. destruct rest; tank_fields;
        (split; [auto |]; split; [split; lra | auto]).
  - tank_fields. auto.
Qed.

Lemma tank_ok_loot_victim fr ar gr t :
  tank_ok t -> tank_ok (loot_victim fr ar gr t).
Proof.
  unfold tank_ok, loot_victim, FUEL_CAP, AMMO_CAP, GEAR_CAP.
  intros (Hh & Hf & Ha & Hg). tank_fields.
  destruct (after_loss (t_fuel t) fr LOOT_FUEL_FLOOR) as (F1 & F2 & _).
  destruct (after_loss (t_ammo t) ar LOOT_AMMO_FLOOR) as (A1 & A2 & _).
  destruct (after_loss (t_gears t) gr LOOT_GEAR_FLOOR) as (G1 & G2 & _).
  assert (Py.max LOOT_FUEL_FLOOR (t_fuel t) <= 120)
    by (apply py_max_lub; [unfold LOOT_FUEL_FLOOR |]; lra).
  assert (Py.max LOOT_AMMO_FLOOR (t_ammo t) <= 100)
    by (apply py_max_lub; [unfold LOOT_AMMO_FLOOR |]; lra).
  assert (Py.max LOOT_GEAR_FLOOR (t_gears t) <= 99)
    by (apply py_max_lub; [unfold LOOT_GEAR_FLOOR |]; lra).
  unfold LOOT_FUEL_FLOOR, LOOT_AMMO_FLOOR, LOOT_GEAR_FLOOR in *.
  repeat split; try lra; tauto.
Qed.

Lemma tank_ok_loot_shooter gear_lost u t :
  0 <= u -> u <= 1 -> tank_ok t -> tank_ok (loot_shooter gear_lost u t).
Proof.
  unfold tank_ok, loot_shooter, GEAR_CAP.
  intros H0 H1 (Hh & Hf & Ha & Hg). tank_fields.
  destruct (gear_gained_bounds gear_lost u H0 H1) as [G5 _].
  repeat split; try tauto.
  - apply py_min_glb; lra.
  - apply py_min_le_l.
Qed.

Lemma tank_ok_credit dt t ftype :
  0 <= dt -> tank_ok t -> tank_ok (credit dt t ftype).
Proof.
  unfold tank_ok, credit, FUEL_CAP, AMMO_CAP, GEAR_CAP,
         FORT_FUEL_GEN, FORT_AMMO_GEN, FORT_GEAR_GEN.
  intros Hdt (Hh & Hf & Ha & Hg).
  destruct ftype; tank_fields; repeat split; try tauto;
    try (apply py_min_glb; lra); try apply py_min_le_l.
Qed.

Section TickInvariants.
Variable sqrt : Q -> Q.
Variable atan2 : Q -> Q -> Q.
Variable ext : Oracle.
Variable dt : Q.
Hypothesis dt_nonneg : 0 <= dt.

(** *** The phases keep the tanks in bounds *)

Lemma tanks_ok_move_tanks s :
  tanks_ok (fst s) -> tanks_ok (fst (_move_tanks sqrt atan2 dt s)).
Proof.
  intros H. unfold _move_tanks.
  apply (for_tanks_ind (fun s => tanks_ok (fst s))); auto.
  intros pid t s' Hs G. cbn [fst]. apply tanks_ok_put_tank; auto.
  apply tank_ok_move_tank. eapply tanks_ok_get; eauto.
Qed.

Lemma tanks_ok_kill shell pid tank g n :
  fair ext ->
  tanks_ok g ->
  tank_ok (Tank_.with_hp 0 tank) ->
  tanks_ok (fst (kill ext shell pid tank (g, n))).
Proof.
  intros Hfair Hg Ht. unfold kill.
  set (dead := Tank_.with_path [] _).
  assert (Hdead : tank_ok dead) by exact Ht.
  assert (Hg1 : tanks_ok (Game_.put_tank pid dead g))
    by (apply tanks_ok_put_tank; auto).
  destruct (Py.get (s_owner_id shell) (tanks (Game_.put_tank pid dead g)))
    as [shooter |] eqn:Gs.
  - cbn [fst]. apply tanks_ok_push_event.
    eapply tanks_ok_same;
      [apply tanks_release_forts | apply shells_release_forts |].
    pose proof (tanks_ok_get _ _ _ Hg1 Gs) as Hshooter.
    destruct (Hfair (n + 3)%nat) as [U0 U1].
    apply tanks_ok_put_tank; [apply tanks_ok_put_tank; auto |].
    + apply tank_ok_loot_victim. exact Ht.
    + apply tank_ok_loot_shooter; try lra. exact Hshooter.
  - cbn [fst]. apply tanks_ok_push_event. exact Hg1.
Qed.

Lemma tanks_ok_impact_tank shell pid tank g n :
  fair ext ->
  tanks_ok g ->
  Py.get pid (tanks g) = Some tank ->
  shell_ok shell ->
  tanks_ok (fst (impact_tank ext shell pid tank (g, n))).
Proof.
  intros Hfair Hg G Hs. unfold impact_tank.
  pose proof (tanks_ok_get _ _ _ Hg G) as Ht.
  destruct (_ || _); auto.
  destruct (_ <=? 1)%Z; auto.
  destruct (t_hp (Tank_.with_hp (t_hp tank - s_damage shell) tank) <=? 0)%Z
    eqn:E.
  - apply tanks_ok_kill; auto.
    unfold tank_ok in *. tank_fields. intuition lia.
  - cbn [fst]. apply tanks_ok_put_tank; auto.
    apply Z.leb_gt in E. unfold tank_ok, shell_ok in *. tank_fields.
    intuition lia.
Qed.

Lemma tanks_ok_shell_impact shell s :
  fair ext -> shell_ok shell ->
  tanks_ok (fst s) -> tanks_ok (fst (_shell_impact ext shell s)).
Proof.
  intros Hfair Hs H. unfold _shell_impact.
  apply (for_tanks_ind (fun s => tanks_ok (fst s))); auto.
  intros pid t [g n] Hg G. apply tanks_ok_impact_tank; auto.
Qed.

Lemma tanks_ok_move_shell sid acc :
  fair ext ->
  tanks_ok (fst (fst acc)) ->
  tanks_ok (fst (fst (move_shell sqrt ext dt sid acc))).
Proof.
  intros Hfair H. destruct acc as [[g n] dead]. unfold move_shell.
  cbn [fst] in H.
  destruct (Py.get sid (shells g)) as [shell |] eqn:G; auto.
  pose proof (shells_ok_get _ _ _ H G) as Hs.
  destruct (Py.Qleb _ _).
  - cbn [fst]. apply tanks_ok_shell_impact; auto.
  - destruct (Py.Qltb 3 _).
    + cbn [fst]. apply tanks_ok_shell_impact; auto.
    + cbn [fst]. apply tanks_ok_put_shell; auto.
Qed.

Lemma tanks_ok_delete_dead (acc : Sim * list string) :
  tanks_ok (fst (fst acc)) ->
  tanks_ok
    (fst (let '((g, n), dead) := acc in
          (fold_left (fun g sid => Game_.with_shells (Py.del sid (shells g)) g)
                     dead g, n))).
Proof.
  destruct acc as [[g n] dead]. cbn [fst]. intros K.
  apply (fold_left_ind tanks_ok); auto.
  intros a sid [Ht Hs]. split; game_fields; auto.
  now apply values_del_Forall.
Qed.

Lemma tanks_ok_move_shells s :
  fair ext ->
  tanks_ok (fst s) -> tanks_ok (fst (_move_shells sqrt ext dt s)).
Proof.
  intros Hfair H. unfold _move_shells. apply tanks_ok_delete_dead.
  apply (fold_left_ind (fun acc => tanks_ok (fst (fst acc)))); auto.
  intros a b Ha. now apply tanks_ok_move_shell.
Qed.

Lemma tanks_ok_capture_fort fid fort s :
  tanks_ok (fst s) -> tanks_ok (fst (capture_fort ext dt fid fort s)).
Proof.
  destruct s as [g n]. cbn [fst]. intros H. unfold capture_fort.
  destruct (on_fort fort g) as [| capturer [| ? ?]].
  - destruct (_ && _); auto.
  - destruct (is_player (f_owner fort) capturer); auto.
    destruct (is_player (f_capturing_player fort) capturer); auto.
    destruct (Py.Qleb _ _); auto.
    cbn [fst]. apply tanks_ok_push_event.
    match goal with
    | |- tanks_ok (match ?o with Some _ => _ | None => ?g0 end) =>
        assert (H0 : tanks_ok g0) by (apply tanks_ok_put_fort; exact H);
        destruct o as [t |] eqn:G; auto
    end.
    apply tanks_ok_put_tank; auto.
    pose proof (tanks_ok_get _ _ _ H0 G) as Ht. exact Ht.
  - auto.
Qed.

Lemma tanks_ok_update_captures s :
  tanks_ok (fst s) -> tanks_ok (fst (_update_captures ext dt s)).
Proof.
  intros H. unfold _update_captures.
  apply (for_forts_ind (fun s => tanks_ok (fst s))); auto.
  intros fid f s' Hs _. now apply tanks_ok_capture_fort.
Qed.

Lemma tanks_ok_generate_resources s :
  tanks_ok (fst s) -> tanks_ok (fst (_generate_resources dt s)).
Proof.
  intros H. unfold _generate_resources. cbn [fst].
  apply (fold_left_ind tanks_ok); auto.
  intros g [pid ftypes] Hg.
  destruct (Py.get pid (tanks g)) as [tank |] eqn:G; auto.
  destruct (negb (t_alive tank)); auto.
  apply tanks_ok_put_tank; auto.
  apply (fold_left_ind tank_ok); [eapply tanks_ok_get; eauto |].
  intros t ft Ht. now apply tank_ok_credit.
Qed.

Lemma tanks_ok_respawn_tank pid tank s :
  tanks_ok (fst s) ->
  Py.get pid (tanks (fst s)) = Some tank ->
  tanks_ok (fst (respawn_tank ext dt pid tank s)).
Proof.
  destruct s as [g n]. cbn [fst]. intros H G. unfold respawn_tank.
  pose proof (tanks_ok_get _ _ _ H G) as Ht.
  destruct (negb (t_alive tank)); auto.
  destruct (Py.Qleb _ _); cbn [fst]; apply tanks_ok_put_tank; auto;
    unfold tank_ok in *; tank_fields; intuition lia.
Qed.

Lemma tanks_ok_check_respawns s :
  tanks_ok (fst s) -> tanks_ok (fst (_check_respawns ext dt s)).
Proof.
  intros H. unfold _check_respawns.
  apply (for_tanks_ind (fun s => tanks_ok (fst s))); auto.
  intros pid t s' Hs G. now apply tanks_ok_respawn_tank.
Qed.

Lemma tank_ok_reset t : tank_ok (reset_tank t).
Proof.
  unfold tank_ok, reset_tank, FUEL_CAP, AMMO_CAP, GEAR_CAP, TANK_MAX_HP.
  tank_fields. repeat split; try lia; try lra; discriminate.
Qed.

Lemma tanks_ok_reset_match g : tanks_ok (_reset_match g).
Proof.
  unfold tanks_ok, _reset_match. game_fields. split; [| constructor].
  unfold Py.values, map_values. rewrite map_map. cbn [snd].
  apply Forall_forall. intros t Ht. apply in_map_iff in Ht as (kv & <- & _).
  apply tank_ok_reset.
Qed.

Lemma tanks_ok_tick_update g :
  fair ext -> tanks_ok g -> tanks_ok (tick_update sqrt atan2 ext dt g).
Proof.
  intros Hfair H. unfold tick_update.
  set (g1 := if negb (match_over g) then _ else g).
  assert (H1 : tanks_ok g1).
  { unfold g1. destruct (negb (match_over g)); auto.
    destruct (Py.Qleb _ 0).
    - apply tanks_ok_end_match, tanks_ok_with_match_timer,
        tanks_ok_with_match_timer, H.
    - apply tanks_ok_with_match_timer, H. }
  clearbody g1. destruct (match_over g1).
  - destruct (Py.Qleb _ 0); [apply tanks_ok_reset_match |].
    apply tanks_ok_with_post_match_timer, H1.
  - apply tanks_ok_with_tick.
    apply tanks_ok_check_respawns, tanks_ok_generate_resources,
      tanks_ok_update_captures, tanks_ok_move_shells, tanks_ok_move_tanks;
      auto.
Qed.

(** *** The phases keep capture progress in bounds *)

Lemma forts_ok_move_tanks s :
  forts_ok (fst s) -> forts_ok (fst (_move_tanks sqrt atan2 dt s)).
Proof.
  intros H. unfold _move_tanks.
  apply (for_tanks_ind (fun s => forts_ok (fst s))); auto.
Qed.

Lemma forts_ok_kill shell pid tank s :
  forts_ok (fst s) -> forts_ok (fst (kill ext shell pid tank s)).
Proof.
  destruct s as [g n]. cbn [fst]. intros H. unfold kill.
  destruct (Py.get (s_owner_id shell) _) as [shooter |]; cbn [fst];
    apply forts_ok_push_event; [| exact H].
  apply forts_ok_release_forts. exact H.
Qed.

Lemma forts_ok_impact_tank shell pid tank s :
  forts_ok (fst s) -> forts_ok (fst (impact_tank ext shell pid tank s)).
Proof.
  intros H. unfold impact_tank.
  destruct (_ || _); auto. destruct (_ <=? 1)%Z; auto.
  destruct (_ <=? 0)%Z; [now apply forts_ok_kill | exact H].
Qed.

Lemma forts_ok_shell_impact shell s :
  forts_ok (fst s) -> forts_ok (fst (_shell_impact ext shell s)).
Proof.
  intros H. unfold _shell_impact.
  apply (for_tanks_ind (fun s => forts_ok (fst s))); auto.
  intros pid t s' Hs _. now apply forts_ok_impact_tank.
Qed.

Lemma forts_ok_move_shell sid acc :
  forts_ok (fst (fst acc)) ->
  forts_ok (fst (fst (move_shell sqrt ext dt sid acc))).
Proof.
  intros H. destruct acc as [[g n] dead]. unfold move_shell.
  cbn [fst] in H.
  destruct (Py.get sid (shells g)) as [shell |]; auto.
  destruct (Py.Qleb _ _); [now apply forts_ok_shell_impact |].
  destruct (Py.Qltb 3 _); [now apply forts_ok_shell_impact | exact H].
Qed.

Lemma forts_ok_delete_dead (acc : Sim * list string) :
  forts_ok (fst (fst acc)) ->
  forts_ok
    (fst (let '((g, n), dead) := acc in
          (fold_left (fun g sid => Game_.with_shells (Py.del sid (shells g)) g)
                     dead g, n))).
Proof.
  destruct acc as [[g n] dead]. cbn [fst]. intros K.
  apply (fold_left_ind forts_ok); auto.
Qed.

Lemma forts_ok_move_shells s :
  forts_ok (fst s) -> forts_ok (fst (_move_shells sqrt ext dt s)).
Proof.
  intros H. unfold _move_shells. apply forts_ok_delete_dead.
  apply (fold_left_ind (fun acc => forts_ok (fst (fst acc)))); auto.
  intros a b Ha. now apply forts_ok_move_shell.
Qed.

Lemma fort_ok_decay rate f :
  0 <= rate -> fort_ok f ->
  fort_ok (Fort_.with_capture_progress
             (Py.max 0 (f_capture_progress f - dt * rate)) f).
Proof.
  intros Hr [H0 H1]. unfold fort_ok.
  change (effective_capture_time (Fort_.with_capture_progress _ f))
    with (effective_capture_time f).
  fort_fields. split; [apply py_max_ge_l |].
  assert (0 <= dt * rate) by (apply Qmult_le_0_compat; auto).
  apply py_max_lub; lra.
Qed.

Lemma fort_ok_with_capturing_player v f :
  fort_ok f -> fort_ok (Fort_.with_capturing_player v f).
Proof. exact (fun H => H). Qed.

Lemma fort_ok_transfer capturer f f0 :
  fort_ok
    (Fort_.with_capturing_player None
       (Fort_.with_was_owned true
          (Fort_.with_owner (Some capturer)
             (Fort_.with_capture_progress (effective_capture_time f0) f)))).
Proof.
  unfold fort_ok, effective_capture_time, CAPTURE_TIME, RECAPTURE_MULTIPLIER.
  fort_fields. destruct (f_was_owned f0); split; lra.
Qed.

Lemma forts_ok_capture_fort fid fort s :
  forts_ok (fst s) ->
  fort_ok fort ->
  forts_ok (fst (capture_fort ext dt fid fort s)).
Proof.
  destruct s as [g n]. cbn [fst]. intros H Hf. unfold capture_fort.
  destruct (on_fort fort g) as [| capturer [| ? ?]].
  - destruct (_ && _); auto. cbn [fst].
    apply forts_ok_put_fort; auto.
    destruct (Py.Qeqb _ 0); [apply fort_ok_with_capturing_player |];
      apply fort_ok_decay; auto; lra.
  - destruct (is_player (f_owner fort) capturer); auto.
    destruct (is_player (f_capturing_player fort) capturer).
    + destruct (Py.Qleb _ _) eqn:E; cbn [fst].
      * apply forts_ok_push_event.
        match goal with
        | |- forts_ok (match ?o with Some _ => _ | None => _ end) =>
            destruct o
        end; [apply forts_ok_put_tank |];
          (apply forts_ok_put_fort; [exact H | apply fort_ok_transfer]).
      * apply forts_ok_put_fort; auto.
        apply Qleb_gt in E. destruct Hf as [H0 H1]. unfold fort_ok.
        change (effective_capture_time (Fort_.with_capture_progress _ fort))
          with (effective_capture_time fort).
        fort_fields. split; lra.
    + cbn [fst]. apply forts_ok_put_fort; auto.
      apply (fort_ok_decay (15 # 10)
               (Fort_.with_capturing_player (Some capturer) fort)); [lra |].
      exact Hf.
  - cbn [fst]. apply forts_ok_put_fort; auto.
    apply (fort_ok_decay 2 fort); [lra | exact Hf].
Qed.

Lemma forts_ok_update_captures s :
  forts_ok (fst s) -> forts_ok (fst (_update_captures ext dt s)).
Proof.
  intros H. unfold _update_captures.
  apply (for_forts_ind (fun s => forts_ok (fst s))); auto.
  intros fid f s' Hs G. apply forts_ok_capture_fort; auto.
  eapply forts_ok_get; eauto.
Qed.

Lemma forts_ok_generate_resources s :
  forts_ok (fst s) -> forts_ok (fst (_generate_resources dt s)).
Proof.
  intros H. unfold _generate_resources. cbn [fst].
  apply (fold_left_ind forts_ok); auto.
  intros g [pid ftypes] Hg.
  destruct (Py.get pid (tanks g)) as [tank |]; auto.
  destruct (negb (t_alive tank)); auto.
Qed.

Lemma forts_ok_check_respawns s :
  forts_ok (fst s) -> forts_ok (fst (_check_respawns ext dt s)).
Proof.
  intros H. unfold _check_respawns.
  apply (for_tanks_ind (fun s => forts_ok (fst s))); auto.
  intros pid t [g n] Hs _. unfold respawn_tank.
  destruct (negb (t_alive t)); auto. destruct (Py.Qleb _ _); exact Hs.
Qed.

Lemma forts_ok_reset_match g : forts_ok (_reset_match g).
Proof.
  unfold forts_ok, _reset_match. game_fields.
  unfold Py.values, map_values. rewrite map_map. cbn [snd].
  apply Forall_forall. intros f Hf. apply in_map_iff in Hf as (kv & <- & _).
  unfold fort_ok, reset_fort, effective_capture_time, CAPTURE_TIME.
  fort_fields. split; lra.
Qed.

Lemma forts_ok_tick_update g :
  forts_ok g -> forts_ok (tick_update sqrt atan2 ext dt g).
Proof.
  intros H. unfold tick_update.
  set (g1 := if negb (match_over g) then _ else g).
  assert (H1 : forts_ok g1).
  { unfold g1. destruct (negb (match_over g)); auto.
    destruct (Py.Qleb _ 0); exact H. }
  clearbody g1. destruct (match_over g1).
  - destruct (Py.Qleb _ 0); [apply forts_ok_reset_match | exact H1].
  - apply forts_ok_with_tick.
    apply forts_ok_check_respawns, forts_ok_generate_resources,
      forts_ok_update_captures, forts_ok_move_shells, forts_ok_move_tanks;
      auto.
Qed.

End TickInvariants.

(** ** Capture contest *)

Lemma in_on_fort_has_tank capturer fort g :
  In capturer (on_fort fort g) ->
  exists t, Py.get capturer (tanks g) = Some t.
Proof.
  unfold on_fort. intros H. apply In_keys_get.
  unfold Py.keys in *. apply in_map_iff in H as (kt & <- & Hk).
  apply filter_In in Hk as [Hk _]. apply in_map_iff. now exists kt.
Qed.

(** The only way [capture_fort] changes the owner of a fort. *)
Lemma capture_fort_transfer ext dt fid fort g n fort' :
  Py.get fid (forts g) = Some fort ->
  Py.get fid (forts (fst (capture_fort ext dt fid fort (g, n)))) = Some fort' ->
  f_owner fort' <> f_owner fort ->
  exists capturer t,
    on_fort fort g = [capturer]
    /\ f_capturing_player fort = Some capturer
    /\ effective_capture_time fort <= f_capture_progress fort + dt
    /\ f_owner fort' = Some capturer
    /\ f_capture_progress fort' = effective_capture_time fort
    /\ f_was_owned fort' = true
    /\ f_capturing_player fort' = None
    /\ Py.get capturer (tanks g) = Some t
    /\ Py.get capturer (tanks (fst (capture_fort ext dt fid fort (g, n))))
       = Some (Tank_.with_fort_captures (t_fort_captures t + 1)%Z
                 (Tank_.with_score (t_score t + 5)%Z t)).
Proof.
  intros G G' Hown. unfold capture_fort in *.
  destruct (on_fort fort g) as [| capturer [| ? ?]] eqn:On.
  - exfalso. destruct (_ && _).
    + cbn [fst] in G'. game_fields. rewrite get_set_same in G'.
      injection G' as <-. apply Hown.
      destruct (Py.Qeqb _ 0); reflexivity.
    + cbn [fst] in G'. rewrite G in G'. injection G' as <-. now apply Hown.
  - destruct (is_player (f_owner fort) capturer).
    { exfalso. cbn [fst] in G'. rewrite G in G'. injection G' as <-.
      now apply Hown. }
    destruct (is_player (f_capturing_player fort) capturer) eqn:Cap.
    + destruct (Py.Qleb _ _) eqn:E.
      * destruct (in_on_fort_has_tank capturer fort g) as [t Gt];
          [rewrite On; now left |].
        cbn [fst] in *. game_fields. rewrite Gt in *. game_fields.
        rewrite get_set_same in G'. injection G' as <-.
        exists capturer, t. fort_fields. apply Qleb_le in E.
        unfold is_player in Cap.
        destruct (f_capturing_player fort) as [c |]; [| discriminate].
        apply String.eqb_eq in Cap. subst c.
        repeat split; auto. apply get_set_same.
      * exfalso. cbn [fst] in G'. game_fields. rewrite get_set_same in G'.
        injection G' as <-. now apply Hown.
    + exfalso. cbn [fst] in G'. game_fields. rewrite get_set_same in G'.
      injection G' as <-. now apply Hown.
  - exfalso. cbn [fst] in G'. game_fields. rewrite get_set_same in G'.
    injection G' as <-. now apply Hown.
Qed.

(** C3, as the code has it.  Over a tick with [dt > 0] every fort keeps
    [0 <= progress <= effective capture time], the latter being
    [CAPTURE_TIME], times 1.5 exactly when the fort has ever been owned.
    The capture step gives a fort a new owner only when a single living
    tank stands on it, that tank's player is the one capturing, and progress
    plus [dt] reaches the effective capture time; progress is then left at
    that bound, the ever-owned flag is set, the contest is cleared and the
    capturer gains 5 score and 1 capture. *)
Theorem capture_progress_bounded_and_transfer :
  (forall f, effective_capture_time f
             == CAPTURE_TIME * (if f_was_owned f then 15 # 10 else 1))
  /\ (forall sqrt atan2 ext dt g,
         0 < dt ->
         forts_ok g ->
         forts_ok (advance sqrt atan2 ext dt g)
         /\ forall fid f,
             Py.get fid (forts (advance sqrt atan2 ext dt g)) = Some f ->
             0 <= f_capture_progress f
             /\ f_capture_progress f <= effective_capture_time f)
  /\ (forall ext dt fid fort g n fort',
         Py.get fid (forts g) = Some fort ->
         Py.get fid (forts (fst (capture_fort ext dt fid fort (g, n))))
         = Some fort' ->
         f_owner fort' <> f_owner fort ->
         exists capturer t,
           on_fort fort g = [capturer]
           /\ f_capturing_player fort = Some capturer
           /\ effective_capture_time fort <= f_capture_progress fort + dt
           /\ f_owner fort' = Some capturer
           /\ f_capture_progress fort' = effective_capture_time fort
           /\ f_was_owned fort' = true
           /\ f_capturing_player fort' = None
           /\ Py.get capturer (tanks g) = Some t
           /\ Py.get capturer
                (tanks (fst (capture_fort ext dt fid fort (g, n))))
              = Some (Tank_.with_fort_captures (t_fort_captures t + 1)%Z
                        (Tank_.with_score (t_score t + 5)%Z t))).
Proof.
  split; [intros f; reflexivity |]. split.
  - intros sqrt atan2 ext dt g Hdt H.
    assert (K : forts_ok (advance sqrt atan2 ext dt g)).
    { unfold advance. apply forts_ok_tick_update; auto.
      apply py_min_glb; lra. }
    split; [exact K |]. intros fid f G. exact (forts_ok_get _ _ _ K G).
  - exact capture_fort_transfer.
Qed.

Lemma capture_progress_bounded_and_transfer_witness :
  (0 < 1 # 10 /\ forts_ok capture_game)
  /\ forts_ok (advance sqrt6 atan2_axis (steady_oracle 10) (1 # 10)
                       capture_game).
Proof.
  assert (H : forts_ok capture_game).
  { repeat constructor; cbn; discriminate. }
  split; [split; [reflexivity | exact H] |].
  exact (proj1 (proj1 (proj2 capture_progress_bounded_and_transfer)
                      sqrt6 atan2_axis (steady_oracle 10) (1 # 10)
                      capture_game eq_refl H)).
Defined.

(** C3, as stated, fails on the transfer tick: Ann completes the capture
    of a never-owned fort (progress 4.95, [dt = 0.1]); she becomes the owner
    and progress is left at the bound 5, not reset to 0. *)
Lemma capture_transfer_progress_counterexample :
  let g' := advance sqrt6 atan2_axis (steady_oracle 10) (1 # 10)
                    capture_game in
  option_map f_owner (Py.get "fort_0" (forts capture_game)) = Some None
  /\ exists f,
      Py.get "fort_0" (forts g') = Some f
      /\ f_owner f = Some "p1"%string
      /\ f_was_owned f = true
      /\ f_capture_progress f = 5
      /\ ~ f_capture_progress f == 0.
Proof.
  cbv zeta. split; [reflexivity |].
  eexists. split; [vm_compute; reflexivity |].
  repeat split. discriminate.
Qed.

(** ** Well-formedness of reachable states *)

Section BuildInvariant.
Variable P : Tank -> Prop.
Hypothesis P_build :
  forall t t',
    t_shell_damage t' = t_shell_damage t ->
    t_upgrades t' = t_upgrades t ->
    t_ammo_cost t' = t_ammo_cost t ->
    P t -> P t'.
Hypothesis P_reset : forall t, P (reset_tank t).

Ltac same_build H := (eapply P_build; [.. | exact H]; reflexivity).

Lemma builds_put_tank pid t g :
  all_tanks P g -> P t -> all_tanks P (Game_.put_tank pid t g).
Proof. intros H Ht. now apply values_set_Forall. Qed.

Lemma builds_get pid t g :
  all_tanks P g -> Py.get pid (tanks g) = Some t -> P t.
Proof. intros H G. eapply get_values_Forall; eauto. Qed.

Lemma builds_move_tanks sqrt atan2 dt s :
  all_tanks P (fst s) -> all_tanks P (fst (_move_tanks sqrt atan2 dt s)).
Proof.
  intros H. unfold _move_tanks.
  apply (for_tanks_ind (fun s => all_tanks P (fst s))); auto.
  intros pid t s' Hs G. cbn [fst]. apply builds_put_tank; auto.
  pose proof (builds_get _ _ _ Hs G) as Ht. unfold move_tank.
  destruct (negb (t_alive t)); auto.
  destruct (t_path t) as [| [nq nr] rest]; auto.
  destruct (Py.Qleb _ _); [| same_build Ht].
  destruct (Py.Qltb _ _); [same_build Ht |].
  destruct rest; same_build Ht.
Qed.

Lemma builds_kill ext shell pid tank g n :
  all_tanks P g -> P tank -> all_tanks P (fst (kill ext shell pid tank (g, n))).
Proof.
  intros Hg Ht. unfold kill.
  set (dead := Tank_.with_path [] _).
  assert (Hdead : P dead) by same_build Ht.
  assert (Hg1 : all_tanks P (Game_.put_tank pid dead g))
    by (apply builds_put_tank; auto).
  destruct (Py.get (s_owner_id shell) (tanks (Game_.put_tank pid dead g)))
    as [shooter |] eqn:Gs; cbn [fst]; [| exact Hg1].
  unfold all_tanks. game_fields. rewrite tanks_release_forts. game_fields.
  pose proof (builds_get _ _ _ Hg1 Gs) as Hshooter.
  apply values_set_Forall; [same_build Hshooter |].
  apply values_set_Forall; [same_build Hdead | exact Hg1].
Qed.

Lemma builds_shell_impact ext shell s :
  all_tanks P (fst s) -> all_tanks P (fst (_shell_impact ext shell s)).
Proof.
  intros H. unfold _shell_impact.
  apply (for_tanks_ind (fun s => all_tanks P (fst s))); auto.
  intros pid t [g n] Hg G. pose proof (builds_get _ _ _ Hg G) as Ht.
  unfold impact_tank. destruct (_ || _); auto.
  destruct (_ <=? 1)%Z; auto. destruct (_ <=? 0)%Z.
  - apply builds_kill; auto. same_build Ht.
  - cbn [fst]. apply builds_put_tank; auto. same_build Ht.
Qed.

Lemma builds_move_shells sqrt ext dt s :
  all_tanks P (fst s) -> all_tanks P (fst (_move_shells sqrt ext dt s)).
Proof.
  intros H. unfold _move_shells.
  assert (D : forall acc : Sim * list string,
             all_tanks P (fst (fst acc)) ->
             all_tanks P
               (fst (let '((g, n), dead) := acc in
                     (fold_left
                        (fun g sid =>
                           Game_.with_shells (Py.del sid (shells g)) g)
                        dead g, n)))).
  { intros [[g n] dead] K. cbn [fst] in *.
    apply (fold_left_ind (all_tanks P)); auto. }
  apply D. apply (fold_left_ind (fun acc => all_tanks P (fst (fst acc)))); auto.
  intros [[g n] dead] sid Ha. unfold move_shell. cbn [fst] in Ha.
  destruct (Py.get sid (shells g)); auto.
  destruct (Py.Qleb _ _); [now apply builds_shell_impact |].
  destruct (Py.Qltb 3 _); [now apply builds_shell_impact | exact Ha].
Qed.

Lemma builds_update_captures ext dt s :
  all_tanks P (fst s) -> all_tanks P (fst (_update_captures ext dt s)).
Proof.
  intros H. unfold _update_captures.
  apply (for_forts_ind (fun s => all_tanks P (fst s))); auto.
  intros fid fort [g n] Hs _. cbn [fst] in Hs. unfold capture_fort.
  destruct (on_fort fort g) as [| capturer [| ? ?]]; auto.
  - destruct (_ && _); auto.
  - destruct (is_player (f_owner fort) capturer); auto.
    destruct (is_player (f_capturing_player fort) capturer); auto.
    destruct (Py.Qleb _ _); auto. cbn [fst].
    unfold all_tanks in *. game_fields.
    destruct (Py.get capturer (tanks g)) as [t |] eqn:G; game_fields; auto.
    apply values_set_Forall; auto.
    pose proof (builds_get _ _ _ Hs G) as Ht. same_build Ht.
Qed.

Lemma builds_generate_resources dt s :
  all_tanks P (fst s) -> all_tanks P (fst (_generate_resources dt s)).
Proof.
  intros H. unfold _generate_resources. cbn [fst].
  apply (fold_left_ind (all_tanks P)); auto.
  intros g [pid ftypes] Hg.
  destruct (Py.get pid (tanks g)) as [tank |] eqn:G; auto.
  destruct (negb (t_alive tank)); auto.
  apply builds_put_tank; auto.
  apply (fold_left_ind P); [eapply builds_get; eauto |].
  intros t ft Ht. destruct ft; same_build Ht.
Qed.

Lemma builds_check_respawns ext dt s :
  all_tanks P (fst s) -> all_tanks P (fst (_check_respawns ext dt s)).
Proof.
  intros H. unfold _check_respawns.
  apply (for_tanks_ind (fun s => all_tanks P (fst s))); auto.
  intros pid t [g n] Hs G. cbn [fst] in *.
  pose proof (builds_get _ _ _ Hs G) as Ht. unfold respawn_tank.
  destruct (negb (t_alive t)); auto.
  destruct (Py.Qleb _ _); cbn [fst]; apply builds_put_tank; auto;
    same_build Ht.
Qed.

Lemma builds_reset_match g : all_tanks P (_reset_match g).
Proof.
  unfold all_tanks, _reset_match. game_fields.
  unfold Py.values, map_values. rewrite map_map. cbn [snd].
  apply Forall_forall. intros t Ht. apply in_map_iff in Ht as (kv & <- & _).
  apply P_reset.
Qed.

Lemma builds_tick_update sqrt atan2 ext dt g :
  all_tanks P g -> all_tanks P (tick_update sqrt atan2 ext dt g).
Proof.
  intros H. unfold tick_update.
  set (g1 := if negb (match_over g) then _ else g).
  assert (H1 : all_tanks P g1).
  { unfold g1. destruct (negb (match_over g)); auto.
    destruct (Py.Qleb _ 0); exact H. }
  clearbody g1. destruct (match_over g1).
  - destruct (Py.Qleb _ 0); [apply builds_reset_match | exact H1].
  - change (all_tanks P (fst (_check_respawns ext dt
                (_generate_resources dt
                   (_update_captures ext dt
                      (_move_shells sqrt ext dt
                         (_move_tanks sqrt atan2 dt (g1, 0%nat)))))))).
    apply builds_check_respawns, builds_generate_resources,
      builds_update_captures, builds_move_shells, builds_move_tanks.
    exact H1.
Qed.

End BuildInvariant.

Lemma build_ok_same t t' :
  t_shell_damage t' = t_shell_damage t ->
  t_upgrades t' = t_upgrades t ->
  t_ammo_cost t' = t_ammo_cost t ->
  build_ok t -> build_ok t'.
Proof.
  unfold build_ok, upgrade_level. intros -> -> ->. auto.
Qed.

Lemma build_ok_reset t : build_ok (reset_tank t).
Proof. repeat split; discriminate. Qed.

Lemma tank_ok_same t t' :
  t_hp t' = t_hp t -> t_max_hp t' = t_max_hp t -> t_fuel t' = t_fuel t ->
  t_ammo t' = t_ammo t -> t_gears t' = t_gears t ->
  tank_ok t -> tank_ok t'.
Proof. unfold tank_ok. intros -> -> -> -> ->. auto. Qed.

Lemma well_formed_put_tank pid t g :
  well_formed g -> tank_ok t -> build_ok t ->
  well_formed (Game_.put_tank pid t g).
Proof.
  intros (Ht & Hb & Hf) Hok Hbuild. split; [| split].
  - now apply tanks_ok_put_tank.
  - game_fields. now apply values_set_Forall.
  - exact Hf.
Qed.

Lemma well_formed_get pid t g :
  well_formed g -> Py.get pid (tanks g) = Some t -> tank_ok t /\ build_ok t.
Proof.
  intros (Ht & Hb & _) G. split.
  - eapply tanks_ok_get; eauto.
  - eapply get_values_Forall; eauto.
Qed.

Lemma well_formed_new_game fs :
  Forall fresh_fort (Py.values fs) -> well_formed (new_game fs).
Proof.
  intros H. split; [| split].
  - split; constructor.
  - constructor.
  - unfold forts_ok. cbn [new_game forts]. eapply Forall_impl; [| exact H].
    intros f (_ & Hp & _ & Hw). unfold fort_ok, effective_capture_time.
    rewrite Hp, Hw. unfold CAPTURE_TIME. split; lra.
Qed.

Lemma well_formed_add_player ws_id name pid g :
  well_formed g -> well_formed (snd (add_player ws_id name pid g)).
Proof.
  intros H. unfold add_player. destruct (_ <=? _)%nat; auto. cbn [snd].
  apply well_formed_put_tank.
  - exact H.
  - repeat split; discriminate.
  - repeat split; discriminate.
Qed.

Lemma fort_ok_release_on_disconnect pid f :
  fort_ok f -> fort_ok (release_on_disconnect pid f).
Proof.
  intros H. unfold release_on_disconnect.
  assert (Z0 : forall f0 : Fort,
             fort_ok (Fort_.with_capture_progress 0 f0)).
  { intros f0. pose proof (effective_capture_time_pos f0).
    unfold fort_ok.
    change (effective_capture_time (Fort_.with_capture_progress 0 f0))
      with (effective_capture_time f0).
    fort_fields. split; lra. }
  destruct (is_player (f_owner f) pid);
    match goal with
    | |- context [if ?b then _ else _] => destruct b
    end; auto; apply Z0.
Qed.

Lemma well_formed_remove_player ws_id g :
  well_formed g -> well_formed (remove_player ws_id g).
Proof.
  intros (Ht & Hb & Hf). unfold remove_player.
  destruct (Py.get ws_id (players g)) as [p |];
    [| exact (conj Ht (conj Hb Hf))].
  split; [| split].
  - destruct Ht as [Ht Hs]. split; game_fields; auto.
    now apply values_del_Forall.
  - game_fields. now apply values_del_Forall.
  - unfold forts_ok in *. game_fields.
    unfold Py.values, map_values in *. rewrite map_map. cbn [snd].
    rewrite Forall_forall in *. intros f Hin.
    apply in_map_iff in Hin as (kv & <- & Hin).
    apply fort_ok_release_on_disconnect. apply Hf.
    apply in_map_iff. now exists kv.
Qed.

Lemma well_formed_set_tank_path pid path g :
  well_formed g -> well_formed (snd (set_tank_path pid path g)).
Proof.
  intros H. unfold set_tank_path.
  destruct (Py.get pid (tanks g)) as [tank |] eqn:G; auto.
  destruct (well_formed_get _ _ _ H G) as [Hok Hb].
  destruct (negb (t_alive tank)); auto.
  destruct path; cbn [snd]; apply well_formed_put_tank; auto.
Qed.

Lemma well_formed_shoot pid tq tr now created sid g :
  well_formed g -> well_formed (snd (shoot pid tq tr now created sid g)).
Proof.
  intros H. unfold shoot.
  destruct (Py.get pid (tanks g)) as [tank |] eqn:G; auto.
  destruct (well_formed_get _ _ _ H G) as [Hok Hb].
  destruct (negb (t_alive tank)); auto.
  destruct (Py.Qltb (now - _) _); auto.
  assert (H1 : well_formed
                 (Game_.put_tank pid (Tank_.with_last_shot now tank) g))
    by (apply well_formed_put_tank; auto).
  cbv zeta. tank_fields.
  destruct (Py.Qltb (t_ammo tank) (t_ammo_cost tank)) eqn:E; auto.
  destruct (_ <? _)%Z; auto. cbn [snd].
  apply Qltb_ge in E. destruct Hb as (Hd & Hc & Hcost).
  assert (H2 : well_formed
                 (Game_.put_tank pid
                    (Tank_.with_ammo (t_ammo tank - t_ammo_cost tank)
                       (Tank_.with_last_shot now tank))
                    (Game_.put_tank pid (Tank_.with_last_shot now tank) g))).
  { apply well_formed_put_tank; auto.
    - unfold tank_ok in *. tank_fields. intuition lra.
    - repeat split; auto. }
  destruct H2 as ((Ht2 & Hs2) & Hb2 & Hf2). split; [| split]; auto.
  split; auto. game_fields. apply values_set_Forall; auto.
  unfold shell_ok. cbn [s_damage]. unfold upgrade_level in *. tank_fields.
  lia.
Qed.

Lemma lvl_costs_nonneg lvl cost :
  Py.index lvl_costs lvl = Some cost -> 0 <= cost.
Proof.
  unfold Py.index, lvl_costs. cbn [List.length Z.of_nat].
  destruct (_ && _).
  - intros H. apply nth_error_In in H. cbn in H.
    destruct H as [<- | [<- | [<- | []]]]; discriminate.
  - destruct (_ && _); [| discriminate].
    intros H. apply nth_error_In in H. cbn in H.
    destruct H as [<- | [<- | [<- | []]]]; discriminate.
Qed.

Lemma tank_ok_apply_upgrade ty t :
  tank_ok t -> tank_ok (apply_upgrade ty t).
Proof.
  intros H. unfold apply_upgrade.
  repeat match goal with
         | |- context [if String.eqb ?a ?b then _ else _] =>
             destruct (String.eqb a b)
         end; auto.
  unfold tank_ok, Py.minZ in *. tank_fields.
  destruct (_ <? _)%Z eqn:E; [apply Z.ltb_lt in E | apply Z.ltb_ge in E];
    intuition lia.
Qed.

Lemma build_ok_apply_upgrade ty t :
  build_ok t -> build_ok (apply_upgrade ty t).
Proof.
  intros (Hd & Hc & Hcost). unfold apply_upgrade.
  repeat match goal with
         | |- context [if String.eqb ?a ?b then _ else _] =>
             destruct (String.eqb a b)
         end; unfold build_ok, upgrade_level in *; tank_fields;
    repeat split; auto; try lia.
  pose proof (py_max_ge_l 2 (t_ammo_cost t - 2)). lra.
Qed.

Lemma well_formed_upgrade pid ty g reply g' :
  well_formed g -> upgrade pid ty g = Returns reply g' -> well_formed g'.
Proof.
  intros H. unfold upgrade.
  destruct (Py.get pid (tanks g)) as [tank |] eqn:G;
    [| intros [= _ <-]; exact H].
  destruct (well_formed_get _ _ _ H G) as [Hok Hb].
  destruct (negb _); [intros [= _ <-]; exact H |].
  destruct (_ <=? _)%Z; [intros [= _ <-]; exact H |].
  destruct (Py.index lvl_costs _) as [cost |] eqn:I; [| discriminate].
  pose proof (lvl_costs_nonneg _ _ I) as Hcost.
  destruct (Py.Qltb _ _) eqn:E; intros [= _ <-]; [exact H |].
  apply Qltb_ge in E. apply well_formed_put_tank; auto.
  - apply tank_ok_apply_upgrade. unfold tank_ok in *. tank_fields.
    intuition lra.
  - apply build_ok_apply_upgrade. destruct Hb as (Hd & Hc & Hac).
    unfold build_ok, upgrade_level in *. tank_fields. repeat split; auto.
    destruct (String.eqb "cannon" ty) eqn:Ety.
    + apply String.eqb_eq in Ety. subst ty. rewrite get_set_same.
      destruct (Py.get "cannon" (t_upgrades tank)); lia.
    + apply String.eqb_neq in Ety. rewrite get_set_other by exact Ety.
      exact Hc.
Qed.

Lemma well_formed_reset_match g : well_formed (_reset_match g).
Proof.
  split; [apply tanks_ok_reset_match |]. split.
  - apply (builds_reset_match build_ok build_ok_reset).
  - apply forts_ok_reset_match.
Qed.

Lemma well_formed_cast_vote pid g :
  well_formed g -> well_formed (snd (cast_vote pid g)).
Proof.
  intros H. unfold cast_vote. destruct (negb (match_over g)); auto.
  cbn [snd]. destruct (_ && _); [apply well_formed_reset_match | exact H].
Qed.

Lemma well_formed_advance sqrt atan2 ext dt g :
  0 < dt -> fair ext ->
  well_formed g -> well_formed (advance sqrt atan2 ext dt g).
Proof.
  intros Hdt Hfair (Ht & Hb & Hf).
  assert (0 <= Py.min dt (1 # 10)) by (apply py_min_glb; lra).
  unfold advance. split; [| split].
  - apply tanks_ok_tick_update; auto.
  - apply (builds_tick_update build_ok build_ok_same build_ok_reset); auto.
  - apply forts_ok_tick_update; auto.
Qed.

Lemma reachable_well_formed g : reachable g -> well_formed g.
Proof.
  induction 1.
  - now apply well_formed_new_game.
  - now apply well_formed_add_player.
  - now apply well_formed_remove_player.
  - now apply well_formed_set_tank_path.
  - now apply well_formed_shoot.
  - eapply well_formed_upgrade; eauto.
  - now apply well_formed_cast_vote.
  - now apply well_formed_advance.
  - assumption.
Qed.

(** ** Resource bounds *)

(** In every reachable state the tanks are within their bounds, the shells
    in flight carry a non-negative damage and capture progress is within
    its bounds. *)
Lemma reachable_in_bounds g :
  reachable g ->
  Forall tank_ok (Py.values (tanks g))
  /\ Forall shell_ok (Py.values (shells g))
  /\ Forall fort_ok (Py.values (forts g)).
Proof.
  intros H. destruct (reachable_well_formed g H) as ((Ht & Hs) & _ & Hf).
  auto.
Qed.

(** C4. After a tick [advance dt] with [dt > 0] and random draws in
    [[0,1)], every tank has [0 <= hp <= max_hp], [0 <= fuel <= 120],
    [0 <= ammo <= 100] and [0 <= gears <= 99], provided the tanks were
    within these bounds before the tick and the shells in flight carry a
    non-negative damage; the shells still in flight keep theirs.  Both
    provisions hold in every state the server can reach, so after every
    tick from a reachable state every tank is within its bounds. *)
Theorem advance_keeps_tanks_in_bounds :
  (forall sqrt atan2 ext dt g,
      0 < dt ->
      fair ext ->
      Forall tank_ok (Py.values (tanks g)) ->
      Forall shell_ok (Py.values (shells g)) ->
      (forall pid t,
          Py.get pid (tanks (advance sqrt atan2 ext dt g)) = Some t ->
          (0 <= t_hp t <= t_max_hp t)%Z
          /\ (0 <= t_fuel t /\ t_fuel t <= 120)
          /\ (0 <= t_ammo t /\ t_ammo t <= 100)
          /\ (0 <= t_gears t /\ t_gears t <= 99))
      /\ Forall tank_ok (Py.values (tanks (advance sqrt atan2 ext dt g)))
      /\ Forall shell_ok (Py.values (shells (advance sqrt atan2 ext dt g))))
  /\ (forall sqrt atan2 ext dt g,
         reachable g ->
         0 < dt ->
         fair ext ->
         forall pid t,
           Py.get pid (tanks (advance sqrt atan2 ext dt g)) = Some t ->
           (0 <= t_hp t <= t_max_hp t)%Z
           /\ (0 <= t_fuel t /\ t_fuel t <= 120)
           /\ (0 <= t_ammo t /\ t_ammo t <= 100)
           /\ (0 <= t_gears t /\ t_gears t <= 99)).
Proof.
  split.
  - intros sqrt atan2 ext dt g Hdt Hfair Ht Hs.
    assert (K : tanks_ok (advance sqrt atan2 ext dt g)).
    { unfold advance. apply tanks_ok_tick_update; auto.
      - apply py_min_glb; lra.
      - split; assumption. }
    split; [| exact K].
    intros pid t G. exact (tanks_ok_get _ _ _ K G).
  - intros sqrt atan2 ext dt g R Hdt Hfair pid t G.
    assert (R' : reachable (advance sqrt atan2 ext dt g))
      by now apply reach_tick.
    destruct (reachable_in_bounds _ R') as (Ht & _).
    exact (get_values_Forall _ _ _ _ Ht G).
Qed.

Lemma advance_keeps_tanks_in_bounds_witness :
  (0 < 1 # 10
   /\ fair (steady_oracle 10)
   /\ Forall tank_ok (Py.values (tanks fort_owner_game))
   /\ Forall shell_ok (Py.values (shells fort_owner_game)))
  /\ Forall tank_ok
       (Py.values (tanks (advance sqrt6 atan2_axis (steady_oracle 10) (1 # 10)
                                  fort_owner_game))).
Proof.
  assert (H1 : 0 < 1 # 10) by reflexivity.
  assert (H2 : fair (steady_oracle 10)).
  { intros k. split; [discriminate | reflexivity]. }
  assert (H3 : Forall tank_ok (Py.values (tanks fort_owner_game))).
  { repeat constructor; cbn; discriminate. }
  assert (H4 : Forall shell_ok (Py.values (shells fort_owner_game))).
  { repeat constructor; cbn; discriminate. }
  split; [exact (conj H1 (conj H2 (conj H3 H4))) |].
  exact (proj1 (proj2 (proj1 advance_keeps_tanks_in_bounds
                         sqrt6 atan2_axis (steady_oracle 10) (1 # 10)
                         fort_owner_game H1 H2 H3 H4))).
Defined.

(* ================================================================== *)
(** * Further properties of the code *)

(** ** Hex range, neighbours and ring *)

Section HexCells.
Local Open Scope Z_scope.

Lemma hex_range_In c k x :
  In x (hex_range c k) <-> hex_distance c x <= k.
Proof.
  pose proof (hex_distance_double c x) as D.
  destruct c as [cq cr], x as [xq xr]. cbn [fst snd] in D.
  unfold hex_range. rewrite in_flat_map. cbn [fst snd]. split.
  - intros (dq & Hdq & Hin). apply in_map_iff in Hin as (dr & E & Hdr).
    apply range_In in Hdq. apply range_In in Hdr. inversion E; subst. lia.
  - intros H. exists (xq - cq). split; [apply range_In; lia |].
    apply in_map_iff. exists (xr - cr). split; [f_equal; lia |].
    apply range_In. lia.
Qed.

Lemma hex_neighbors_In q r x :
  In x (hex_neighbors q r) <-> hex_distance (q, r) x = 1.
Proof.
  pose proof (hex_distance_double (q, r) x) as D.
  destruct x as [xq xr]. cbn [fst snd] in D.
  unfold hex_neighbors. cbn [map In fst snd]. split.
  - intros H. repeat (destruct H as [H | H]; [inversion H; subst; lia |]).
    contradiction.
  - intros H. rewrite H in D.
    assert (C : (xq - q = 1 /\ xr - r = 0) \/ (xq - q = 1 /\ xr - r = -1)
                \/ (xq - q = 0 /\ xr - r = -1) \/ (xq - q = -1 /\ xr - r = 0)
                \/ (xq - q = -1 /\ xr - r = 1) \/ (xq - q = 0 /\ xr - r = 1))
      by lia.
    destruct C as [[A B] | [[A B] | [[A B] | [[A B] | [[A B] | [A B]]]]]].
    + left. f_equal; lia.
    + right; left. f_equal; lia.
    + do 2 right; left. f_equal; lia.
    + do 3 right; left. f_equal; lia.
    + do 4 right; left. f_equal; lia.
    + do 5 right; left. f_equal; lia.
Qed.

Lemma hex_neighbors_NoDup q r : NoDup (hex_neighbors q r).
Proof.
  unfold hex_neighbors. cbn [map fst snd].
  repeat constructor; cbn [In]; intros H;
    repeat (destruct H as [H | H]; [inversion H; lia |]); contradiction.
Qed.

End HexCells.

Section HexRing.
Local Open Scope Z_scope.

Lemma ring_walk {A} (d : Hex) (l : list A) : forall res q r,
  fold_left (fun st _ => ring_step d st) l (res, q, r)
  = (res ++ map (fun j => (q + Z.of_nat j * fst d, r + Z.of_nat j * snd d))
                (seq 0 (List.length l)),
     q + Z.of_nat (List.length l) * fst d,
     r + Z.of_nat (List.length l) * snd d).
Proof.
  induction l as [| a l IH]; intros res q r.
  - cbn. rewrite app_nil_r. f_equal; [f_equal |]; lia.
  - cbn [fold_left ring_step List.length]. rewrite IH.
    cbn [seq map]. rewrite <- seq_shift, map_map.
    rewrite <- app_assoc. cbn [app].
    f_equal; [f_equal; [f_equal |] |]; try lia.
    f_equal; [f_equal; lia |].
    apply map_ext. intros j. f_equal; lia.
Qed.

Lemma ring_walk_side d k res q r :
  fold_left (fun st _ => ring_step d st) (Py.range 0 k) (res, q, r)
  = (res ++ ring_side (q, r) d k,
     q + Z.max 0 k * fst d, r + Z.max 0 k * snd d).
Proof.
  rewrite ring_walk, range_length. unfold ring_side, Py.range.
  rewrite map_map. cbn [fst snd].
  replace (Z.of_nat (Z.to_nat (k - 0))) with (Z.max 0 k) by lia.
  reflexivity.
Qed.

Lemma hex_ring_sides cq cr k :
  k <> 0 ->
  hex_ring (cq, cr) k
  = ring_side (cq, cr - k) (1, 0) k
    ++ ring_side (cq + Z.max 0 k, cr - k) (0, 1) k
    ++ ring_side (cq + Z.max 0 k, cr - k + Z.max 0 k) (-1, 1) k
    ++ ring_side (cq, cr - k + 2 * Z.max 0 k) (-1, 0) k
    ++ ring_side (cq - Z.max 0 k, cr - k + 2 * Z.max 0 k) (0, -1) k
    ++ ring_side (cq - Z.max 0 k, cr - k + Z.max 0 k) (1, -1) k.
Proof.
  intros Hk. unfold hex_ring. apply Z.eqb_neq in Hk. rewrite Hk.
  unfold ring_dirs. cbn [fold_left fst snd].
  rewrite !ring_walk_side. cbn [fst snd app].
  rewrite <- !app_assoc.
  repeat match goal with
         | |- ring_side ?a ?d k ++ _ = ring_side ?b ?d k ++ _ =>
             replace a with b by (f_equal; lia); f_equal
         | |- ring_side ?a ?d k = ring_side ?b ?d k =>
             replace a with b by (f_equal; lia); reflexivity
         end.
Qed.

Lemma hex_ring_negative c k : k < 0 -> hex_ring c k = [].
Proof.
  intros K. destruct c as [cq cr]. rewrite hex_ring_sides by lia.
  unfold ring_side, Py.range. replace (Z.to_nat (k - 0)) with 0%nat by lia.
  reflexivity.
Qed.

Lemma hex_ring_positive cq cr k :
  0 < k ->
  hex_ring (cq, cr) k
  = ring_side (cq, cr - k) (1, 0) k
    ++ ring_side (cq + k, cr - k) (0, 1) k
    ++ ring_side (cq + k, cr) (-1, 1) k
    ++ ring_side (cq, cr + k) (-1, 0) k
    ++ ring_side (cq - k, cr + k) (0, -1) k
    ++ ring_side (cq - k, cr) (1, -1) k.
Proof.
  intros K. rewrite hex_ring_sides by lia.
  replace (Z.max 0 k) with k by lia.
  repeat (f_equal; try (f_equal; lia)).
Qed.

Lemma ring_side_In start d k x :
  In x (ring_side start d k)
  <-> exists j, 0 <= j < k
                /\ x = (fst start + j * fst d, snd start + j * snd d).
Proof.
  unfold ring_side. rewrite in_map_iff. split.
  - intros (j & <- & Hj). apply range_In in Hj. exists j. split; [lia | auto].
  - intros (j & Hj & ->). exists j. split; [auto |]. apply range_In. lia.
Qed.

Lemma ring_side_length start d k :
  List.length (ring_side start d k) = Z.to_nat k.
Proof.
  unfold ring_side. rewrite length_map, range_length. f_equal. lia.
Qed.

Lemma ring_side_NoDup start d k :
  d <> (0, 0) -> NoDup (ring_side start d k).
Proof.
  intros Hd. unfold ring_side.
  apply NoDup_map_NoDup_ForallPairs; [| apply range_NoDup].
  intros i j _ _ E. inversion E as [[E1 E2]].
  destruct d as [dq dr]. cbn [fst snd] in *.
  destruct (Z.eq_dec dq 0) as [-> | Nq].
  - destruct (Z.eq_dec dr 0) as [-> | Nr]; [congruence |].
    assert ((i - j) * dr = 0) by lia. nia.
  - assert ((i - j) * dq = 0) by lia. nia.
Qed.

Lemma hex_ring_In c k x : In x (hex_ring c k) <-> hex_distance c x = k.
Proof.
  pose proof (hex_distance_double c x) as D.
  destruct (Z.lt_trichotomy k 0) as [K | [-> | K]].
  - rewrite hex_ring_negative by exact K. cbn [In]. lia.
  - unfold hex_ring. cbn [Z.eqb In]. rewrite hex_distance_zero.
    split; [intros [H | H]; [auto | contradiction] | intros H; left; auto].
  - destruct c as [cq cr], x as [xq xr]. cbn [fst snd] in D.
    rewrite hex_ring_positive by exact K.
    rewrite !in_app_iff, !ring_side_In. cbn [fst snd]. split.
    + intros [H | [H | [H | [H | [H | H]]]]];
        destruct H as (j & Hj & E); injection E as E1 E2; subst; lia.
    + intros H. rewrite H in D.
      assert (C :
        (xr - cr = - k /\ 0 <= xq - cq < k)
        \/ (xq - cq = k /\ - k <= xr - cr < 0)
        \/ (xq - cq + (xr - cr) = k /\ 0 <= xr - cr < k)
        \/ (xr - cr = k /\ - k < xq - cq <= 0)
        \/ (xq - cq = - k /\ 0 < xr - cr <= k)
        \/ (xq - cq + (xr - cr) = - k /\ - k < xr - cr <= 0)) by lia.
      destruct C as [[A B] | [[A B] | [[A B] | [[A B] | [[A B] | [A B]]]]]].
      * left. exists (xq - cq). split; [lia | f_equal; lia].
      * right; left. exists (xr - cr + k). split; [lia | f_equal; lia].
      * do 2 right; left. exists (xr - cr). split; [lia | f_equal; lia].
      * do 3 right; left. exists (cq - xq). split; [lia | f_equal; lia].
      * do 4 right; left. exists (cr + k - xr). split; [lia | f_equal; lia].
      * do 5 right. exists (cr - xr). split; [lia | f_equal; lia].
Qed.

Lemma hex_ring_length c k :
  0 < k -> Z.of_nat (List.length (hex_ring c k)) = 6 * k.
Proof.
  intros K. destruct c as [cq cr]. rewrite hex_ring_positive by lia.
  rewrite !length_app, !ring_side_length. lia.
Qed.

Lemma NoDup_app_disjoint {A} (l1 l2 : list A) :
  NoDup l1 -> NoDup l2 -> (forall a, In a l1 -> In a l2 -> False) ->
  NoDup (l1 ++ l2).
Proof. intros H1 H2 H. apply NoDup_app; auto. Qed.

Lemma hex_ring_NoDup c k : NoDup (hex_ring c k).
Proof.
  destruct (Z.lt_trichotomy k 0) as [K | [-> | K]].
  - rewrite hex_ring_negative by exact K. constructor.
  - unfold hex_ring. cbn. repeat constructor. intros [].
  - destruct c as [cq cr]. rewrite hex_ring_positive by exact K.
    repeat (apply NoDup_app_disjoint;
            [apply ring_side_NoDup; discriminate | |
             intros [aq ar] Ha Hb;
             apply ring_side_In in Ha as (i & Hi & Ei);
             rewrite ?in_app_iff, !ring_side_In in Hb; cbn [fst snd] in *;
             injection Ei as Ei1 Ei2; subst;
             decompose [or ex and] Hb;
             match goal with
             | E : (_, _) = (_, _) |- _ => injection E as E1 E2; lia
             end]).
    apply ring_side_NoDup; discriminate.
Qed.

End HexRing.

(** ** Hex line: length and end points *)

Lemma round_near (x : Q) (k : Z) :
  inject_Z k - (1 # 2) < x -> x < inject_Z k + (1 # 2) -> Py.round x = k.
Proof.
  intros Hl Hu. unfold Py.round.
  pose proof (Qfloor_le x) as F1. pose proof (Qlt_floor x) as F2.
  rewrite inject_Z_plus in F2. change (inject_Z 1) with 1 in F2.
  assert (C : Qfloor x = k \/ Qfloor x = (k - 1)%Z).
  { assert (A : inject_Z (Qfloor x) < inject_Z (k + 1)).
    { rewrite inject_Z_plus. change (inject_Z 1) with 1. lra. }
    assert (B : inject_Z (k - 2) < inject_Z (Qfloor x)).
    { unfold Z.sub. rewrite inject_Z_plus. change (inject_Z (- (2))) with (-2).
      lra. }
    rewrite <- Zlt_Qlt in A, B. lia. }
  destruct C as [E | E]; rewrite E in *.
  - destruct (Qcompare_spec (x - inject_Z k) (1 # 2)) as [H | H | H];
      try lra. reflexivity.
  - assert (Ik : inject_Z (k - 1) == inject_Z k - 1).
    { unfold Z.sub. rewrite inject_Z_plus. reflexivity. }
    destruct (Qcompare_spec (x - inject_Z (k - 1)) (1 # 2)) as [H | H | H];
      try lra. lia.
Qed.

Lemma cube_round_near (fq fr : Q) (x z : Z) :
  fq == inject_Z x + line_eps ->
  fr == inject_Z z + line_eps ->
  cube_round fq fr = (x, z).
Proof.
  unfold line_eps. intros Eq Er. unfold cube_round. cbv zeta.
  assert (Rx : Py.round fq = x) by (apply round_near; lra).
  assert (Rz : Py.round fr = z) by (apply round_near; lra).
  assert (Ry : Py.round (- fq - fr) = (- x - z)%Z).
  { apply round_near; unfold Z.sub; rewrite inject_Z_plus, !inject_Z_opp; lra. }
  rewrite Rx, Ry, Rz.
  assert (Dx : Qabs (inject_Z x - fq) == 1 # 1000000).
  { rewrite Qabs_neg by lra. lra. }
  assert (Dz : Qabs (inject_Z z - fr) == 1 # 1000000).
  { rewrite Qabs_neg by lra. lra. }
  assert (Dy : Qabs (inject_Z (- x - z) - (- fq - fr)) == 2 # 1000000).
  { unfold Z.sub. rewrite inject_Z_plus, !inject_Z_opp.
    rewrite Qabs_pos by lra. lra. }
  assert (C1 : Py.Qltb (Qabs (inject_Z (- x - z) - (- fq - fr)))
                       (Qabs (inject_Z x - fq)) = false)
    by (apply Qltb_ge; lra).
  assert (C2 : Py.Qltb (Qabs (inject_Z z - fr))
                       (Qabs (inject_Z (- x - z) - (- fq - fr))) = true)
    by (apply Qltb_lt; lra).
  rewrite C1, C2. reflexivity.
Qed.

Lemma hex_line_point_first a b n :
  hex_line_point a b n 0 = a.
Proof.
  destruct a as [aq ar]. unfold hex_line_point. cbn [fst snd].
  apply cube_round_near.
  - unfold Qdiv. change (inject_Z 0) with 0. ring.
  - unfold Qdiv. change (inject_Z 0) with 0. ring.
Qed.

Lemma hex_line_point_last a b n :
  n <> 0%Z -> hex_line_point a b n n = b.
Proof.
  intros Hn. destruct a as [aq ar], b as [bq br].
  unfold hex_line_point. cbn [fst snd].
  assert (N : ~ inject_Z n == 0).
  { change 0 with (inject_Z 0). rewrite inject_Z_injective. exact Hn. }
  apply cube_round_near; unfold Z.sub; rewrite inject_Z_plus, inject_Z_opp;
    field; exact N.
Qed.

Lemma hex_line_length a b :
  Z.of_nat (List.length (hex_line a b)) = (hex_distance a b + 1)%Z.
Proof.
  pose proof (hex_distance_nonneg a b) as N. unfold hex_line.
  destruct (hex_distance a b =? 0)%Z eqn:E.
  - apply Z.eqb_eq in E. rewrite E. reflexivity.
  - rewrite length_map, range_length. lia.
Qed.

Lemma hex_line_ends a b :
  hd a (hex_line a b) = a /\ List.last (hex_line a b) a = b.
Proof.
  pose proof (hex_distance_nonneg a b) as N. unfold hex_line.
  destruct (hex_distance a b =? 0)%Z eqn:E.
  - apply Z.eqb_eq in E. apply hex_distance_zero in E. subst b.
    split; reflexivity.
  - apply Z.eqb_neq in E. set (n := hex_distance a b) in *.
    unfold Py.range.
    replace (Z.to_nat (n + 1 - 0)) with (S (Z.to_nat n)) by lia.
    split.
    + cbn [seq map hd]. replace (0 + Z.of_nat 0)%Z with 0%Z by lia.
      apply hex_line_point_first.
    + rewrite seq_S, !map_app. cbn [map]. rewrite last_last.
      replace (0 + Z.of_nat (0 + Z.to_nat n))%Z with n by lia.
      now apply hex_line_point_last.
Qed.

(** ** Summary of the hex helpers *)

(** X1. [hex_range c k], and with it [all_hexes_in_radius k] around the
    origin, lists exactly the cells within hex distance [k] of the centre. *)
Theorem hex_range_is_the_disc :
  (forall c k x, In x (hex_range c k) <-> (hex_distance c x <= k)%Z)
  /\ (forall k x,
         In x (all_hexes_in_radius k) <-> (hex_distance (0, 0)%Z x <= k)%Z).
Proof.
  split.
  - exact hex_range_In.
  - intros k x. apply hex_range_In.
Qed.

(** X2. [hex_neighbors q r] lists, without repetition, the six cells at hex
    distance 1 from [(q, r)]. *)
Theorem hex_neighbors_are_the_cells_at_distance_one :
  forall q r,
    (forall x, In x (hex_neighbors q r) <-> hex_distance (q, r) x = 1%Z)
    /\ NoDup (hex_neighbors q r)
    /\ List.length (hex_neighbors q r) = 6%nat.
Proof.
  intros q r. split; [| split].
  - intros x. apply hex_neighbors_In.
  - apply hex_neighbors_NoDup.
  - reflexivity.
Qed.

(** X3. [hex_ring c k] lists, without repetition, exactly the cells at hex
    distance [k] from [c]: the centre alone for [k = 0], [6k] cells for [k >
    0], and nothing for a negative radius. *)
Theorem hex_ring_is_the_circle :
  forall c k,
    (forall x, In x (hex_ring c k) <-> hex_distance c x = k)
    /\ NoDup (hex_ring c k)
    /\ ((0 < k)%Z -> Z.of_nat (List.length (hex_ring c k)) = (6 * k)%Z)
    /\ (k = 0%Z -> hex_ring c k = [c])
    /\ ((k < 0)%Z -> hex_ring c k = []).
Proof.
  intros c k. split; [| split; [| split; [| split]]].
  - intros x. apply hex_ring_In.
  - apply hex_ring_NoDup.
  - apply hex_ring_length.
  - intros ->. reflexivity.
  - apply hex_ring_negative.
Qed.

Lemma hex_ring_is_the_circle_witness :
  (0 < 2)%Z
  /\ Z.of_nat (List.length (hex_ring (1, -1)%Z 2)) = 12%Z
  /\ (In (3, -2)%Z (hex_ring (1, -1)%Z 2)
      <-> hex_distance (1, -1)%Z (3, -2)%Z = 2%Z).
Proof.
  split; [lia |]. split.
  - exact (proj1 (proj2 (proj2 (hex_ring_is_the_circle (1, -1)%Z 2%Z)))
                 ltac:(lia)).
  - exact (proj1 (hex_ring_is_the_circle (1, -1)%Z 2%Z) (3, -2)%Z).
Defined.

(** X4. [hex_line a b] has one cell per unit of hex distance plus one,
    starts at [a] and ends at [b]. *)
Theorem hex_line_joins_its_ends :
  forall a b,
    Z.of_nat (List.length (hex_line a b)) = (hex_distance a b + 1)%Z
    /\ hd a (hex_line a b) = a
    /\ List.last (hex_line a b) a = b.
Proof.
  intros a b. split; [apply hex_line_length | apply hex_line_ends].
Qed.

(** ** Snapshots *)

Section DictCollect.
Context {V W : Type} (sel : string -> V -> bool) (f : V -> W).

Lemma get_not_in_keys (k : string) (d : Py.dict V) :
  ~ In k (Py.keys d) -> Py.get k d = None.
Proof.
  unfold Py.keys. induction d as [| [k' v'] d IH]; cbn; auto.
  intros H. destruct (String.eqb k k') eqn:E.
  - apply String.eqb_eq in E. subst. tauto.
  - apply IH. tauto.
Qed.

Lemma dict_collect_fold_get (k : string) (d : Py.dict V) : forall out,
  NoDup (Py.keys d) ->
  Py.get k (fold_left (fun out kv =>
                         if sel (fst kv) (snd kv)
                         then Py.set (fst kv) (f (snd kv)) out
                         else out) d out)
  = match Py.get k d with
    | Some v => if sel k v then Some (f v) else Py.get k out
    | None => Py.get k out
    end.
Proof.
  induction d as [| [k0 v0] d IH]; intros out N; cbn [fold_left]; auto.
  cbn [Py.keys map fst] in N. inversion N as [| ? ? Hnotin N']; subst.
  rewrite IH by exact N'. cbn [fst snd Py.get].
  destruct (String.eqb k k0) eqn:E.
  - apply String.eqb_eq in E. subst k0.
    rewrite (get_not_in_keys k d Hnotin).
    destruct (sel k v0); [apply get_set_same | reflexivity].
  - apply String.eqb_neq in E.
    assert (G : Py.get k (if sel k0 v0 then Py.set k0 (f v0) out else out)
                = Py.get k out).
    { destruct (sel k0 v0); [apply get_set_other; exact E | reflexivity]. }
    rewrite G. reflexivity.
Qed.

Lemma dict_collect_get (k : string) (d : Py.dict V) :
  NoDup (Py.keys d) ->
  Py.get k (dict_collect sel f d)
  = match Py.get k d with
    | Some v => if sel k v then Some (f v) else None
    | None => None
    end.
Proof.
  intros N. unfold dict_collect. rewrite dict_collect_fold_get by exact N.
  reflexivity.
Qed.

(** Without any assumption on the keys: every entry of the result comes
    from a selected entry of the source. *)
Lemma dict_collect_from (d : Py.dict V) (k : string) (w : W) :
  In (k, w) (dict_collect sel f d) ->
  exists v, In (k, v) d /\ sel k v = true /\ w = f v.
Proof.
  unfold dict_collect.
  assert (G : forall l out,
             (forall k w, In (k, w) out ->
                          exists v, In (k, v) d /\ sel k v = true /\ w = f v) ->
             incl l d ->
             forall k w,
               In (k, w) (fold_left
                            (fun out kv =>
                               if sel (fst kv) (snd kv)
                               then Py.set (fst kv) (f (snd kv)) out
                               else out) l out) ->
               exists v, In (k, v) d /\ sel k v = true /\ w = f v).
  { induction l as [| [k0 v0] l IH]; intros out Hout Hl k1 w1; cbn [fold_left].
    - apply Hout.
    - apply IH; [| intros x Hx; apply Hl; now right].
      cbn [fst snd]. destruct (sel k0 v0) eqn:S; [| exact Hout].
      intros k2 w2 Hin.
      assert (Hset : forall out',
                 In (k2, w2) (Py.set k0 (f v0) out') ->
                 (k2 = k0 /\ w2 = f v0) \/ In (k2, w2) out').
      { induction out' as [| [k3 w3] out' IHo]; cbn.
        - intros [[= -> ->] | []]. auto.
        - destruct (String.eqb k0 k3) eqn:E; cbn.
          + apply String.eqb_eq in E. subst k3.
            intros [[= -> ->] | H]; auto.
          + intros [H | H]; auto. destruct (IHo H); auto. }
      destruct (Hset out Hin) as [[-> ->] | H]; [| now apply Hout].
      exists v0. split; [apply Hl; now left | auto]. }
  apply (G d []); [intros ? ? [] | apply incl_refl].
Qed.

End DictCollect.

Lemma mem_hex_In h cells : mem_hex h cells = true <-> In h cells.
Proof.
  unfold mem_hex. rewrite existsb_exists. destruct h as [hq hr]. split.
  - intros ([cq cr] & Hin & E). cbn [fst snd] in E.
    apply andb_true_iff in E as [E1 E2].
    apply Z.eqb_eq in E1, E2. subst. exact Hin.
  - intros H. exists (hq, hr). split; [exact H |].
    cbn [fst snd]. now rewrite !Z.eqb_refl.
Qed.

Lemma mem_hex_range h c k :
  mem_hex h (hex_range c k) = true <-> (hex_distance c h <= k)%Z.
Proof. rewrite mem_hex_In. apply hex_range_In. Qed.

Lemma get_state_for_fields me g tank :
  Py.get me (tanks g) = Some tank ->
  exists snap,
    get_state_for me g = Some snap
    /\ snap_tanks snap
       = dict_collect
           (fun pid t =>
              String.eqb pid me
              || mem_hex (tank_cell t)
                         (hex_range (tank_cell tank) (t_vision tank)))
           (Tank_to_dict (Some me)) (tanks g)
    /\ snap_forts snap
       = dict_collect
           (fun _ f => mem_hex (f_q f, f_r f)
                               (hex_range (tank_cell tank) (t_vision tank))
                       || is_player (f_owner f) me)
           Fort_to_dict (forts g)
    /\ snap_shells snap
       = dict_collect
           (fun _ s => mem_hex (Py.round (s_q s), Py.round (s_r s))
                               (hex_range (tank_cell tank) (t_vision tank))
                       || String.eqb (s_owner_id s) me)
           Shell_to_dict (shells g)
    /\ snap_visible_hexes snap = hex_range (tank_cell tank) (t_vision tank)
    /\ snap_leaderboard snap = leaderboard g.
Proof.
  intros G. unfold get_state_for. rewrite G. eexists. split; [reflexivity |].
  repeat split.
Qed.

(** X5. The fog of war on tanks: a player always sees their own tank;
    another tank is in the snapshot exactly when its rounded cell is within
    the viewer's vision radius, in hex distance, of the viewer's rounded
    cell. *)
Theorem snapshot_shows_tanks_within_vision :
  forall g me tank snap,
    NoDup (Py.keys (tanks g)) ->
    Py.get me (tanks g) = Some tank ->
    get_state_for me g = Some snap ->
    Py.get me (snap_tanks snap) = Some (Tank_to_dict (Some me) tank)
    /\ (forall pid t,
           pid <> me ->
           Py.get pid (tanks g) = Some t ->
           ((hex_distance (tank_cell tank) (tank_cell t)
             <= t_vision tank)%Z ->
            Py.get pid (snap_tanks snap) = Some (Tank_to_dict (Some me) t))
           /\ ((t_vision tank
                < hex_distance (tank_cell tank) (tank_cell t))%Z ->
               Py.get pid (snap_tanks snap) = None))
    /\ (forall pid,
           Py.get pid (tanks g) = None -> Py.get pid (snap_tanks snap) = None)
    /\ (forall cell,
           In cell (snap_visible_hexes snap)
           <-> (hex_distance (tank_cell tank) cell <= t_vision tank)%Z).
Proof.
  intros g me tank snap N G S.
  destruct (get_state_for_fields me g tank G)
    as (snap' & S' & Et & _ & _ & Ev & _).
  rewrite S in S'. injection S' as <-.
  rewrite Et, Ev. split; [| split; [| split]].
  - rewrite dict_collect_get by exact N. rewrite G, String.eqb_refl.
    reflexivity.
  - intros pid t Hne Gt. rewrite dict_collect_get by exact N. rewrite Gt.
    apply String.eqb_neq in Hne. rewrite Hne. cbn [orb]. split; intros H.
    + apply mem_hex_range in H. now rewrite H.
    + destruct (mem_hex _ _) eqn:E; [| reflexivity].
      apply mem_hex_range in E. lia.
  - intros pid Gn. rewrite dict_collect_get by exact N. now rewrite Gn.
  - intros cell. apply hex_range_In.
Qed.

(** X6. Private tank fields never leak: every tank record of a snapshot
    comes from a tank of the game, and it carries the private fields
    (resources, upgrades, respawn timer, vision, per-shot cost) exactly when
    the tank's player is the requester. *)
Theorem snapshot_private_fields_only_for_requester :
  forall g me snap pid v,
    get_state_for me g = Some snap ->
    In (pid, v) (snap_tanks snap) ->
    (exists t, In (pid, t) (tanks g) /\ v = Tank_to_dict (Some me) t)
    /\ (tv_private v <> None <-> tv_player_id v = me).
Proof.
  intros g me snap pid v S Hin. unfold get_state_for in S.
  destruct (Py.get me (tanks g)) as [tank |]; [| discriminate].
  injection S as <-. cbn [snap_tanks] in Hin.
  apply dict_collect_from in Hin as (t & Ht & _ & ->).
  split; [exists t; auto |].
  unfold Tank_to_dict. cbn [tv_private tv_player_id is_player].
  destruct (String.eqb me (t_player_id t)) eqn:E.
  - apply String.eqb_eq in E. split; [auto | discriminate].
  - apply String.eqb_neq in E. split; [congruence | intros H; congruence].
Qed.

(** X7. Forts and shells are reported exactly when they are in a visible
    cell or belong to the requester. *)
Theorem snapshot_shows_forts_and_shells_in_vision_or_owned :
  forall g me tank snap,
    NoDup (Py.keys (forts g)) ->
    NoDup (Py.keys (shells g)) ->
    Py.get me (tanks g) = Some tank ->
    get_state_for me g = Some snap ->
    (forall fid f,
        Py.get fid (snap_forts snap) = Some f
        <-> Py.get fid (forts g) = Some f
            /\ ((hex_distance (tank_cell tank) (f_q f, f_r f)
                 <= t_vision tank)%Z
                \/ f_owner f = Some me))
    /\ (forall sid v,
           Py.get sid (snap_shells snap) = Some v
           <-> exists s,
               Py.get sid (shells g) = Some s
               /\ v = Shell_to_dict s
               /\ ((hex_distance (tank_cell tank)
                                 (Py.round (s_q s), Py.round (s_r s))
                    <= t_vision tank)%Z
                   \/ s_owner_id s = me)).
Proof.
  intros g me tank snap Nf Ns G S.
  destruct (get_state_for_fields me g tank G)
    as (snap' & S' & _ & Ef & Es & _).
  rewrite S in S'. injection S' as <-. rewrite Ef, Es. split.
  - intros fid f. rewrite dict_collect_get by exact Nf.
    destruct (Py.get fid (forts g)) as [f0 |];
      [| split; [discriminate | intros [? _]; discriminate]].
    destruct (mem_hex _ _) eqn:M; cbn [orb].
    + apply mem_hex_range in M. unfold Fort_to_dict.
      split; [intros [= <-]; auto | intros [[= <-] _]; auto].
    + assert (M' : ~ (hex_distance (tank_cell tank) (f_q f0, f_r f0)
                      <= t_vision tank)%Z).
      { intros H. apply mem_hex_range in H. congruence. }
      unfold Fort_to_dict, is_player.
      destruct (f_owner f0) as [o |] eqn:O.
      * destruct (String.eqb o me) eqn:E.
        -- apply String.eqb_eq in E. subst o.
           split; [intros [= <-]; auto | intros [[= <-] _]; auto].
        -- apply String.eqb_neq in E.
           split; [discriminate |].
           intros [[= <-] [H | H]]; [tauto | congruence].
      * split; [discriminate |].
        intros [[= <-] [H | H]]; [tauto | congruence].
  - intros sid v. rewrite dict_collect_get by exact Ns.
    destruct (Py.get sid (shells g)) as [s0 |];
      [| split; [discriminate | intros (s & H & _); discriminate]].
    destruct (mem_hex _ _) eqn:M; cbn [orb].
    + apply mem_hex_range in M.
      split; [intros [= <-]; exists s0; auto |].
      intros (s & [= <-] & -> & _). reflexivity.
    + assert (M' : ~ (hex_distance (tank_cell tank)
                                   (Py.round (s_q s0), Py.round (s_r s0))
                      <= t_vision tank)%Z).
      { intros H. apply mem_hex_range in H. congruence. }
      destruct (String.eqb (s_owner_id s0) me) eqn:E.
      * apply String.eqb_eq in E.
        split; [intros [= <-]; exists s0; auto |].
        intros (s & [= <-] & -> & _). reflexivity.
      * apply String.eqb_neq in E. split; [discriminate |].
        intros (s & [= <-] & _ & [H | H]); tauto.
Qed.

(** Ann sees Bob, two cells away, without his private fields, and the
    neighbouring fort; the fort at distance 12 is reported because it is
    hers, the neutral one beside it is not. *)
Lemma fog_game_distinct_keys :
  NoDup (Py.keys (tanks fog_game))
  /\ NoDup (Py.keys (forts fog_game))
  /\ NoDup (Py.keys (shells fog_game)).
Proof.
  repeat split; vm_compute; repeat constructor; cbn;
    intuition discriminate.
Qed.

Lemma snapshot_shows_tanks_within_vision_witness :
  exists snap,
    (NoDup (Py.keys (tanks fog_game))
     /\ Py.get "p1"%string (tanks fog_game) = Some ann_tank
     /\ get_state_for "p1" fog_game = Some snap)
    /\ Py.get "p1"%string (snap_tanks snap)
       = Some (Tank_to_dict (Some "p1"%string) ann_tank).
Proof.
  destruct (get_state_for "p1" fog_game) as [snap |] eqn:S;
    [| vm_compute in S; discriminate S].
  exists snap.
  assert (N := proj1 fog_game_distinct_keys).
  assert (G : Py.get "p1"%string (tanks fog_game) = Some ann_tank)
    by reflexivity.
  split; [exact (conj N (conj G eq_refl)) |].
  exact (proj1 (snapshot_shows_tanks_within_vision
                  fog_game "p1"%string ann_tank snap N G S)).
Defined.

Lemma snapshot_private_fields_only_for_requester_witness :
  exists snap v,
    (get_state_for "p1" fog_game = Some snap
     /\ In ("p2"%string, v) (snap_tanks snap))
    /\ (tv_private v <> None <-> tv_player_id v = "p1"%string).
Proof.
  destruct (get_state_for "p1" fog_game) as [snap |] eqn:S;
    [| vm_compute in S; discriminate S].
  exists snap.
  exists (Tank_to_dict (Some "p1"%string)
            (Tank_.new "tank_p2" "p2" 0 2 "#3498db")).
  assert (Hin : In ("p2"%string,
                    Tank_to_dict (Some "p1"%string)
                      (Tank_.new "tank_p2" "p2" 0 2 "#3498db"))
                   (snap_tanks snap)).
  { vm_compute in S. injection S as <-. cbn [snap_tanks].
    right. left. reflexivity. }
  split; [exact (conj eq_refl Hin) |].
  exact (proj2 (snapshot_private_fields_only_for_requester
                  fog_game "p1"%string snap "p2"%string _ S Hin)).
Defined.

Lemma snapshot_shows_forts_and_shells_in_vision_or_owned_witness :
  exists snap,
    (NoDup (Py.keys (forts fog_game))
     /\ NoDup (Py.keys (shells fog_game))
     /\ Py.get "p1"%string (tanks fog_game) = Some ann_tank
     /\ get_state_for "p1" fog_game = Some snap)
    /\ forall fid f,
        Py.get fid (snap_forts snap) = Some f
        <-> Py.get fid (forts fog_game) = Some f
            /\ ((hex_distance (tank_cell ann_tank) (f_q f, f_r f)
                 <= t_vision ann_tank)%Z
                \/ f_owner f = Some "p1"%string).
Proof.
  destruct (get_state_for "p1" fog_game) as [snap |] eqn:S;
    [| vm_compute in S; discriminate S].
  exists snap.
  destruct fog_game_distinct_keys as (_ & Nf & Ns).
  assert (G : Py.get "p1"%string (tanks fog_game) = Some ann_tank)
    by reflexivity.
  split; [exact (conj Nf (conj Ns (conj G eq_refl))) |].
  exact (proj1 (snapshot_shows_forts_and_shells_in_vision_or_owned
                  fog_game "p1"%string ann_tank snap Nf Ns G S)).
Defined.

(** ** The leaderboard of a snapshot *)

Section SortHead.
Context {A : Type} (key : A -> Q).

Lemma sort_desc_nil l : Py.sort_desc key l = [] -> l = [].
Proof.
  intros H. apply (f_equal (@List.length A)) in H.
  rewrite sort_desc_length in H. destruct l; [reflexivity | discriminate].
Qed.

Lemma descending_head w rest x :
  descending key (w :: rest) -> In x (w :: rest) -> key x <= key w.
Proof.
  intros D [<- | Hin]; [lra |].
  inversion D as [| ? ? _ Hall]; subst.
  rewrite Forall_forall in Hall. now apply Hall.
Qed.

(** The head of the sorted list is the first element, in the original
    order, whose key is maximal. *)
Lemma sort_desc_head l w :
  hd_error (Py.sort_desc key l) = Some w ->
  exists l1 l2,
    l = l1 ++ w :: l2
    /\ (forall x, In x l1 -> key x < key w)
    /\ (forall x, In x l2 -> key x <= key w).
Proof.
  revert w. induction l as [| x l IH]; intros w H; [discriminate |].
  cbn [Py.sort_desc fold_right] in H.
  change (fold_right (Py.insert_desc key) [] l) with (Py.sort_desc key l) in H.
  destruct (Py.sort_desc key l) as [| y rest] eqn:S.
  - apply sort_desc_nil in S. subst l. cbn in H. injection H as <-.
    exists [], []. repeat split; intros ? [].
  - cbn [Py.insert_desc] in H.
    destruct (Py.Qleb (key y) (key x)) eqn:E.
    + cbn in H. injection H as <-. apply Qleb_le in E.
      exists [], l. split; [reflexivity |]. split; [intros ? [] |].
      intros z Hz. apply (sort_desc_In key) in Hz. rewrite S in Hz.
      pose proof (sort_desc_descending key l) as D. rewrite S in D.
      pose proof (descending_head _ _ _ D Hz). lra.
    + cbn in H. injection H as <-. apply Qleb_gt in E.
      destruct (IH y eq_refl) as (l1 & l2 & -> & H1 & H2).
      exists (x :: l1), l2. split; [reflexivity |]. split; [| exact H2].
      intros z [<- | Hz]; auto.
Qed.

End SortHead.

(** X8. The leaderboard is not fogged: it has one entry for every tank of
    the game, in descending order of score. A winner is named only once the
    match is over; it is the top entry, the first tank in joining order
    among those with the highest score. *)
Theorem snapshot_leaderboard_and_winner :
  forall g me snap,
    get_state_for me g = Some snap ->
    snap_leaderboard snap = leaderboard g
    /\ List.length (leaderboard g) = List.length (tanks g)
    /\ (forall s,
           In s (leaderboard g)
           <-> exists pid t, In (pid, t) (tanks g)
                             /\ s = score_entry g (pid, t))
    /\ descending (fun s => inject_Z (sc_score s)) (leaderboard g)
    /\ (match_over g = false ->
        snap_winner_name snap = None /\ snap_winner_color snap = None)
    /\ (match_over g = true ->
        tanks g <> [] ->
        exists before pid t after,
          tanks g = before ++ (pid, t) :: after
          /\ snap_winner_name snap = Some (player_name pid g)
          /\ snap_winner_color snap = Some (t_color t)
          /\ (forall kt, In kt before -> (t_score (snd kt) < t_score t)%Z)
          /\ (forall kt, In kt after -> (t_score (snd kt) <= t_score t)%Z)).
Proof.
  intros g me snap S. unfold get_state_for in S.
  destruct (Py.get me (tanks g)) as [tank |]; [| discriminate].
  injection S as <-. cbn [snap_leaderboard snap_winner_name snap_winner_color].
  split; [reflexivity |]. split; [| split; [| split; [| split]]].
  - unfold leaderboard. now rewrite sort_desc_length, length_map.
  - intros s. unfold leaderboard. rewrite sort_desc_In, in_map_iff.
    split.
    + intros ([pid t] & <- & Hin). now exists pid, t.
    + intros (pid & t & Hin & ->). now exists (pid, t).
  - apply sort_desc_descending.
  - intros ->. destruct (hd_error (leaderboard g)); auto.
  - intros -> Hne.
    destruct (hd_error (leaderboard g)) as [w |] eqn:Hw.
    + unfold leaderboard in Hw. apply sort_desc_head in Hw.
      destruct Hw as (l1 & l2 & E & H1 & H2).
      apply map_eq_app in E as (before & rest & Et & <- & E2).
      apply map_eq_cons in E2 as ([pid t] & after & -> & <- & <-).
      exists before, pid, t, after. split; [exact Et |].
      cbn [score_entry sc_name sc_color]. repeat split.
      * intros [p u] Hin. cbn [snd].
        specialize (H1 (score_entry g (p, u)) (in_map _ _ _ Hin)).
        cbn [score_entry sc_score] in H1. now rewrite <- Zlt_Qlt in H1.
      * intros [p u] Hin. cbn [snd].
        specialize (H2 (score_entry g (p, u)) (in_map _ _ _ Hin)).
        cbn [score_entry sc_score] in H2. now rewrite <- Zle_Qle in H2.
    + exfalso. unfold leaderboard in Hw.
      destruct (Py.sort_desc _ _) eqn:Sd; [| discriminate].
      apply sort_desc_nil in Sd. apply map_eq_nil in Sd. auto.
Qed.

Lemma snapshot_leaderboard_and_winner_witness :
  exists snap,
    get_state_for "p1" fog_game = Some snap
    /\ snap_leaderboard snap = leaderboard fog_game
    /\ List.length (leaderboard fog_game) = 2%nat.
Proof.
  destruct (get_state_for "p1" fog_game) as [snap |] eqn:S;
    [| vm_compute in S; discriminate S].
  exists snap. split; [reflexivity |].
  pose proof (snapshot_leaderboard_and_winner fog_game "p1"%string snap S)
    as (H1 & H2 & _).
  exact (conj H1 H2).
Defined.

(** ** Start-up *)

Lemma fort_candidates_spec h :
  In h fort_candidates
  <-> (3 <= hex_distance (0, 0)%Z h <= MAP_RADIUS)%Z.
Proof.
  unfold fort_candidates, all_hexes_in_radius.
  rewrite filter_In, hex_range_In, Z.leb_le, (hex_distance_sym h). lia.
Qed.

Lemma fort_candidates_NoDup : NoDup fort_candidates.
Proof. apply NoDup_filter, hex_range_NoDup. Qed.

Lemma fort_candidates_length : List.length fort_candidates = 198%nat.
Proof. vm_compute. reflexivity. Qed.

(** X9. Start-up places twelve forts, [fort_0] to [fort_11], on the first
    twelve cells of the shuffled candidates: four fuel, four ammo, two gear
    and two mixed forts, all neutral and never owned, on pairwise distinct
    cells at hex distance 3 to [MAP_RADIUS] from the centre. The state built
    on them is a valid initial state. *)
Theorem generate_forts_places_twelve_neutral_forts :
  forall shuffled,
    Permutation fort_candidates shuffled ->
    let fs := _generate_forts shuffled in
    Py.keys fs
    = map (fun i => ("fort_" ++ str_of_nat i)%string) (seq 0 12)
    /\ NoDup (Py.keys fs)
    /\ map f_ftype (Py.values fs) = fort_types
    /\ map fort_cell (Py.values fs) = firstn 12 shuffled
    /\ NoDup (map fort_cell (Py.values fs))
    /\ (forall fid f,
           In (fid, f) fs ->
           f_id f = fid
           /\ fresh_fort f
           /\ (3 <= hex_distance (0, 0)%Z (fort_cell f) <= MAP_RADIUS)%Z)
    /\ reachable (init_game shuffled).
Proof.
  intros shuffled Hp fs.
  assert (L : List.length shuffled = 198%nat).
  { rewrite <- (Permutation_length Hp). apply fort_candidates_length. }
  assert (Hin : forall h, In h (firstn 12 shuffled) ->
                          (3 <= hex_distance (0, 0)%Z h <= MAP_RADIUS)%Z).
  { intros h H. apply fort_candidates_spec.
    apply (Permutation_in h (Permutation_sym Hp)).
    rewrite <- (firstn_skipn 12 shuffled). apply in_or_app. now left. }
  assert (Hnd : NoDup (firstn 12 shuffled)).
  { pose proof (Permutation_NoDup Hp fort_candidates_NoDup) as N.
    rewrite <- (firstn_skipn 12 shuffled) in N.
    now apply NoDup_app_remove_r in N. }
  do 12 (destruct shuffled as [| [? ?] shuffled]; [discriminate L |]).
  assert (E : fs = fs) by reflexivity. unfold fs at 2 in E.
  vm_compute in E. subst fs.
  cbn [firstn] in Hin, Hnd.
  split; [reflexivity |]. split.
  { vm_compute. repeat constructor; cbn; intuition discriminate. }
  split; [reflexivity |]. split; [reflexivity |]. split; [exact Hnd |].
  split.
  - intros fid f H. cbn in H.
    repeat (destruct H as [H | H];
            [injection H as <- <-;
             split; [reflexivity |]; split; [repeat split |];
             apply Hin; cbn; tauto |]).
    contradiction.
  - apply reach_new. unfold init_game. vm_compute.
    repeat constructor.
Qed.

Lemma generate_forts_places_twelve_neutral_forts_witness :
  Permutation fort_candidates fort_candidates
  /\ NoDup (Py.keys (_generate_forts fort_candidates))
  /\ reachable (init_game fort_candidates).
Proof.
  split; [apply Permutation_refl |].
  pose proof (generate_forts_places_twelve_neutral_forts
                fort_candidates (Permutation_refl _)) as H.
  cbv zeta in H. split; [apply H | apply H].
Defined.

(** ** Per-tank invariants of the tick *)

Section DictEntries.
Context {V : Type}.
Implicit Types (d : Py.dict V) (P : string -> V -> Prop).

Lemma entries_set P k v d :
  Forall (fun kv => P (fst kv) (snd kv)) d -> P k v ->
  Forall (fun kv => P (fst kv) (snd kv)) (Py.set k v d).
Proof.
  intros H Hv. induction d as [| [k' v'] d IH]; cbn.
  - repeat constructor. exact Hv.
  - inversion H as [| ? ? Hk Hd]; subst.
    destruct (String.eqb k k') eqn:E.
    + apply String.eqb_eq in E. subst k'. constructor; auto.
    + constructor; auto.
Qed.

Lemma entries_get P k v d :
  Forall (fun kv => P (fst kv) (snd kv)) d -> Py.get k d = Some v -> P k v.
Proof.
  intros H G. apply get_In in G. rewrite Forall_forall in H.
  exact (H _ G).
Qed.

Lemma entries_del P k d :
  Forall (fun kv => P (fst kv) (snd kv)) d ->
  Forall (fun kv => P (fst kv) (snd kv)) (Py.del k d).
Proof.
  intros H. induction d as [| [k' v'] d IH]; cbn; auto.
  inversion H; subst. destruct (String.eqb k k'); auto.
Qed.

Lemma keys_set_In k v d :
  In k (Py.keys d) -> Py.keys (Py.set k v d) = Py.keys d.
Proof.
  intros H. apply In_keys_get in H as (v0 & G).
  eapply keys_set_present; eauto.
Qed.

End DictEntries.

Lemma each_tank_put P pid t g :
  each_tank P g -> P pid t -> each_tank P (Game_.put_tank pid t g).
Proof. intros H Ht. now apply entries_set. Qed.

Lemma each_tank_get P pid t g :
  each_tank P g -> Py.get pid (tanks g) = Some t -> P pid t.
Proof. intros H G. eapply entries_get; eauto. Qed.

Section TankInvariant.
Variable sqrt : Q -> Q.
Variable atan2 : Q -> Q -> Q.
Variable ext : Oracle.
Variable dt : Q.
Variable P : string -> Tank -> Prop.
Hypothesis P_touch :
  forall pid t t', P pid t -> tick_touch sqrt atan2 dt t t' -> P pid t'.

Lemma each_move_tanks s :
  each_tank P (fst s) -> each_tank P (fst (_move_tanks sqrt atan2 dt s)).
Proof.
  intros H. unfold _move_tanks.
  apply (for_tanks_ind (fun s => each_tank P (fst s))); auto.
  intros pid t s' Hs G. cbn [fst]. apply each_tank_put; auto.
  eapply P_touch; [eapply each_tank_get; eauto | constructor].
Qed.

Lemma each_kill shell pid tank dmg t g n :
  each_tank P g ->
  Tank_.with_path []
    (Tank_.with_respawn_timer RESPAWN_TIME
       (Tank_.with_alive false (Tank_.with_hp 0 tank))) = slain dmg t ->
  P pid (slain dmg t) ->
  each_tank P (fst (kill ext shell pid tank (g, n))).
Proof.
  intros Hg E Hdead. unfold kill. rewrite E.
  assert (Hg1 : each_tank P (Game_.put_tank pid (slain dmg t) g))
    by (apply each_tank_put; auto).
  destruct (Py.get (s_owner_id shell)
                   (tanks (Game_.put_tank pid (slain dmg t) g)))
    as [shooter |] eqn:Gs; cbn [fst]; [| exact Hg1].
  unfold each_tank. game_fields. rewrite tanks_release_forts. game_fields.
  pose proof (each_tank_get _ _ _ _ Hg1 Gs) as Hshooter.
  apply entries_set.
  - apply entries_set; [exact Hg1 |].
    eapply P_touch; [exact Hdead |].
    apply (touch_loot sqrt atan2 dt (slain dmg t)).
  - eapply P_touch; [exact Hshooter |].
    apply (touch_reward sqrt atan2 dt shooter).
Qed.

Lemma each_shell_impact shell s :
  each_tank P (fst s) -> each_tank P (fst (_shell_impact ext shell s)).
Proof.
  intros H. unfold _shell_impact.
  apply (for_tanks_ind (fun s => each_tank P (fst s))); auto.
  intros pid t [g n] Hg G. pose proof (each_tank_get _ _ _ _ Hg G) as Ht.
  unfold impact_tank.
  destruct (String.eqb pid (s_owner_id shell)); cbn [orb]; auto.
  destruct (t_alive t) eqn:A; cbn [negb]; auto.
  destruct (_ <=? 1)%Z; auto. tank_fields.
  destruct (t_hp t - s_damage shell <=? 0)%Z eqn:E.
  - apply Z.leb_le in E.
    apply (each_kill shell pid _ (s_damage shell) t); auto.
    eapply P_touch; [exact Ht | now constructor].
  - apply Z.leb_gt in E. cbn [fst]. apply each_tank_put; auto.
    eapply P_touch; [exact Ht | now constructor].
Qed.

Lemma each_move_shells s :
  each_tank P (fst s) -> each_tank P (fst (_move_shells sqrt ext dt s)).
Proof.
  intros H. unfold _move_shells.
  assert (D : forall acc : Sim * list string,
             each_tank P (fst (fst acc)) ->
             each_tank P
               (fst (let '((g, n), dead) := acc in
                     (fold_left
                        (fun g sid =>
                           Game_.with_shells (Py.del sid (shells g)) g)
                        dead g, n)))).
  { intros [[g n] dead] K. cbn [fst] in *.
    apply (fold_left_ind (each_tank P)); auto. }
  apply D.
  apply (fold_left_ind (fun acc => each_tank P (fst (fst acc)))); auto.
  intros [[g n] dead] sid Ha. unfold move_shell. cbn [fst] in Ha.
  destruct (Py.get sid (shells g)); auto.
  destruct (Py.Qleb _ _); [now apply each_shell_impact |].
  destruct (Py.Qltb 3 _); [now apply each_shell_impact | exact Ha].
Qed.

Lemma each_update_captures s :
  each_tank P (fst s) -> each_tank P (fst (_update_captures ext dt s)).
Proof.
  intros H. unfold _update_captures.
  apply (for_forts_ind (fun s => each_tank P (fst s))); auto.
  intros fid fort [g n] Hs _. cbn [fst] in Hs. unfold capture_fort.
  destruct (on_fort fort g) as [| capturer [| ? ?]]; auto.
  - destruct (_ && _); auto.
  - destruct (is_player (f_owner fort) capturer); auto.
    destruct (is_player (f_capturing_player fort) capturer); auto.
    destruct (Py.Qleb _ _); auto. cbn [fst].
    unfold each_tank in *. game_fields.
    destruct (Py.get capturer (tanks g)) as [t |] eqn:G; game_fields; auto.
    apply entries_set; auto.
    eapply P_touch; [eapply entries_get; eauto |].
    apply (touch_capture sqrt atan2 dt t).
Qed.

Lemma each_generate_resources s :
  each_tank P (fst s) -> each_tank P (fst (_generate_resources dt s)).
Proof.
  intros H. unfold _generate_resources. cbn [fst].
  apply (fold_left_ind (each_tank P)); auto.
  intros g [pid ftypes] Hg.
  destruct (Py.get pid (tanks g)) as [tank |] eqn:G; auto.
  destruct (t_alive tank) eqn:A; cbn [negb]; auto.
  apply each_tank_put; auto.
  eapply P_touch; [eapply each_tank_get; eauto | now constructor].
Qed.

Lemma start_cell_In k : In (nth (k mod List.length starts) starts (0, 0)%Z)
                           starts.
Proof. apply nth_In. apply Nat.mod_upper_bound. discriminate. Qed.

Lemma each_check_respawns s :
  each_tank P (fst s) -> each_tank P (fst (_check_respawns ext dt s)).
Proof.
  intros H. unfold _check_respawns.
  apply (for_tanks_ind (fun s => each_tank P (fst s))); auto.
  intros pid t [g n] Hs G. cbn [fst] in *.
  pose proof (each_tank_get _ _ _ _ Hs G) as Ht. unfold respawn_tank.
  destruct (t_alive t) eqn:A; cbn [negb]; auto. tank_fields.
  destruct (Py.Qleb (t_respawn_timer t - dt) 0) eqn:E; cbn [fst];
    apply each_tank_put; auto.
  - apply Qleb_le in E. eapply P_touch; [exact Ht |].
    apply (touch_respawn sqrt atan2 dt t _ A E (start_cell_In _)).
  - apply Qleb_gt in E. eapply P_touch; [exact Ht |].
    apply (touch_wait sqrt atan2 dt t A E).
Qed.

(** The five phases of a tick of a running match. *)
Lemma each_phases g :
  each_tank P g ->
  each_tank P
    (fst (_check_respawns ext dt
            (_generate_resources dt
               (_update_captures ext dt
                  (_move_shells sqrt ext dt
                     (_move_tanks sqrt atan2 dt (g, 0%nat))))))).
Proof.
  intros H.
  apply each_check_respawns, each_generate_resources, each_update_captures,
    each_move_shells, each_move_tanks.
  exact H.
Qed.

Hypothesis P_reset : forall pid t, P pid t -> P pid (reset_tank t).

Lemma each_reset_match g : each_tank P g -> each_tank P (_reset_match g).
Proof.
  unfold each_tank, _reset_match. game_fields. unfold map_values.
  intros H. apply Forall_map. cbn [fst snd].
  eapply Forall_impl; [| exact H]. intros [pid t]. apply P_reset.
Qed.

Lemma each_tick_update g :
  each_tank P g -> each_tank P (tick_update sqrt atan2 ext dt g).
Proof.
  intros H. unfold tick_update.
  set (g1 := if negb (match_over g) then _ else g).
  assert (H1 : each_tank P g1).
  { unfold g1. destruct (negb (match_over g)); auto.
    destruct (Py.Qleb _ 0); exact H. }
  clearbody g1. destruct (match_over g1).
  - destruct (Py.Qleb _ 0); [now apply each_reset_match | exact H1].
  - now apply each_phases.
Qed.

End TankInvariant.

(** ** Per-tank invariants of reachable states *)

Section ReachableTanks.
Variable P : string -> Tank -> Prop.
Hypothesis P_new :
  forall pid q r color, P pid (Tank_.new ("tank_" ++ pid) pid q r color).
Hypothesis P_path :
  forall pid t path tq tr,
    P pid t -> t_alive t = true ->
    match path with
    | [] => tq = None /\ tr = None
    | _ :: _ => tq = Some (fst (List.last path (0, 0)%Z))
                /\ tr = Some (snd (List.last path (0, 0)%Z))
    end ->
    P pid (Tank_.with_target tq tr (Tank_.with_path path t)).
Hypothesis P_last_shot :
  forall pid t now,
    P pid t -> t_alive t = true -> P pid (Tank_.with_last_shot now t).
Hypothesis P_fire :
  forall pid t,
    P pid t -> t_alive t = true -> t_ammo_cost t <= t_ammo t ->
    P pid (Tank_.with_ammo (t_ammo t - t_ammo_cost t) t).
Hypothesis P_upgrade :
  forall pid t ty cost,
    P pid t ->
    mem_string ty UPGRADE_COSTS = true ->
    (upgrade_level t ty < UPGRADE_MAX_LVL)%Z ->
    Py.index lvl_costs (upgrade_level t ty) = Some cost ->
    cost <= t_gears t ->
    P pid (apply_upgrade ty
             (Tank_.with_upgrades
                (Py.set ty (upgrade_level t ty + 1)%Z (t_upgrades t))
                (Tank_.with_gears (t_gears t - cost) t))).
Hypothesis P_reset : forall pid t, P pid t -> P pid (reset_tank t).
Hypothesis P_touch :
  forall sqrt atan2 dt,
    0 < dt -> dt <= 1 # 10 ->
    forall pid t t', P pid t -> tick_touch sqrt atan2 dt t t' -> P pid t'.

Lemma each_add_player ws_id name pid g :
  each_tank P g -> each_tank P (snd (add_player ws_id name pid g)).
Proof.
  intros H. unfold add_player. destruct (_ <=? _)%nat; auto. cbn [snd].
  apply each_tank_put; [exact H | apply P_new].
Qed.

Lemma each_remove_player ws_id g :
  each_tank P g -> each_tank P (remove_player ws_id g).
Proof.
  intros H. unfold remove_player.
  destruct (Py.get ws_id (players g)); auto.
  unfold each_tank. game_fields. now apply entries_del.
Qed.

Lemma each_set_tank_path pid path g :
  each_tank P g -> each_tank P (snd (set_tank_path pid path g)).
Proof.
  intros H. unfold set_tank_path.
  destruct (Py.get pid (tanks g)) as [t |] eqn:G; auto.
  pose proof (each_tank_get _ _ _ _ H G) as Ht.
  destruct (t_alive t) eqn:A; cbn [negb]; auto.
  destruct path; cbn [snd]; apply each_tank_put; auto;
    apply P_path; auto; split; reflexivity.
Qed.

Lemma each_shoot pid tq tr now created sid g :
  each_tank P g -> each_tank P (snd (shoot pid tq tr now created sid g)).
Proof.
  intros H. unfold shoot.
  destruct (Py.get pid (tanks g)) as [t |] eqn:G; auto.
  pose proof (each_tank_get _ _ _ _ H G) as Ht.
  destruct (t_alive t) eqn:A; cbn [negb]; auto.
  destruct (Py.Qltb (now - _) _); auto.
  assert (H1 : each_tank P (Game_.put_tank pid (Tank_.with_last_shot now t) g))
    by (apply each_tank_put; auto).
  cbv zeta. tank_fields.
  destruct (Py.Qltb (t_ammo t) (t_ammo_cost t)) eqn:E; auto.
  destruct (_ <? _)%Z; auto. cbn [snd]. apply Qltb_ge in E.
  unfold each_tank. game_fields. apply entries_set; [exact H1 |].
  apply (P_fire pid (Tank_.with_last_shot now t)); auto.
Qed.

Lemma each_upgrade pid ty g reply g' :
  each_tank P g -> upgrade pid ty g = Returns reply g' -> each_tank P g'.
Proof.
  intros H. unfold upgrade.
  destruct (Py.get pid (tanks g)) as [t |] eqn:G;
    [| intros [= _ <-]; exact H].
  pose proof (each_tank_get _ _ _ _ H G) as Ht.
  destruct (mem_string ty UPGRADE_COSTS) eqn:M; cbn [negb];
    [| intros [= _ <-]; exact H].
  destruct (_ <=? _)%Z eqn:L; [intros [= _ <-]; exact H |].
  apply Z.leb_gt in L.
  destruct (Py.index lvl_costs _) as [cost |] eqn:I; [| discriminate].
  destruct (Py.Qltb _ _) eqn:E; intros [= _ <-]; [exact H |].
  apply Qltb_ge in E. apply each_tank_put; auto.
Qed.

Lemma each_cast_vote pid g :
  each_tank P g -> each_tank P (snd (cast_vote pid g)).
Proof.
  intros H. unfold cast_vote. destruct (negb (match_over g)); auto.
  cbn [snd]. destruct (_ && _); [| exact H].
  apply each_reset_match; auto.
Qed.

Lemma each_advance sqrt atan2 ext dt g :
  0 < dt -> each_tank P g -> each_tank P (advance sqrt atan2 ext dt g).
Proof.
  intros Hdt H. unfold advance. apply each_tick_update; auto.
  apply P_touch.
  - unfold Py.min. destruct (Py.Qltb _ _); [reflexivity | exact Hdt].
  - apply py_min_le_r.
Qed.

Lemma reachable_each_tank g : reachable g -> each_tank P g.
Proof.
  induction 1.
  - constructor.
  - now apply each_add_player.
  - now apply each_remove_player.
  - now apply each_set_tank_path.
  - now apply each_shoot.
  - eapply each_upgrade; eauto.
  - now apply each_cast_vote.
  - now apply each_advance.
  - assumption.
Qed.

End ReachableTanks.

(** ** What the tick leaves alone *)

Lemma move_tank_dead sqrt atan2 dt t :
  t_alive t = false -> move_tank sqrt atan2 dt t = t.
Proof. intros A. unfold move_tank. now rewrite A. Qed.

Lemma move_tank_same sqrt atan2 dt t :
  build_kept t (move_tank sqrt atan2 dt t)
  /\ life_kept t (move_tank sqrt atan2 dt t).
Proof.
  unfold move_tank. destruct (negb (t_alive t)); [repeat split |].
  destruct (t_path t) as [| [nq nr] rest]; [repeat split |].
  destruct (Py.Qleb _ _); [| repeat split].
  destruct (Py.Qltb _ _); [repeat split |].
  destruct rest; repeat split.
Qed.

Lemma credit_same dt ftypes : forall t,
  build_kept t (fold_left (credit dt) ftypes t)
  /\ life_kept t (fold_left (credit dt) ftypes t)
  /\ t_path (fold_left (credit dt) ftypes t) = t_path t
  /\ t_q (fold_left (credit dt) ftypes t) = t_q t
  /\ t_r (fold_left (credit dt) ftypes t) = t_r t.
Proof.
  induction ftypes as [| ft l IH]; intros t; cbn [fold_left].
  - repeat split.
  - destruct (IH (credit dt t ft))
      as ((B1 & B2 & B3 & B4 & B5 & B6 & B7 & B8 & B9 & B10)
          & (L1 & L2 & L3) & Hp & Hq & Hr).
    unfold build_kept, life_kept.
    rewrite B1, B2, B3, B4, B5, B6, B7, B8, B9, B10, L1, L2, L3, Hp, Hq, Hr.
    destruct ft; repeat split.
Qed.

Lemma tick_touch_build_kept sqrt atan2 dt t t' :
  tick_touch sqrt atan2 dt t t' -> build_kept t t'.
Proof.
  destruct 1; try (repeat split; fail).
  - apply move_tank_same.
  - apply credit_same.
Qed.

(** *** Tanks are stored under their player's identifier *)

Lemma stored_under_same pid t t' :
  build_kept t t' -> stored_under pid t -> stored_under pid t'.
Proof. intros (E1 & E2 & _) [H1 H2]. split; congruence. Qed.

Lemma reachable_stored_under g : reachable g -> each_tank stored_under g.
Proof.
  apply reachable_each_tank.
  - split; reflexivity.
  - intros pid t path tq tr H _ _. exact H.
  - intros pid t now H _. exact H.
  - intros pid t H _ _. exact H.
  - intros pid t ty cost [H1 H2] _ _ _ _. unfold apply_upgrade.
    repeat match goal with
           | |- context [if String.eqb ?a ?b then _ else _] =>
               destruct (String.eqb a b)
           end; (split; [exact H1 | exact H2]).
  - intros pid t H. exact H.
  - intros sqrt atan2 dt _ _ pid t t' H T.
    eapply stored_under_same; [| exact H].
    eapply tick_touch_build_kept; eauto.
Qed.

(** *** Statistics follow the upgrade levels *)

Lemma stats_ok_same t t' :
  build_kept t t' -> stats_ok t -> stats_ok t'.
Proof.
  intros (_ & _ & _ & E1 & E2 & E3 & E4 & E5 & E6 & _).
  unfold stats_ok, upgrade_level. rewrite E1, E2, E3, E4, E5, E6. auto.
Qed.

Lemma stats_ok_defaults t :
  t_upgrades t = [] -> t_max_hp t = TANK_MAX_HP ->
  t_shell_damage t = SHELL_DAMAGE -> t_vision t = FOG_RANGE ->
  t_move_speed t = MOVE_SPEED_BASE -> t_ammo_cost t = AMMO_SHOOT ->
  stats_ok t.
Proof.
  intros E1 E2 E3 E4 E5 E6. unfold stats_ok, upgrade_level.
  rewrite E1, E2, E3, E4, E5, E6. cbn [Py.get].
  repeat split; try reflexivity; discriminate.
Qed.

Lemma upgrade_names ty :
  mem_string ty UPGRADE_COSTS = true ->
  ty = "engine"%string \/ ty = "armor"%string \/ ty = "cannon"%string
  \/ ty = "sensor"%string \/ ty = "loader"%string.
Proof.
  unfold mem_string, UPGRADE_COSTS. cbn [existsb].
  rewrite !orb_true_iff, !String.eqb_eq. intuition discriminate.
Qed.

Lemma upgrade_level_after t0 t ty v ty' :
  t_upgrades t0 = Py.set ty v (t_upgrades t) ->
  upgrade_level t0 ty'
  = if String.eqb ty' ty then v else upgrade_level t ty'.
Proof.
  intros E. unfold upgrade_level. rewrite E.
  destruct (String.eqb ty' ty) eqn:N.
  - apply String.eqb_eq in N. subst. now rewrite get_set_same.
  - apply String.eqb_neq in N. now rewrite get_set_other.
Qed.

Lemma apply_upgrade_upgrades ty t :
  t_upgrades (apply_upgrade ty t) = t_upgrades t.
Proof.
  unfold apply_upgrade.
  repeat match goal with
         | |- context [if String.eqb ?a ?b then _ else _] =>
             destruct (String.eqb a b)
         end; reflexivity.
Qed.

Lemma stats_ok_upgrade t ty cost :
  stats_ok t ->
  mem_string ty UPGRADE_COSTS = true ->
  (upgrade_level t ty < UPGRADE_MAX_LVL)%Z ->
  stats_ok (apply_upgrade ty
              (Tank_.with_upgrades
                 (Py.set ty (upgrade_level t ty + 1)%Z (t_upgrades t))
                 (Tank_.with_gears (t_gears t - cost) t))).
Proof.
  intros (Hl & Hhp & Hd & Hv & Hs & Hc) M L.
  pose proof (Hl ty) as Lty. unfold UPGRADE_MAX_LVL in *.
  set (X := apply_upgrade ty _).
  assert (Hup : forall ty',
             upgrade_level X ty'
             = if String.eqb ty' ty then (upgrade_level t ty + 1)%Z
               else upgrade_level t ty').
  { intros ty'. apply upgrade_level_after. unfold X.
    now rewrite apply_upgrade_upgrades. }
  unfold stats_ok, UPGRADE_MAX_LVL. rewrite !Hup. split.
  { intros ty'. rewrite Hup. specialize (Hl ty').
    destruct (String.eqb ty' ty); lia. }
  apply upgrade_names in M. unfold X.
  destruct M as [-> | [-> | [-> | [-> | ->]]]];
    cbn [apply_upgrade String.eqb Ascii.eqb Bool.eqb]; tank_fields;
    repeat split; auto; try lia.
  - rewrite Hs, inject_Z_plus. change (inject_Z 1) with 1.
    unfold MOVE_SPEED_BASE. lra.
  - rewrite inject_Z_plus. change (inject_Z 1) with 1.
    assert (I : inject_Z (upgrade_level t "loader") <= 2).
    { change 2 with (inject_Z 2). rewrite <- Zle_Qle. lia. }
    destruct (py_max_spec 2 (t_ammo_cost t - 2)) as [[? ->] | [? ->]];
      unfold AMMO_SHOOT in *; lra.
Qed.

Lemma reachable_stats_ok g :
  reachable g -> each_tank (fun _ => stats_ok) g.
Proof.
  apply reachable_each_tank.
  - intros. apply stats_ok_defaults; reflexivity.
  - intros pid t path tq tr H _ _. exact H.
  - intros pid t now H _. exact H.
  - intros pid t H _ _. exact H.
  - intros pid t ty cost H M L _ _. now apply stats_ok_upgrade.
  - intros pid t _. apply stats_ok_defaults; reflexivity.
  - intros sqrt atan2 dt _ _ pid t t' H T.
    eapply stats_ok_same; [| exact H].
    eapply tick_touch_build_kept; eauto.
Qed.

(** *** Alive and dead *)

Lemma life_ok_same t t' :
  t_max_hp t' = t_max_hp t -> life_kept t t' ->
  (t_alive t = false -> t_path t' = t_path t) ->
  life_ok t -> life_ok t'.
Proof.
  intros E0 (E1 & E2 & E3) Ep (H0 & Ha & Hd). unfold life_ok.
  rewrite E0, E1, E2, E3. split; [exact H0 |]. split; [exact Ha |].
  intros A. rewrite (Ep A). auto.
Qed.

Lemma life_ok_touch sqrt atan2 dt t t' :
  0 < dt -> life_ok t -> tick_touch sqrt atan2 dt t t' -> life_ok t'.
Proof.
  intros Hdt H T.
  destruct T as [t | t dmg A Hhp | t dmg A Hhp | t fr ar gr | t gl u | t
                 | t ftypes A | t A Hw | t sp A Hw Hsp].
  - destruct (move_tank_same sqrt atan2 dt t)
      as ((_ & _ & _ & E & _) & L).
    apply (life_ok_same t); auto.
    intros A. now rewrite move_tank_dead.
  - destruct H as (H0 & Ha & Hd). unfold life_ok. tank_fields.
    split; [exact H0 |]. split; [| exact Hd].
    intros _. split; [lia | apply Ha; exact A].
  - destruct H as (H0 & _). unfold life_ok, slain. tank_fields.
    split; [exact H0 |]. split; [discriminate |].
    intros _. unfold RESPAWN_TIME. repeat split; lra.
  - apply (life_ok_same t); auto; repeat split.
  - apply (life_ok_same t); auto; repeat split.
  - apply (life_ok_same t); auto; repeat split.
  - destruct (credit_same dt ftypes t)
      as ((_ & _ & _ & E & _) & L & Hp & _).
    apply (life_ok_same t); auto.
  - destruct H as (H0 & _ & Hd). destruct (Hd A) as (Hp & _ & Hle).
    unfold life_ok, waiting. tank_fields.
    split; [exact H0 |]. split; [congruence |].
    intros _. repeat split; [exact Hp | lra | lra].
  - destruct H as (H0 & _). unfold life_ok, respawned, waiting.
    tank_fields. unfold TANK_MAX_HP in *.
    split; [exact H0 |]. split; [| discriminate].
    intros _. split; [lia | reflexivity].
Qed.

Lemma life_ok_upgrade t ty cost :
  life_ok t ->
  life_ok (apply_upgrade ty
             (Tank_.with_upgrades
                (Py.set ty (upgrade_level t ty + 1)%Z (t_upgrades t))
                (Tank_.with_gears (t_gears t - cost) t))).
Proof.
  intros (H0 & Ha & Hd). unfold apply_upgrade.
  repeat match goal with
         | |- context [if String.eqb ?a ?b then _ else _] =>
             destruct (String.eqb a b)
         end; unfold life_ok; tank_fields; try (split; [| split]; auto; fail).
  unfold Py.minZ, TANK_MAX_HP in *.
  split; [lia |]. split; [| exact Hd].
  intros A. destruct (Ha A) as [Hhp Ht]. split; [| exact Ht].
  destruct (_ <? _)%Z; lia.
Qed.

Lemma reachable_life_ok g : reachable g -> each_tank (fun _ => life_ok) g.
Proof.
  apply reachable_each_tank.
  - intros. split; [discriminate |]. split; [| discriminate].
    intros _. split; reflexivity.
  - intros pid t path tq tr (H0 & Ha & Hd) A _. unfold life_ok.
    tank_fields.
    split; [exact H0 |]. split; [exact Ha | congruence].
  - intros pid t now H _. apply (life_ok_same t); auto; repeat split.
  - intros pid t H _ _. apply (life_ok_same t); auto; repeat split.
  - intros pid t ty cost H _ _ _ _. now apply life_ok_upgrade.
  - intros pid t _. split; [discriminate |]. split; [| discriminate].
    intros _. split; reflexivity.
  - intros sqrt atan2 dt Hdt _ pid t t' H T.
    eapply life_ok_touch; eauto.
Qed.

(** ** What a tick leaves alone in the game state *)

Section DictKeys.
Context {V : Type}.
Implicit Types (d : Py.dict V).

Lemma keys_del_incl k d : incl (Py.keys (Py.del k d)) (Py.keys d).
Proof.
  unfold Py.keys. induction d as [| [k' v'] d IH]; cbn.
  - apply incl_refl.
  - destruct (String.eqb k k'); cbn.
    + apply incl_tl, incl_refl.
    + intros x [<- | Hx]; [now left | right; now apply IH].
Qed.

Lemma keys_del_NoDup k d : NoDup (Py.keys d) -> NoDup (Py.keys (Py.del k d)).
Proof.
  unfold Py.keys. induction d as [| [k' v'] d IH]; cbn; auto.
  intros H. inversion H as [| ? ? Hn Hd]; subst.
  destruct (String.eqb k k'); cbn; auto.
  constructor; auto. intros Hin. apply Hn.
  now apply (keys_del_incl k d).
Qed.

Lemma keys_set_NoDup k v d :
  NoDup (Py.keys d) -> NoDup (Py.keys (Py.set k v d)).
Proof.
  unfold Py.keys. induction d as [| [k' v'] d IH]; cbn.
  - intros _. repeat constructor. intros [].
  - intros H. inversion H as [| ? ? Hn Hd]; subst.
    destruct (String.eqb k k') eqn:E; cbn; [exact H |].
    constructor; auto. intros Hin. apply String.eqb_neq in E.
    destruct (In_keys_get _ _ Hin) as (v0 & G).
    rewrite get_set_other in G by congruence.
    apply get_In in G. apply Hn. apply in_map_iff. now exists (k', v0).
Qed.

Lemma get_del_same k d : NoDup (Py.keys d) -> Py.get k (Py.del k d) = None.
Proof.
  unfold Py.keys. induction d as [| [k' v'] d IH]; cbn; auto.
  intros H. inversion H as [| ? ? Hn Hd]; subst.
  destruct (String.eqb k k') eqn:E.
  - apply String.eqb_eq in E. subst k'.
    destruct (Py.get k d) eqn:G; [| reflexivity].
    apply get_In in G. exfalso. apply Hn. apply in_map_iff.
    now exists (k, v).
  - cbn. rewrite E. auto.
Qed.

Lemma get_del_other k k' d : k <> k' -> Py.get k (Py.del k' d) = Py.get k d.
Proof.
  intros N. induction d as [| [k0 v0] d IH]; cbn; auto.
  destruct (String.eqb k' k0) eqn:E.
  - apply String.eqb_eq in E. subst k0.
    apply String.eqb_neq in N. now rewrite N.
  - cbn. now rewrite IH.
Qed.

Lemma keys_map_values (f : V -> V) d : Py.keys (map_values f d) = Py.keys d.
Proof.
  unfold Py.keys, map_values. rewrite map_map. reflexivity.
Qed.

Lemma get_map_values (f : V -> V) k d :
  Py.get k (map_values f d) = option_map f (Py.get k d).
Proof.
  induction d as [| [k' v'] d IH]; cbn; auto.
  destruct (String.eqb k k'); auto.
Qed.

End DictKeys.

Lemma tick_frame_refl g : tick_frame g g.
Proof.
  unfold tick_frame. repeat split; auto. apply incl_refl.
Qed.

Lemma tick_frame_trans g0 g1 g2 :
  tick_frame g0 g1 -> tick_frame g1 g2 -> tick_frame g0 g2.
Proof.
  intros (A1 & A2 & A3 & A4 & A5 & A6 & A7 & A8 & A9 & A10)
         (B1 & B2 & B3 & B4 & B5 & B6 & B7 & B8 & B9 & B10).
  unfold tick_frame. repeat split; try congruence; auto.
  eapply incl_tran; eauto.
Qed.

Lemma frame_put_tank pid t g :
  In pid (Py.keys (tanks g)) -> tick_frame g (Game_.put_tank pid t g).
Proof.
  intros H. unfold tick_frame. game_fields.
  repeat split; auto using incl_refl. now apply keys_set_In.
Qed.

Lemma frame_put_fort fid f g :
  In fid (Py.keys (forts g)) -> tick_frame g (Game_.put_fort fid f g).
Proof.
  intros H. unfold tick_frame. game_fields.
  repeat split; auto using incl_refl. now apply keys_set_In.
Qed.

Lemma frame_put_shell sid s g :
  In sid (Py.keys (shells g)) -> tick_frame g (Game_.put_shell sid s g).
Proof.
  intros H. unfold tick_frame. game_fields.
  rewrite (keys_set_In sid s (shells g) H).
  repeat split; auto using incl_refl.
Qed.

Lemma frame_del_shell sid g :
  tick_frame g (Game_.with_shells (Py.del sid (shells g)) g).
Proof.
  unfold tick_frame. game_fields. repeat split; auto.
  - apply keys_del_incl.
  - apply keys_del_NoDup.
Qed.

Lemma frame_push_event e g : tick_frame g (Game_.push_event e g).
Proof.
  unfold tick_frame. game_fields. repeat split; auto using incl_refl.
Qed.

Lemma get_keys_In {V} k (v : V) d : Py.get k d = Some v -> In k (Py.keys d).
Proof.
  intros G. apply get_In in G. apply in_map_iff. now exists (k, v).
Qed.

Lemma frame_release_forts pid tank g : tick_frame g (release_forts pid tank g).
Proof.
  unfold release_forts.
  assert (K : forall kf, In kf (forts_to_release pid tank g) ->
                         In (fst kf) (Py.keys (forts g))).
  { intros kf H. unfold forts_to_release in H.
    destruct (_ <? _)%nat; [| contradiction].
    apply In_drop, sort_desc_In in H. unfold victim_forts in H.
    apply filter_In in H as [H _]. now apply in_map. }
  revert K. generalize (forts_to_release pid tank g). intros l.
  assert (G : forall g', tick_frame g g' ->
              (forall kf, In kf l -> In (fst kf) (Py.keys (forts g))) ->
              tick_frame g
                (fold_left
                   (fun g0 kf =>
                      Game_.put_fort (fst kf) (release_fort (snd kf)) g0)
                   l g')).
  { induction l as [| kf l IH]; intros g' F K; cbn [fold_left]; auto.
    apply IH; [| intros; apply K; now right].
    eapply tick_frame_trans; [exact F |]. apply frame_put_fort.
    destruct F as (_ & _ & -> & _). apply K. now left. }
  intros K. apply G; [apply tick_frame_refl | exact K].
Qed.

Section TickFrame.
Variable sqrt : Q -> Q.
Variable atan2 : Q -> Q -> Q.
Variable ext : Oracle.
Variable dt : Q.

Lemma frame_move_tanks s :
  tick_frame (fst s) (fst (_move_tanks sqrt atan2 dt s)).
Proof.
  unfold _move_tanks.
  apply (for_tanks_ind (fun s' => tick_frame (fst s) (fst s')));
    [apply tick_frame_refl |].
  intros pid t s' F G. cbn [fst].
  eapply tick_frame_trans; [exact F |]. apply frame_put_tank.
  eapply get_keys_In; eauto.
Qed.

Lemma frame_kill shell pid tank g n :
  In pid (Py.keys (tanks g)) ->
  tick_frame g (fst (kill ext shell pid tank (g, n))).
Proof.
  intros Hin. unfold kill. set (dead := Tank_.with_path [] _).
  assert (F1 : tick_frame g (Game_.put_tank pid dead g))
    by now apply frame_put_tank.
  destruct (Py.get (s_owner_id shell) (tanks (Game_.put_tank pid dead g)))
    as [shooter |] eqn:Gs; cbn [fst].
  - eapply tick_frame_trans; [| apply frame_push_event].
    eapply tick_frame_trans; [| apply frame_release_forts].
    eapply tick_frame_trans; [exact F1 |].
    eapply tick_frame_trans.
    + apply frame_put_tank. game_fields.
      rewrite (keys_set_In pid dead (tanks g) Hin). exact Hin.
    + apply frame_put_tank. game_fields.
      erewrite keys_set_In.
      * eapply get_keys_In; eauto.
      * rewrite (keys_set_In pid dead (tanks g) Hin). exact Hin.
  - eapply tick_frame_trans; [exact F1 | apply frame_push_event].
Qed.

Lemma frame_shell_impact shell s :
  tick_frame (fst s) (fst (_shell_impact ext shell s)).
Proof.
  unfold _shell_impact.
  apply (for_tanks_ind (fun s' => tick_frame (fst s) (fst s')));
    [apply tick_frame_refl |].
  intros pid t [g n] F G. cbn [fst] in *.
  eapply tick_frame_trans; [exact F |].
  pose proof (get_keys_In _ _ _ G) as Hin. unfold impact_tank.
  destruct (_ || _); [apply tick_frame_refl |].
  destruct (_ <=? 1)%Z; [| apply tick_frame_refl].
  destruct (_ <=? 0)%Z.
  - now apply frame_kill.
  - cbn [fst]. now apply frame_put_tank.
Qed.

Lemma frame_move_shells s :
  tick_frame (fst s) (fst (_move_shells sqrt ext dt s)).
Proof.
  unfold _move_shells.
  assert (D : forall acc : Sim * list string,
             tick_frame (fst s) (fst (fst acc)) ->
             tick_frame (fst s)
               (fst (let '((g, n), dead) := acc in
                     (fold_left
                        (fun g sid =>
                           Game_.with_shells (Py.del sid (shells g)) g)
                        dead g, n)))).
  { intros [[g n] dead] K. cbn [fst] in *.
    apply (fold_left_ind (tick_frame (fst s))); auto.
    intros g' sid F. eapply tick_frame_trans; [exact F |].
    apply frame_del_shell. }
  apply D.
  apply (fold_left_ind (fun acc => tick_frame (fst s) (fst (fst acc))));
    [apply tick_frame_refl |].
  intros [[g n] dead] sid F. unfold move_shell. cbn [fst] in F.
  destruct (Py.get sid (shells g)) as [shell |] eqn:G; [| exact F].
  destruct (Py.Qleb _ _).
  - cbn [fst]. eapply tick_frame_trans; [exact F |].
    apply (frame_shell_impact shell (g, n)).
  - destruct (Py.Qltb 3 _); cbn [fst].
    + eapply tick_frame_trans; [exact F |].
      apply (frame_shell_impact shell (g, S n)).
    + eapply tick_frame_trans; [exact F |]. apply frame_put_shell.
      eapply get_keys_In; eauto.
Qed.

Lemma on_fort_In capturer fort g :
  In capturer (on_fort fort g) -> In capturer (Py.keys (tanks g)).
Proof.
  unfold on_fort, Py.keys. rewrite !in_map_iff.
  intros (kt & <- & H). apply filter_In in H as [H _]. now exists kt.
Qed.

Lemma frame_capture_fort fid fort g n :
  Py.get fid (forts g) = Some fort ->
  tick_frame g (fst (capture_fort ext dt fid fort (g, n))).
Proof.
  intros G. pose proof (get_keys_In _ _ _ G) as Hin. unfold capture_fort.
  destruct (on_fort fort g) as [| capturer [| ? ?]] eqn:O.
  - destruct (_ && _); [| apply tick_frame_refl].
    cbn [fst]. now apply frame_put_fort.
  - destruct (is_player (f_owner fort) capturer); [apply tick_frame_refl |].
    destruct (is_player (f_capturing_player fort) capturer);
      [| cbn [fst]; now apply frame_put_fort].
    destruct (Py.Qleb _ _); [| cbn [fst]; now apply frame_put_fort].
    cbn [fst].
    eapply tick_frame_trans; [| apply frame_push_event].
    eapply tick_frame_trans; [apply frame_put_fort; exact Hin |].
    game_fields.
    destruct (Py.get capturer (tanks g)) as [t |] eqn:Gt;
      [| apply tick_frame_refl].
    apply frame_put_tank. game_fields. eapply get_keys_In; eauto.
  - cbn [fst]. now apply frame_put_fort.
Qed.

Lemma frame_update_captures s :
  tick_frame (fst s) (fst (_update_captures ext dt s)).
Proof.
  unfold _update_captures.
  apply (for_forts_ind (fun s' => tick_frame (fst s) (fst s')));
    [apply tick_frame_refl |].
  intros fid fort [g n] F G. cbn [fst] in *.
  eapply tick_frame_trans; [exact F |]. now apply frame_capture_fort.
Qed.

Lemma frame_generate_resources s :
  tick_frame (fst s) (fst (_generate_resources dt s)).
Proof.
  unfold _generate_resources. cbn [fst].
  apply (fold_left_ind (tick_frame (fst s))); [apply tick_frame_refl |].
  intros g [pid ftypes] F.
  destruct (Py.get pid (tanks g)) as [tank |] eqn:G; auto.
  destruct (negb (t_alive tank)); auto.
  eapply tick_frame_trans; [exact F |]. apply frame_put_tank.
  eapply get_keys_In; eauto.
Qed.

Lemma frame_check_respawns s :
  tick_frame (fst s) (fst (_check_respawns ext dt s)).
Proof.
  unfold _check_respawns.
  apply (for_tanks_ind (fun s' => tick_frame (fst s) (fst s')));
    [apply tick_frame_refl |].
  intros pid t [g n] F G. cbn [fst] in *.
  eapply tick_frame_trans; [exact F |].
  pose proof (get_keys_In _ _ _ G) as Hin. unfold respawn_tank.
  destruct (negb (t_alive t)); [| apply tick_frame_refl].
  destruct (Py.Qleb _ _); cbn [fst]; now apply frame_put_tank.
Qed.

Lemma frame_phases g :
  tick_frame g
    (fst (_check_respawns ext dt
            (_generate_resources dt
               (_update_captures ext dt
                  (_move_shells sqrt ext dt
                     (_move_tanks sqrt atan2 dt (g, 0%nat))))))).
Proof.
  eapply tick_frame_trans; [| apply frame_check_respawns].
  eapply tick_frame_trans; [| apply frame_generate_resources].
  eapply tick_frame_trans; [| apply frame_update_captures].
  eapply tick_frame_trans; [| apply frame_move_shells].
  apply (frame_move_tanks (g, 0%nat)).
Qed.

End TickFrame.

(** ** Invariants of the reachable game states *)

Lemma length_set_le {V} k (v : V) d :
  (List.length (Py.set k v d) <= S (List.length d))%nat.
Proof.
  induction d as [| [k' v'] d IH]; cbn; [lia |].
  destruct (String.eqb k k'); cbn; lia.
Qed.

Lemma length_del_le {V} k (d : Py.dict V) :
  (List.length (Py.del k d) <= List.length d)%nat.
Proof.
  induction d as [| [k' v'] d IH]; cbn; [lia |].
  destruct (String.eqb k k'); cbn; lia.
Qed.

Lemma mem_string_In x l : mem_string x l = true <-> In x l.
Proof.
  unfold mem_string. rewrite existsb_exists. split.
  - intros (y & Hy & E). apply String.eqb_eq in E. now subst.
  - intros H. exists x. split; [exact H | apply String.eqb_refl].
Qed.

Lemma set_add_NoDup x l : NoDup l -> NoDup (set_add x l).
Proof.
  intros H. unfold set_add. destruct (mem_string x l) eqn:E; [exact H |].
  apply NoDup_app; auto.
  - repeat constructor. intros [].
  - intros a Ha [<- | []].
    apply mem_string_In in Ha. congruence.
Qed.

Lemma tidy_reset_match g :
  (List.length (players g) <= MAX_PLAYERS)%nat -> distinct_keys g ->
  tidy (_reset_match g).
Proof.
  intros Hp (N1 & N2 & N3 & N4).
  split; [exact Hp |]. split.
  - unfold distinct_keys, _reset_match. game_fields.
    rewrite keys_map_values. repeat split; auto; constructor.
  - unfold clock_ok, _reset_match. game_fields. unfold MATCH_TIME.
    repeat split; try discriminate.
Qed.

Lemma tidy_frame g0 g :
  tick_frame g0 g -> tidy g0 -> tidy g.
Proof.
  intros (F1 & F2 & F3 & F4 & F5 & F6 & F7 & F8 & F9 & F10)
         (Hp & (N1 & N2 & N3 & N4) & Hc).
  unfold tidy, distinct_keys, clock_ok in *.
  rewrite F1, F2, F7, F8, F9, F10. auto 10.
Qed.

Lemma tidy_with_tick v g : tidy g -> tidy (Game_.with_tick v g).
Proof. intros H. exact H. Qed.

Lemma tidy_tick_update sqrt atan2 ext dt g :
  0 < dt -> dt <= 1 # 10 ->
  tidy g -> tidy (tick_update sqrt atan2 ext dt g).
Proof.
  intros Hdt Hle T. pose proof T as (Hp & Hk & Hc).
  unfold clock_ok in Hc. unfold tick_update.
  destruct (match_over g) eqn:O; cbn [negb].
  - rewrite O. game_fields.
    destruct (Py.Qleb (post_match_timer g - dt) 0) eqn:E.
    + apply tidy_reset_match; [exact Hp | exact Hk].
    + apply Qleb_gt in E. split; [exact Hp |]. split; [exact Hk |].
      unfold clock_ok. game_fields. rewrite O. repeat split; try tauto.
      lra.
  - game_fields.
    destruct (Py.Qleb (match_timer g - dt) 0) eqn:E; game_fields.
    + unfold _end_match. game_fields. unfold POST_MATCH_TIME.
      destruct (Py.Qleb (10 - dt) 0) eqn:E2.
      * apply tidy_reset_match; [exact Hp | exact Hk].
      * apply Qleb_gt in E2. split; [exact Hp |]. split; [exact Hk |].
        unfold clock_ok. game_fields. unfold POST_MATCH_TIME.
        repeat split; try lra; reflexivity.
    + rewrite O. apply Qleb_gt in E. apply tidy_with_tick.
      eapply tidy_frame; [apply frame_phases |].
      split; [exact Hp |]. split; [exact Hk |].
      unfold clock_ok. game_fields. rewrite O.
      repeat split; try tauto; lra.
Qed.

Lemma tidy_put_tank pid t g : tidy g -> tidy (Game_.put_tank pid t g).
Proof.
  intros (Hp & (N1 & N2 & N3 & N4) & Hc).
  split; [exact Hp |]. split; [| exact Hc].
  unfold distinct_keys. game_fields. repeat split; auto.
  now apply keys_set_NoDup.
Qed.

Lemma reachable_tidy g : reachable g -> tidy g.
Proof.
  induction 1 as [fs Hf | ws_id name pid g R IH | ws_id g R IH
                  | pid path g R IH | pid tq tr now created sid g R IH
                  | pid ty g reply g' R IH U | pid g R IH
                  | sqrt atan2 ext dt g R IH Hdt Hfair | g R IH].
  - split; [cbn; lia |]. split.
    + repeat split; constructor.
    + unfold clock_ok, new_game. game_fields. unfold MATCH_TIME.
      repeat split; try discriminate.
  - unfold add_player.
    destruct (MAX_PLAYERS <=? List.length (players g))%nat eqn:E; auto.
    apply Nat.leb_gt in E. cbn [snd]. apply tidy_put_tank.
    destruct IH as (Hp & (N1 & N2 & N3 & N4) & Hc).
    split; [| split; [| exact Hc]].
    + game_fields.
      pose proof (length_set_le ws_id
                    (mkPlayer pid name
                       (nth (List.length (players g)
                             mod List.length PLAYER_COLORS)
                            PLAYER_COLORS ""%string) ws_id)
                    (players g)).
      lia.
    + unfold distinct_keys. game_fields. repeat split; auto.
      now apply keys_set_NoDup.
  - unfold remove_player. destruct (Py.get ws_id (players g)); auto.
    destruct IH as (Hp & (N1 & N2 & N3 & N4) & Hc).
    split; [| split; [| exact Hc]].
    + game_fields. pose proof (length_del_le ws_id (players g)). lia.
    + unfold distinct_keys. game_fields.
      repeat split; auto using keys_del_NoDup.
  - unfold set_tank_path. destruct (Py.get pid (tanks g)); auto.
    destruct (negb _); auto.
    destruct path; cbn [snd]; now apply tidy_put_tank.
  - unfold shoot. destruct (Py.get pid (tanks g)); auto.
    destruct (negb _); auto. destruct (Py.Qltb (now - _) _); auto.
    cbv zeta. destruct (Py.Qltb _ _); [now apply tidy_put_tank |].
    destruct (_ <? _)%Z; [now apply tidy_put_tank |]. cbn [snd].
    assert (T2 : tidy
                   (Game_.put_tank pid
                      (Tank_.with_ammo
                         (t_ammo (Tank_.with_last_shot now t)
                          - t_ammo_cost (Tank_.with_last_shot now t))
                         (Tank_.with_last_shot now t))
                      (Game_.put_tank pid (Tank_.with_last_shot now t) g)))
      by now do 2 apply tidy_put_tank.
    destruct T2 as (Hp & (N1 & N2 & N3 & N4) & Hc).
    split; [exact Hp |]. split; [| exact Hc].
    unfold distinct_keys. game_fields. repeat split; auto.
    now apply keys_set_NoDup.
  - unfold upgrade in U. destruct (Py.get pid (tanks g));
      [| injection U as _ <-; exact IH].
    destruct (negb _); [injection U as _ <-; exact IH |].
    destruct (_ <=? _)%Z; [injection U as _ <-; exact IH |].
    destruct (Py.index _ _); [| discriminate].
    destruct (Py.Qltb _ _); injection U as _ <-; [exact IH |].
    now apply tidy_put_tank.
  - unfold cast_vote. destruct (match_over g) eqn:O; cbn [negb]; auto.
    cbn [snd].
    assert (T2 : tidy (Game_.with_rematch_votes
                         (set_add pid (rematch_votes g)) g)).
    { destruct IH as (Hp & (N1 & N2 & N3 & N4) & Hc).
      split; [exact Hp |]. split.
      - unfold distinct_keys. game_fields. repeat split; auto.
        now apply set_add_NoDup.
      - unfold clock_ok in *. game_fields. now rewrite O in *. }
    destruct (_ && _); [apply tidy_reset_match; apply T2 | exact T2].
  - unfold advance. apply tidy_tick_update; auto.
    + unfold Py.min. destruct (Py.Qltb _ _); [reflexivity | exact Hdt].
    + apply py_min_le_r.
  - exact IH.
Qed.

(** ** Summary: what holds in every reachable state *)

Lemma one_player_game_reachable : reachable one_player_game.
Proof. apply reach_join, reach_new. constructor. Qed.

(** X10. In every reachable state at most [MAX_PLAYERS] players are
    registered, the dictionaries of players, tanks and shells and the vote
    set have no repeated key, and every tank is stored under its own player
    identifier, with [id = "tank_" + player_id]. *)
Theorem reachable_dictionaries_are_consistent :
  forall g,
    reachable g ->
    (List.length (players g) <= MAX_PLAYERS)%nat
    /\ NoDup (Py.keys (players g))
    /\ NoDup (Py.keys (tanks g))
    /\ NoDup (Py.keys (shells g))
    /\ NoDup (rematch_votes g)
    /\ forall pid t,
        Py.get pid (tanks g) = Some t ->
        t_player_id t = pid /\ t_id t = ("tank_" ++ pid)%string.
Proof.
  intros g R. destruct (reachable_tidy g R) as (Hp & (N1 & N2 & N3 & N4) & _).
  repeat split; auto;
    pose proof (each_tank_get _ _ _ _ (reachable_stored_under g R) H) as K;
    apply K.
Qed.

Lemma reachable_dictionaries_are_consistent_witness :
  reachable one_player_game
  /\ (List.length (players one_player_game) <= MAX_PLAYERS)%nat
  /\ NoDup (Py.keys (tanks one_player_game)).
Proof.
  split; [exact one_player_game_reachable |].
  pose proof (reachable_dictionaries_are_consistent
                one_player_game one_player_game_reachable)
    as (H1 & _ & H3 & _).
  exact (conj H1 H3).
Defined.

(** X11. The match clock in every reachable state: while the match runs the
    match timer is in [(0, MATCH_TIME]] and no rematch vote is held; once it
    is over the match timer is 0 and the post-match countdown is in [(0,
    POST_MATCH_TIME)]. *)
Theorem reachable_match_clock :
  forall g,
    reachable g ->
    (match_over g = false ->
     0 < match_timer g /\ match_timer g <= MATCH_TIME
     /\ rematch_votes g = [])
    /\ (match_over g = true ->
        match_timer g == 0
        /\ 0 < post_match_timer g
        /\ post_match_timer g < POST_MATCH_TIME).
Proof.
  intros g R. destruct (reachable_tidy g R) as (_ & _ & Hc).
  unfold clock_ok in Hc. destruct (match_over g).
  - split; [discriminate | intros _; exact Hc].
  - split; [intros _; exact Hc | discriminate].
Qed.

Lemma reachable_match_clock_witness :
  reachable one_player_game
  /\ (match_over one_player_game = false ->
      0 < match_timer one_player_game
      /\ match_timer one_player_game <= MATCH_TIME
      /\ rematch_votes one_player_game = []).
Proof.
  split; [exact one_player_game_reachable |].
  exact (proj1 (reachable_match_clock one_player_game
                  one_player_game_reachable)).
Defined.

(** X12. The statistics of a tank are a function of its upgrade levels in
    every reachable state: every level is between 0 and 3, and [max_hp = 100
    + 20 armor], [shell_damage = 40 + 10 cannon], [vision = 3 + sensor],
    [move_speed = 2.5 + 0.4 engine] and [ammo_cost = 8 - 2 loader] (so the
    clamp of the loader upgrade at 2 never cuts). A shell fired by [shoot]
    therefore carries [40 + 15 cannon] damage, at most 85, at [SHELL_SPEED],
    and its target is within [5 + cannon], at most 8, cells of the shooter. *)
Theorem reachable_stats_follow_upgrade_levels :
  forall g,
    reachable g ->
    (forall pid t,
        Py.get pid (tanks g) = Some t ->
        (forall ty, (0 <= upgrade_level t ty <= 3)%Z)
        /\ t_max_hp t = (100 + 20 * upgrade_level t "armor")%Z
        /\ t_shell_damage t = (40 + 10 * upgrade_level t "cannon")%Z
        /\ t_vision t = (3 + upgrade_level t "sensor")%Z
        /\ t_move_speed t
           == (5 # 2) + (4 # 10) * inject_Z (upgrade_level t "engine")
        /\ t_ammo_cost t == 8 - 2 * inject_Z (upgrade_level t "loader"))
    /\ (forall pid tq tr now created sid g' t,
           Py.get pid (tanks g) = Some t ->
           shoot pid tq tr now created sid g = (OkShell sid, g') ->
           exists s,
             Py.get sid (shells g') = Some s
             /\ s_owner_id s = pid
             /\ s_damage s = (40 + 15 * upgrade_level t "cannon")%Z
             /\ (40 <= s_damage s <= 85)%Z
             /\ s_speed s = SHELL_SPEED
             /\ (s_q s, s_r s) = (t_q t, t_r t)
             /\ (s_target_q s, s_target_r s) = (tq, tr)
             /\ (hex_distance (tank_cell t) (tq, tr)
                 <= 5 + upgrade_level t "cannon" <= 8)%Z).
Proof.
  intros g R. split.
  - intros pid t G.
    exact (each_tank_get _ _ _ _ (reachable_stats_ok g R) G).
  - intros pid tq tr now created sid g' t G S.
    pose proof (each_tank_get _ _ _ _ (reachable_stats_ok g R) G)
      as (Hl & _ & Hd & _).
    pose proof (Hl "cannon"%string) as Lc.
    unfold UPGRADE_MAX_LVL, SHELL_DAMAGE in *.
    unfold shoot in S. rewrite G in S.
    destruct (negb (t_alive t)); [discriminate |].
    destruct (Py.Qltb (now - _) _); [discriminate |].
    cbv zeta in S. tank_fields.
    destruct (Py.Qltb (t_ammo t) (t_ammo_cost t)); [discriminate |].
    change (upgrade_level (Tank_.with_last_shot now t) "cannon")
      with (upgrade_level t "cannon") in S.
    change (upgrade_level
              (Tank_.with_ammo (t_ammo t - t_ammo_cost t)
                 (Tank_.with_last_shot now t)) "cannon")
      with (upgrade_level t "cannon") in S.
    destruct (5 + upgrade_level t "cannon" <? _)%Z eqn:E; [discriminate |].
    apply Z.ltb_ge in E. injection S as <-. eexists. game_fields.
    split; [apply get_set_same |]. cbn [s_owner_id s_damage s_speed s_q s_r
                                        s_target_q s_target_r].
    unfold tank_cell. repeat split; auto; lia.
Qed.

Lemma reachable_stats_follow_upgrade_levels_witness :
  reachable one_player_game
  /\ Py.get "p1"%string (tanks one_player_game) = Some one_player_tank
  /\ t_max_hp one_player_tank
     = (100 + 20 * upgrade_level one_player_tank "armor")%Z.
Proof.
  split; [exact one_player_game_reachable |]. split; [reflexivity |].
  pose proof (proj1 (reachable_stats_follow_upgrade_levels
                       one_player_game one_player_game_reachable)
                    "p1"%string one_player_tank eq_refl) as (_ & H & _).
  exact H.
Defined.

(** X13. [upgrade] never raises in a reachable state: the level used as an
    index into the cost list is always 0, 1 or 2 when the level check has
    passed. When it succeeds the new level is the old one plus one and the
    price taken from the gears was 5, 10 or 18, by old level. *)
Theorem reachable_upgrade_never_raises :
  forall g pid ty,
    reachable g ->
    exists reply g',
      upgrade pid ty g = Returns reply g'
      /\ (is_error reply = true -> g' = g)
      /\ (is_error reply = false ->
          exists t t' cost,
            Py.get pid (tanks g) = Some t
            /\ Py.get pid (tanks g') = Some t'
            /\ reply = OkUpgrade ty (upgrade_level t ty + 1) 3
            /\ upgrade_level t' ty = (upgrade_level t ty + 1)%Z
            /\ nth_error lvl_costs (Z.to_nat (upgrade_level t ty))
               = Some cost
            /\ cost <= t_gears t
            /\ t_gears t' = t_gears t - cost).
Proof.
  intros g pid ty R. unfold upgrade.
  destruct (Py.get pid (tanks g)) as [t |] eqn:G.
  2: { do 2 eexists. split; [reflexivity |].
       split; [reflexivity | discriminate]. }
  pose proof (each_tank_get _ _ _ _ (reachable_stats_ok g R) G) as (Hl & _).
  specialize (Hl ty). unfold UPGRADE_MAX_LVL in *.
  destruct (negb (mem_string ty UPGRADE_COSTS)).
  { do 2 eexists. split; [reflexivity |].
    split; [reflexivity | discriminate]. }
  destruct (3 <=? upgrade_level t ty)%Z eqn:L.
  { do 2 eexists. split; [reflexivity |].
    split; [reflexivity | discriminate]. }
  apply Z.leb_gt in L.
  assert (I : exists cost,
             Py.index lvl_costs (upgrade_level t ty) = Some cost
             /\ nth_error lvl_costs (Z.to_nat (upgrade_level t ty))
                = Some cost).
  { assert (C : upgrade_level t ty = 0%Z \/ upgrade_level t ty = 1%Z
                \/ upgrade_level t ty = 2%Z) by lia.
    destruct C as [-> | [-> | ->]]; eexists; split; reflexivity. }
  destruct I as (cost & -> & Hn).
  destruct (Py.Qltb (t_gears t) cost) eqn:E.
  { do 2 eexists. split; [reflexivity |].
    split; [reflexivity | discriminate]. }
  apply Qltb_ge in E.
  do 2 eexists. split; [reflexivity |]. split; [discriminate |].
  intros _. exists t. eexists. exists cost. game_fields.
  split; [reflexivity |]. split; [apply get_set_same |].
  split; [reflexivity |]. split.
  { rewrite (upgrade_level_after _ t ty (upgrade_level t ty + 1)%Z ty)
      by apply apply_upgrade_upgrades.
    now rewrite String.eqb_refl. }
  split; [exact Hn |]. split; [exact E |].
  unfold apply_upgrade.
  repeat match goal with
         | |- context [if String.eqb ?a ?b then _ else _] =>
             destruct (String.eqb a b)
         end; reflexivity.
Qed.

Lemma reachable_upgrade_never_raises_witness :
  reachable one_player_game
  /\ exists reply g',
      upgrade "p1" "armor" one_player_game = Returns reply g'.
Proof.
  split; [exact one_player_game_reachable |].
  destruct (reachable_upgrade_never_raises
              one_player_game "p1"%string "armor"%string
              one_player_game_reachable) as (reply & g' & H & _).
  exists reply, g'. exact H.
Defined.

(** X14. Alive and dead in every reachable state: a living tank has positive
    health and no respawn timer running; a dead tank has an empty path and a
    respawn timer in [(0, RESPAWN_TIME]]. Maximum health is never below the
    base value. *)
Theorem reachable_tank_life_cycle :
  forall g pid t,
    reachable g ->
    Py.get pid (tanks g) = Some t ->
    (TANK_MAX_HP <= t_max_hp t)%Z
    /\ (t_alive t = true -> (0 < t_hp t)%Z /\ t_respawn_timer t == 0)
    /\ (t_alive t = false ->
        t_path t = []
        /\ 0 < t_respawn_timer t /\ t_respawn_timer t <= RESPAWN_TIME).
Proof.
  intros g pid t R G.
  exact (each_tank_get _ _ _ _ (reachable_life_ok g R) G).
Qed.

Lemma reachable_tank_life_cycle_witness :
  (reachable one_player_game
   /\ Py.get "p1"%string (tanks one_player_game) = Some one_player_tank)
  /\ (TANK_MAX_HP <= t_max_hp one_player_tank)%Z.
Proof.
  split; [split; [exact one_player_game_reachable | reflexivity] |].
  exact (proj1 (reachable_tank_life_cycle
                  one_player_game "p1"%string one_player_tank
                  one_player_game_reachable eq_refl)).
Defined.

(** ** The match life cycle in [tick_update] *)



(** ** Match reset *)

Lemma reset_tank_idempotent t : reset_tank (reset_tank t) = reset_tank t.
Proof. reflexivity. Qed.

Lemma map_values_ext {V} (f h : V -> V) (d : Py.dict V) :
  (forall v, f v = h v) -> map_values f d = map_values h d.
Proof.
  intros E. unfold map_values. apply map_ext. intros [k v]. cbn.
  now rewrite E.
Qed.

Lemma map_values_twice {V} (f : V -> V) (d : Py.dict V) :
  (forall v, f (f v) = f v) ->
  map_values f (map_values f d) = map_values f d.
Proof.
  intros E. unfold map_values. rewrite map_map. apply map_ext.
  intros [k v]. cbn. now rewrite E.
Qed.

(** X16. [_reset_match] keeps the players, the tick counter and the keys of
    tanks and forts. Every tank becomes a new tank with its old identity and
    colour that keeps its position, target, facing and last-shot time (so a
    dead tank revives where it died, and nobody is moved back to a start
    cell); every fort becomes neutral and never owned on its cell; shells,
    pending events and votes are dropped and the match timer restarts.
    Resetting twice is resetting once. *)
Theorem reset_match_restores_defaults :
  forall g,
    let g' := _reset_match g in
    players g' = players g
    /\ tick g' = tick g
    /\ post_match_timer g' = post_match_timer g
    /\ match_over g' = false
    /\ match_timer g' = MATCH_TIME
    /\ shells g' = [] /\ pending_events g' = [] /\ rematch_votes g' = []
    /\ Py.keys (tanks g') = Py.keys (tanks g)
    /\ Py.keys (forts g') = Py.keys (forts g)
    /\ (forall pid,
           Py.get pid (tanks g')
           = option_map
               (fun t =>
                  Tank_.with_last_shot (t_last_shot t)
                    (Tank_.with_facing (t_facing t)
                       (Tank_.with_target (t_target_q t) (t_target_r t)
                          (Tank_.new (t_id t) (t_player_id t)
                                     (t_q t) (t_r t) (t_color t)))))
               (Py.get pid (tanks g)))
    /\ (forall fid,
           Py.get fid (forts g')
           = option_map
               (fun f => mkFort (f_id f) (f_q f) (f_r f) (f_ftype f)
                                None 0 None false)
               (Py.get fid (forts g)))
    /\ _reset_match g' = g'.
Proof.
  intros g g'. unfold g', _reset_match. game_fields.
  rewrite !keys_map_values. repeat split.
  - intros pid. rewrite get_map_values. reflexivity.
  - intros fid. rewrite get_map_values. reflexivity.
  - rewrite !map_values_twice by reflexivity. reflexivity.
Qed.

(** ** Joining and leaving *)

Lemma is_player_eq o pid : is_player o pid = true <-> o = Some pid.
Proof.
  unfold is_player. destruct o as [s |]; [| split; discriminate].
  rewrite String.eqb_eq. split; congruence.
Qed.

Lemma release_on_disconnect_spec pid f :
  let f' := release_on_disconnect pid f in
  f_owner f' <> Some pid
  /\ f_capturing_player f' <> Some pid
  /\ (f_id f', f_q f', f_r f', f_ftype f', f_was_owned f')
     = (f_id f, f_q f, f_r f, f_ftype f, f_was_owned f)
  /\ (f_owner f <> Some pid -> f_owner f' = f_owner f)
  /\ (f_capturing_player f <> Some pid ->
      f_capturing_player f' = f_capturing_player f)
  /\ (f_owner f <> Some pid -> f_capturing_player f <> Some pid -> f' = f)
  /\ (f_owner f = Some pid \/ f_capturing_player f = Some pid ->
      f_capture_progress f' = 0).
Proof.
  cbv zeta. unfold release_on_disconnect.
  destruct (is_player (f_owner f) pid) eqn:E1; fort_fields;
    destruct (is_player (f_capturing_player f) pid) eqn:E2; fort_fields;
    try apply is_player_eq in E1; try apply is_player_eq in E2;
    repeat split; try congruence; try discriminate;
    try (intros H; apply is_player_eq in H; congruence);
    try (intros [H | H]; apply is_player_eq in H; congruence).
Qed.

(** X17. [remove_player] on a registered connection forgets the player and
    the tank stored under the player's identifier, and every fort that the
    player owned or was capturing is left without that owner or capturer and
    with progress 0; the ever-owned flag, the cell and the type of every
    fort are kept and forts that the player had nothing to do with are
    untouched. Shells in flight, votes already cast and the clock are kept,
    those of the leaver included. An unknown connection changes nothing. *)
Theorem remove_player_forgets_the_player :
  forall ws_id g,
    NoDup (Py.keys (players g)) ->
    NoDup (Py.keys (tanks g)) ->
    (Py.get ws_id (players g) = None -> remove_player ws_id g = g)
    /\ (forall p,
           Py.get ws_id (players g) = Some p ->
           let g' := remove_player ws_id g in
           Py.get ws_id (players g') = None
           /\ (forall ws, ws <> ws_id ->
                          Py.get ws (players g') = Py.get ws (players g))
           /\ Py.get (p_id p) (tanks g') = None
           /\ (forall pid, pid <> p_id p ->
                           Py.get pid (tanks g') = Py.get pid (tanks g))
           /\ Py.keys (forts g') = Py.keys (forts g)
           /\ (forall fid f,
                  Py.get fid (forts g) = Some f ->
                  exists f',
                    Py.get fid (forts g') = Some f'
                    /\ f_owner f' <> Some (p_id p)
                    /\ f_capturing_player f' <> Some (p_id p)
                    /\ (f_id f', f_q f', f_r f', f_ftype f', f_was_owned f')
                       = (f_id f, f_q f, f_r f, f_ftype f, f_was_owned f)
                    /\ (f_owner f <> Some (p_id p) ->
                        f_capturing_player f <> Some (p_id p) -> f' = f)
                    /\ (f_owner f = Some (p_id p)
                        \/ f_capturing_player f = Some (p_id p) ->
                        f_capture_progress f' = 0))
           /\ shells g' = shells g
           /\ rematch_votes g' = rematch_votes g
           /\ pending_events g' = pending_events g
           /\ (tick g', match_timer g', match_over g', post_match_timer g')
              = (tick g, match_timer g, match_over g, post_match_timer g)).
Proof.
  intros ws_id g Np Nt. unfold remove_player. split.
  - intros ->. reflexivity.
  - intros p ->. cbv zeta. game_fields.
    split; [now apply get_del_same |].
    split; [intros ws Hne; now apply get_del_other |].
    split; [now apply get_del_same |].
    split; [intros pid Hne; now apply get_del_other |].
    split; [apply keys_map_values |].
    split; [| repeat split].
    intros fid f G. exists (release_on_disconnect (p_id p) f).
    rewrite get_map_values, G.
    destruct (release_on_disconnect_spec (p_id p) f)
      as (H1 & H2 & H3 & _ & _ & H6 & H7).
    repeat split; auto.
Qed.

Lemma remove_player_forgets_the_player_witness :
  (NoDup (Py.keys (players fort_owner_game))
   /\ NoDup (Py.keys (tanks fort_owner_game)))
  /\ Py.get "p1"%string (tanks (remove_player "ws1" fort_owner_game)) = None.
Proof.
  assert (N1 : NoDup (Py.keys (players fort_owner_game))).
  { vm_compute. repeat constructor; cbn; intuition discriminate. }
  assert (N2 : NoDup (Py.keys (tanks fort_owner_game))).
  { vm_compute. repeat constructor; cbn; intuition discriminate. }
  split; [exact (conj N1 N2) |].
  exact (proj1 (proj2 (proj2 (proj2 (remove_player_forgets_the_player
                                       "ws1"%string fort_owner_game N1 N2)
                                    (mkPlayer "p1" "Ann" "#e74c3c" "ws1")
                                    eq_refl)))).
Defined.

Lemma length_set_present {V} k (v v0 : V) d :
  Py.get k d = Some v0 -> List.length (Py.set k v d) = List.length d.
Proof.
  induction d as [| [k' v'] d IH]; cbn; [discriminate |].
  destruct (String.eqb k k'); cbn; auto.
Qed.

(** X18. [add_player] refuses a fifth player and changes nothing then.
    Otherwise it registers the connection and stores a new tank with the
    default statistics under the new identifier, on the start cell and with
    the colour chosen by the number of registered players. It does not check
    whether the connection is registered already: a second join from the
    same connection replaces the player record, the number of players stays
    the same, and the first tank remains in the game without a player; a
    later [remove_player] of the connection removes only the second tank. *)
Theorem add_player_joins_or_refuses :
  forall ws_id name pid g,
    ((MAX_PLAYERS <= List.length (players g))%nat ->
     add_player ws_id name pid g = (None, g))
    /\ ((List.length (players g) < MAX_PLAYERS)%nat ->
        let n := List.length (players g) in
        let color := nth (n mod 4) PLAYER_COLORS ""%string in
        let cell := nth (n mod 6) starts (0, 0)%Z in
        let g' := snd (add_player ws_id name pid g) in
        fst (add_player ws_id name pid g) = Some pid
        /\ Py.get ws_id (players g') = Some (mkPlayer pid name color ws_id)
        /\ Py.get pid (tanks g')
           = Some (Tank_.new ("tank_" ++ pid) pid (inject_Z (fst cell))
                             (inject_Z (snd cell)) color)
        /\ (forall pid', pid' <> pid ->
                         Py.get pid' (tanks g') = Py.get pid' (tanks g))
        /\ (forts g', shells g', rematch_votes g', pending_events g')
           = (forts g, shells g, rematch_votes g, pending_events g)
        /\ forall old t,
            Py.get ws_id (players g) = Some old ->
            Py.get (p_id old) (tanks g) = Some t ->
            p_id old <> pid ->
            List.length (players g') = List.length (players g)
            /\ Py.get (p_id old) (tanks g') = Some t
            /\ Py.get (p_id old) (tanks (remove_player ws_id g')) = Some t).
Proof.
  intros ws_id name pid g. unfold add_player. split.
  - intros H. apply Nat.leb_le in H. now rewrite H.
  - intros H. apply Nat.leb_gt in H. rewrite H. cbv zeta. cbn [fst snd].
    game_fields. change (List.length PLAYER_COLORS) with 4%nat.
    change (List.length starts) with 6%nat.
    split; [reflexivity |]. split; [apply get_set_same |].
    split; [apply get_set_same |].
    split; [intros pid' Hne; now apply get_set_other |].
    split; [reflexivity |].
    intros old t Gp Gt Hne.
    split; [eapply length_set_present; eauto |].
    split; [rewrite get_set_other by exact Hne; exact Gt |].
    unfold remove_player. game_fields. rewrite get_set_same.
    cbn [p_id]. game_fields.
    rewrite get_del_other by exact Hne.
    rewrite get_set_other by exact Hne. exact Gt.
Qed.

Lemma add_player_joins_or_refuses_witness :
  ((List.length (players one_player_game) < MAX_PLAYERS)%nat
   /\ Py.get "ws1"%string (players one_player_game)
      = Some (mkPlayer "p1" "Ann" "#e74c3c" "ws1")
   /\ Py.get "p1"%string (tanks one_player_game) = Some one_player_tank
   /\ "p1"%string <> "p9"%string)
  /\ Py.get "p1"%string
       (tanks (remove_player "ws1"
                 (snd (add_player "ws1" "Ann" "p9" one_player_game))))
     = Some one_player_tank.
Proof.
  assert (H1 : (List.length (players one_player_game) < MAX_PLAYERS)%nat)
    by (vm_compute; lia).
  assert (H2 : "p1"%string <> "p9"%string) by discriminate.
  split; [exact (conj H1 (conj eq_refl (conj eq_refl H2))) |].
  pose proof (proj2 (add_player_joins_or_refuses
                       "ws1"%string "Ann"%string "p9"%string
                       one_player_game) H1) as K.
  cbv zeta in K. destruct K as (_ & _ & _ & _ & _ & K).
  exact (proj2 (proj2 (K (mkPlayer "p1" "Ann" "#e74c3c" "ws1")
                         one_player_tank eq_refl eq_refl H2))).
Defined.

(** ** Rematch votes *)

Lemma set_add_again x l : set_add x (set_add x l) = set_add x l.
Proof.
  unfold set_add at 1.
  assert (H : mem_string x (set_add x l) = true).
  { apply mem_string_In. unfold set_add.
    destruct (mem_string x l) eqn:E.
    - now apply mem_string_In.
    - apply in_or_app. right. now left. }
  now rewrite H.
Qed.

(** X19. A rematch vote is refused while the match runs. Once it is over the
    reply reports the number of distinct voters, this one included, and the
    number of tanks, and the match is reset exactly when there is a tank and
    the voters are at least as many as the tanks. Voting again changes
    nothing and is answered as before, unless the vote restarted the match,
    in which case a further vote is refused. *)
Theorem cast_vote_counts_and_is_idempotent :
  forall pid g,
    (match_over g = false ->
     cast_vote pid g = (Error "match not over", g))
    /\ (match_over g = true ->
        let votes := set_add pid (rematch_votes g) in
        let voted := List.length votes in
        let total := List.length (tanks g) in
        let g' := snd (cast_vote pid g) in
        fst (cast_vote pid g) = OkVote (Z.of_nat voted) (Z.of_nat total)
        /\ In pid votes
        /\ ((0 < total <= voted)%nat ->
            g' = _reset_match (Game_.with_rematch_votes votes g)
            /\ cast_vote pid g' = (Error "match not over", g'))
        /\ (~ (0 < total <= voted)%nat ->
            g' = Game_.with_rematch_votes votes g
            /\ cast_vote pid g' = cast_vote pid g)).
Proof.
  intros pid g. unfold cast_vote. split.
  - intros ->. reflexivity.
  - intros O. rewrite O. cbv zeta. cbn [negb fst snd]. game_fields.
    split; [reflexivity |]. split.
    { apply mem_string_In. unfold set_add.
      destruct (mem_string pid (rematch_votes g)) eqn:E; [exact E |].
      apply mem_string_In, in_or_app. right. now left. }
    split.
    + intros [H1 H2]. apply Nat.leb_le in H2. apply Nat.ltb_lt in H1.
      rewrite H1, H2. cbn [andb]. split; reflexivity.
    + intros H.
      assert (E : (List.length (tanks g)
                   <=? List.length (set_add pid (rematch_votes g)))%nat
                  && (0 <? List.length (tanks g))%nat = false).
      { apply andb_false_iff.
        destruct (0 <? List.length (tanks g))%nat eqn:E1; [| now right].
        left. apply Nat.leb_gt. apply Nat.ltb_lt in E1. lia. }
      rewrite E. split; [reflexivity |]. game_fields. rewrite O.
      cbn [negb]. rewrite set_add_again, E. reflexivity.
Qed.

Lemma cast_vote_counts_and_is_idempotent_witness :
  match_over one_player_game = false
  /\ cast_vote "p1" one_player_game
     = (Error "match not over", one_player_game).
Proof.
  split; [reflexivity |].
  exact (proj1 (cast_vote_counts_and_is_idempotent
                  "p1"%string one_player_game) eq_refl).
Defined.

(** ** Each tank is processed once *)

Section FoldAt.
Context {S A : Type}.
Variable get_at : string -> S -> option A.
Variable f : S -> string -> S.
Variable I : S -> Prop.
Variable k : string.
Hypothesis I_step : forall s k', I s -> I (f s k').
Hypothesis local :
  forall s k', I s -> k' <> k -> get_at k (f s k') = get_at k s.

Lemma fold_left_skip l : forall s,
  I s -> ~ In k l ->
  I (fold_left f l s) /\ get_at k (fold_left f l s) = get_at k s.
Proof.
  induction l as [| k' l IH]; intros s Hs Hn; cbn [fold_left]; [auto |].
  destruct (IH (f s k')) as [H1 H2].
  - now apply I_step.
  - intros H. apply Hn. now right.
  - split; [exact H1 |]. rewrite H2. apply local; [exact Hs |].
    intros ->. apply Hn. now left.
Qed.

Lemma fold_left_at l s :
  NoDup l -> In k l -> I s ->
  exists s1,
    I s1 /\ get_at k s1 = get_at k s
    /\ get_at k (fold_left f l s) = get_at k (f s1 k).
Proof.
  intros N Hin Hs. apply in_split in Hin as (l1 & l2 & ->).
  apply NoDup_remove_2 in N.
  assert (N1 : ~ In k l1) by (intros H; apply N, in_or_app; now left).
  assert (N2 : ~ In k l2) by (intros H; apply N, in_or_app; now right).
  rewrite fold_left_app. cbn [fold_left].
  destruct (fold_left_skip l1 s Hs N1) as [H1 H2].
  exists (fold_left f l1 s). split; [exact H1 |]. split; [exact H2 |].
  apply fold_left_skip; [now apply I_step | exact N2].
Qed.

End FoldAt.

Lemma for_tanks_at (I : Sim -> Prop) body pid t s :
  NoDup (Py.keys (tanks (fst s))) ->
  Py.get pid (tanks (fst s)) = Some t ->
  I s ->
  (forall k' t' s',
      I s' -> Py.get k' (tanks (fst s')) = Some t' -> I (body k' t' s')) ->
  (forall k' t' s',
      I s' -> Py.get k' (tanks (fst s')) = Some t' -> k' <> pid ->
      Py.get pid (tanks (fst (body k' t' s'))) = Py.get pid (tanks (fst s'))) ->
  exists s1,
    I s1 /\ Py.get pid (tanks (fst s1)) = Some t
    /\ Py.get pid (tanks (fst (for_tanks body s)))
       = Py.get pid (tanks (fst (body pid t s1))).
Proof.
  intros N G Hs Hstep Hlocal. unfold for_tanks.
  set (f := fun (s : Sim) k' =>
              match Py.get k' (tanks (fst s)) with
              | Some t' => body k' t' s
              | None => s
              end).
  assert (A1 : forall s' k', I s' -> I (f s' k')).
  { intros s' k' Hs'. unfold f.
    destruct (Py.get k' (tanks (fst s'))) eqn:E; [| exact Hs'].
    eapply Hstep; eauto. }
  assert (A2 : forall s' k',
             I s' -> k' <> pid ->
             Py.get pid (tanks (fst (f s' k')))
             = Py.get pid (tanks (fst s'))).
  { intros s' k' Hs' Hne. unfold f.
    destruct (Py.get k' (tanks (fst s'))) eqn:E; [| reflexivity].
    eapply Hlocal; eauto. }
  destruct (fold_left_at
              (fun k (s : Sim) => Py.get k (tanks (fst s)))
              f I pid A1 A2 (Py.keys (tanks (fst s))) s N
              (get_keys_In _ _ _ G) Hs)
    as (s1 & H1 & H2 & H3).
  cbv beta in H2, H3. fold f.
  exists s1. rewrite G in H2. split; [exact H1 |]. split; [exact H2 |].
  etransitivity; [exact H3 |]. unfold f. rewrite H2. reflexivity.
Qed.

(** X20. [_move_tanks] applies the movement step to every tank exactly once,
    and [_check_respawns] its respawn step: a living tank is left as it is,
    a dead tank whose timer does not run out in this tick only has the timer
    reduced, and a dead tank whose timer runs out comes back alive with full
    health, no path and its resources as they were, on one of the six start
    cells. *)
Theorem tanks_move_and_respawn_once :
  forall sqrt atan2 ext dt g n pid t,
    NoDup (Py.keys (tanks g)) ->
    Py.get pid (tanks g) = Some t ->
    Py.get pid (tanks (fst (_move_tanks sqrt atan2 dt (g, n))))
    = Some (move_tank sqrt atan2 dt t)
    /\ (t_alive t = true ->
        Py.get pid (tanks (fst (_check_respawns ext dt (g, n)))) = Some t)
    /\ (t_alive t = false ->
        0 < t_respawn_timer t - dt ->
        Py.get pid (tanks (fst (_check_respawns ext dt (g, n))))
        = Some (Tank_.with_respawn_timer (t_respawn_timer t - dt) t))
    /\ (t_alive t = false ->
        t_respawn_timer t - dt <= 0 ->
        exists sp t',
          In sp starts
          /\ Py.get pid (tanks (fst (_check_respawns ext dt (g, n))))
             = Some t'
          /\ t' = respawned dt sp t
          /\ t_alive t' = true /\ t_hp t' = t_max_hp t
          /\ t_respawn_timer t' = 0 /\ t_path t' = []
          /\ (t_q t', t_r t') = (inject_Z (fst sp), inject_Z (snd sp))
          /\ (t_fuel t', t_ammo t', t_gears t')
             = (t_fuel t, t_ammo t, t_gears t)).
Proof.
  intros sqrt atan2 ext dt g n pid t N G. split.
  { unfold _move_tanks.
    destruct (for_tanks_at (fun _ => True)
                (fun pid tank s =>
                   (Game_.put_tank pid (move_tank sqrt atan2 dt tank) (fst s),
                    snd s))
                pid t (g, n)) as (s1 & _ & G1 & ->); auto.
    - intros k' t' s' _ _ Hne. cbn [fst]. game_fields.
      apply get_set_other. congruence.
    - cbn [fst]. game_fields. apply get_set_same. }
  unfold _check_respawns.
  destruct (for_tanks_at (fun _ => True) (respawn_tank ext dt) pid t (g, n))
    as ([g1 n1] & _ & G1 & ->); auto.
  { intros k' t' [g' n'] _ _ Hne. unfold respawn_tank.
    destruct (negb (t_alive t')); [| reflexivity].
    destruct (Py.Qleb _ _); cbn [fst]; game_fields;
      apply get_set_other; congruence. }
  cbn [fst] in G1. unfold respawn_tank. split; [| split].
  - intros A. rewrite A. cbn [negb fst]. exact G1.
  - intros A H. rewrite A. cbn [negb]. tank_fields.
    apply Qleb_gt in H. rewrite H. cbn [fst]. game_fields.
    apply get_set_same.
  - intros A H. rewrite A. cbn [negb]. tank_fields.
    apply Qleb_le in H. rewrite H. cbn [fst]. game_fields.
    exists (nth (random_index ext n1 mod List.length starts) starts
                (0, 0)%Z).
    eexists. split; [apply start_cell_In |].
    split; [apply get_set_same |]. repeat split.
Qed.

Lemma tanks_move_and_respawn_once_witness :
  (NoDup (Py.keys (tanks one_player_game))
   /\ Py.get "p1"%string (tanks one_player_game) = Some one_player_tank)
  /\ Py.get "p1"%string
       (tanks (fst (_move_tanks sqrt6 atan2_axis (1 # 10)
                                (one_player_game, 0%nat))))
     = Some (move_tank sqrt6 atan2_axis (1 # 10) one_player_tank).
Proof.
  assert (N : NoDup (Py.keys (tanks one_player_game))).
  { vm_compute. repeat constructor. intros []. }
  split; [exact (conj N eq_refl) |].
  exact (proj1 (tanks_move_and_respawn_once
                  sqrt6 atan2_axis (steady_oracle 10) (1 # 10)
                  one_player_game 0%nat "p1"%string one_player_tank
                  N eq_refl)).
Defined.

(** ** Who a shell hits *)

Section Impact.
Variable ext : Oracle.
Variable shell : Shell.

Lemma kill_elsewhere k pid tank g n :
  k <> pid -> k <> s_owner_id shell ->
  Py.get k (tanks (fst (kill ext shell pid tank (g, n))))
  = Py.get k (tanks g).
Proof.
  intros H1 H2. unfold kill. set (dead := Tank_.with_path [] _).
  destruct (Py.get (s_owner_id shell) (tanks (Game_.put_tank pid dead g)));
    cbn [fst]; game_fields; rewrite ?tanks_release_forts; game_fields;
    rewrite ?get_set_other by assumption; reflexivity.
Qed.

Lemma impact_elsewhere k pid t s :
  k <> pid -> k <> s_owner_id shell ->
  Py.get k (tanks (fst (impact_tank ext shell pid t s)))
  = Py.get k (tanks (fst s)).
Proof.
  intros H1 H2. destruct s as [g n]. unfold impact_tank.
  destruct (_ || _); [reflexivity |].
  destruct (_ <=? 1)%Z; [| reflexivity].
  destruct (_ <=? 0)%Z.
  - now apply kill_elsewhere.
  - cbn [fst]. game_fields. now apply get_set_other.
Qed.

Lemma kill_victim pid tank g n :
  pid <> s_owner_id shell ->
  exists t',
    Py.get pid (tanks (fst (kill ext shell pid tank (g, n)))) = Some t'
    /\ t_alive t' = false /\ t_hp t' = 0%Z
    /\ t_respawn_timer t' = RESPAWN_TIME /\ t_path t' = []
    /\ (t_q t', t_r t') = (t_q tank, t_r tank)
    /\ t_max_hp t' = t_max_hp tank.
Proof.
  intros Hne. unfold kill. set (dead := Tank_.with_path [] _).
  destruct (Py.get (s_owner_id shell) (tanks (Game_.put_tank pid dead g)));
    cbn [fst]; game_fields; rewrite ?tanks_release_forts; game_fields.
  - rewrite get_set_other by exact Hne. rewrite get_set_same.
    eexists. split; [reflexivity |]. repeat split.
  - rewrite get_set_same. eexists. split; [reflexivity |]. repeat split.
Qed.

Lemma impact_shooter t pid tank s :
  (exists t', Py.get (s_owner_id shell) (tanks (fst s)) = Some t'
              /\ shooter_kept t t') ->
  exists t', Py.get (s_owner_id shell)
                    (tanks (fst (impact_tank ext shell pid tank s)))
             = Some t'
             /\ shooter_kept t t'.
Proof.
  intros (t' & G & K). destruct s as [g n]. cbn [fst] in G.
  unfold impact_tank.
  destruct (String.eqb pid (s_owner_id shell)) eqn:E; cbn [orb];
    [exists t'; auto |].
  apply String.eqb_neq in E.
  destruct (negb (t_alive tank)); [exists t'; auto |].
  destruct (_ <=? 1)%Z; [| exists t'; auto].
  destruct (_ <=? 0)%Z.
  - unfold kill. set (dead := Tank_.with_path [] _). game_fields.
    rewrite get_set_other by congruence. rewrite G. cbn [fst].
    game_fields. rewrite tanks_release_forts. game_fields.
    rewrite get_set_same. eexists. split; [reflexivity |].
    destruct K as (K1 & K2 & K3 & K4 & K5 & K6 & K7 & K8).
    unfold shooter_kept, loot_shooter. tank_fields.
    repeat split; auto; lia.
  - cbn [fst]. game_fields. rewrite get_set_other by congruence.
    exists t'. auto.
Qed.

End Impact.

(** X21. A shell that lands damages every living tank other than its owner's
    whose rounded cell is within one cell of the target, and nothing else: a
    tank that is dead or farther away is left exactly as it was, a tank that
    survives loses exactly the shell's damage, and a tank whose health does
    not exceed the damage ends dead, with health 0, the full respawn timer
    and no path, where it stood. The owner's own tank is never damaged or
    moved by its shell; it can only gain score and kills. *)
Theorem shell_impact_hits_enemies_within_one_cell :
  forall ext shell g n pid t,
    NoDup (Py.keys (tanks g)) ->
    Py.get pid (tanks g) = Some t ->
    let dist := hex_distance (tank_cell t)
                             (s_target_q shell, s_target_r shell) in
    exists t',
      Py.get pid (tanks (fst (_shell_impact ext shell (g, n)))) = Some t'
      /\ (pid <> s_owner_id shell ->
          t_alive t = false \/ (1 < dist)%Z -> t' = t)
      /\ (pid <> s_owner_id shell ->
          t_alive t = true -> (dist <= 1)%Z ->
          (s_damage shell < t_hp t)%Z ->
          t' = Tank_.with_hp (t_hp t - s_damage shell)%Z t)
      /\ (pid <> s_owner_id shell ->
          t_alive t = true -> (dist <= 1)%Z ->
          (t_hp t <= s_damage shell)%Z ->
          t_alive t' = false /\ t_hp t' = 0%Z
          /\ t_respawn_timer t' = RESPAWN_TIME /\ t_path t' = []
          /\ (t_q t', t_r t') = (t_q t, t_r t))
      /\ (pid = s_owner_id shell -> shooter_kept t t').
Proof.
  intros ext shell g n pid t N G dist.
  destruct (String.eqb pid (s_owner_id shell)) eqn:E.
  - apply String.eqb_eq in E.
    assert (K : exists t',
               Py.get (s_owner_id shell)
                      (tanks (fst (_shell_impact ext shell (g, n))))
               = Some t'
               /\ shooter_kept t t').
    { unfold _shell_impact.
      apply (for_tanks_ind
               (fun s => exists t',
                    Py.get (s_owner_id shell) (tanks (fst s)) = Some t'
                    /\ shooter_kept t t')).
      - exists t. cbn [fst]. rewrite <- E. split; [exact G |].
        unfold shooter_kept. repeat split; lia.
      - intros k' t' s' H _. now apply impact_shooter. }
    destruct K as (t' & G' & K). exists t'. rewrite E.
    split; [exact G' |].
    split; [intros C; now contradiction C |].
    split; [intros C; now contradiction C |].
    split; [intros C; now contradiction C |].
    intros _. exact K.
  - apply String.eqb_neq in E. unfold _shell_impact.
    destruct (for_tanks_at (fun _ => True) (impact_tank ext shell)
                pid t (g, n)) as ([g1 n1] & _ & G1 & ->); auto.
    { intros k' t' s' _ _ Hne. apply impact_elsewhere; congruence. }
    cbn [fst] in G1. unfold impact_tank. fold (tank_cell t). fold dist.
    apply String.eqb_neq in E. rewrite E. cbn [orb].
    apply String.eqb_neq in E.
    destruct (t_alive t) eqn:A; cbn [negb].
    2: { exists t. cbn [fst]. split; [exact G1 |].
         repeat split; intros; try reflexivity; congruence. }
    destruct (dist <=? 1)%Z eqn:D.
    2: { apply Z.leb_gt in D. exists t. cbn [fst]. split; [exact G1 |].
         repeat split; intros; try reflexivity; try congruence; lia. }
    apply Z.leb_le in D. tank_fields.
    destruct (t_hp t - s_damage shell <=? 0)%Z eqn:H.
    + apply Z.leb_le in H.
      destruct (kill_victim ext shell pid
                  (Tank_.with_hp (t_hp t - s_damage shell)%Z t) g1 n1 E)
        as (t' & G' & K1 & K2 & K3 & K4 & K5 & _).
      exists t'. split; [exact G' |].
      split; [intros _ [C | C]; [discriminate | lia] |].
      split; [intros; lia |]. split; [| intros; congruence].
      intros _ _ _ _. repeat split; auto.
    + apply Z.leb_gt in H. cbn [fst]. game_fields. eexists.
      split; [apply get_set_same |].
      split; [intros _ [C | C]; [discriminate | lia] |].
      split; [reflexivity |]. split; intros; [lia | congruence].
Qed.

Lemma shell_impact_hits_enemies_within_one_cell_witness :
  (NoDup (Py.keys (tanks shell_in_flight_game))
   /\ Py.get "p1"%string (tanks shell_in_flight_game) = Some ann_tank)
  /\ exists t',
      Py.get "p1"%string
        (tanks (fst (_shell_impact (steady_oracle 10) bob_shell
                                   (shell_in_flight_game, 0%nat))))
      = Some t'.
Proof.
  assert (N : NoDup (Py.keys (tanks shell_in_flight_game))).
  { vm_compute. repeat constructor; cbn; intuition discriminate. }
  split; [exact (conj N eq_refl) |].
  destruct (shell_impact_hits_enemies_within_one_cell
              (steady_oracle 10) bob_shell shell_in_flight_game 0%nat
              "p1"%string ann_tank N eq_refl) as (t' & H & _).
  exists t'. exact H.
Defined.

(** ** Fort income *)

Section OwnedBy.
Variable pid : string.
Hypothesis pid_nonempty : pid <> ""%string.

Lemma owned_step_get acc fort :
  Py.get pid (owned_step acc fort)
  = if is_player (f_owner fort) pid
    then Some (match Py.get pid acc with Some l => l | None => [] end
               ++ [f_ftype fort])
    else Py.get pid acc.
Proof.
  unfold owned_step, is_player, truthy.
  destruct (f_owner fort) as [owner |]; [| reflexivity].
  destruct (String.eqb owner pid) eqn:E.
  - apply String.eqb_eq in E. subst owner.
    apply String.eqb_neq in pid_nonempty. rewrite pid_nonempty. cbn [negb].
    apply get_set_same.
  - apply String.eqb_neq in E.
    destruct (negb (String.eqb owner "")); [| reflexivity].
    apply get_set_other. congruence.
Qed.

Lemma owned_fold_get l : forall acc,
  Py.get pid (fold_left owned_step l acc)
  = match map f_ftype (filter (fun f => is_player (f_owner f) pid) l) with
    | [] => Py.get pid acc
    | (_ :: _) as types =>
        Some (match Py.get pid acc with Some l => l | None => [] end
              ++ types)
    end.
Proof.
  induction l as [| fort l IH]; intros acc; cbn [fold_left filter map].
  - reflexivity.
  - rewrite IH, owned_step_get.
    destruct (is_player (f_owner fort) pid); cbn [map]; [| reflexivity].
    destruct (map f_ftype
                (filter (fun f => is_player (f_owner f) pid) l))
      as [| ft types].
    + reflexivity.
    + now rewrite <- app_assoc.
Qed.

Lemma owned_by_get g :
  Py.get pid (owned_by g)
  = match fort_types_of pid g with
    | [] => None
    | (_ :: _) as types => Some types
    end.
Proof.
  unfold owned_by, fort_types_of.
  change (fold_left _ (Py.values (forts g)) [])
    with (fold_left owned_step (Py.values (forts g)) []).
  rewrite owned_fold_get. reflexivity.
Qed.

End OwnedBy.

Lemma owned_by_NoDup g : NoDup (Py.keys (owned_by g)).
Proof.
  unfold owned_by.
  apply (fold_left_ind (fun acc : Py.dict (list FortType) =>
                          NoDup (Py.keys acc))).
  - constructor.
  - intros acc fort H. destruct (f_owner fort); [| exact H].
    destruct (truthy _); [| exact H]. now apply keys_set_NoDup.
Qed.

Lemma resources_fold dt pid (d : Py.dict (list FortType)) : forall g,
  NoDup (Py.keys d) ->
  Py.get pid (tanks (fold_left (resources_step dt) d g))
  = match Py.get pid (tanks g) with
    | None => None
    | Some t =>
        Some (if t_alive t
              then fold_left (credit dt)
                     (match Py.get pid d with Some l => l | None => [] end) t
              else t)
    end.
Proof.
  induction d as [| [k fts] d IH]; intros g N; cbn [fold_left Py.get].
  - destruct (Py.get pid (tanks g)) as [t |]; [| reflexivity].
    destruct (t_alive t); reflexivity.
  - cbn [Py.keys map fst] in N. inversion N as [| ? ? Hn Nd]; subst.
    rewrite IH by exact Nd. unfold resources_step.
    destruct (String.eqb pid k) eqn:E.
    + apply String.eqb_eq in E. subst k.
      assert (Gd : Py.get pid d = None).
      { destruct (Py.get pid d) eqn:Gd; [| reflexivity].
        exfalso. apply Hn. eapply get_keys_In; eauto. }
      rewrite Gd.
      destruct (Py.get pid (tanks g)) as [t |] eqn:G; [| now rewrite G].
      destruct (t_alive t) eqn:A; cbn [negb].
      * game_fields. rewrite get_set_same.
        destruct (credit_same dt fts t) as (_ & (_ & -> & _) & _).
        now rewrite A.
      * rewrite G, A. reflexivity.
    + apply String.eqb_neq in E.
      destruct (Py.get k (tanks g)) as [tk |]; [| reflexivity].
      destruct (negb (t_alive tk)); [reflexivity |].
      game_fields. now rewrite get_set_other.
Qed.

Lemma py_min_cases a b :
  (b < a /\ Py.min a b == b) \/ (a <= b /\ Py.min a b == a).
Proof.
  destruct (py_min_spec a b) as [[H ->] | [H ->]]; [left | right];
    split; auto; reflexivity.
Qed.

Section Income.
Variable cap rate dt : Q.
Hypothesis rate_nonneg : 0 <= rate * dt.

Lemma capped_sum x k :
  x <= cap -> 0 <= k ->
  Py.min cap (Py.min cap (x + k * (rate * dt)) + rate * dt)
  == Py.min cap (x + (k + 1) * (rate * dt)).
Proof.
  intros Hx Hk.
  assert (0 <= k * (rate * dt)) by now apply Qmult_le_0_compat.
  set (r := rate * dt) in *. set (kr := k * r) in *.
  assert (E : (k + 1) * r == kr + r) by (unfold kr; ring).
  pose proof (py_min_cases cap (x + kr)) as H1.
  set (m1 := Py.min cap (x + kr)) in *.
  pose proof (py_min_cases cap (m1 + r)) as H2.
  set (m2 := Py.min cap (m1 + r)) in *.
  pose proof (py_min_cases cap (x + (k + 1) * r)) as H3.
  set (m3 := Py.min cap (x + (k + 1) * r)) in *.
  clearbody m1 m2 m3 kr.
  destruct H1 as [[? ?] | [? ?]], H2 as [[? ?] | [? ?]],
    H3 as [[? ?] | [? ?]]; lra.
Qed.

End Income.

Lemma capped_add cap x a b :
  x <= cap -> 0 <= a -> 0 <= b ->
  Py.min cap (Py.min cap (x + a) + b) == Py.min cap (x + (a + b)).
Proof.
  intros Hx Ha Hb.
  pose proof (py_min_cases cap (x + a)) as H1.
  set (m1 := Py.min cap (x + a)) in *.
  pose proof (py_min_cases cap (m1 + b)) as H2.
  set (m2 := Py.min cap (m1 + b)) in *.
  pose proof (py_min_cases cap (x + (a + b))) as H3.
  set (m3 := Py.min cap (x + (a + b))) in *.
  clearbody m1 m2 m3.
  destruct H1 as [[? ?] | [? ?]], H2 as [[? ?] | [? ?]],
    H3 as [[? ?] | [? ?]]; lra.
Qed.

Lemma py_min_compat cap x y : x == y -> Py.min cap x == Py.min cap y.
Proof.
  intros E.
  destruct (py_min_cases cap x) as [[? ?] | [? ?]],
    (py_min_cases cap y) as [[? ?] | [? ?]]; lra.
Qed.

Lemma count_of_cons gives ft l :
  count_of gives (ft :: l)
  == (if gives ft then 1 else 0) + count_of gives l.
Proof.
  unfold count_of. cbn [filter]. destruct (gives ft); cbn [List.length].
  - rewrite Nat2Z.inj_succ, <- Z.add_1_l, inject_Z_plus. reflexivity.
  - ring.
Qed.

Lemma count_of_nonneg gives l : 0 <= count_of gives l.
Proof.
  unfold count_of. change 0 with (inject_Z 0). rewrite <- Zle_Qle. lia.
Qed.

Section CreditField.
Variable dt : Q.
Variable field : Tank -> Q.
Variable gives : FortType -> bool.
Variable cap rate : Q.
Hypothesis dt_nonneg : 0 <= dt.
Hypothesis rate_nonneg : 0 <= rate.
Hypothesis field_credit :
  forall t ft,
    field (credit dt t ft)
    = if gives ft then Py.min cap (field t + rate * dt) else field t.

Lemma credit_fold_field types : forall t,
  field t <= cap ->
  field (fold_left (credit dt) types t)
  == Py.min cap (field t + count_of gives types * (rate * dt)).
Proof.
  assert (R : 0 <= rate * dt) by now apply Qmult_le_0_compat.
  induction types as [| ft l IH]; intros t Ht; cbn [fold_left].
  - change (count_of gives []) with 0.
    destruct (py_min_cases cap (field t + 0 * (rate * dt)))
      as [[? ?] | [? ?]]; lra.
  - pose proof (count_of_nonneg gives l) as C.
    assert (C' : 0 <= count_of gives l * (rate * dt))
      by now apply Qmult_le_0_compat.
    rewrite IH.
    + rewrite field_credit. destruct (gives ft) eqn:E.
      * rewrite capped_add by assumption. apply py_min_compat.
        rewrite count_of_cons, E. ring.
      * apply py_min_compat. rewrite count_of_cons, E. ring.
    + rewrite field_credit. destruct (gives ft); [apply py_min_le_l | auto].
Qed.

End CreditField.

(** X22. Income from forts: [_generate_resources] leaves a dead tank and a
    tank whose player owns no fort exactly as they are. A living tank gains,
    for every fort its player owns, that fort's production for the time
    [dt]: 1.2 fuel per second from a fuel or mixed fort, 0.9 ammo from an
    ammo or mixed fort and 0.1 gears from a gear or mixed fort, each total
    capped at 120, 100 and 99; nothing else about the tank changes. *)
Theorem fort_income_is_proportional_and_capped :
  forall dt g n pid t,
    pid <> ""%string ->
    Py.get pid (tanks g) = Some t ->
    let types := fort_types_of pid g in
    let g' := fst (_generate_resources dt (g, n)) in
    (t_alive t = false \/ types = [] -> Py.get pid (tanks g') = Some t)
    /\ (t_alive t = true ->
        0 <= dt ->
        tank_ok t ->
        exists t',
          Py.get pid (tanks g') = Some t'
          /\ t_fuel t'
             == Py.min 120 (t_fuel t + count_of gives_fuel types
                                       * (FORT_FUEL_GEN * dt))
          /\ t_ammo t'
             == Py.min 100 (t_ammo t + count_of gives_ammo types
                                       * (FORT_AMMO_GEN * dt))
          /\ t_gears t'
             == Py.min 99 (t_gears t + count_of gives_gears types
                                       * (FORT_GEAR_GEN * dt))
          /\ build_kept t t' /\ life_kept t t'
          /\ t_path t' = t_path t
          /\ (t_q t', t_r t') = (t_q t, t_r t)).
Proof.
  intros dt g n pid t Hne G types g'.
  assert (K : Py.get pid (tanks g')
              = Some (if t_alive t then fold_left (credit dt) types t
                      else t)).
  { unfold g', _generate_resources. cbn [fst].
    change (fold_left _ (owned_by g) g)
      with (fold_left (resources_step dt) (owned_by g) g).
    rewrite resources_fold by apply owned_by_NoDup. rewrite G.
    rewrite (owned_by_get pid Hne). fold types.
    destruct types; reflexivity. }
  split.
  - intros [A | E]; rewrite K.
    + now rewrite A.
    + rewrite E. destruct (t_alive t); reflexivity.
  - intros A Hdt (_ & (_ & Hf) & (_ & Ha) & (_ & Hg)).
    rewrite K, A. eexists. split; [reflexivity |].
    unfold FUEL_CAP, AMMO_CAP, GEAR_CAP in *.
    split; [| split; [| split]].
    + apply (credit_fold_field dt t_fuel gives_fuel 120 FORT_FUEL_GEN);
        auto; try discriminate.
      intros t0 ft. destruct ft; reflexivity.
    + apply (credit_fold_field dt t_ammo gives_ammo 100 FORT_AMMO_GEN);
        auto; try discriminate.
      intros t0 ft. destruct ft; reflexivity.
    + apply (credit_fold_field dt t_gears gives_gears 99 FORT_GEAR_GEN);
        auto; try discriminate.
      intros t0 ft. destruct ft; reflexivity.
    + destruct (credit_same dt types t) as (B & L & Hp & Hq & Hr).
      repeat split; try apply B; try apply L; auto. congruence.
Qed.

Lemma fort_income_is_proportional_and_capped_witness :
  ("p1"%string <> ""%string
   /\ Py.get "p1"%string (tanks fort_owner_game) = Some ann_tank)
  /\ exists t',
      Py.get "p1"%string
        (tanks (fst (_generate_resources (1 # 10) (fort_owner_game, 0%nat))))
      = Some t'
      /\ t_fuel t'
         == Py.min 120
              (t_fuel ann_tank
               + count_of gives_fuel (fort_types_of "p1" fort_owner_game)
                 * (FORT_FUEL_GEN * (1 # 10))).
Proof.
  assert (H1 : "p1"%string <> ""%string) by discriminate.
  assert (H2 : tank_ok ann_tank) by (repeat split; discriminate).
  split; [exact (conj H1 eq_refl) |].
  destruct (proj2 (fort_income_is_proportional_and_capped
                     (1 # 10) fort_owner_game 0%nat "p1"%string ann_tank
                     H1 eq_refl)
                  eq_refl ltac:(discriminate) H2) as (t' & G & F & _).
  exists t'. exact (conj G F).
Defined.

(** ** Shells in flight *)

Lemma shells_kill ext shell pid tank g n :
  shells (fst (kill ext shell pid tank (g, n))) = shells g.
Proof.
  unfold kill. set (dead := Tank_.with_path [] _).
  destruct (Py.get (s_owner_id shell) (tanks (Game_.put_tank pid dead g)));
    cbn [fst]; game_fields; rewrite ?shells_release_forts; reflexivity.
Qed.

Lemma shells_shell_impact ext shell s :
  shells (fst (_shell_impact ext shell s)) = shells (fst s).
Proof.
  unfold _shell_impact.
  apply (for_tanks_ind (fun s' => shells (fst s') = shells (fst s)));
    [reflexivity |].
  intros pid t [g n] H _. cbn [fst] in *. unfold impact_tank.
  destruct (_ || _); [exact H |].
  destruct (_ <=? 1)%Z; [| exact H].
  destruct (_ <=? 0)%Z; [now rewrite shells_kill | exact H].
Qed.

Lemma get_del_None {V} k k' (d : Py.dict V) :
  Py.get k d = None -> Py.get k (Py.del k' d) = None.
Proof.
  induction d as [| [k0 v0] d IH]; cbn; auto.
  destruct (String.eqb k k0) eqn:E; [discriminate |].
  intros H. destruct (String.eqb k' k0); cbn; [exact H |].
  rewrite E. now apply IH.
Qed.

Lemma get_after_deletes sid dead : forall g,
  NoDup (Py.keys (shells g)) ->
  Py.get sid
    (shells (fold_left
               (fun g sid => Game_.with_shells (Py.del sid (shells g)) g)
               dead g))
  = if mem_string sid dead then None else Py.get sid (shells g).
Proof.
  induction dead as [| k dead IH]; intros g N; cbn [fold_left].
  - reflexivity.
  - rewrite IH by (game_fields; now apply keys_del_NoDup).
    game_fields. unfold mem_string. cbn [existsb].
    fold (mem_string sid dead).
    destruct (String.eqb sid k) eqn:E; cbn [orb].
    + apply String.eqb_eq in E. subst k. rewrite get_del_same by exact N.
      destruct (mem_string sid dead); reflexivity.
    + apply String.eqb_neq in E. now rewrite get_del_other.
Qed.

Lemma mem_string_app x l1 l2 :
  mem_string x (l1 ++ l2) = mem_string x l1 || mem_string x l2.
Proof. unfold mem_string. apply existsb_app. Qed.

Section MoveShells.
Variable sqrt : Q -> Q.
Variable ext : Oracle.
Variable dt : Q.

Lemma move_shell_elsewhere sid k acc :
  k <> sid ->
  shell_at sid (move_shell sqrt ext dt k acc) = shell_at sid acc.
Proof.
  intros Hne. destruct acc as [[g n] dead]. unfold move_shell, shell_at.
  destruct (Py.get k (shells g)) as [shell |]; [| reflexivity].
  assert (M : mem_string sid (dead ++ [k]) = mem_string sid dead).
  { rewrite mem_string_app. unfold mem_string at 2. cbn [existsb].
    apply String.eqb_neq in Hne. rewrite String.eqb_sym in Hne.
    rewrite Hne. now rewrite !orb_false_r. }
  destruct (Py.Qleb _ _); cbn [fst snd].
  - now rewrite shells_shell_impact, M.
  - destruct (Py.Qltb 3 _); cbn [fst snd].
    + now rewrite shells_shell_impact, M.
    + game_fields. rewrite get_set_other by congruence. reflexivity.
Qed.

Lemma move_shell_keys k acc :
  Py.keys (shells (fst (fst (move_shell sqrt ext dt k acc))))
  = Py.keys (shells (fst (fst acc))).
Proof.
  destruct acc as [[g n] dead]. unfold move_shell. cbn [fst].
  destruct (Py.get k (shells g)) as [shell |] eqn:G; [| reflexivity].
  destruct (Py.Qleb _ _); cbn [fst].
  - now rewrite shells_shell_impact.
  - destruct (Py.Qltb 3 _); cbn [fst].
    + now rewrite shells_shell_impact.
    + game_fields. eapply keys_set_present; eauto.
Qed.

Lemma shell_impact_counter shell s :
  (snd s <= snd (_shell_impact ext shell s))%nat.
Proof.
  unfold _shell_impact.
  apply (for_tanks_ind (fun s' => (snd s <= snd s')%nat)); [lia |].
  intros pid t [g n] H _. cbn [snd] in *. unfold impact_tank.
  destruct (_ || _); [exact H |].
  destruct (_ <=? 1)%Z; [| exact H].
  destruct (_ <=? 0)%Z; [| exact H].
  unfold kill. set (dead := Tank_.with_path [] _).
  destruct (Py.get (s_owner_id shell) (tanks (Game_.put_tank pid dead g)));
    cbn [snd]; lia.
Qed.

Lemma move_shell_counter k acc :
  (snd (fst acc) <= snd (fst (move_shell sqrt ext dt k acc)))%nat.
Proof.
  destruct acc as [[g n] dead]. unfold move_shell. cbn [fst snd].
  destruct (Py.get k (shells g)) as [shell |]; [| cbn [fst snd]; lia].
  destruct (Py.Qleb _ _); cbn [fst].
  - exact (shell_impact_counter shell (g, n)).
  - destruct (Py.Qltb 3 _); cbn [fst snd]; [| lia].
    pose proof (shell_impact_counter shell (g, S n)) as H. cbn [snd] in H.
    lia.
Qed.

Lemma move_shells_at g n sid s before after :
  NoDup (Py.keys (shells g)) ->
  Py.get sid (shells g) = Some s ->
  Py.keys (shells g) = before ++ sid :: after ->
  let g' := fst (_move_shells sqrt ext dt (g, n)) in
  let k := snd (fst (fold_left
                       (fun acc sid' => move_shell sqrt ext dt sid' acc)
                       before ((g, n), []))) in
  (n <= k)%nat
  /\ ((lands sqrt dt s = true /\ Py.get sid (shells g') = None)
      \/ (lands sqrt dt s = false
          /\ ((Py.Qltb 3 (time_time ext k - s_created s) = true
               /\ Py.get sid (shells g') = None)
              \/ (Py.Qltb 3 (time_time ext k - s_created s) = false
                  /\ Py.get sid (shells g') = Some (flown sqrt dt s))))).
Proof.
  intros N G K g' k. unfold g', k, _move_shells. clear g' k. cbn [fst].
  set (f := fun (acc : Sim * list string) k => move_shell sqrt ext dt k acc).
  set (I := fun acc : Sim * list string =>
              Py.keys (shells (fst (fst acc))) = Py.keys (shells g)).
  assert (A1 : forall acc k', I acc -> I (f acc k')).
  { intros acc k' H. unfold I, f in *. now rewrite move_shell_keys. }
  assert (A2 : forall acc k',
             I acc -> k' <> sid -> shell_at sid (f acc k') = shell_at sid acc).
  { intros acc k' _ Hne. now apply move_shell_elsewhere. }
  assert (I0 : I ((g, n), [])) by reflexivity.
  assert (N' : NoDup (before ++ sid :: after)) by (rewrite <- K; exact N).
  apply NoDup_remove_2 in N'.
  assert (N1 : ~ In sid before)
    by (intros H; apply N', in_or_app; now left).
  assert (N2 : ~ In sid after)
    by (intros H; apply N', in_or_app; now right).
  destruct (fold_left_skip shell_at f I sid A1 A2 before ((g, n), []) I0 N1)
    as [H1 H2].
  assert (C1 : (n <= snd (fst (fold_left f before ((g, n), []))))%nat).
  { apply (fold_left_ind
             (fun acc : Sim * list string => (n <= snd (fst acc))%nat));
      [cbn [fst snd]; lia |].
    intros acc b Ha. unfold f. cbv beta in Ha |- *.
    exact (Nat.le_trans _ _ _ Ha (move_shell_counter b acc)). }
  split; [exact C1 |]. clear C1.
  assert (H3 : shell_at sid (fold_left f (Py.keys (shells g)) ((g, n), []))
               = shell_at sid (f (fold_left f before ((g, n), [])) sid)).
  { rewrite K, fold_left_app. cbn [fold_left].
    apply (fold_left_skip shell_at f I sid A1 A2); [now apply A1 | exact N2]. }
  assert (IF : I (fold_left f (Py.keys (shells g)) ((g, n), []))).
  { apply (fold_left_ind I); auto. }
  assert (D : forall acc : Sim * list string,
             I acc ->
             Py.get sid
               (shells
                  (fst (let '((g0, n0), dead) := acc in
                        (fold_left
                           (fun g sid =>
                              Game_.with_shells (Py.del sid (shells g)) g)
                           dead g0, n0))))
             = if mem_string sid (snd acc) then None
               else Py.get sid (shells (fst (fst acc)))).
  { intros [[g0 n0] dead0] H. cbn [fst snd]. apply get_after_deletes.
    unfold I in H. cbn [fst] in H. rewrite H. exact N. }
  set (r := Py.get sid _).
  assert (E : r = if mem_string sid
                       (snd (fold_left f (Py.keys (shells g)) ((g, n), [])))
                  then None
                  else Py.get sid
                         (shells
                            (fst (fst (fold_left f (Py.keys (shells g))
                                                 ((g, n), []))))))
    by exact (D _ IF).
  clearbody r. rewrite E. clear E D IF r.
  set (F := fold_left f (Py.keys (shells g)) ((g, n), [])) in *.
  clearbody F. destruct F as [[gf nf] deadf]. cbn [fst snd].
  set (acc1 := fold_left f before ((g, n), [])) in *.
  clearbody acc1. destruct acc1 as [[g1 n1] dead1]. cbn [fst snd].
  unfold shell_at in H2, H3. cbn [fst snd] in H2, H3.
  injection H2 as G1 M1. rewrite G in G1.
  unfold f, move_shell in H3. rewrite G1 in H3.
  fold (lands sqrt dt s) in H3.
  destruct (lands sqrt dt s) eqn:L.
  - left. split; [reflexivity |]. cbn [fst snd] in H3.
    injection H3 as _ ->. rewrite mem_string_app.
    unfold mem_string at 2. cbn [existsb]. rewrite String.eqb_refl.
    now rewrite orb_true_r.
  - right. split; [reflexivity |].
    destruct (Py.Qltb 3 (time_time ext n1 - s_created s)) eqn:T.
    + left. split; [reflexivity |]. cbn [fst snd] in H3.
      injection H3 as _ ->. rewrite mem_string_app.
      unfold mem_string at 2. cbn [existsb]. rewrite String.eqb_refl.
      now rewrite orb_true_r.
    + right. split; [reflexivity |]. cbn [fst snd] in H3. game_fields.
      injection H3 as -> ->. rewrite M1. apply get_set_same.
Qed.

End MoveShells.

(** X23. [_move_shells] never creates a shell. A shell that reaches its
    target within the step is removed. For any other shell the server
    reads the clock when the loop reaches it, that is after the shells
    stored before it have been handled, which is never earlier than the
    reading the phase starts with: if that reading is more than three
    seconds after the shell was created the shell is removed, and if it is
    at most three seconds after, the shell stays under its key and is
    moved one step towards its target. The shells left after the phase are
    exactly the moved survivors, with their owner, target, speed, damage
    and creation time unchanged. *)
Theorem shells_fly_until_they_land_or_expire :
  forall sqrt ext dt g n,
    NoDup (Py.keys (shells g)) ->
    let g' := fst (_move_shells sqrt ext dt (g, n)) in
    (forall sid s before after,
        Py.get sid (shells g) = Some s ->
        Py.keys (shells g) = before ++ sid :: after ->
        let k := snd (fst (fold_left
                             (fun acc sid' => move_shell sqrt ext dt sid' acc)
                             before ((g, n), []))) in
        (n <= k)%nat
        /\ (lands sqrt dt s = true -> Py.get sid (shells g') = None)
        /\ (lands sqrt dt s = false ->
            (3 < time_time ext k - s_created s ->
             Py.get sid (shells g') = None)
            /\ (time_time ext k - s_created s <= 3 ->
                Py.get sid (shells g') = Some (flown sqrt dt s))))
    /\ (forall sid s',
           Py.get sid (shells g') = Some s' ->
           exists s,
             Py.get sid (shells g) = Some s
             /\ lands sqrt dt s = false
             /\ s' = flown sqrt dt s
             /\ (s_id s', s_owner_id s', s_target_q s', s_target_r s')
                = (s_id s, s_owner_id s, s_target_q s, s_target_r s)
             /\ (s_speed s', s_damage s', s_created s')
                = (s_speed s, s_damage s, s_created s)).
Proof.
  intros sqrt ext dt g n N g'. split.
  - intros sid s before after G K k.
    destruct (move_shells_at sqrt ext dt g n sid s before after N G K)
      as [C [[L H] | [L [[T H] | [T H]]]]]; fold g' in H; fold k in T || idtac;
      (split; [exact C |]).
    + split; [intros _; exact H | congruence].
    + split; [congruence |]. intros _.
      split; [intros _; exact H |].
      intros X. apply Qltb_lt in T. lra.
    + split; [congruence |]. intros _.
      split; [| intros _; exact H].
      intros X. apply Qltb_ge in T. lra.
  - intros sid s' G'.
    assert (Hin : In sid (Py.keys (shells g))).
    { destruct (frame_move_shells sqrt ext dt (g, n))
        as (_ & _ & _ & Hincl & _).
      apply Hincl. eapply get_keys_In. exact G'. }
    pose proof Hin as Hin'.
    apply In_keys_get in Hin as (s & G). exists s.
    apply in_split in Hin' as (before & after & K).
    destruct (move_shells_at sqrt ext dt g n sid s before after N G K)
      as [_ [[L H] | [L [[T H] | [T H]]]]]; fold g' in H;
      rewrite H in G'; try discriminate.
    injection G' as <-. repeat split; auto.
Qed.

Lemma shells_fly_until_they_land_or_expire_witness :
  NoDup (Py.keys (shells shell_in_flight_game))
  /\ Py.keys (shells shell_in_flight_game) = [] ++ "s1"%string :: []
  /\ lands sqrt6 (1 # 10) bob_shell = false
  /\ 3 < time_time (steady_oracle 5) 0 - s_created bob_shell
  /\ Py.get "s1"%string
       (shells (fst (_move_shells sqrt6 (steady_oracle 5) (1 # 10)
                                  (shell_in_flight_game, 0%nat))))
     = None.
Proof.
  assert (N : NoDup (Py.keys (shells shell_in_flight_game))).
  { vm_compute. repeat constructor. intros []. }
  assert (K : Py.keys (shells shell_in_flight_game)
              = [] ++ "s1"%string :: []) by reflexivity.
  assert (L : lands sqrt6 (1 # 10) bob_shell = false) by reflexivity.
  assert (T : 3 < time_time (steady_oracle 5) 0 - s_created bob_shell)
    by reflexivity.
  split; [exact N |]. split; [exact K |]. split; [exact L |].
  split; [exact T |].
  exact (proj1 (proj2 (proj2 (proj1 (shells_fly_until_they_land_or_expire
                                       sqrt6 (steady_oracle 5) (1 # 10)
                                       shell_in_flight_game 0%nat N)
                                    "s1"%string bob_shell [] [] eq_refl K))
                      L)
               T).
Defined.

(** ** Paths and targets *)

Lemma route_ok_same t t' :
  t_path t' = t_path t -> t_target_q t' = t_target_q t ->
  t_target_r t' = t_target_r t -> route_ok t -> route_ok t'.
Proof. unfold route_ok. intros -> -> ->. auto. Qed.

Lemma route_ok_no_path t : t_path t = [] -> route_ok t.
Proof. unfold route_ok. intros ->. congruence. Qed.

Lemma credit_target dt ftypes : forall t,
  t_target_q (fold_left (credit dt) ftypes t) = t_target_q t
  /\ t_target_r (fold_left (credit dt) ftypes t) = t_target_r t.
Proof.
  induction ftypes as [| ft l IH]; intros t; cbn [fold_left].
  - split; reflexivity.
  - destruct (IH (credit dt t ft)) as [-> ->]. destruct ft; split; reflexivity.
Qed.

Lemma route_ok_move sqrt atan2 dt t :
  route_ok t -> route_ok (move_tank sqrt atan2 dt t).
Proof.
  intros H. unfold move_tank. destruct (negb (t_alive t)); [exact H |].
  destruct (t_path t) as [| [nq nr] rest] eqn:Ep; [exact H |].
  destruct (Py.Qleb _ _).
  - destruct (Py.Qltb _ _); [now apply route_ok_no_path |].
    destruct rest as [| w rest]; [now apply route_ok_no_path |].
    unfold route_ok in *. tank_fields. intros _.
    rewrite Ep in H. apply H. discriminate.
  - unfold route_ok in *. tank_fields. rewrite Ep. rewrite Ep in H.
    exact H.
Qed.

Lemma route_ok_touch sqrt atan2 dt t t' :
  route_ok t -> tick_touch sqrt atan2 dt t t' -> route_ok t'.
Proof.
  intros H T.
  destruct T as [t | t dmg A Hhp | t dmg A Hhp | t fr ar gr | t gl u | t
                 | t ftypes A | t A Hw | t sp A Hw Hsp].
  - now apply route_ok_move.
  - exact H.
  - now apply route_ok_no_path.
  - exact H.
  - exact H.
  - exact H.
  - destruct (credit_same dt ftypes t) as (_ & _ & Hp & _).
    destruct (credit_target dt ftypes t) as [Hq Hr].
    now apply (route_ok_same t).
  - exact H.
  - now apply route_ok_no_path.
Qed.

Lemma reachable_route_ok g : reachable g -> each_tank (fun _ => route_ok) g.
Proof.
  apply reachable_each_tank.
  - intros. now apply route_ok_no_path.
  - intros pid t path tq tr _ _ E. unfold route_ok. tank_fields.
    destruct path; [intros C; exfalso; now apply C | intros _; exact E].
  - intros pid t now H _. exact H.
  - intros pid t H _ _. exact H.
  - intros pid t ty cost H _ _ _ _. apply (route_ok_same t); auto;
      unfold apply_upgrade;
      repeat match goal with
             | |- context [if String.eqb ?a ?b then _ else _] =>
                 destruct (String.eqb a b)
             end; reflexivity.
  - intros pid t _. now apply route_ok_no_path.
  - intros sqrt atan2 dt _ _ pid t t' H T. eapply route_ok_touch; eauto.
Qed.

(** X24. In every reachable state a tank that has a path is alive and its
    target is the last cell of the path. (The converse fails: death, respawn
    and a match reset empty the path and keep the target.) *)
Theorem reachable_target_is_end_of_path :
  forall g pid t,
    reachable g ->
    Py.get pid (tanks g) = Some t ->
    t_path t <> [] ->
    t_alive t = true
    /\ t_target_q t = Some (fst (List.last (t_path t) (0, 0)%Z))
    /\ t_target_r t = Some (snd (List.last (t_path t) (0, 0)%Z)).
Proof.
  intros g pid t R G Hp. split.
  - pose proof (each_tank_get _ _ _ _ (reachable_life_ok g R) G)
      as (_ & _ & Hd).
    destruct (t_alive t); [reflexivity |].
    destruct (Hd eq_refl) as (E & _). contradiction.
  - exact (each_tank_get _ _ _ _ (reachable_route_ok g R) G Hp).
Qed.

Lemma reachable_target_is_end_of_path_witness :
  let g := snd (set_tank_path "p1" [(0, 5)%Z] one_player_game) in
  let t := Tank_.with_target (Some 0%Z) (Some 5%Z)
             (Tank_.with_path [(0, 5)%Z] one_player_tank) in
  (reachable g /\ Py.get "p1"%string (tanks g) = Some t /\ t_path t <> [])
  /\ t_alive t = true.
Proof.
  cbv zeta.
  assert (R : reachable (snd (set_tank_path "p1" [(0, 5)%Z]
                                            one_player_game)))
    by apply reach_move, one_player_game_reachable.
  assert (Hp : t_path (Tank_.with_target (Some 0%Z) (Some 5%Z)
                         (Tank_.with_path [(0, 5)%Z] one_player_tank))
               <> []) by discriminate.
  split; [exact (conj R (conj eq_refl Hp)) |].
  exact (proj1 (reachable_target_is_end_of_path _ "p1"%string _
                  R eq_refl Hp)).
Defined.

(** ** Owners and capturers have tanks *)

Lemma fort_sound_neutral K f :
  f_owner f = None -> f_capturing_player f = None -> fort_sound K f.
Proof. intros E1 E2. split; intros p H; congruence. Qed.

Lemma forts_sound_same g g' :
  Py.keys (tanks g') = Py.keys (tanks g) -> forts g' = forts g ->
  forts_sound g -> forts_sound g'.
Proof. unfold forts_sound. intros -> ->. auto. Qed.

Lemma forts_sound_put_tank pid t g :
  In pid (Py.keys (tanks g)) ->
  forts_sound g -> forts_sound (Game_.put_tank pid t g).
Proof.
  intros Hin. apply forts_sound_same; [| reflexivity].
  game_fields. now apply keys_set_In.
Qed.

Lemma forts_sound_put_fort fid f g :
  forts_sound g -> fort_sound (Py.keys (tanks g)) f ->
  forts_sound (Game_.put_fort fid f g).
Proof.
  intros H Hf. unfold forts_sound. game_fields.
  now apply values_set_Forall.
Qed.

Lemma forts_sound_push_event e g :
  forts_sound g -> forts_sound (Game_.push_event e g).
Proof. apply forts_sound_same; reflexivity. Qed.

Lemma forts_sound_release_forts pid tank g :
  forts_sound g -> forts_sound (release_forts pid tank g).
Proof.
  unfold release_forts. generalize (forts_to_release pid tank g).
  intros l. revert g. induction l as [| kf l IH]; intros g H; cbn; auto.
  apply IH. apply forts_sound_put_fort; [exact H |].
  now apply fort_sound_neutral.
Qed.

Section FortsTick.
Variable sqrt : Q -> Q.
Variable atan2 : Q -> Q -> Q.
Variable ext : Oracle.
Variable dt : Q.

Lemma sound_move_tanks s :
  forts_sound (fst s) -> forts_sound (fst (_move_tanks sqrt atan2 dt s)).
Proof.
  intros H. unfold _move_tanks.
  apply (for_tanks_ind (fun s => forts_sound (fst s))); auto.
  intros pid t s' Hs G. cbn [fst]. apply forts_sound_put_tank; auto.
  eapply get_keys_In; eauto.
Qed.

Lemma sound_kill shell pid tank g n :
  In pid (Py.keys (tanks g)) ->
  forts_sound g -> forts_sound (fst (kill ext shell pid tank (g, n))).
Proof.
  intros Hin H. unfold kill. set (dead := Tank_.with_path [] _).
  assert (H1 : forts_sound (Game_.put_tank pid dead g))
    by now apply forts_sound_put_tank.
  destruct (Py.get (s_owner_id shell) (tanks (Game_.put_tank pid dead g)))
    as [shooter |] eqn:Gs; cbn [fst]; [| exact H1].
  apply forts_sound_push_event, forts_sound_release_forts.
  apply forts_sound_put_tank.
  - game_fields. erewrite keys_set_In.
    + eapply get_keys_In; eauto.
    + rewrite (keys_set_In pid dead (tanks g) Hin). exact Hin.
  - apply forts_sound_put_tank; [| exact H1].
    game_fields. rewrite (keys_set_In pid dead (tanks g) Hin). exact Hin.
Qed.

Lemma sound_shell_impact shell s :
  forts_sound (fst s) -> forts_sound (fst (_shell_impact ext shell s)).
Proof.
  intros H. unfold _shell_impact.
  apply (for_tanks_ind (fun s => forts_sound (fst s))); auto.
  intros pid t [g n] Hg G. cbn [fst] in Hg.
  pose proof (get_keys_In _ _ _ G) as Hin. unfold impact_tank.
  destruct (_ || _); auto. destruct (_ <=? 1)%Z; auto.
  destruct (_ <=? 0)%Z.
  - now apply sound_kill.
  - cbn [fst]. now apply forts_sound_put_tank.
Qed.

Lemma sound_move_shells s :
  forts_sound (fst s) -> forts_sound (fst (_move_shells sqrt ext dt s)).
Proof.
  intros H. unfold _move_shells.
  assert (D : forall acc : Sim * list string,
             forts_sound (fst (fst acc)) ->
             forts_sound
               (fst (let '((g, n), dead) := acc in
                     (fold_left
                        (fun g sid =>
                           Game_.with_shells (Py.del sid (shells g)) g)
                        dead g, n)))).
  { intros [[g n] dead] K. cbn [fst] in *.
    apply (fold_left_ind forts_sound); auto. }
  apply D.
  apply (fold_left_ind (fun acc => forts_sound (fst (fst acc)))); auto.
  intros [[g n] dead] sid Ha. unfold move_shell. cbn [fst] in Ha.
  destruct (Py.get sid (shells g)); auto.
  destruct (Py.Qleb _ _); [now apply sound_shell_impact |].
  destruct (Py.Qltb 3 _); [now apply sound_shell_impact | exact Ha].
Qed.

Lemma on_fort_single_In capturer fort g :
  on_fort fort g = [capturer] -> In capturer (Py.keys (tanks g)).
Proof.
  intros O. apply (on_fort_In capturer fort). rewrite O. now left.
Qed.

Lemma is_player_neq o pid : is_player o pid = false <-> o <> Some pid.
Proof.
  rewrite <- is_player_eq. destruct (is_player o pid); split; congruence.
Qed.

Lemma sound_capture_fort fid fort g n :
  Py.get fid (forts g) = Some fort ->
  forts_sound g ->
  forts_sound (fst (capture_fort ext dt fid fort (g, n))).
Proof.
  intros G H.
  assert (Hf : fort_sound (Py.keys (tanks g)) fort)
    by exact (get_values_Forall _ _ _ _ H G).
  destruct Hf as [Ho Hc]. unfold capture_fort.
  destruct (on_fort fort g) as [| capturer [| ? ?]] eqn:O.
  - destruct (_ && _); [| exact H]. cbn [fst].
    apply forts_sound_put_fort; [exact H |].
    destruct (Py.Qeqb _ 0); split; fort_fields; auto;
      intros p E; try discriminate.
    destruct (Ho p E) as (A & B & C). repeat split; auto. discriminate.
  - pose proof (on_fort_single_In _ _ _ O) as Hin.
    destruct (is_player (f_owner fort) capturer) eqn:E1; [exact H |].
    apply is_player_neq in E1.
    destruct (is_player (f_capturing_player fort) capturer) eqn:E2.
    + destruct (Py.Qleb _ _); cbn [fst].
      * apply forts_sound_push_event.
        set (fort' := Fort_.with_capturing_player None _).
        assert (S1 : forts_sound (Game_.put_fort fid fort' g)).
        { apply forts_sound_put_fort; [exact H |].
          split; unfold fort'; fort_fields; intros p E; [| discriminate].
          injection E as <-. repeat split; auto. discriminate. }
        game_fields.
        destruct (Py.get capturer (tanks g)) as [t |]; [| exact S1].
        apply forts_sound_put_tank; [exact Hin | exact S1].
      * apply forts_sound_put_fort; [exact H |].
        split; fort_fields; auto.
    + cbn [fst]. apply is_player_neq in E2.
      apply forts_sound_put_fort; [exact H |].
      split; fort_fields.
      * intros p E. destruct (Ho p E) as (A & B & C).
        repeat split; auto. congruence.
      * intros p E. injection E as <-. exact Hin.
  - cbn [fst]. apply forts_sound_put_fort; [exact H |].
    split; fort_fields; auto.
Qed.

Lemma sound_update_captures s :
  forts_sound (fst s) -> forts_sound (fst (_update_captures ext dt s)).
Proof.
  intros H. unfold _update_captures.
  apply (for_forts_ind (fun s => forts_sound (fst s))); auto.
  intros fid fort [g n] Hs G. cbn [fst] in *. now apply sound_capture_fort.
Qed.

Lemma sound_generate_resources s :
  forts_sound (fst s) -> forts_sound (fst (_generate_resources dt s)).
Proof.
  intros H. unfold _generate_resources. cbn [fst].
  apply (fold_left_ind forts_sound); auto.
  intros g [pid ftypes] Hg.
  destruct (Py.get pid (tanks g)) as [tank |] eqn:G; auto.
  destruct (negb (t_alive tank)); auto.
  apply forts_sound_put_tank; auto. eapply get_keys_In; eauto.
Qed.

Lemma sound_check_respawns s :
  forts_sound (fst s) -> forts_sound (fst (_check_respawns ext dt s)).
Proof.
  intros H. unfold _check_respawns.
  apply (for_tanks_ind (fun s => forts_sound (fst s))); auto.
  intros pid t [g n] Hs G. cbn [fst] in *.
  pose proof (get_keys_In _ _ _ G) as Hin. unfold respawn_tank.
  destruct (negb (t_alive t)); auto.
  destruct (Py.Qleb _ _); cbn [fst]; now apply forts_sound_put_tank.
Qed.

Lemma sound_reset_match g : forts_sound (_reset_match g).
Proof.
  unfold forts_sound, _reset_match. game_fields.
  unfold Py.values, map_values. rewrite map_map. cbn [snd].
  apply Forall_forall. intros f Hf. apply in_map_iff in Hf as (kv & <- & _).
  now apply fort_sound_neutral.
Qed.

Lemma sound_tick_update g :
  forts_sound g -> forts_sound (tick_update sqrt atan2 ext dt g).
Proof.
  intros H. unfold tick_update.
  set (g1 := if negb (match_over g) then _ else g).
  assert (H1 : forts_sound g1).
  { unfold g1. destruct (negb (match_over g)); auto.
    destruct (Py.Qleb _ 0); exact H. }
  clearbody g1. destruct (match_over g1).
  - destruct (Py.Qleb _ 0); [apply sound_reset_match | exact H1].
  - change (forts_sound (fst (_check_respawns ext dt
                (_generate_resources dt
                   (_update_captures ext dt
                      (_move_shells sqrt ext dt
                         (_move_tanks sqrt atan2 dt (g1, 0%nat)))))))).
    apply sound_check_respawns, sound_generate_resources,
      sound_update_captures, sound_move_shells, sound_move_tanks.
    exact H1.
Qed.

End FortsTick.

Lemma In_keys_set {V} p k (v : V) d :
  In p (Py.keys d) -> In p (Py.keys (Py.set k v d)).
Proof.
  unfold Py.keys. induction d as [| [k' v'] d IH]; cbn; [tauto |].
  destruct (String.eqb k k'); cbn; tauto.
Qed.

Lemma In_keys_del {V} p k (d : Py.dict V) :
  In p (Py.keys d) -> p <> k -> In p (Py.keys (Py.del k d)).
Proof.
  unfold Py.keys. induction d as [| [k' v'] d IH]; cbn; [tauto |].
  intros [-> | H] Hne.
  - destruct (String.eqb k p) eqn:E.
    + apply String.eqb_eq in E. congruence.
    + now left.
  - destruct (String.eqb k k'); [exact H | right; auto].
Qed.

Lemma fort_sound_mono K K' f :
  (forall p, In p K -> In p K') -> fort_sound K f -> fort_sound K' f.
Proof.
  intros HK [Ho Hc]. split.
  - intros p E. destruct (Ho p E) as (A & B & C). auto.
  - intros p E. auto.
Qed.

Lemma reachable_forts_sound g : reachable g -> forts_sound g.
Proof.
  induction 1 as [fs Hf | ws_id name pid g R IH | ws_id g R IH
                  | pid path g R IH | pid tq tr now created sid g R IH
                  | pid ty g reply g' R IH U | pid g R IH
                  | sqrt atan2 ext dt g R IH Hdt Hfair | g R IH].
  - unfold forts_sound, new_game. game_fields.
    eapply Forall_impl; [| exact Hf].
    intros f (E1 & _ & E2 & _). now apply fort_sound_neutral.
  - unfold add_player. destruct (_ <=? _)%nat; [exact IH |]. cbn [snd].
    unfold forts_sound in *. game_fields.
    eapply Forall_impl; [| exact IH].
    intros f. apply fort_sound_mono. intros p. apply In_keys_set.
  - unfold remove_player.
    destruct (Py.get ws_id (players g)) as [p |]; [| exact IH].
    unfold forts_sound in *. game_fields.
    unfold Py.values, map_values in *. rewrite map_map. cbn [snd].
    rewrite Forall_forall in *. intros f' Hin.
    apply in_map_iff in Hin as (kv & <- & Hin).
    assert (Hs : fort_sound (Py.keys (tanks g)) (snd kv)).
    { apply IH. apply in_map_iff. now exists kv. }
    destruct Hs as [Ho Hc].
    destruct (release_on_disconnect_spec (p_id p) (snd kv))
      as (S1 & S2 & S3 & S4 & S5 & _).
    set (f' := release_on_disconnect (p_id p) (snd kv)) in *.
    injection S3 as _ _ _ _ Sw.
    assert (Eo : forall q, f_owner f' = Some q -> f_owner (snd kv) = Some q).
    { intros q E. unfold f', release_on_disconnect in E.
      destruct (is_player (f_owner (snd kv)) (p_id p));
        destruct (is_player _ (p_id p)) in E; fort_fields;
        congruence. }
    assert (Ec : forall q, f_capturing_player f' = Some q ->
                           f_capturing_player (snd kv) = Some q).
    { intros q E. unfold f', release_on_disconnect in E.
      destruct (is_player (f_owner (snd kv)) (p_id p));
        destruct (is_player _ (p_id p)) in E; fort_fields;
        congruence. }
    split.
    + intros q E. pose proof (Eo q E) as E'.
      destruct (Ho q E') as (A & B & C).
      split; [apply In_keys_del; [exact A | congruence] |].
      split; [congruence |].
      intros E2. apply C. now apply Ec.
    + intros q E. apply In_keys_del; [apply Hc; now apply Ec | congruence].
  - unfold set_tank_path.
    destruct (Py.get pid (tanks g)) as [t |] eqn:G; [| exact IH].
    pose proof (get_keys_In _ _ _ G).
    destruct (negb _); [exact IH |].
    destruct path; cbn [snd]; now apply forts_sound_put_tank.
  - unfold shoot.
    destruct (Py.get pid (tanks g)) as [t |] eqn:G; [| exact IH].
    pose proof (get_keys_In _ _ _ G) as Hin.
    destruct (negb _); [exact IH |].
    destruct (Py.Qltb (now - _) _); [exact IH |]. cbv zeta.
    assert (S1 : forts_sound
                   (Game_.put_tank pid (Tank_.with_last_shot now t) g))
      by now apply forts_sound_put_tank.
    destruct (Py.Qltb _ _); [exact S1 |].
    destruct (_ <? _)%Z; [exact S1 |]. cbn [snd].
    apply (forts_sound_same
             (Game_.put_tank pid
                (Tank_.with_ammo
                   (t_ammo (Tank_.with_last_shot now t)
                    - t_ammo_cost (Tank_.with_last_shot now t))
                   (Tank_.with_last_shot now t))
                (Game_.put_tank pid (Tank_.with_last_shot now t) g)));
      [reflexivity | reflexivity |].
    apply forts_sound_put_tank; [| exact S1].
    game_fields. now rewrite (keys_set_In pid _ (tanks g) Hin).
  - unfold upgrade in U.
    destruct (Py.get pid (tanks g)) as [t |] eqn:G;
      [| injection U as _ <-; exact IH].
    pose proof (get_keys_In _ _ _ G) as Hin.
    destruct (negb _); [injection U as _ <-; exact IH |].
    destruct (_ <=? _)%Z; [injection U as _ <-; exact IH |].
    destruct (Py.index _ _); [| discriminate].
    destruct (Py.Qltb _ _); injection U as _ <-; [exact IH |].
    now apply forts_sound_put_tank.
  - unfold cast_vote. destruct (negb (match_over g)); [exact IH |].
    cbn [snd]. destruct (_ && _); [apply sound_reset_match | exact IH].
  - unfold advance. now apply sound_tick_update.
  - exact IH.
Qed.

(** X25. In every reachable state the owner of a fort has a tank in the
    game, the fort's ever-owned flag is set (so taking it from its owner
    always costs the recapture time of 7.5 seconds) and the owner is not
    registered as capturing it; a player registered as capturing a fort has
    a tank in the game as well. *)
Theorem reachable_fort_owners_have_tanks :
  forall g fid f,
    reachable g ->
    Py.get fid (forts g) = Some f ->
    (forall p,
        f_owner f = Some p ->
        (exists t, Py.get p (tanks g) = Some t)
        /\ f_was_owned f = true
        /\ effective_capture_time f == 75 # 10
        /\ f_capturing_player f <> Some p)
    /\ (forall p,
           f_capturing_player f = Some p ->
           exists t, Py.get p (tanks g) = Some t).
Proof.
  intros g fid f R G.
  pose proof (get_values_Forall _ _ _ _ (reachable_forts_sound g R) G)
    as [Ho Hc].
  split.
  - intros p E. destruct (Ho p E) as (A & B & C).
    split; [now apply In_keys_get |]. split; [exact B |].
    split; [| exact C].
    unfold effective_capture_time. rewrite B. reflexivity.
  - intros p E. apply In_keys_get. now apply Hc.
Qed.

Lemma init_game_reachable : reachable (init_game fort_candidates).
Proof. apply reach_new. vm_compute. repeat constructor. Qed.

Lemma reachable_fort_owners_have_tanks_witness :
  let g := init_game fort_candidates in
  let f := mkFort "fort_0" (-8) 0 FUEL None 0 None false in
  (reachable g /\ Py.get "fort_0"%string (forts g) = Some f)
  /\ forall p, f_capturing_player f = Some p ->
               exists t, Py.get p (tanks g) = Some t.
Proof.
  cbv zeta.
  assert (G : Py.get "fort_0"%string (forts (init_game fort_candidates))
              = Some (mkFort "fort_0" (-8) 0 FUEL None 0 None false))
    by (vm_compute; reflexivity).
  split; [exact (conj init_game_reachable G) |].
  exact (proj2 (reachable_fort_owners_have_tanks
                  _ "fort_0"%string _ init_game_reachable G)).
Defined.

(** ** How capture progress moves *)

(** X26. One fort in one tick, for [dt >= 0] and progress within its bounds.
    The cell, type and identifier never change and the ever-owned flag is
    never cleared. Progress rises only when exactly one living tank stands
    on the fort and its player is the registered capturer and not the owner,
    and then by at most [dt]; it never falls by more than [2 dt]. A sole
    occupant who is neither owner nor registered capturer becomes the
    capturer and takes over the progress accumulated so far, less [1.5 dt];
    the takeover does not reset it. An owner alone on their fort leaves it
    untouched, and two or more occupants change only the progress. *)
Theorem capture_progress_rises_only_for_the_sole_capturer :
  forall ext dt fid fort g n fort',
    0 <= dt ->
    fort_ok fort ->
    Py.get fid (forts g) = Some fort ->
    Py.get fid (forts (fst (capture_fort ext dt fid fort (g, n))))
    = Some fort' ->
    (f_id fort', f_q fort', f_r fort', f_ftype fort')
    = (f_id fort, f_q fort, f_r fort, f_ftype fort)
    /\ (f_was_owned fort = true -> f_was_owned fort' = true)
    /\ f_capture_progress fort - 2 * dt <= f_capture_progress fort'
    /\ (f_capture_progress fort < f_capture_progress fort' ->
        f_capture_progress fort' <= f_capture_progress fort + dt
        /\ exists c,
            on_fort fort g = [c]
            /\ f_capturing_player fort = Some c
            /\ f_owner fort <> Some c)
    /\ (forall c,
           on_fort fort g = [c] ->
           f_owner fort <> Some c ->
           f_capturing_player fort <> Some c ->
           f_capturing_player fort' = Some c
           /\ f_owner fort' = f_owner fort
           /\ f_capture_progress fort'
              = Py.max 0 (f_capture_progress fort - dt * (15 # 10)))
    /\ (forall c,
           on_fort fort g = [c] -> f_owner fort = Some c -> fort' = fort)
    /\ ((2 <= List.length (on_fort fort g))%nat ->
        fort' = Fort_.with_capture_progress
                  (Py.max 0 (f_capture_progress fort - dt * 2)) fort).
Proof.
  intros ext dt fid fort g n fort' Hdt [Hp0 Hp1] G G'.
  pose proof (effective_capture_time_pos fort) as Hect.
  unfold capture_fort in G'.
  destruct (on_fort fort g) as [| c [| c2 rest]] eqn:O.
  - assert (K : fort' = fort
                \/ (fort' = Fort_.with_capture_progress
                              (Py.max 0 (f_capture_progress fort
                                         - dt * (5 # 10))) fort
                    \/ fort' = Fort_.with_capturing_player None
                                 (Fort_.with_capture_progress
                                    (Py.max 0 (f_capture_progress fort
                                               - dt * (5 # 10))) fort))).
    { destruct (_ && _).
      - cbn [fst] in G'. game_fields. rewrite get_set_same in G'.
        injection G' as <-. right. fort_fields.
        destruct (Py.Qeqb _ 0); [right | left]; reflexivity.
      - cbn [fst] in G'. left. congruence. }
    pose proof (py_max_ge_r 0 (f_capture_progress fort - dt * (5 # 10))).
    pose proof (py_max_lub 0 (f_capture_progress fort - dt * (5 # 10))
                  (f_capture_progress fort)).
    destruct K as [-> | [-> | ->]]; fort_fields;
      (split; [reflexivity |]); (split; [auto |]);
      (split; [lra |]); (split; [intros; lra |]);
      repeat split; intros; try discriminate; cbn in *; lia.
  - destruct (is_player (f_owner fort) c) eqn:E1.
    { cbn [fst] in G'. assert (fort' = fort) by congruence. subst fort'.
      apply is_player_eq in E1.
      split; [reflexivity |]. split; [auto |]. split; [lra |].
      split; [intros; lra |].
      repeat split; intros; try congruence; cbn in *; lia. }
    apply is_player_neq in E1.
    destruct (is_player (f_capturing_player fort) c) eqn:E2.
    + apply is_player_eq in E2.
      destruct (Py.Qleb _ _) eqn:L; fort_fields.
      * apply Qleb_le in L. cbn [fst] in G'.
        assert (E : fort'
                    = Fort_.with_capturing_player None
                        (Fort_.with_was_owned true
                           (Fort_.with_owner (Some c)
                              (Fort_.with_capture_progress
                                 (effective_capture_time fort)
                                 (Fort_.with_capture_progress
                                    (f_capture_progress fort + dt) fort))))).
        { game_fields.
          destruct (Py.get c (tanks g)); game_fields;
            rewrite get_set_same in G'; congruence. }
        subst fort'. fort_fields.
        split; [reflexivity |]. split; [auto |]. split; [lra |].
        split; [intros _; split; [lra | exists c; auto] |].
        repeat split; intros; try congruence; cbn in *; lia.
      * apply Qleb_gt in L. cbn [fst] in G'. game_fields.
        rewrite get_set_same in G'. injection G' as <-. fort_fields.
        split; [reflexivity |]. split; [auto |]. split; [lra |].
        split; [intros _; split; [lra | exists c; auto] |].
        repeat split; intros; try congruence; cbn in *; lia.
    + apply is_player_neq in E2. cbn [fst] in G'. game_fields.
      rewrite get_set_same in G'. injection G' as <-. fort_fields.
      pose proof (py_max_ge_r 0 (f_capture_progress fort - dt * (15 # 10))).
      pose proof (py_max_lub 0 (f_capture_progress fort - dt * (15 # 10))
                    (f_capture_progress fort)).
      split; [reflexivity |]. split; [auto |]. split; [lra |].
      split; [intros; lra |].
      repeat split; intros; try congruence; cbn in *; lia.
  - cbn [fst] in G'. game_fields. rewrite get_set_same in G'.
    injection G' as <-. fort_fields.
    pose proof (py_max_ge_r 0 (f_capture_progress fort - dt * 2)).
    pose proof (py_max_lub 0 (f_capture_progress fort - dt * 2)
                  (f_capture_progress fort)).
    split; [reflexivity |]. split; [auto |]. split; [lra |].
    split; [intros; lra |].
    repeat split; intros; try discriminate; reflexivity.
Qed.

Lemma capture_progress_rises_only_for_the_sole_capturer_witness :
  let fort := mkFort "fort_0" 0 4 FUEL None (495 # 100) (Some "p1"%string)
                     false in
  exists fort',
    (0 <= 1 # 10
     /\ fort_ok fort
     /\ Py.get "fort_0"%string (forts capture_game) = Some fort
     /\ Py.get "fort_0"%string
          (forts (fst (capture_fort (steady_oracle 10) (1 # 10) "fort_0"
                                    fort (capture_game, 0%nat))))
        = Some fort')
    /\ f_capture_progress fort - 2 * (1 # 10) <= f_capture_progress fort'.
Proof.
  cbv zeta.
  set (fort := mkFort "fort_0" 0 4 FUEL None (495 # 100)
                      (Some "p1"%string) false).
  destruct (Py.get "fort_0"%string
              (forts (fst (capture_fort (steady_oracle 10) (1 # 10)
                                        "fort_0" fort
                                        (capture_game, 0%nat)))))
    as [fort' |] eqn:G'; [| vm_compute in G'; discriminate G'].
  exists fort'.
  assert (H1 : 0 <= 1 # 10) by discriminate.
  assert (H2 : fort_ok fort) by (split; discriminate).
  split; [exact (conj H1 (conj H2 (conj eq_refl eq_refl))) |].
  exact (proj1 (proj2 (proj2
           (capture_progress_rises_only_for_the_sole_capturer
              (steady_oracle 10) (1 # 10) "fort_0"%string fort
              capture_game 0%nat fort' H1 H2 eq_refl G')))).
Defined.

(** ** Score *)

Lemma score_ok_same t t' :
  counters t' = counters t -> score_ok t -> score_ok t'.
Proof.
  unfold counters, score_ok. intros [= -> -> -> ->]. auto.
Qed.

Lemma move_tank_counters sqrt atan2 dt t :
  counters (move_tank sqrt atan2 dt t) = counters t.
Proof.
  unfold move_tank. destruct (negb (t_alive t)); [reflexivity |].
  destruct (t_path t) as [| [nq nr] rest]; [reflexivity |].
  destruct (Py.Qleb _ _); [| reflexivity].
  destruct (Py.Qltb _ _); [reflexivity |].
  destruct rest; reflexivity.
Qed.

Lemma credit_counters dt ftypes : forall t,
  counters (fold_left (credit dt) ftypes t) = counters t.
Proof.
  induction ftypes as [| ft l IH]; intros t; cbn [fold_left];
    [reflexivity |].
  rewrite IH. destruct ft; reflexivity.
Qed.

Lemma score_ok_touch sqrt atan2 dt t t' :
  score_ok t -> tick_touch sqrt atan2 dt t t' -> score_ok t'.
Proof.
  intros H T.
  destruct T as [t | t dmg A Hhp | t dmg A Hhp | t fr ar gr | t gl u | t
                 | t ftypes A | t A Hw | t sp A Hw Hsp];
    try (apply (score_ok_same t); [reflexivity | exact H]).
  - apply (score_ok_same t); [apply move_tank_counters | exact H].
  - destruct H as (H1 & H2 & H3 & H4). unfold score_ok, looted, loot_victim.
    tank_fields. repeat split; auto; lia.
  - destruct H as (H1 & H2 & H3 & H4).
    unfold score_ok, rewarded, loot_shooter. tank_fields.
    repeat split; auto; lia.
  - destruct H as (H1 & H2 & H3 & H4). unfold score_ok, credited_capture.
    tank_fields. repeat split; auto; lia.
  - apply (score_ok_same t); [apply credit_counters | exact H].
Qed.

Lemma reachable_score_ok g : reachable g -> each_tank (fun _ => score_ok) g.
Proof.
  apply reachable_each_tank.
  - intros. repeat split; try reflexivity; discriminate.
  - intros pid t path tq tr H _ _. exact H.
  - intros pid t now H _. exact H.
  - intros pid t H _ _. exact H.
  - intros pid t ty cost H _ _ _ _. apply (score_ok_same t); [| exact H].
    unfold apply_upgrade.
    repeat match goal with
           | |- context [if String.eqb ?a ?b then _ else _] =>
               destruct (String.eqb a b)
           end; reflexivity.
  - intros pid t _. repeat split; try reflexivity; discriminate.
  - intros sqrt atan2 dt _ _ pid t t' H T. eapply score_ok_touch; eauto.
Qed.

(** X27. In every reachable state a tank's score is ten times its kills plus
    five times its captured forts, and kills, captures and deaths are non-
    negative; the leaderboard entries inherit the relation. *)
Theorem reachable_score_is_kills_and_captures :
  forall g,
    reachable g ->
    (forall pid t,
        Py.get pid (tanks g) = Some t ->
        t_score t = (10 * t_kills t + 5 * t_fort_captures t)%Z
        /\ (0 <= t_kills t)%Z /\ (0 <= t_fort_captures t)%Z
        /\ (0 <= t_deaths t)%Z)
    /\ (forall s,
           In s (leaderboard g) ->
           sc_score s = (10 * sc_kills s + 5 * sc_captures s)%Z
           /\ (0 <= sc_score s)%Z).
Proof.
  intros g R. pose proof (reachable_score_ok g R) as H. split.
  - intros pid t G. exact (each_tank_get _ _ _ _ H G).
  - intros s Hs. unfold leaderboard in Hs.
    apply sort_desc_In, in_map_iff in Hs as ([pid t] & <- & Hin).
    unfold each_tank in H. rewrite Forall_forall in H.
    destruct (H _ Hin) as (H1 & H2 & H3 & _). cbn [fst snd] in *.
    cbn [score_entry sc_score sc_kills sc_captures]. split; [exact H1 | lia].
Qed.

Lemma reachable_score_is_kills_and_captures_witness :
  reachable one_player_game
  /\ t_score one_player_tank
     = (10 * t_kills one_player_tank
        + 5 * t_fort_captures one_player_tank)%Z.
Proof.
  split; [exact one_player_game_reachable |].
  exact (proj1 (proj1 (reachable_score_is_kills_and_captures
                         one_player_game one_player_game_reachable)
                      "p1"%string one_player_tank eq_refl)).
Defined.

(** ** Snapshots of reachable states *)

(** X28. In a snapshot of a reachable state the entries of the tank
    dictionary are keyed by the player they describe, and the entry that
    carries the private fields is exactly the requester's own. *)
Theorem reachable_snapshot_private_entry_is_own :
  forall g me snap pid v,
    reachable g ->
    get_state_for me g = Some snap ->
    In (pid, v) (snap_tanks snap) ->
    tv_player_id v = pid
    /\ tv_id v = ("tank_" ++ pid)%string
    /\ (tv_private v <> None <-> pid = me).
Proof.
  intros g me snap pid v R S Hin. unfold get_state_for in S.
  destruct (Py.get me (tanks g)) as [tank |]; [| discriminate].
  injection S as <-. cbn [snap_tanks] in Hin.
  apply dict_collect_from in Hin as (t & Ht & _ & ->).
  pose proof (reachable_stored_under g R) as H.
  unfold each_tank in H. rewrite Forall_forall in H.
  destruct (H _ Ht) as [E1 E2]. cbn [fst snd] in E1, E2.
  unfold Tank_to_dict. cbn [tv_player_id tv_id tv_private is_player].
  split; [exact E1 |]. split; [exact E2 |]. rewrite E1.
  destruct (String.eqb me pid) eqn:E.
  - apply String.eqb_eq in E. split; [auto | discriminate].
  - apply String.eqb_neq in E. split; [congruence | intros C; congruence].
Qed.

Lemma reachable_snapshot_private_entry_is_own_witness :
  exists snap v,
    (reachable one_player_game
     /\ get_state_for "p1" one_player_game = Some snap
     /\ In ("p1"%string, v) (snap_tanks snap))
    /\ tv_player_id v = "p1"%string.
Proof.
  destruct (get_state_for "p1" one_player_game) as [snap |] eqn:S;
    [| vm_compute in S; discriminate S].
  exists snap. exists (Tank_to_dict (Some "p1"%string) one_player_tank).
  assert (Hin : In ("p1"%string,
                    Tank_to_dict (Some "p1"%string) one_player_tank)
                   (snap_tanks snap)).
  { vm_compute in S. injection S as <-. cbn [snap_tanks]. left.
    reflexivity. }
  split; [exact (conj one_player_game_reachable (conj eq_refl Hin)) |].
  exact (proj1 (reachable_snapshot_private_entry_is_own
                  one_player_game "p1"%string snap "p1"%string _
                  one_player_game_reachable S Hin)).
Defined.

(** ** The fire cooldown across ticks *)

Lemma tick_update_keeps_last_shot sqrt atan2 ext dt g pid t :
  NoDup (Py.keys (tanks g)) ->
  Py.get pid (tanks g) = Some t ->
  exists t',
    Py.get pid (tanks (tick_update sqrt atan2 ext dt g)) = Some t'
    /\ t_last_shot t' = t_last_shot t.
Proof.
  intros N G.
  set (P := fun k (t' : Tank) =>
              forall t0, Py.get k (tanks g) = Some t0 ->
                         t_last_shot t' = t_last_shot t0).
  assert (H0 : each_tank P g).
  { unfold each_tank. apply Forall_forall. intros [k t1] Hin t0 G0.
    cbn [fst snd] in *.
    assert (E : Py.get k (tanks g) = Some t1).
    { clear - N Hin. unfold Py.keys in N.
      induction (tanks g) as [| [k' v'] d IH]; [contradiction |].
      cbn in *. inversion N as [| ? ? Hn Nd]; subst.
      destruct Hin as [[= -> ->] | Hin].
      - now rewrite String.eqb_refl.
      - destruct (String.eqb k k') eqn:E; [| auto].
        apply String.eqb_eq in E. subst k'. exfalso. apply Hn.
        apply in_map_iff. now exists (k, t1). }
    congruence. }
  assert (H1 : each_tank P (tick_update sqrt atan2 ext dt g)).
  { apply each_tick_update; [| | exact H0].
    - intros k t1 t2 H T t0 G0.
      destruct (tick_touch_build_kept _ _ _ _ _ T)
        as (_ & _ & _ & _ & _ & _ & _ & _ & _ & E).
      rewrite E. now apply H.
    - intros k t1 H t0 G0. cbn [reset_tank t_last_shot]. now apply H. }
  assert (K : Py.keys (tanks (tick_update sqrt atan2 ext dt g))
              = Py.keys (tanks g)).
  { unfold tick_update.
    set (g1 := if negb (match_over g) then _ else g).
    assert (E1 : tanks g1 = tanks g).
    { unfold g1. destruct (negb (match_over g)); [| reflexivity].
      destruct (Py.Qleb _ 0); reflexivity. }
    clearbody g1. destruct (match_over g1).
    - destruct (Py.Qleb _ 0).
      + unfold _reset_match. game_fields. rewrite keys_map_values.
        now rewrite E1.
      + game_fields. now rewrite E1.
    - game_fields.
      destruct (frame_phases sqrt atan2 ext dt g1) as (_ & -> & _).
      now rewrite E1. }
  assert (Hin : In pid (Py.keys (tanks (tick_update sqrt atan2 ext dt g)))).
  { rewrite K. eapply get_keys_In; eauto. }
  apply In_keys_get in Hin as (t' & G'). exists t'. split; [exact G' |].
  exact (each_tank_get _ _ _ _ H1 G' t G).
Qed.

(** X29. The cooldown cannot be waited out by the simulation: a tick,
    whatever it does to the tank, keeps its last-shot time, so a [shoot]
    issued less than [FIRE_COOLDOWN] after the tank's last accepted attempt
    is still refused after the tick, and leaves the state as the tick left
    it. *)
Theorem cooldown_survives_a_tick :
  forall sqrt atan2 ext dt g pid t tq tr now created sid,
    NoDup (Py.keys (tanks g)) ->
    Py.get pid (tanks g) = Some t ->
    now - t_last_shot t < FIRE_COOLDOWN ->
    let g' := tick_update sqrt atan2 ext dt g in
    is_error (fst (shoot pid tq tr now created sid g')) = true
    /\ snd (shoot pid tq tr now created sid g') = g'.
Proof.
  intros sqrt atan2 ext dt g pid t tq tr now created sid N G C g'.
  destruct (tick_update_keeps_last_shot sqrt atan2 ext dt g pid t N G)
    as (t' & G' & E).
  fold g' in G'. unfold shoot. rewrite G'.
  destruct (negb (t_alive t')); [split; reflexivity |].
  rewrite E. apply Qltb_lt in C. rewrite C. split; reflexivity.
Qed.

Lemma cooldown_survives_a_tick_witness :
  (NoDup (Py.keys (tanks one_player_game))
   /\ Py.get "p1"%string (tanks one_player_game) = Some one_player_tank
   /\ (1 # 2) - t_last_shot one_player_tank < FIRE_COOLDOWN)
  /\ is_error
       (fst (shoot "p1" 0 5 (1 # 2) (1 # 2) "s1"
                   (tick_update sqrt6 atan2_axis (steady_oracle 10)
                                (1 # 10) one_player_game))) = true.
Proof.
  assert (N : NoDup (Py.keys (tanks one_player_game))).
  { vm_compute. repeat constructor. intros []. }
  assert (C : (1 # 2) - t_last_shot one_player_tank < FIRE_COOLDOWN)
    by reflexivity.
  split; [exact (conj N (conj eq_refl C)) |].
  exact (proj1 (cooldown_survives_a_tick
                  sqrt6 atan2_axis (steady_oracle 10) (1 # 10)
                  one_player_game "p1"%string one_player_tank
                  0%Z 5%Z (1 # 2) (1 # 2) "s1"%string N eq_refl C)).
Defined.
